(** * The file-backed content store of the story site

    A shallow embedding of [file_service.js] (the read layer: [getStories],
    [getStoryByFolderName], [getChaptersForStory], [getChapterDetails],
    [readChapterContent]) and of the two places of [app.js] that the
    properties below depend on: the neighbour resolution of the chapter
    page and the metadata written by the create-chapter handler.

    The platform the code runs on is modelled next to it: the file system
    as a finite map from absolute paths to nodes, [path.join], the JSON
    text format, [Array.prototype.sort] and [Promise.all]. *)

From Stdlib Require Import ZArith Ascii String List Sorted Permutation Lia.
From Stdlib Require Import DecimalString DecimalN DecimalFacts.
From stdpp Require Import base option list strings gmap.

Set Warnings "-register-all".

Local Open Scope string_scope.
Local Open Scope Z_scope.

(** ** JavaScript values *)

(** Numbers.  The store only ever holds integers (a chapter number comes
    out of [parseInt]), so the model carries the integer-valued doubles and
    the three special values; [Finite z] stands for the double whose exact
    value is [z].  Fractions are outside the model. *)
Inductive number : Type :=
  | Finite (z : Z)
  | PosInfinity
  | NegInfinity
  | NaN.

(** A value as [JSON.parse] builds it, plus [undefined] and the numbers
    that only exist before serialisation.  An object keeps its properties
    in insertion order. *)
Inductive value : Type :=
  | VUndefined
  | VNull
  | VBool (b : bool)
  | VNumber (n : number)
  | VString (s : string)
  | VArray (items : list value)
  | VObject (props : list (string * value)).

(** ** Errors and promises *)

Inductive errno : Type := ENOENT | ENOTDIR | EISDIR | EEXIST | EACCES | EIO.

(** What a rejected promise carries: a system error with its [code], or a
    [SyntaxError] / [TypeError], which have no [code] property. *)
Inductive error : Type :=
  | SystemError (code : errno)
  | SyntaxError (message : string)
  | TypeError (message : string).

Definition error_code (e : error) : option errno :=
  match e with
  | SystemError c => Some c
  | _ => None
  end.

Definition is_ENOENT (e : error) : bool :=
  match error_code e with
  | Some ENOENT => true
  | _ => false
  end.

(** The settled state of a promise. *)
Inductive result (A : Type) : Type :=
  | Resolved (a : A)
  | Rejected (e : error).
Arguments Resolved {A} a.
Arguments Rejected {A} e.

Definition bind {A B} (r : result A) (k : A -> result B) : result B :=
  match r with
  | Resolved a => k a
  | Rejected e => Rejected e
  end.

#[export] Instance result_bind : MBind result := fun A B k r => bind r k.

(** ** The file system *)

(** What lies at a path.  A directory holds the names [readdir] answers,
    in the order it answers them; the entries themselves live in the map
    under their own paths, so a name can be listed while nothing is behind
    it (a dangling link, or an entry removed since the listing).
    [Unreadable] is an entry the process may not open, [Damaged] one the
    device fails on.  A file is kept as its text: the string that reading
    it as UTF-8 gives.

    The map is read as a file system in which only directories lie above
    an entry.  A path that runs through a file, for which the kernel
    answers ENOTDIR, has no place in it: the operations below answer a
    path that is no key of the map as not found (ENOENT), whatever lies
    above it.  The properties that start from an absent path therefore
    either start from the answer of the operation, or ask that no entry
    above the path is an obstacle ([clear_above]). *)
Inductive node : Type :=
  | File (content : string)
  | Directory (names : list string)
  | Unreadable
  | Damaged.

Abbreviation filesystem := (gmap string node).

(** [fs.promises.readFile(path, 'utf-8')] *)
Definition readFile (fs : filesystem) (p : string) : result string :=
  match fs !! p with
  | None => Rejected (SystemError ENOENT)
  | Some (File content) => Resolved content
  | Some (Directory _) => Rejected (SystemError EISDIR)
  | Some Unreadable => Rejected (SystemError EACCES)
  | Some Damaged => Rejected (SystemError EIO)
  end.

(** [fs.promises.readdir(path)] *)
Definition readdir (fs : filesystem) (p : string) : result (list string) :=
  match fs !! p with
  | None => Rejected (SystemError ENOENT)
  | Some (Directory names) => Resolved names
  | Some (File _) => Rejected (SystemError ENOTDIR)
  | Some Unreadable => Rejected (SystemError EACCES)
  | Some Damaged => Rejected (SystemError EIO)
  end.

(** ** [path.join] (POSIX) *)

Definition slash : ascii := "/"%char.

Fixpoint split_on (sep : ascii) (s : string) : list string :=
  match s with
  | EmptyString => [EmptyString]
  | String c r =>
      if Ascii.eqb c sep then EmptyString :: split_on sep r
      else match split_on sep r with
           | [] => [String c EmptyString]
           | h :: t => String c h :: t
           end
  end.

Fixpoint join_with (sep : string) (l : list string) : string :=
  match l with
  | [] => EmptyString
  | [x] => x
  | x :: r => x +:+ sep +:+ join_with sep r
  end.

(** One segment of [normalizeString]; the stack holds the segments kept so
    far, last one first. *)
Definition normalize_step (allowAboveRoot : bool) (stack : list string)
    (seg : string) : list string :=
  if String.eqb seg EmptyString || String.eqb seg "." then stack
  else if String.eqb seg ".." then
    match stack with
    | top :: rest =>
        if String.eqb top ".." then ".." :: stack else rest
    | [] => if allowAboveRoot then [".."] else []
    end
  else seg :: stack.

Definition normalizeString (p : string) (allowAboveRoot : bool) : string :=
  join_with "/" (rev (fold_left (normalize_step allowAboveRoot) (split_on slash p) [])).

Definition starts_with_slash (p : string) : bool :=
  match p with
  | String c _ => Ascii.eqb c slash
  | EmptyString => false
  end.

Fixpoint ends_with_slash (p : string) : bool :=
  match p with
  | EmptyString => false
  | String c EmptyString => Ascii.eqb c slash
  | String _ r => ends_with_slash r
  end.

Definition normalize (p : string) : string :=
  if String.eqb p EmptyString then "."
  else
    let isAbsolute := starts_with_slash p in
    let trailingSeparator := ends_with_slash p in
    let q := normalizeString p (negb isAbsolute) in
    if String.eqb q EmptyString then
      if isAbsolute then "/" else if trailingSeparator then "./" else "."
    else
      let q := if trailingSeparator then q +:+ "/" else q in
      if isAbsolute then "/" +:+ q else q.

Definition path_join (segments : list string) : string :=
  match List.filter (fun s => negb (String.eqb s EmptyString)) segments with
  | [] => "."
  | parts => normalize (join_with "/" parts)
  end.

(** The directory a path lies in, and its last segment. *)
Definition parent_of (p : string) : string :=
  match List.removelast (split_on slash p) with
  | [] | [EmptyString] => "/"
  | segs => join_with "/" segs
  end.

Definition basename (p : string) : string :=
  List.last (split_on slash p) EmptyString.

(** [fs.promises.access(path)] *)
Definition access (fs : filesystem) (p : string) : result unit :=
  match fs !! p with
  | None => Rejected (SystemError ENOENT)
  | Some _ => Resolved tt
  end.

(** A new name appears in the listing of its directory (where in the
    listing is up to the file system; the model puts it last). *)
Definition add_name (fs : filesystem) (p : string) : filesystem :=
  match fs !! parent_of p with
  | Some (Directory names) =>
      if existsb (String.eqb (basename p)) names then fs
      else <[parent_of p := Directory (names ++ [basename p])]> fs
  | _ => fs
  end.

(** [fs.promises.writeFile(path, data)]: the file is created or
    overwritten; its directory has to be there. *)
Definition writeFile (fs : filesystem) (p : string) (data : string)
    : result filesystem :=
  match fs !! p with
  | Some (Directory _) => Rejected (SystemError EISDIR)
  | Some Unreadable => Rejected (SystemError EACCES)
  | Some Damaged => Rejected (SystemError EIO)
  | Some (File _) => Resolved (<[p := File data]> fs)
  | None =>
      match fs !! parent_of p with
      | Some (Directory _) => Resolved (<[p := File data]> (add_name fs p))
      | Some (File _) => Rejected (SystemError ENOTDIR)
      | Some Unreadable => Rejected (SystemError EACCES)
      | Some Damaged => Rejected (SystemError EIO)
      | None => Rejected (SystemError ENOENT)
      end
  end.

(** The paths of a path's ancestors and of the path itself, outermost
    first: [/a/b] gives [/a] and [/a/b]. *)
Fixpoint prefixes_from (base : string) (segs : list string) : list string :=
  match segs with
  | [] => []
  | seg :: r =>
      let p := base +:+ "/" +:+ seg in
      p :: prefixes_from p r
  end.

Definition ancestors (p : string) : list string :=
  prefixes_from EmptyString
    (List.filter (fun s => negb (String.eqb s EmptyString)) (split_on slash p)).

(** [fs.promises.mkdir(path, { recursive: true })] *)
Fixpoint mkdir_each (fs : filesystem) (paths : list string) : result filesystem :=
  match paths with
  | [] => Resolved fs
  | p :: r =>
      match fs !! p with
      | None => mkdir_each (<[p := Directory []]> (add_name fs p)) r
      | Some (Directory _) => mkdir_each fs r
      | Some (File _) =>
          Rejected (SystemError (match r with [] => EEXIST | _ => ENOTDIR end))
      | Some Unreadable => Rejected (SystemError EACCES)
      | Some Damaged => Rejected (SystemError EIO)
      end
  end.

Definition mkdir_recursive (fs : filesystem) (p : string) : result filesystem :=
  mkdir_each fs (ancestors p).

(** ** Removing entries *)

(** A name leaves the listing of its directory. *)
Definition remove_name (fs : filesystem) (p : string) : filesystem :=
  match fs !! parent_of p with
  | Some (Directory names) =>
      <[parent_of p :=
          Directory (List.filter (fun name => negb (String.eqb name (basename p))) names)]> fs
  | _ => fs
  end.

(** [fs.promises.unlink(path)]: removing an entry does not open it, so
    one that may not be opened goes like a file. *)
Definition unlink (fs : filesystem) (p : string) : result filesystem :=
  match fs !! p with
  | None => Rejected (SystemError ENOENT)
  | Some (Directory _) => Rejected (SystemError EISDIR)
  | Some Damaged => Rejected (SystemError EIO)
  | Some _ => Resolved (remove_name (delete p fs) p)
  end.

(** The paths below a directory. *)
Definition below (dir p : string) : bool := String.prefix (dir +:+ "/") p.

(** The entries [rm] on [p] takes away: [p] and what lies below it. *)
Definition doomed (p q : string) : bool := String.eqb q p || below p q.

Definition is_damaged (n : node) : bool :=
  match n with
  | Damaged => true
  | _ => false
  end.

(** [fs.promises.rm(path, { recursive: true, force: true })]: nothing at
    the path is no error.  An entry the device fails on stops the
    removal; how much is gone by then depends on the order of the
    traversal, the model keeps the tree as it was. *)
Definition rm_recursive (fs : filesystem) (p : string) : result filesystem :=
  match fs !! p with
  | None => Resolved fs
  | Some _ =>
      if existsb (fun kv => doomed p (fst kv) && is_damaged (snd kv)) (map_to_list fs)
      then Rejected (SystemError EIO)
      else Resolved (remove_name (filter (fun kv => doomed p (fst kv) = false) fs) p)
  end.

(** ** Numbers and their text *)

(** The double nearest to a non-negative integer (ties to even): the
    integer itself below [2^53], else 53 significant bits of it; from
    [2^1024 - 2^970] on it is [Infinity]. *)
Definition round_to_double (z : Z) : number :=
  if z <? 2 ^ 53 then Finite z
  else
    let e := Z.log2 z - 52 in
    let q := z / 2 ^ e in
    let r := z mod 2 ^ e in
    let half := 2 ^ (e - 1) in
    let q' := if (half <? r) || ((r =? half) && Z.odd q) then q + 1 else q in
    let m := q' * 2 ^ e in
    if 2 ^ 1024 <=? m then PosInfinity else Finite m.

Definition number_neg (n : number) : number :=
  match n with
  | Finite z => Finite (- z)
  | PosInfinity => NegInfinity
  | NegInfinity => PosInfinity
  | NaN => NaN
  end.

(** The number a run of decimal digits, with its sign, denotes. *)
Definition number_of_digits (negative : bool) (magnitude : N) : number :=
  let n := round_to_double (Z.of_N magnitude) in
  if negative then number_neg n else n.

Definition is_digit (c : ascii) : bool :=
  let n := N_of_ascii c in (48 <=? n)%N && (n <=? 57)%N.

(** The longest prefix of digits, and what follows it. *)
Fixpoint span_digits (s : string) : string * string :=
  match s with
  | EmptyString => (EmptyString, EmptyString)
  | String c r =>
      if is_digit c then
        let '(ds, rest) := span_digits r in (String c ds, rest)
      else (EmptyString, s)
  end.

Definition digits_value (ds : string) : option N :=
  match DecimalString.NilZero.uint_of_string ds with
  | Some d => Some (N.of_uint d)
  | None => None
  end.

Definition digits_of_N (n : N) : string :=
  DecimalString.NilZero.string_of_uint (N.to_uint n).

(** [Number::toString] on the integers.  From [1e21] on JavaScript
    switches to exponent notation for the same number; the model keeps the
    plain digits. *)
Definition Z_to_string (z : Z) : string :=
  match z with
  | Z0 => "0"
  | Zpos p => digits_of_N (Npos p)
  | Zneg p => "-" +:+ digits_of_N (Npos p)
  end.

(** White space, as far as it is ASCII. *)
Definition is_space (c : ascii) : bool :=
  let n := N_of_ascii c in
  (n =? 32)%N || ((9 <=? n)%N && (n <=? 13)%N).

Fixpoint trim_start (s : string) : string :=
  match s with
  | String c r => if is_space c then trim_start r else s
  | EmptyString => EmptyString
  end.

(** [parseInt(s, 10)] on a string: leading white space, a sign, then the
    longest run of digits, rounded to a double; [NaN] when there is no
    digit. *)
Definition parseInt (s : string) : number :=
  let t := trim_start s in
  let '(negative, u) :=
    match t with
    | String "-" r => (true, r)
    | String "+" r => (false, r)
    | _ => (false, t)
    end in
  match digits_value (fst (span_digits u)) with
  | Some m =>
      if String.eqb (fst (span_digits u)) EmptyString then NaN
      else number_of_digits negative m
  | None => NaN
  end.

(** ** JSON text *)

(** Strings are carried as their UTF-8 bytes, in files and in values
    alike. *)
Definition dquote : ascii := ascii_of_N 34.
Definition backslash : ascii := ascii_of_N 92.

Definition hex_digit (n : N) : ascii :=
  ascii_of_N (if (n <? 10)%N then 48 + n else 87 + n).

(** One character of [QuoteJSONString]. *)
Definition escape_char (c : ascii) : string :=
  let n := N_of_ascii c in
  if (n =? 34)%N then String backslash (String dquote EmptyString)
  else if (n =? 92)%N then String backslash (String backslash EmptyString)
  else if (n =? 8)%N then String backslash "b"
  else if (n =? 9)%N then String backslash "t"
  else if (n =? 10)%N then String backslash "n"
  else if (n =? 12)%N then String backslash "f"
  else if (n =? 13)%N then String backslash "r"
  else if (n <? 32)%N then
    String backslash
      (String "u" (String "0" (String "0"
        (String (hex_digit (n / 16)) (String (hex_digit (n mod 16)) EmptyString)))))
  else String c EmptyString.

Fixpoint escape (s : string) : string :=
  match s with
  | EmptyString => EmptyString
  | String c r => escape_char c +:+ escape r
  end.

Definition QuoteJSONString (s : string) : string :=
  String dquote (escape s +:+ String dquote EmptyString).

Definition number_to_json (n : number) : string :=
  match n with
  | Finite z => Z_to_string z
  | _ => "null"
  end.

Definition is_undefined (v : value) : bool :=
  match v with
  | VUndefined => true
  | _ => false
  end.

Definition gap : string := "    ".

(** [SerializeJSONProperty] with a gap of four spaces, for a value that
    is not [undefined]; in an array [undefined] is written [null], in an
    object a property holding it is left out. *)
Fixpoint serialize (indent : string) (v : value) : string :=
  match v with
  | VUndefined => "null"
  | VNull => "null"
  | VBool true => "true"
  | VBool false => "false"
  | VNumber n => number_to_json n
  | VString s => QuoteJSONString s
  | VArray items =>
      let stepback := indent in
      let indent := indent +:+ gap in
      let partial := map (serialize indent) items in
      match partial with
      | [] => "[]"
      | _ =>
          "[" +:+ String.String (ascii_of_N 10) indent
          +:+ join_with ("," +:+ String.String (ascii_of_N 10) indent) partial
          +:+ String.String (ascii_of_N 10) stepback +:+ "]"
      end
  | VObject props =>
      let stepback := indent in
      let indent := indent +:+ gap in
      let partial :=
        (fix members (l : list (string * value)) : list string :=
           match l with
           | [] => []
           | (k, x) :: r =>
               if is_undefined x then members r
               else (QuoteJSONString k +:+ ": " +:+ serialize indent x) :: members r
           end) props in
      match partial with
      | [] => "{}"
      | _ =>
          "{" +:+ String.String (ascii_of_N 10) indent
          +:+ join_with ("," +:+ String.String (ascii_of_N 10) indent) partial
          +:+ String.String (ascii_of_N 10) stepback +:+ "}"
      end
  end.

(** [JSON.stringify(v, null, 4)]; [None] stands for the [undefined] it
    answers on [undefined]. *)
Definition JSON_stringify (v : value) : option string :=
  if is_undefined v then None else Some (serialize EmptyString v).

(** *** [JSON.parse] *)

Definition is_ws (c : ascii) : bool :=
  let n := N_of_ascii c in
  (n =? 32)%N || (n =? 9)%N || (n =? 10)%N || (n =? 13)%N.

Fixpoint skip_ws (s : string) : string :=
  match s with
  | String c r => if is_ws c then skip_ws r else s
  | EmptyString => EmptyString
  end.

Definition simple_escape (e : ascii) : option N :=
  let n := N_of_ascii e in
  if (n =? 34)%N then Some 34%N
  else if (n =? 92)%N then Some 92%N
  else if (n =? 47)%N then Some 47%N
  else if (n =? 98)%N then Some 8%N
  else if (n =? 102)%N then Some 12%N
  else if (n =? 110)%N then Some 10%N
  else if (n =? 114)%N then Some 13%N
  else if (n =? 116)%N then Some 9%N
  else None.

Definition hex_value (c : ascii) : option N :=
  let n := N_of_ascii c in
  if (48 <=? n)%N && (n <=? 57)%N then Some (n - 48)%N
  else if (97 <=? n)%N && (n <=? 102)%N then Some (n - 87)%N
  else if (65 <=? n)%N && (n <=? 70)%N then Some (n - 55)%N
  else None.

Definition hex4 (a b c d : ascii) : option N :=
  match hex_value a, hex_value b, hex_value c, hex_value d with
  | Some x, Some y, Some z, Some w => Some (((x * 16 + y) * 16 + z) * 16 + w)%N
  | _, _, _, _ => None
  end.

(** The body of a string literal, after its opening quote: raw bytes
    ([inl]) and the code units written as escapes ([inr]), up to the
    closing quote. *)
Fixpoint scan_string (s : string) : option (list (ascii + N) * string) :=
  match s with
  | EmptyString => None
  | String c r =>
      let n := N_of_ascii c in
      if (n =? 34)%N then Some ([], r)
      else if (n =? 92)%N then
        match r with
        | EmptyString => None
        | String e r1 =>
            match simple_escape e with
            | Some u =>
                match scan_string r1 with
                | Some (us, rest) => Some (inr u :: us, rest)
                | None => None
                end
            | None =>
                if (N_of_ascii e =? 117)%N then
                  match r1 with
                  | String h1 (String h2 (String h3 (String h4 r2))) =>
                      match hex4 h1 h2 h3 h4 with
                      | Some u =>
                          match scan_string r2 with
                          | Some (us, rest) => Some (inr u :: us, rest)
                          | None => None
                          end
                      | None => None
                      end
                  | _ => None
                  end
                else None
            end
        end
      else if (n <? 32)%N then None
      else
        match scan_string r with
        | Some (us, rest) => Some (inl c :: us, rest)
        | None => None
        end
  end.

(** UTF-8 of a code point (a lone surrogate gets the three bytes of its
    own number). *)
Definition utf8 (cp : N) : string :=
  (if cp <? 128 then String (ascii_of_N cp) EmptyString
   else if cp <? 2048 then
     String (ascii_of_N (192 + cp / 64))
       (String (ascii_of_N (128 + cp mod 64)) EmptyString)
   else if cp <? 65536 then
     String (ascii_of_N (224 + cp / 4096))
       (String (ascii_of_N (128 + (cp / 64) mod 64))
         (String (ascii_of_N (128 + cp mod 64)) EmptyString))
   else
     String (ascii_of_N (240 + cp / 262144))
       (String (ascii_of_N (128 + (cp / 4096) mod 64))
         (String (ascii_of_N (128 + (cp / 64) mod 64))
           (String (ascii_of_N (128 + cp mod 64)) EmptyString))))%N.

Definition is_high_surrogate (u : N) : bool := ((55296 <=? u) && (u <? 56320))%N.
Definition is_low_surrogate (u : N) : bool := ((56320 <=? u) && (u <? 57344))%N.

Fixpoint encode_units (l : list (ascii + N)) : string :=
  match l with
  | [] => EmptyString
  | inl c :: r => String c (encode_units r)
  | inr u :: r =>
      match r with
      | inr lo :: r' =>
          if is_high_surrogate u && is_low_surrogate lo then
            utf8 (65536 + (u - 55296) * 1024 + (lo - 56320))%N +:+ encode_units r'
          else utf8 u +:+ encode_units r
      | _ => utf8 u +:+ encode_units r
      end
  end.

Definition parse_string (s : string) : option (string * string) :=
  match scan_string s with
  | Some (us, rest) => Some (encode_units us, rest)
  | None => None
  end.

(** The first two of the three bytes [utf8] gives a lone surrogate (a
    code point from U+D800 to U+DFFF): [0xED], then a byte from [0xA0] to
    [0xBF]. *)
Definition surrogate_bytes (c d : ascii) : bool :=
  (N_of_ascii c =? 237)%N && (160 <=? N_of_ascii d)%N && (N_of_ascii d <=? 191)%N.

Fixpoint has_lone_surrogate (s : string) : bool :=
  match s with
  | EmptyString => false
  | String c r =>
      match r with
      | EmptyString => false
      | String d _ => surrogate_bytes c d || has_lone_surrogate r
      end
  end.

(** [s.isWellFormed()] *)
Definition isWellFormed (s : string) : bool := negb (has_lone_surrogate s).

(** [s.toWellFormed()]: U+FFFD for every lone surrogate.  This is what
    [fs.writeFile] makes of a string when it encodes it as UTF-8.
    ([JSON.stringify] writes a lone surrogate as an escape, where
    [escape] keeps its bytes; either way [JSON.parse] reads the string
    back.) *)
Fixpoint toWellFormed (s : string) : string :=
  match s with
  | EmptyString => EmptyString
  | String c r =>
      match r with
      | String d (String _ r') =>
          if surrogate_bytes c d then utf8 65533 +:+ toWellFormed r'
          else String c (toWellFormed r)
      | _ => String c (toWellFormed r)
      end
  end.

(** The digits of a number literal, after its sign.  Only integers are
    in the model: a fraction or an exponent part makes the literal
    unreadable here. *)
Definition read_digits (negative : bool) (u : string) : option (number * string) :=
  let '(ds, rest) := span_digits u in
  let continues :=
    match rest with
    | String c _ => Ascii.eqb c "." || Ascii.eqb c "e" || Ascii.eqb c "E"
    | EmptyString => false
    end in
  match ds with
  | EmptyString => None
  | String "0" (String _ _) => None
  | _ =>
      if continues then None
      else
        match digits_value ds with
        | Some m => Some (number_of_digits negative m, rest)
        | None => None
        end
  end.

Definition parse_number (s : string) : option (number * string) :=
  match s with
  | String "-" r => read_digits true r
  | _ => read_digits false s
  end.

(** [CreateDataProperty]: a key met again keeps its place and takes the
    new value. *)
Fixpoint set_prop (props : list (string * value)) (k : string) (v : value)
    : list (string * value) :=
  match props with
  | [] => [(k, v)]
  | (k', v') :: r =>
      if String.eqb k' k then (k', v) :: r else (k', v') :: set_prop r k v
  end.

Definition build_object (members : list (string * value)) : value :=
  VObject (fold_left (fun o kv => set_prop o (fst kv) (snd kv)) members []).

Fixpoint parse_value (fuel : nat) (s : string) : option (value * string) :=
  match fuel with
  | O => None
  | S fuel =>
      match skip_ws s with
      | EmptyString => None
      | String c r =>
          if Ascii.eqb c "{" then
            match skip_ws r with
            | String "}" r' => Some (VObject [], r')
            | _ =>
                match parse_members fuel r with
                | Some (members, r') => Some (build_object members, r')
                | None => None
                end
            end
          else if Ascii.eqb c "[" then
            match skip_ws r with
            | String "]" r' => Some (VArray [], r')
            | _ =>
                match parse_elements fuel r with
                | Some (items, r') => Some (VArray items, r')
                | None => None
                end
            end
          else if Ascii.eqb c dquote then
            match parse_string r with
            | Some (str, r') => Some (VString str, r')
            | None => None
            end
          else if Ascii.eqb c "-" || is_digit c then
            match parse_number (String c r) with
            | Some (n, r') => Some (VNumber n, r')
            | None => None
            end
          else
            match String c r with
            | String "t" (String "r" (String "u" (String "e" r'))) =>
                Some (VBool true, r')
            | String "f" (String "a" (String "l" (String "s" (String "e" r')))) =>
                Some (VBool false, r')
            | String "n" (String "u" (String "l" (String "l" r'))) =>
                Some (VNull, r')
            | _ => None
            end
      end
  end
with parse_elements (fuel : nat) (s : string) : option (list value * string) :=
  match fuel with
  | O => None
  | S fuel =>
      match parse_value fuel s with
      | Some (v, r) =>
          match skip_ws r with
          | String "," r' =>
              match parse_elements fuel r' with
              | Some (vs, r'') => Some (v :: vs, r'')
              | None => None
              end
          | String "]" r' => Some ([v], r')
          | _ => None
          end
      | None => None
      end
  end
with parse_members (fuel : nat) (s : string)
    : option (list (string * value) * string) :=
  match fuel with
  | O => None
  | S fuel =>
      match skip_ws s with
      | String q r =>
          if Ascii.eqb q dquote then
            match parse_string r with
            | Some (k, r1) =>
                match skip_ws r1 with
                | String ":" r2 =>
                    match parse_value fuel r2 with
                    | Some (v, r3) =>
                        match skip_ws r3 with
                        | String "," r4 =>
                            match parse_members fuel r4 with
                            | Some (ms, r5) => Some ((k, v) :: ms, r5)
                            | None => None
                            end
                        | String "}" r4 => Some ([(k, v)], r4)
                        | _ => None
                        end
                    | None => None
                    end
                | _ => None
                end
            | None => None
            end
          else None
      | EmptyString => None
      end
  end.

(** [JSON.parse(text)]: one value, white space around it, nothing else. *)
Definition JSON_parse (text : string) : result value :=
  match parse_value (S (String.length text)) text with
  | Some (v, rest) =>
      match skip_ws rest with
      | EmptyString => Resolved v
      | _ => Rejected (SyntaxError "Unexpected non-whitespace character after JSON")
      end
  | None => Rejected (SyntaxError "Unexpected token in JSON")
  end.

(** ** Property access, comparison, arrays *)

(** [v.k] for a key that is no built-in property (every key read by this
    program is of that kind): the last value stored under [k] in an object,
    [undefined] when there is none or when [v] is a primitive or an array,
    and a [TypeError] on [null] and [undefined]. *)
Fixpoint lookup_prop (props : list (string * value)) (k : string) : value :=
  match props with
  | [] => VUndefined
  | (k', v) :: r => if String.eqb k' k then v else lookup_prop r k
  end.

Definition get_prop (v : value) (k : string) : result value :=
  match v with
  | VUndefined => Rejected (TypeError "Cannot read properties of undefined")
  | VNull => Rejected (TypeError "Cannot read properties of null")
  | VObject props => Resolved (lookup_prop props k)
  | _ => Resolved VUndefined
  end.

Definition number_eqb (a b : number) : bool :=
  match a, b with
  | Finite x, Finite y => x =? y
  | PosInfinity, PosInfinity => true
  | NegInfinity, NegInfinity => true
  | _, _ => false
  end.

(** [a === b] between two values that were built apart from each other
    (read from different files, or from a file and from a request): two
    objects or arrays are then never the same object. *)
Definition strict_equals (a b : value) : bool :=
  match a, b with
  | VUndefined, VUndefined => true
  | VNull, VNull => true
  | VBool x, VBool y => Bool.eqb x y
  | VNumber x, VNumber y => number_eqb x y
  | VString x, VString y => String.eqb x y
  | _, _ => false
  end.

Definition truthy (v : value) : bool :=
  match v with
  | VUndefined | VNull => false
  | VBool b => b
  | VNumber (Finite z) => negb (z =? 0)
  | VNumber NaN => false
  | VNumber _ => true
  | VString s => negb (String.eqb s EmptyString)
  | VArray _ | VObject _ => true
  end.

(** [a - b] on numbers.  On two finite operands the double result is the
    rounded difference; the model keeps the exact one, which has the same
    sign. *)
Definition number_sub (a b : number) : number :=
  match a, b with
  | NaN, _ | _, NaN => NaN
  | Finite x, Finite y => Finite (x - y)
  | PosInfinity, PosInfinity => NaN
  | NegInfinity, NegInfinity => NaN
  | PosInfinity, _ => PosInfinity
  | NegInfinity, _ => NegInfinity
  | Finite _, PosInfinity => NegInfinity
  | Finite _, NegInfinity => PosInfinity
  end.

(** [s.endsWith(suffix)] *)
Definition endsWith (s suffix : string) : bool :=
  let n := String.length s in
  let m := String.length suffix in
  (m <=? n)%nat && String.eqb (substring (n - m) m s) suffix.

(** [array.find(pred)] and [array.findIndex(pred)] for a callback that may
    throw. *)
Fixpoint Array_find (pred : value -> result bool) (items : list value)
    : result value :=
  match items with
  | [] => Resolved VUndefined
  | x :: r =>
      b ← pred x;
      if b : bool then Resolved x else Array_find pred r
  end.

Fixpoint Array_findIndex_from (pred : value -> result bool) (i : Z)
    (items : list value) : result Z :=
  match items with
  | [] => Resolved (-1)
  | x :: r =>
      b ← pred x;
      if b : bool then Resolved i else Array_findIndex_from pred (i + 1) r
  end.

Definition Array_findIndex (pred : value -> result bool) (items : list value)
    : result Z :=
  Array_findIndex_from pred 0 items.

Fixpoint Array_some (pred : value -> result bool) (items : list value)
    : result bool :=
  match items with
  | [] => Resolved false
  | x :: r =>
      b ← pred x;
      if b : bool then Resolved true else Array_some pred r
  end.

(** [array[i]] *)
Definition Array_get (items : list value) (i : Z) : value :=
  if i <? 0 then VUndefined else nth (Z.to_nat i) items VUndefined.

(** [Promise.all]: all the values, in the order of the promises, or the
    reason of the promise that is rejected first.  Which one that is
    depends on the timing of the underlying operations; [first] is its
    position among the rejected ones. *)
Fixpoint rejections {A} (rs : list (result A)) : list error :=
  match rs with
  | [] => []
  | Resolved _ :: r => rejections r
  | Rejected e :: r => e :: rejections r
  end.

Fixpoint resolutions {A} (rs : list (result A)) : list A :=
  match rs with
  | [] => []
  | Resolved a :: r => a :: resolutions r
  | Rejected _ :: r => resolutions r
  end.

Definition Promise_all {A} (first : nat) (rs : list (result A))
    : result (list A) :=
  match rejections rs with
  | [] => Resolved (resolutions rs)
  | e :: es => Rejected (nth first (e :: es) e)
  end.

(** [array.filter(pred)] for a callback that may throw. *)
Fixpoint Array_filter (pred : value -> result bool) (items : list value)
    : result (list value) :=
  match items with
  | [] => Resolved []
  | x :: r =>
      b ← pred x;
      r' ← Array_filter pred r;
      Resolved (if b : bool then x :: r' else r')
  end.

(** [v.k = x] outside strict mode: on an object the property is set, on a
    primitive nothing happens. *)
Definition assign (v : value) (k : string) (x : value) : value :=
  match v with
  | VObject props => VObject (set_prop props k x)
  | _ => v
  end.

(** The own properties [{ ...v }] copies from an object. *)
Definition own_props (v : value) : list (string * value) :=
  match v with
  | VObject props => props
  | _ => []
  end.

(** [Number::toString], in a template literal (from [1e21] on the
    plain digits stand for the exponent notation, see [Z_to_string]). *)
Definition Number_toString (n : number) : string :=
  match n with
  | Finite z => Z_to_string z
  | PosInfinity => "Infinity"
  | NegInfinity => "-Infinity"
  | NaN => "NaN"
  end.

(** ** The program *)

Section FileService.

(** The directory the application is installed in (an absolute path). *)
Variable __dirname : string.

(** [ToNumber] on a string, an array or an object goes through
    [StringToNumber] and [ToPrimitive]; that part is left open. *)
Variable ToNumber_other : value -> result number.

Definition ToNumber (v : value) : result number :=
  match v with
  | VUndefined => Resolved NaN
  | VNull => Resolved (Finite 0)
  | VBool true => Resolved (Finite 1)
  | VBool false => Resolved (Finite 0)
  | VNumber n => Resolved n
  | _ => ToNumber_other v
  end.

(** *** file_service.js *)

Definition DATA_DIR : string := path_join [__dirname; "data"].
Definition STORIES_FILE : string := path_join [DATA_DIR; "stories.json"].
Definition CHAPTERS_METADATA_DIR : string := path_join [DATA_DIR; "chapters"].

(** The [catch] of [getStories], [getStoryByFolderName] and
    [readChapterContent] logs and throws the error again: the rejection
    goes through unchanged. *)
Definition getStories (fs : filesystem) : result value :=
  fileContent ← readFile fs STORIES_FILE;
  stories ← JSON_parse fileContent;
  Resolved stories.

(** [stories.find(s => s.folder_name === folderName)] *)
Definition find_story (stories : value) (folderName : string) : result value :=
  match stories with
  | VArray items =>
      Array_find
        (fun s => f ← get_prop s "folder_name";
                  Resolved (strict_equals f (VString folderName)))
        items
  | _ => Rejected (TypeError "stories.find is not a function")
  end.

Definition getStoryByFolderName (fs : filesystem) (folderName : string)
    : result value :=
  stories ← getStories fs;
  story ← find_story stories folderName;
  Resolved story.

(** [(a, b) => a.chapter_number - b.chapter_number] *)
Definition compare_chapters (a b : value) : result number :=
  x ← get_prop a "chapter_number";
  y ← get_prop b "chapter_number";
  nx ← ToNumber x;
  ny ← ToNumber y;
  Resolved (number_sub nx ny).

(** [SortCompare]: [a] goes after [b] when the comparator answers a
    number above zero ([NaN] counts as zero). *)
Definition above_zero (n : number) : bool :=
  match n with
  | Finite z => 0 <? z
  | PosInfinity => true
  | _ => false
  end.

(** [chapters.sort(comparefn)]: the sort is stable; with a comparator
    that is a consistent order, as here on numbers, every stable sort
    gives the list insertion gives. *)
Fixpoint sort_insert (x : value) (sorted : list value) : result (list value) :=
  match sorted with
  | [] => Resolved [x]
  | y :: r =>
      c ← compare_chapters x y;
      if above_zero c then
        r' ← sort_insert x r;
        Resolved (y :: r')
      else Resolved (x :: y :: r)
  end.

Fixpoint Array_sort (chapters : list value) : result (list value) :=
  match chapters with
  | [] => Resolved []
  | x :: r =>
      r' ← Array_sort r;
      sort_insert x r'
  end.

(** The body of the [try] of [getChaptersForStory]. *)
Definition read_chapters (first : nat) (fs : filesystem)
    (storyChaptersDir : string) : result (list value) :=
  files ← readdir fs storyChaptersDir;
  let jsonFiles := List.filter (fun file => endsWith file ".json") files in
  if (length jsonFiles =? 0)%nat then Resolved []
  else
    let chapterPromises :=
      map (fun jsonFile =>
             let filePath := path_join [storyChaptersDir; jsonFile] in
             fileContent ← readFile fs filePath;
             JSON_parse fileContent)
          jsonFiles in
    chapters ← Promise_all first chapterPromises;
    Array_sort chapters.

(** [first] says which of the failing reads, if several fail, is the
    first to do so (see [Promise_all]). *)
Definition getChaptersForStory (first : nat) (fs : filesystem)
    (folderName : string) : result (list value) :=
  let storyChaptersDir := path_join [CHAPTERS_METADATA_DIR; folderName] in
  match read_chapters first fs storyChaptersDir with
  | Resolved chapters => Resolved chapters
  | Rejected error =>
      if is_ENOENT error then Resolved []
      else Rejected error
  end.

Definition chapterPath (storyFolderName chapterFileNameWithoutExt : string)
    : string :=
  let chapterJsonFile := chapterFileNameWithoutExt +:+ ".json" in
  path_join [CHAPTERS_METADATA_DIR; storyFolderName; chapterJsonFile].

Definition getChapterDetails (fs : filesystem)
    (storyFolderName chapterFileNameWithoutExt : string) : result value :=
  match
    (fileContent ← readFile fs (chapterPath storyFolderName chapterFileNameWithoutExt);
     chapterDetails ← JSON_parse fileContent;
     Resolved chapterDetails)
  with
  | Resolved chapterDetails => Resolved chapterDetails
  | Rejected error =>
      if is_ENOENT error then Resolved VUndefined
      else Rejected error
  end.

Definition readChapterContent (fs : filesystem) (contentPath : string)
    : result string :=
  let absoluteContentPath := path_join [__dirname; contentPath] in
  match readFile fs absoluteContentPath with
  | Resolved htmlContent => Resolved htmlContent
  | Rejected error => Rejected error
  end.

(** *** app.js: the neighbours of a chapter
    ([GET /stories/:folder_name/chapters/:chapter_filename_root]) *)

Definition adjacent_chapters (allChapters : list value)
    (chapterMetadata : value) : result (value * value) :=
  currentChapterIndex ←
    Array_findIndex
      (fun chap =>
         a ← get_prop chap "original_file_name";
         b ← get_prop chapterMetadata "original_file_name";
         Resolved (strict_equals a b))
      allChapters;
  let previousChapter :=
    if 0 <? currentChapterIndex
    then Array_get allChapters (currentChapterIndex - 1)
    else VNull in
  let nextChapter :=
    if currentChapterIndex <? Z.of_nat (length allChapters) - 1
    then Array_get allChapters (currentChapterIndex + 1)
    else VNull in
  Resolved (previousChapter, nextChapter).

(** *** app.js: creating a chapter
    ([POST /admin/stories/:story_folder_name/chapters]) *)

(** [/^\d{4,}\.html$/.test(name)] *)
Definition fileNameRegex_test (name : string) : bool :=
  let '(digits, rest) := span_digits name in
  (4 <=? String.length digits)%nat && String.eqb rest ".html".

(** [s.replace(pattern, replacement)] with a string pattern: the first
    occurrence only. *)
Fixpoint replace_first (pattern replacement s : string) : string :=
  if String.prefix pattern s then
    replacement +:+ substring (String.length pattern) (String.length s) s
  else
    match s with
    | EmptyString => EmptyString
    | String c r => String c (replace_first pattern replacement r)
    end.

(** [s.replace(/\\/g, '/')] *)
Fixpoint backslashes_to_slashes (s : string) : string :=
  match s with
  | EmptyString => EmptyString
  | String c r =>
      String (if Ascii.eqb c backslash then slash else c)
             (backslashes_to_slashes r)
  end.

Definition is_NaN (n : number) : bool :=
  match n with
  | NaN => true
  | _ => false
  end.

(** [n <= 0] *)
Definition at_most_zero (n : number) : bool :=
  match n with
  | Finite z => z <=? 0
  | NegInfinity => true
  | _ => false
  end.

(** The object the handler writes. *)
Definition chapterMetadata (story_folder_name title : string)
    (numChapterNumber : number) (original_file_name : string) : value :=
  VObject
    [("title", VString title);
     ("chapter_number", VNumber numChapterNumber);
     ("original_file_name", VString original_file_name);
     ("content_path",
      VString (backslashes_to_slashes
                 (path_join [story_folder_name; original_file_name])))].

Inductive response : Type :=
  | Render (status : nat) (view : string) (error : string)
  | Redirect (location : string).

(** "All checks passed, proceed to create files": the four writes, in
    order; a failure leaves what was written before it.  The content goes
    into its file as UTF-8 ([toWellFormed]). *)
Definition create_files (fs : filesystem)
    (story_folder_name title : string) (numChapterNumber : number)
    (original_file_name content : string) : filesystem * result unit :=
  let contentFilePath := path_join [__dirname; story_folder_name; original_file_name] in
  let storyContentDir := path_join [__dirname; story_folder_name] in
  match mkdir_recursive fs storyContentDir with
  | Rejected e => (fs, Rejected e)
  | Resolved fs1 =>
      match writeFile fs1 contentFilePath (toWellFormed content) with
      | Rejected e => (fs1, Rejected e)
      | Resolved fs2 =>
          let metadataFileName := replace_first ".html" ".json" original_file_name in
          let metadataDirPath :=
            path_join [__dirname; "data"; "chapters"; story_folder_name] in
          match mkdir_recursive fs2 metadataDirPath with
          | Rejected e => (fs2, Rejected e)
          | Resolved fs3 =>
              let metadataFilePath := path_join [metadataDirPath; metadataFileName] in
              match
                JSON_stringify
                  (chapterMetadata story_folder_name title numChapterNumber
                     original_file_name)
              with
              | None => (fs3, Rejected (TypeError "The data argument must be of type string"))
              | Some text =>
                  match writeFile fs3 metadataFilePath text with
                  | Rejected e => (fs3, Rejected e)
                  | Resolved fs4 => (fs4, Resolved tt)
                  end
              end
          end
      end
  end.

(** The fields of the request are strings, as the form of the page
    submits them; a field that is missing counts as the empty string,
    which the checks do not tell apart.  A JSON body can carry numbers,
    arrays and objects in their place: such requests are outside the
    model, and the properties of the handler say so.

    The checks of the handler; [inl] is the page an unmet check
    answers with, [inr] the chapter number when all are met. *)
Definition check_chapter (first : nat) (fs : filesystem)
    (story_folder_name title chapter_number original_file_name content : string)
    : result (response + number) :=
  story ← getStoryByFolderName fs story_folder_name;
  if negb (truthy story) then
    Resolved (inl (Render 404 "admin/chapter_form"
                     "Associated story not found. Cannot create chapter."))
  else if String.eqb title EmptyString || String.eqb chapter_number EmptyString
          || String.eqb original_file_name EmptyString
          || String.eqb content EmptyString then
    Resolved (inl (Render 200 "admin/chapter_form" "All fields are required."))
  else
    let numChapterNumber := parseInt chapter_number in
    if is_NaN numChapterNumber || at_most_zero numChapterNumber then
      Resolved (inl (Render 200 "admin/chapter_form"
                       "Chapter Number must be a positive integer."))
    else if negb (fileNameRegex_test original_file_name) then
      Resolved (inl (Render 200 "admin/chapter_form"
                       ("Original Filename must be at least 4 digits followed by "
                        +:+ String dquote (".html" +:+ String dquote (" (e.g., "
                        +:+ String dquote ("0001.html" +:+ String dquote ")."))))))
    else
      existingChapters ← getChaptersForStory first fs story_folder_name;
      taken ← Array_some
                (fun chap => n ← get_prop chap "chapter_number";
                             Resolved (strict_equals n (VNumber numChapterNumber)))
                existingChapters;
      if taken : bool then
        Resolved (inl (Render 200 "admin/chapter_form"
                         ("Chapter Number " +:+ Number_toString numChapterNumber
                          +:+ " already exists for this story.")))
      else
        named ← Array_some
                  (fun chap => n ← get_prop chap "original_file_name";
                               Resolved (strict_equals n (VString original_file_name)))
                  existingChapters;
        if named : bool then
          Resolved (inl (Render 200 "admin/chapter_form"
                           ("Original Filename " +:+ String dquote (original_file_name
                            +:+ String dquote " already exists as metadata for this story."))))
        else
          let contentFilePath :=
            path_join [__dirname; story_folder_name; original_file_name] in
          match access fs contentFilePath with
          | Resolved _ =>
              Resolved (inl (Render 200 "admin/chapter_form"
                               ("Content file "
                                +:+ String dquote (story_folder_name +:+ "/"
                                +:+ original_file_name
                                +:+ String dquote " already exists on the filesystem."))))
          | Rejected e =>
              if is_ENOENT e then Resolved (inr numChapterNumber)
              else Rejected e
          end.

Definition create_chapter (first : nat) (fs : filesystem)
    (story_folder_name title chapter_number original_file_name content : string)
    : filesystem * response :=
  let failed :=
    Render 500 "admin/chapter_form"
      "An error occurred while creating the chapter. Please try again." in
  match check_chapter first fs story_folder_name title chapter_number
          original_file_name content with
  | Rejected _ => (fs, failed)
  | Resolved (inl page) => (fs, page)
  | Resolved (inr numChapterNumber) =>
      match create_files fs story_folder_name title numChapterNumber
              original_file_name content with
      | (fs', Rejected _) => (fs', failed)
      | (fs', Resolved _) =>
          (fs', Redirect ("/admin/stories/" +:+ story_folder_name +:+ "/chapters"))
      end
  end.

End FileService.

(** ** The other routes of app.js *)

(** What the handlers that can fall back to plain text answer with:
    a page or a redirection, or [res.status(status).send(body)]. *)
Inductive answer : Type :=
  | Answer (r : response)
  | Send (status : nat) (body : string).

(** A page with everything its view is given. *)
Record page : Type := {
  page_status : nat;
  page_view : string;
  page_locals : list (string * value)
}.

(** [a || b] on values. *)
Definition or_else (a b : value) : value := if truthy a then a else b.

Section Routes.

Variable __dirname : string.
Variable ToNumber_other : value -> result number.

(** The text of an error's [message]; it is left open. *)
Variable error_message : error -> string.

(** *** Stories ([POST /admin/stories], [POST /admin/stories/edit/:folder_name],
    [POST /admin/stories/delete/:folder_name]) *)

(** [/^[a-z0-9]+(?:-[a-z0-9]+)*$/.test(name)]: [in_word] says that the
    character before was a letter or a digit. *)
Definition is_lower_alnum (c : ascii) : bool :=
  let n := N_of_ascii c in
  ((97 <=? n)%N && (n <=? 122)%N) || is_digit c.

Fixpoint folder_name_words (in_word : bool) (s : string) : bool :=
  match s with
  | EmptyString => in_word
  | String c r =>
      if is_lower_alnum c then folder_name_words true r
      else if Ascii.eqb c "-" then in_word && folder_name_words false r
      else false
  end.

Definition folderNameRegex_test (name : string) : bool :=
  folder_name_words false name.

(** [story => story.folder_name === folder_name] *)
Definition has_folder_name (folder_name : string) (story : value) : result bool :=
  f ← get_prop story "folder_name";
  Resolved (strict_equals f (VString folder_name)).

(** [story => story.folder_name !== folder_name] *)
Definition has_other_folder_name (folder_name : string) (story : value)
    : result bool :=
  f ← get_prop story "folder_name";
  Resolved (negb (strict_equals f (VString folder_name))).

(** [fs.writeFile(path, JSON.stringify(v, null, 4))] *)
Definition write_json (fs : filesystem) (p : string) (v : value)
    : result filesystem :=
  match JSON_stringify v with
  | None => Rejected (TypeError "The data argument must be of type string")
  | Some text => writeFile fs p text
  end.

(** The fields of a request are strings, as the forms of the pages
    submit them; a field that is missing counts as the empty one ([!x]
    and [x || ""] do not tell them apart).  A JSON body can carry numbers,
    arrays and objects in their place: such requests are outside the
    model, and the properties of the handlers say so. *)
Definition create_story (fs : filesystem) (title folder_name description : string)
    : filesystem * response :=
  let failed :=
    Render 500 "admin/story_form"
      "An error occurred while creating the story. Please try again." in
  if String.eqb title EmptyString || String.eqb folder_name EmptyString then
    (fs, Render 200 "admin/story_form" "Title and Folder Name are required.")
  else if negb (folderNameRegex_test folder_name) then
    (fs, Render 200 "admin/story_form"
           ("Folder Name must be lowercase, alphanumeric, and use hyphens for spaces (e.g., "
            +:+ String dquote ("my-story" +:+ String dquote ").")))
  else
    match getStories __dirname fs with
    | Resolved (VArray existingStories) =>
        match Array_some (has_folder_name folder_name) existingStories with
        | Rejected _ => (fs, failed)
        | Resolved true =>
            (fs, Render 200 "admin/story_form"
                   "Folder Name already exists. Please choose a unique one.")
        | Resolved false =>
            let newStory :=
              VObject [("id", VString folder_name);
                       ("title", VString title);
                       ("folder_name", VString folder_name);
                       ("description", VString description)] in
            let storiesFilePath := path_join [__dirname; "data"; "stories.json"] in
            match write_json fs storiesFilePath (VArray (existingStories ++ [newStory])) with
            | Rejected _ => (fs, failed)
            | Resolved fs1 =>
                let newStoryChaptersDir :=
                  path_join [__dirname; "data"; "chapters"; folder_name] in
                match mkdir_recursive fs1 newStoryChaptersDir with
                | Rejected _ => (fs1, failed)
                | Resolved fs2 => (fs2, Redirect "/admin")
                end
            end
        end
    | _ => (fs, failed)
    end.

Definition edit_story (fs : filesystem) (original_folder_name title description : string)
    : filesystem * response :=
  let failed :=
    Render 500 "admin/story_form"
      "An error occurred while updating the story. Please try again." in
  if String.eqb title EmptyString then
    (fs, Render 200 "admin/story_form" "Title is required.")
  else
    match getStories __dirname fs with
    | Resolved (VArray existingStories) =>
        match Array_findIndex (has_folder_name original_folder_name) existingStories with
        | Rejected _ => (fs, failed)
        | Resolved storyIndex =>
            if storyIndex =? -1 then
              (fs, Render 404 "admin/story_form"
                     "Story to update not found. It might have been deleted.")
            else
              let story := Array_get existingStories storyIndex in
              let story := assign story "title" (VString title) in
              let story := assign story "description" (VString description) in
              let existingStories := <[Z.to_nat storyIndex := story]> existingStories in
              let storiesFilePath := path_join [__dirname; "data"; "stories.json"] in
              match write_json fs storiesFilePath (VArray existingStories) with
              | Rejected _ => (fs, failed)
              | Resolved fs1 => (fs1, Redirect "/admin")
              end
        end
    | _ => (fs, failed)
    end.

(** The [try] of the delete handler: the catalog without the story, then
    the chapter directory. *)
Definition remove_story (fs : filesystem) (folder_name : string)
    : filesystem * result unit :=
  match getStories __dirname fs with
  | Rejected e => (fs, Rejected e)
  | Resolved (VArray existingStories) =>
      match Array_filter (has_other_folder_name folder_name) existingStories with
      | Rejected e => (fs, Rejected e)
      | Resolved remaining =>
          let storiesFilePath := path_join [__dirname; "data"; "stories.json"] in
          match
            (if (length remaining <? length existingStories)%nat
             then write_json fs storiesFilePath (VArray remaining)
             else Resolved fs)
          with
          | Rejected e => (fs, Rejected e)
          | Resolved fs1 =>
              let chapterDirPath := path_join [__dirname; "data"; "chapters"; folder_name] in
              match (_ ← access fs1 chapterDirPath; rm_recursive fs1 chapterDirPath) with
              | Resolved fs2 => (fs2, Resolved tt)
              | Rejected dirError =>
                  if is_ENOENT dirError then (fs1, Resolved tt)
                  else (fs1, Rejected dirError)
              end
          end
      end
  | Resolved _ => (fs, Rejected (TypeError "existingStories.filter is not a function"))
  end.

Definition delete_story (fs : filesystem) (folder_name : string)
    : filesystem * answer :=
  match remove_story fs folder_name with
  | (fs', Resolved _) => (fs', Answer (Redirect "/admin"))
  | (fs', Rejected error) =>
      match getStories __dirname fs' with
      | Resolved _ =>
          (fs', Answer (Render 500 "admin/dashboard"
                          ("Failed to delete story '" +:+ folder_name
                           +:+ "'. Error: " +:+ error_message error)))
      | Rejected _ =>
          (fs', Send 500 ("Failed to delete story '" +:+ folder_name
                          +:+ "' and also failed to reload the admin dashboard."))
      end
  end.

(** *** Chapters ([POST /admin/stories/:story_folder_name/chapters/delete/:chapter_filename_root],
    [POST /admin/stories/:story_folder_name/chapters/edit/:chapter_filename_root]) *)

(** [fs.unlink(path)] in a [try] whose [catch] lets [ENOENT] pass. *)
Definition unlink_if_there (fs : filesystem) (p : string) : result filesystem :=
  match unlink fs p with
  | Resolved fs' => Resolved fs'
  | Rejected e => if is_ENOENT e then Resolved fs else Rejected e
  end.

(** [path.join(__dirname, v)]: every argument has to be a string. *)
Definition join_dirname (v : value) : result string :=
  match v with
  | VString s => Resolved (path_join [__dirname; s])
  | _ => Rejected (TypeError "The path argument must be of type string")
  end.

(** The [try] of the delete handler: the content file when the metadata
    names one, then the metadata file. *)
Definition remove_chapter (fs : filesystem)
    (story_folder_name chapter_filename_root : string) : filesystem * result unit :=
  let jsonMetadataPath :=
    path_join [__dirname; "data"; "chapters"; story_folder_name;
               chapter_filename_root +:+ ".json"] in
  match getChapterDetails __dirname fs story_folder_name chapter_filename_root with
  | Rejected e => (fs, Rejected e)
  | Resolved chapterDetails =>
      match
        (if truthy chapterDetails then
           content_path ← get_prop chapterDetails "content_path";
           if truthy content_path then
             htmlFilePath ← join_dirname content_path;
             unlink_if_there fs htmlFilePath
           else Resolved fs
         else Resolved fs)
      with
      | Rejected e => (fs, Rejected e)
      | Resolved fs1 =>
          match unlink_if_there fs1 jsonMetadataPath with
          | Rejected e => (fs1, Rejected e)
          | Resolved fs2 => (fs2, Resolved tt)
          end
      end
  end.

Definition delete_chapter (first : nat) (fs : filesystem)
    (story_folder_name chapter_filename_root : string) : filesystem * answer :=
  match remove_chapter fs story_folder_name chapter_filename_root with
  | (fs', Resolved _) =>
      (fs', Answer (Redirect ("/admin/stories/" +:+ story_folder_name +:+ "/chapters")))
  | (fs', Rejected error) =>
      match
        (story ← getStoryByFolderName __dirname fs' story_folder_name;
         getChaptersForStory __dirname ToNumber_other first fs' story_folder_name)
      with
      | Resolved _ =>
          (fs', Answer (Render 500 "admin/manage_chapters"
                          ("Failed to delete chapter '" +:+ chapter_filename_root
                           +:+ "'. Error: " +:+ error_message error)))
      | Rejected _ =>
          (fs', Send 500 ("Failed to delete chapter '" +:+ chapter_filename_root
                          +:+ "' and also failed to reload the chapter management page."))
      end
  end.

(** [chap => chap.chapter_number === numChapterNumber
             && chap.original_file_name !== current_original_file_name] *)
Definition number_of_another (numChapterNumber : number)
    (current_original_file_name : string) (chap : value) : result bool :=
  n ← get_prop chap "chapter_number";
  if strict_equals n (VNumber numChapterNumber) then
    o ← get_prop chap "original_file_name";
    Resolved (negb (strict_equals o (VString current_original_file_name)))
  else Resolved false.

(** The checks of the edit handler, on a request whose fields are
    strings; [inl] is the page an unmet check answers with, [inr] the
    chapter number and the record on file when all are met. *)
Definition check_edit (first : nat) (fs : filesystem)
    (story_folder_name chapter_filename_root title chapter_number content : string)
    : result (response + number * value) :=
  let current_original_file_name := chapter_filename_root +:+ ".html" in
  story ← getStoryByFolderName __dirname fs story_folder_name;
  if negb (truthy story) then
    Resolved (inl (Render 404 "admin/chapter_form"
                     "Associated story not found. Cannot update chapter."))
  else
    existingChapterDetails ←
      getChapterDetails __dirname fs story_folder_name chapter_filename_root;
    if negb (truthy existingChapterDetails) then
      Resolved (inl (Render 404 "admin/chapter_form"
                       "Chapter to update not found. It might have been deleted."))
    else if String.eqb title EmptyString || String.eqb chapter_number EmptyString
            || String.eqb content EmptyString then
      Resolved (inl (Render 200 "admin/chapter_form"
                       "Title, Chapter Number, and Content are required."))
    else
      let numChapterNumber := parseInt chapter_number in
      if is_NaN numChapterNumber || at_most_zero numChapterNumber then
        Resolved (inl (Render 200 "admin/chapter_form"
                         "Chapter Number must be a positive integer."))
      else
        allChapters ←
          getChaptersForStory __dirname ToNumber_other first fs story_folder_name;
        taken ← Array_some
                  (number_of_another numChapterNumber current_original_file_name)
                  allChapters;
        if taken : bool then
          Resolved (inl (Render 200 "admin/chapter_form"
                           ("Chapter Number " +:+ Number_toString numChapterNumber
                            +:+ " already exists for another chapter in this story.")))
        else Resolved (inr (numChapterNumber, existingChapterDetails)).

(** "All checks passed, proceed to update files": the content file, then
    the metadata with the new title and number. *)
Definition update_files (fs : filesystem)
    (story_folder_name chapter_filename_root title : string)
    (numChapterNumber : number) (content : string) (existingChapterDetails : value)
    : filesystem * result unit :=
  match
    (content_path ← get_prop existingChapterDetails "content_path";
     join_dirname content_path)
  with
  | Rejected e => (fs, Rejected e)
  | Resolved contentFilePath =>
      match writeFile fs contentFilePath (toWellFormed content) with
      | Rejected e => (fs, Rejected e)
      | Resolved fs1 =>
          let metadataFilePath :=
            path_join [__dirname; "data"; "chapters"; story_folder_name;
                       chapter_filename_root +:+ ".json"] in
          let updatedChapterMetadata :=
            VObject (set_prop (set_prop (own_props existingChapterDetails)
                                 "title" (VString title))
                       "chapter_number" (VNumber numChapterNumber)) in
          match write_json fs1 metadataFilePath updatedChapterMetadata with
          | Rejected e => (fs1, Rejected e)
          | Resolved fs2 => (fs2, Resolved tt)
          end
      end
  end.

Definition edit_chapter (first : nat) (fs : filesystem)
    (story_folder_name chapter_filename_root title chapter_number content : string)
    : filesystem * response :=
  let failed :=
    Render 500 "admin/chapter_form"
      "An error occurred while updating the chapter. Please try again." in
  match check_edit first fs story_folder_name chapter_filename_root title
          chapter_number content with
  | Rejected _ => (fs, failed)
  | Resolved (inl page) => (fs, page)
  | Resolved (inr (numChapterNumber, existingChapterDetails)) =>
      match update_files fs story_folder_name chapter_filename_root title
              numChapterNumber content existingChapterDetails with
      | (fs', Rejected _) => (fs', failed)
      | (fs', Resolved _) =>
          (fs', Redirect ("/admin/stories/" +:+ story_folder_name +:+ "/chapters"))
      end
  end.

(** *** Reading ([GET /stories/:folder_name],
    [GET /stories/:folder_name/chapters/:chapter_filename_root]) *)

Definition story_chapters (first : nat) (fs : filesystem) (folder_name : string)
    : page :=
  match
    (story ← getStoryByFolderName __dirname fs folder_name;
     if negb (truthy story) then
       Resolved {| page_status := 404; page_view := "story_chapters";
                   page_locals := [("story", VNull); ("chapters", VArray []);
                                   ("error", VString "Story not found.");
                                   ("title", VString "Story Not Found")] |}
     else
       chapters ← getChaptersForStory __dirname ToNumber_other first fs folder_name;
       title ← get_prop story "title";
       Resolved {| page_status := 200; page_view := "story_chapters";
                   page_locals := [("story", story); ("chapters", VArray chapters);
                                   ("error", VNull);
                                   ("title", or_else title (VString "Story Chapters"))] |})
  with
  | Resolved p => p
  | Rejected _ =>
      {| page_status := 500; page_view := "story_chapters";
         page_locals :=
           [("story", VNull); ("chapters", VArray []);
            ("error", VString "Could not load story details or chapters. Please try again later.");
            ("title", VString "Error")] |}
  end.

(** [content_path] is handed to [path.join], which takes strings only. *)
Definition read_content (fs : filesystem) (content_path : value) : result string :=
  match content_path with
  | VString contentPath => readChapterContent __dirname fs contentPath
  | _ => Rejected (TypeError "The path argument must be of type string")
  end.

Definition chapter_detail (first : nat) (fs : filesystem)
    (folder_name chapter_filename_root : string) : page :=
  let without (status : nat) (error title : string) :=
    {| page_status := status; page_view := "chapter_detail";
       page_locals := [("metadata", VNull); ("chapterContent", VNull);
                       ("previousChapter", VNull); ("nextChapter", VNull);
                       ("error", VString error); ("title", VString title);
                       ("currentStoryFolderName", VString folder_name)] |} in
  match
    (chapterMetadata ← getChapterDetails __dirname fs folder_name chapter_filename_root;
     if negb (truthy chapterMetadata) then
       Resolved (without 404%nat "Chapter not found." "Chapter Not Found")
     else
       content_path ← get_prop chapterMetadata "content_path";
       chapterContent ← read_content fs content_path;
       allChapters ← getChaptersForStory __dirname ToNumber_other first fs folder_name;
       neighbours ← adjacent_chapters allChapters chapterMetadata;
       title ← get_prop chapterMetadata "title";
       Resolved {| page_status := 200; page_view := "chapter_detail";
                   page_locals :=
                     [("metadata", chapterMetadata);
                      ("chapterContent", VString chapterContent);
                      ("previousChapter", fst neighbours);
                      ("nextChapter", snd neighbours);
                      ("error", VNull);
                      ("title", or_else title (VString "Chapter Detail"));
                      ("currentStoryFolderName", VString folder_name)] |})
  with
  | Resolved p => p
  | Rejected _ =>
      without 500%nat "Could not load chapter content. Please try again later." "Error"
  end.

(** *** Signing in ([POST /login], [isAuthenticated] of auth.js) *)

(** A session is given by its [user] property ([undefined] until someone
    signs in).  The fields of the request and the two environment
    variables are [undefined] when they are missing. *)
Definition login (user username password adminUsername adminPassword : value)
    : value * response :=
  if strict_equals username adminUsername && strict_equals password adminPassword
  then (VObject [("username", adminUsername)], Redirect "/admin")
  else (user, Render 200 "login" "Invalid username or password.").

(** [isAuthenticated]: [None] is [next()], the request goes on to its
    handler.  A request without a session has [session = None]. *)
Definition isAuthenticated (session : option value) : option response :=
  match session with
  | Some user => if truthy user then None else Some (Redirect "/login")
  | None => Some (Redirect "/login")
  end.

End Routes.

(** ** Vocabulary of the properties *)

(** The chapter number of a metadata record, when it holds a number. *)
Definition chapter_number_of (v : value) : option number :=
  match v with
  | VObject props =>
      match lookup_prop props "chapter_number" with
      | VNumber n => Some n
      | _ => None
      end
  | _ => None
  end.

(** The string a record holds under [k]. *)
Definition string_field (k : string) (v : value) : option string :=
  match v with
  | VObject props =>
      match lookup_prop props k with
      | VString s => Some s
      | _ => None
      end
  | _ => None
  end.

(** The order of the numbers; [NaN] is unordered. *)
Definition number_le (a b : number) : Prop :=
  match a, b with
  | NaN, _ | _, NaN => False
  | NegInfinity, _ => True
  | _, PosInfinity => True
  | Finite x, Finite y => x <= y
  | _, _ => False
  end.

(** A chapter record as the data model has it: an object whose
    [chapter_number] is a number (and not [NaN], which no JSON text
    denotes). *)
Definition is_chapter (v : value) : Prop :=
  exists n, chapter_number_of v = Some n /\ n <> NaN.

Definition chapter_numbers (chapters : list value) : list number :=
  omap chapter_number_of chapters.

(** A chapter comes no later than another when its number is at most
    the other's. *)
Definition chapter_le (a b : value) : Prop :=
  match chapter_number_of a, chapter_number_of b with
  | Some x, Some y => number_le x y
  | _, _ => False
  end.

(** A story record of the catalog. *)
Record Story : Type := {
  story_id : string;
  story_title : string;
  story_folder_name : string;
  story_description : string
}.

Definition story_value (s : Story) : value :=
  VObject
    [("id", VString (story_id s));
     ("title", VString (story_title s));
     ("folder_name", VString (story_folder_name s));
     ("description", VString (story_description s))].

(** A story record as a value: an object with the four declared fields,
    in whatever order, each holding a string, and no other property. *)
Definition declared_fields : list string :=
  ["id"; "title"; "folder_name"; "description"].

Definition is_story_record (v : value) : bool :=
  match v with
  | VObject props =>
      forallb (fun kv => existsb (String.eqb (fst kv)) declared_fields
                         && match snd kv with VString _ => true | _ => false end)
        props
      && forallb (fun k => existsb (fun kv => String.eqb (fst kv) k) props)
           declared_fields
  | _ => false
  end.

(** The catalog file as the application writes it:
    [JSON.stringify(stories, null, 4)]. *)
Definition catalog_text (stories : list Story) : string :=
  serialize EmptyString (VArray (map story_value stories)).

(** Each call [parse_value] makes on the text of a value uses up one unit
    of fuel; this many are enough for the value. *)
Fixpoint fuel_for (v : value) : nat :=
  match v with
  | VArray items =>
      S (fold_right (fun x n => S (fuel_for x + n)) O items)
  | VObject props =>
      S (fold_right (fun kv n => S (fuel_for (snd kv) + n)) O props)
  | _ => 1%nat
  end.

(** The values [JSON.parse] gives back as they were written: no
    [undefined], no number that is not a finite double, no key twice. *)
Fixpoint writable (v : value) : Prop :=
  match v with
  | VUndefined => False
  | VNumber n =>
      match n with
      | Finite z => number_of_digits (z <? 0) (Z.abs_N z) = Finite z
      | _ => False
      end
  | VArray items => fold_right (fun x P => writable x /\ P) True items
  | VObject props =>
      NoDup (map fst props)
      /\ fold_right (fun kv P => writable (snd kv) /\ P) True props
  | _ => True
  end.

(** *** Reading back what was written *)

(** What [scan_string] makes of a character written by
    [escape_char]. *)
Definition unit_of (c : ascii) : ascii + N :=
  let n := N_of_ascii c in
  if (n =? 34)%N || (n =? 92)%N || (n <? 32)%N then inr n else inl c.

(** Where a number literal ends. *)
Definition stops (rest : string) : bool :=
  match rest with
  | EmptyString => true
  | String c _ =>
      negb (is_digit c || Ascii.eqb c "." || Ascii.eqb c "e" || Ascii.eqb c "E")
  end.

(** A string of white space only. *)
Fixpoint blank (s : string) : bool :=
  match s with
  | EmptyString => true
  | String c r => is_ws c && blank r
  end.

(** A line break, then [s]. *)
Definition newline (s : string) : string := String (ascii_of_N 10) s.

(** The text of one property of an object. *)
Definition member_text (indent : string) (kv : string * value) : string :=
  QuoteJSONString (fst kv) +:+ ": " +:+ serialize indent (snd kv).

(** Reading a value back from its text, whatever the indentation and
    whatever follows. *)
Definition parses (x : value) : Prop :=
  forall indent rest fuel,
    blank indent = true -> stops rest = true -> (fuel_for x <= fuel)%nat ->
    parse_value fuel (serialize indent x +:+ rest) = Some (x, rest).

(** *** JSON texts *)

(** A string literal with [body] between its quotes. *)
Definition json_literal (body : string) : string :=
  String dquote (body +:+ String dquote EmptyString).

(** The body of a string literal and the code units it stands for: a
    character written as it is, a short escape, or [\u] with four
    hexadecimal digits. *)
Inductive json_chars : list (ascii + N) -> string -> Prop :=
  | chars_end : json_chars [] EmptyString
  | chars_raw (c : ascii) (us : list (ascii + N)) (body : string) :
      (N_of_ascii c =? 34)%N = false ->
      (N_of_ascii c =? 92)%N = false ->
      (N_of_ascii c <? 32)%N = false ->
      json_chars us body ->
      json_chars (inl c :: us) (String c body)
  | chars_escape (e : ascii) (u : N) (us : list (ascii + N)) (body : string) :
      simple_escape e = Some u ->
      json_chars us body ->
      json_chars (inr u :: us) (String backslash (String e body))
  | chars_hex (h1 h2 h3 h4 : ascii) (u : N) (us : list (ascii + N)) (body : string) :
      hex4 h1 h2 h3 h4 = Some u ->
      json_chars us body ->
      json_chars (inr u :: us)
        (String backslash
           (String "u" (String h1 (String h2 (String h3 (String h4 body)))))).

(** The JSON texts of a value: its tokens, with whatever white space the
    grammar allows between them.  A string, a key as well, is in any of
    its spellings; an integer is written as [JSON.stringify] writes it;
    the keys of an object are distinct.  [json_elements] is what follows
    the opening bracket of an array that is not empty, [json_members] what
    follows the opening brace of an object that is not empty. *)
Inductive json_text : value -> string -> Prop :=
  | text_null : json_text VNull "null"
  | text_true : json_text (VBool true) "true"
  | text_false : json_text (VBool false) "false"
  | text_number (z : Z) :
      number_of_digits (z <? 0) (Z.abs_N z) = Finite z ->
      json_text (VNumber (Finite z)) (Z_to_string z)
  | text_string (us : list (ascii + N)) (body : string) :
      json_chars us body ->
      json_text (VString (encode_units us)) (json_literal body)
  | text_empty_array (w : string) :
      blank w = true ->
      json_text (VArray []) ("[" +:+ w +:+ "]")
  | text_array (items : list value) (w rest : string) :
      blank w = true ->
      json_elements items rest ->
      json_text (VArray items) ("[" +:+ w +:+ rest)
  | text_empty_object (w : string) :
      blank w = true ->
      json_text (VObject []) ("{" +:+ w +:+ "}")
  | text_object (props : list (string * value)) (w rest : string) :
      NoDup (map fst props) ->
      blank w = true ->
      json_members props rest ->
      json_text (VObject props) ("{" +:+ w +:+ rest)
with json_elements : list value -> string -> Prop :=
  | elements_last (x : value) (t w : string) :
      json_text x t -> blank w = true ->
      json_elements [x] (t +:+ w +:+ "]")
  | elements_more (x : value) (t w1 w2 : string) (items : list value) (rest : string) :
      json_text x t -> blank w1 = true -> blank w2 = true ->
      json_elements items rest ->
      json_elements (x :: items) (t +:+ w1 +:+ "," +:+ w2 +:+ rest)
with json_members : list (string * value) -> string -> Prop :=
  | members_last (us : list (ascii + N)) (key : string) (x : value) (t w1 w2 w3 : string) :
      json_chars us key -> json_text x t ->
      blank w1 = true -> blank w2 = true -> blank w3 = true ->
      json_members [(encode_units us, x)]
        (json_literal key +:+ w1 +:+ ":" +:+ w2 +:+ t +:+ w3 +:+ "}")
  | members_more (us : list (ascii + N)) (key : string) (x : value) (t w1 w2 w3 w4 : string)
      (props : list (string * value)) (rest : string) :
      json_chars us key -> json_text x t ->
      blank w1 = true -> blank w2 = true -> blank w3 = true -> blank w4 = true ->
      json_members props rest ->
      json_members ((encode_units us, x) :: props)
        (json_literal key +:+ w1 +:+ ":" +:+ w2 +:+ t +:+ w3 +:+ "," +:+ w4 +:+ rest).

Scheme json_text_rule := Minimality for json_text Sort Prop
  with json_elements_rule := Minimality for json_elements Sort Prop
  with json_members_rule := Minimality for json_members Sort Prop.

Combined Scheme json_text_rules
  from json_text_rule, json_elements_rule, json_members_rule.

(** *** Paths and file names *)

(** A path segment: a string without a slash. *)
Fixpoint noslash (s : string) : bool :=
  match s with
  | EmptyString => true
  | String c r => negb (Ascii.eqb c slash) && noslash r
  end.

(** A segment [normalizeString] keeps. *)
Definition kept (s : string) : Prop :=
  s <> EmptyString /\ s <> "." /\ noslash s = true.

(** The stacks [normalizeString] builds: [..] only at the bottom, and only
    where the path may climb above its start. *)
Inductive normal (allowAboveRoot : bool) : list string -> Prop :=
  | normal_nil : normal allowAboveRoot []
  | normal_up st :
      allowAboveRoot = true -> normal allowAboveRoot st ->
      Forall (fun s => s = "..") st -> normal allowAboveRoot (".." :: st)
  | normal_seg s st :
      kept s -> s <> ".." -> normal allowAboveRoot st ->
      normal allowAboveRoot (s :: st).

(** The arguments of [path.join] that count. *)
Definition nonempty (l : list string) : list string :=
  List.filter (fun s => negb (String.eqb s EmptyString)) l.

(** A string of decimal digits. *)
Fixpoint digits_only (s : string) : bool :=
  match s with
  | EmptyString => true
  | String c r => is_digit c && digits_only r
  end.

(** Whether a story record has the folder name. *)
Definition named (folder_name : string) (s : Story) : bool :=
  String.eqb (story_folder_name s) folder_name.

(** The story a request to create one describes. *)
Definition new_story (title folder_name description : string) : Story :=
  {| story_id := folder_name; story_title := title;
     story_folder_name := folder_name; story_description := description |}.

(** A string without a backslash. *)
Fixpoint nobackslash (s : string) : bool :=
  match s with
  | EmptyString => true
  | String c r => negb (Ascii.eqb c backslash) && nobackslash r
  end.

(** A plain segment: one [normalizeString] keeps and that does not climb. *)
Definition plain (s : string) : Prop := kept s /\ s <> "..".

(** The absolute path with the given segments. *)
Definition rooted (segs : list string) : string := "/" +:+ join_with "/" segs.

(** The segments of the normal form of an absolute path. *)
Definition segments_of (p : string) : list string :=
  rev (fold_left (normalize_step false) (split_on slash p) []).

(** *** Absent paths *)



(** ** Sample data *)

(** A fresh installation under [/srv/app] with one story, [tale], and no
    chapter yet. *)
Definition installed : filesystem :=
  list_to_map
    [("/", Directory ["srv"]);
     ("/srv", Directory ["app"]);
     ("/srv/app", Directory ["data"]);
     ("/srv/app/data", Directory ["stories.json"; "chapters"]);
     ("/srv/app/data/chapters", Directory ["tale"]);
     ("/srv/app/data/chapters/tale", Directory []);
     ("/srv/app/data/stories.json",
      File (catalog_text
              [{| story_id := "tale"; story_title := "A tale";
                  story_folder_name := "tale"; story_description := "Once" |}]))].

Definition no_coercion (v : value) : result number := Resolved NaN.

(** Three chapters of [tale], numbered 1, 2, 3. *)
Definition chapter_record (title : string) (number : Z) (file : string) : value :=
  chapterMetadata "tale" title (Finite number) file.

Definition chapter_1 : value := chapter_record "One" 1 "0001.html".
Definition chapter_2 : value := chapter_record "Two" 2 "0002.html".
Definition chapter_3 : value := chapter_record "Three" 3 "0003.html".

Definition text_of (v : value) : string := serialize EmptyString v.

(** [tale] with its three chapters; the directory lists them out of
    order, next to a file that is no metadata. *)
Definition published : filesystem :=
  <["/srv/app/data/chapters/tale" := Directory ["0003.json"; "notes.txt"; "0001.json"; "0002.json"]]>
  (<["/srv/app/data/chapters/tale/0001.json" := File (text_of chapter_1)]>
  (<["/srv/app/data/chapters/tale/0002.json" := File (text_of chapter_2)]>
  (<["/srv/app/data/chapters/tale/0003.json" := File (text_of chapter_3)]>
  (<["/srv/app/data/chapters/tale/notes.txt" := File "to do"]> installed)))).

(** The same directory seen by another file system: another order, and
    other files that are no metadata. *)
Definition published_elsewhere : filesystem :=
  <["/srv/app/data/chapters/tale" := Directory ["cover.png"; "0003.json"; "0001.json"; "draft.md"; "0002.json"]]>
  (<["/srv/app/data/chapters/tale/cover.png" := Unreadable]>
  (delete "/srv/app/data/chapters/tale/notes.txt" published)).

(** [tale] with one chapter file, which is no JSON text. *)
Definition cut_short : filesystem :=
  <["/srv/app/data/chapters/tale" := Directory ["0002.json"]]>
  (<["/srv/app/data/chapters/tale/0002.json" := File "{ title: One }"]> installed).

(** The same when [0001.json] is listed too but is not there (a dangling
    link, or a chapter deleted a moment ago). *)
Definition half_gone : filesystem :=
  <["/srv/app/data/chapters/tale" := Directory ["0001.json"; "0002.json"]]> cut_short.

(** A chapter number of 310 digits: a one and 309 zeros. *)
Definition huge_chapter_number : string :=
  String "1" (fold_right (fun _ s => String "0" s) EmptyString (seq 0 309)).

(** The record of [tale] in the catalog. *)
Definition tale : Story :=
  {| story_id := "tale"; story_title := "A tale";
     story_folder_name := "tale"; story_description := "Once" |}.

(** [published] with the content files of its chapters. *)
Definition readable : filesystem :=
  <["/srv/app" := Directory ["data"; "tale"]]>
  (<["/srv/app/tale" := Directory ["0001.html"; "0002.html"; "0003.html"]]>
  (<["/srv/app/tale/0001.html" := File "<p>one</p>"]>
  (<["/srv/app/tale/0002.html" := File "<p>two</p>"]>
  (<["/srv/app/tale/0003.html" := File "<p>three</p>"]> published)))).

Definition no_message (e : error) : string := EmptyString.

(** A second story, and [readable] with it: in the catalog, with one
    chapter. *)
Definition saga : Story :=
  {| story_id := "saga"; story_title := "A saga";
     story_folder_name := "saga"; story_description := "Long ago" |}.

Definition library : filesystem :=
  <["/srv/app/data/stories.json" := File (catalog_text [tale; saga])]>
  (<["/srv/app/data/chapters" := Directory ["tale"; "saga"]]>
  (<["/srv/app/data/chapters/saga" := Directory ["0001.json"]]>
  (<["/srv/app/data/chapters/saga/0001.json" :=
       File (text_of (chapterMetadata "saga" "First" (Finite 1) "0001.html"))]>
   readable))).

(** A catalog in which two records share the folder name [tale], after a
    record of [saga]; and the same records, in an order that is the order
    of none of their fields, in a file with a line break before and after
    the text. *)
Definition tale_again : Story :=
  {| story_id := "tale-2"; story_title := "Another tale";
     story_folder_name := "tale"; story_description := "Twice" |}.

Definition doubled : filesystem :=
  <["/srv/app/data/stories.json" := File (catalog_text [saga; tale; tale_again])]> installed.

Definition padded : filesystem :=
  <["/srv/app/data/stories.json" :=
      File (newline (catalog_text [tale_again; saga; tale] +:+ newline EmptyString))]>
  installed.

(** The same three records in a file written by hand: the array between
    a line break and a blank, the first record on one line without a
    blank, the second with a blank between all its tokens, the third with
    a line break between them, its fields in another order and its title
    spelled with two escapes. *)
Definition crlf : string := String (ascii_of_N 13) (String (ascii_of_N 10) EmptyString).
Definition tab : string := String (ascii_of_N 9) EmptyString.

Definition record_text (w k1 s1 k2 s2 k3 s3 k4 s4 : string) : string :=
  "{" +:+ w
  +:+ QuoteJSONString k1 +:+ w +:+ ":" +:+ w +:+ json_literal s1 +:+ w +:+ "," +:+ w
  +:+ QuoteJSONString k2 +:+ w +:+ ":" +:+ w +:+ json_literal s2 +:+ w +:+ "," +:+ w
  +:+ QuoteJSONString k3 +:+ w +:+ ":" +:+ w +:+ json_literal s3 +:+ w +:+ "," +:+ w
  +:+ QuoteJSONString k4 +:+ w +:+ ":" +:+ w +:+ json_literal s4 +:+ w +:+ "}".

Definition by_hand_text : string :=
  "[ "
  +:+ record_text EmptyString
        "id" "tale-2" "title" "Another tale" "folder_name" "tale" "description" "Twice"
  +:+ "," +:+ crlf
  +:+ record_text " "
        "id" "saga" "title" "A saga" "folder_name" "saga" "description" "Long ago"
  +:+ tab +:+ ","
  +:+ record_text crlf
        "description" "Once" "folder_name" "tale"
        "title" ("A" +:+ String backslash "u0020t" +:+ String backslash "u0061le")
        "id" "tale"
  +:+ crlf +:+ "]".

Definition by_hand_records : list value :=
  [story_value tale_again;
   story_value saga;
   VObject [("description", VString "Once"); ("folder_name", VString "tale");
            ("title", VString "A tale"); ("id", VString "tale")]].

Definition by_hand : filesystem :=
  <["/srv/app/data/stories.json" := File (crlf +:+ by_hand_text +:+ " ")]> installed.

(** A content with a lone surrogate in it, U+D800. *)
Definition broken_content : string := "<p>" +:+ utf8 55296 +:+ "</p>".


(** * Properties *)

(** ** The platform model *)

Lemma bind_Resolved {A B} (r : result A) (k : A -> result B) (b : B) :
  (r ≫= k) = Resolved b -> exists a, r = Resolved a /\ k a = Resolved b.
Proof.
  destruct r as [a|e]; cbn; [eauto | discriminate].
Qed.

Lemma readFile_ENOENT (fs : filesystem) (p : string) (e : error) :
  readFile fs p = Rejected e -> (is_ENOENT e = true <-> fs !! p = None).
Proof.
  unfold readFile.
  destruct (fs !! p) as [[]|] eqn:E; intros H; inversion H; subst; cbn;
    split; congruence.
Qed.

Lemma readFile_rejection_is_system (fs : filesystem) (p : string) (e : error) :
  readFile fs p = Rejected e -> exists c, e = SystemError c.
Proof.
  unfold readFile.
  destruct (fs !! p) as [[]|]; intros H; inversion H; eauto.
Qed.



Lemma JSON_parse_rejection (text : string) (e : error) :
  JSON_parse text = Rejected e -> is_ENOENT e = false.
Proof.
  unfold JSON_parse.
  repeat case_match; intros Hv; inversion Hv; reflexivity.
Qed.

Lemma append_cons (c : ascii) (a b : string) :
  String c a +:+ b = String c (a +:+ b).
Proof. reflexivity. Qed.

Lemma append_nil_l (b : string) : EmptyString +:+ b = b.
Proof. reflexivity. Qed.

(** [endsWith] is what its name says. *)
Lemma substring_whole (s : string) : substring 0 (String.length s) s = s.
Proof.
  induction s as [|c s IH]; cbn; [reflexivity | now rewrite IH].
Qed.

Lemma substring_skip (p s : string) (m : nat) :
  substring (String.length p) m (p +:+ s) = substring 0 m s.
Proof.
  induction p as [|c p IH]; [reflexivity|].
  rewrite append_cons. cbn. exact IH.
Qed.

Lemma substring_split (s : string) (k : nat) :
  (k <= String.length s)%nat ->
  s = substring 0 k s +:+ substring k (String.length s - k) s.
Proof.
  revert k. induction s as [|c s IH]; intros k Hk; cbn in Hk.
  - destruct k; [reflexivity | lia].
  - destruct k as [|k].
    + cbn [substring String.append]. cbn [String.length Nat.sub].
      change (String c s = substring 0 (String.length (String c s)) (String c s)).
      now rewrite substring_whole.
    + cbn. rewrite append_cons. f_equal. apply IH. lia.
Qed.

Lemma length_append (a b : string) :
  String.length (a +:+ b) = (String.length a + String.length b)%nat.
Proof.
  induction a as [|c a IH]; [reflexivity|].
  rewrite append_cons. cbn. now rewrite IH.
Qed.

Lemma endsWith_spec (s suffix : string) :
  endsWith s suffix = true <-> exists p, s = p +:+ suffix.
Proof.
  unfold endsWith. split.
  - intros H. apply andb_true_iff in H as [Hle Heq].
    apply Nat.leb_le in Hle. apply String.eqb_eq in Heq.
    exists (substring 0 (String.length s - String.length suffix) s).
    pose proof (substring_split s (String.length s - String.length suffix)) as Hs.
    replace (String.length s - (String.length s - String.length suffix))%nat
      with (String.length suffix) in Hs by lia.
    rewrite Heq in Hs. apply Hs. lia.
  - intros [p ->]. rewrite length_append.
    apply andb_true_iff. split; [apply Nat.leb_le; lia|].
    replace (String.length p + String.length suffix - String.length suffix)%nat
      with (String.length p) by lia.
    rewrite substring_skip, substring_whole. apply String.eqb_refl.
Qed.

(** ** JSON text read back *)

(** *** Strings *)

Lemma scan_string_escape_char (c : ascii) (tail : string) :
  scan_string (escape_char c +:+ tail)
  = match scan_string tail with
    | Some (us, rest) => Some (unit_of c :: us, rest)
    | None => None
    end.
Proof.
  destruct c as [[] [] [] [] [] [] [] []]; reflexivity.
Qed.

Lemma encode_units_unit_of (c : ascii) (us : list (ascii + N)) :
  encode_units (unit_of c :: us) = String c (encode_units us).
Proof.
  destruct c as [[] [] [] [] [] [] [] []]; try reflexivity;
    destruct us as [|[a|u] us]; reflexivity.
Qed.

Lemma append_assoc (a b c : string) : (a +:+ b) +:+ c = a +:+ (b +:+ c).
Proof.
  induction a as [|x a IH]; [reflexivity|].
  rewrite !append_cons, IH. reflexivity.
Qed.

Lemma parse_string_escape (s rest : string) :
  parse_string (escape s +:+ String dquote rest) = Some (s, rest).
Proof.
  unfold parse_string.
  assert (H : scan_string (escape s +:+ String dquote rest)
              = Some (map unit_of (list_ascii_of_string s), rest)).
  { induction s as [|c s IH]; [reflexivity|].
    cbn [escape]. rewrite append_assoc, scan_string_escape_char, IH. reflexivity. }
  assert (E : encode_units (map unit_of (list_ascii_of_string s)) = s).
  { clear H. induction s as [|c s IH]; [reflexivity|].
    cbn [list_ascii_of_string map]. rewrite encode_units_unit_of, IH. reflexivity. }
  rewrite H, E. reflexivity.
Qed.

(** *** Numbers *)

Lemma span_digits_stops (rest : string) :
  stops rest = true -> span_digits rest = (EmptyString, rest).
Proof.
  destruct rest as [|c r]; [reflexivity|].
  cbn. destruct (is_digit c); [discriminate | reflexivity].
Qed.

Lemma span_digits_uint (d : Decimal.uint) (rest : string) :
  stops rest = true ->
  span_digits (NilEmpty.string_of_uint d +:+ rest)
  = (NilEmpty.string_of_uint d, rest).
Proof.
  intros Hrest.
  induction d as [|d IH|d IH|d IH|d IH|d IH|d IH|d IH|d IH|d IH|d IH];
    cbn [NilEmpty.string_of_uint];
    [apply span_digits_stops, Hrest | ..];
    rewrite append_cons; cbn [span_digits]; rewrite IH; reflexivity.
Qed.

Lemma nzhead_head (d : Decimal.uint) :
  match Decimal.nzhead d with
  | Decimal.D0 _ => False
  | _ => True
  end.
Proof.
  induction d; cbn; auto.
Qed.

(** The digits of a positive number: a digit other than zero first. *)
Lemma digits_of_Npos (p : positive) :
  exists d, Pos.to_uint p = d /\ d <> Decimal.Nil
            /\ digits_of_N (Npos p) = NilEmpty.string_of_uint d
            /\ match d with Decimal.D0 _ => False | _ => True end.
Proof.
  exists (Pos.to_uint p). split; [reflexivity|].
  pose proof (DecimalPos.Unsigned.to_uint_nonnil p) as Hnil.
  split; [exact Hnil|]. split.
  - unfold digits_of_N. cbn [N.to_uint].
    destruct (Pos.to_uint p); [congruence | reflexivity..].
  - pose proof (DecimalPos.Unsigned.to_of (Pos.to_uint p)) as H.
    rewrite DecimalPos.Unsigned.of_to in H. cbn [N.to_uint] in H.
    pose proof (nzhead_head (Pos.to_uint p)) as Hh.
    unfold Decimal.unorm in H.
    destruct (Decimal.nzhead (Pos.to_uint p)) eqn:E; rewrite H; try exact I.
    + exfalso. apply (DecimalPos.Unsigned.to_uint_nonzero p). exact H.
    + destruct Hh.
Qed.

Lemma digits_value_of_N (n : N) : digits_value (digits_of_N n) = Some n.
Proof.
  unfold digits_value, digits_of_N.
  rewrite NilZero.usu.
  - f_equal. apply DecimalN.Unsigned.of_to.
  - destruct n; [discriminate | apply DecimalPos.Unsigned.to_uint_nonnil].
Qed.

Lemma read_digits_Npos (negative : bool) (p : positive) (rest : string) :
  stops rest = true ->
  read_digits negative (digits_of_N (Npos p) +:+ rest)
  = Some (number_of_digits negative (Npos p), rest).
Proof.
  intros Hrest. unfold read_digits.
  destruct (digits_of_Npos p) as (d & _ & Hnil & Hd & Hhead).
  pose proof (digits_value_of_N (Npos p)) as Hval.
  rewrite Hd in Hval |- *. rewrite span_digits_uint by exact Hrest.
  assert (Hcont : match rest with
                  | String c _ => Ascii.eqb c "." || Ascii.eqb c "e" || Ascii.eqb c "E"
                  | EmptyString => false
                  end = false).
  { destruct rest as [|c r]; [reflexivity|]. cbn in Hrest.
    destruct (is_digit c); [discriminate|]. cbn in Hrest.
    destruct (_ || _); [discriminate | reflexivity]. }
  rewrite Hcont.
  destruct d; try contradiction; cbn [NilEmpty.string_of_uint] in *;
    rewrite Hval; reflexivity.
Qed.

Lemma parse_number_digit (c : ascii) (r : string) :
  is_digit c = true -> parse_number (String c r) = read_digits false (String c r).
Proof.
  destruct c as [[] [] [] [] [] [] [] []]; try discriminate; reflexivity.
Qed.

Lemma digits_of_Npos_head (p : positive) :
  exists c s, digits_of_N (Npos p) = String c s /\ is_digit c = true.
Proof.
  destruct (digits_of_Npos p) as (d & _ & Hnil & Hd & _). rewrite Hd.
  destruct d; try congruence; cbn; eauto.
Qed.

Lemma parse_number_Z (z : Z) (rest : string) :
  stops rest = true ->
  parse_number (Z_to_string z +:+ rest)
  = Some (number_of_digits (z <? 0)%Z (Z.abs_N z), rest).
Proof.
  intros Hrest. destruct z as [|p|p]; cbn [Z_to_string Z.ltb Z.compare Z.abs_N].
  - change (parse_number (String "0" rest) = Some (number_of_digits false 0, rest)).
    rewrite parse_number_digit by reflexivity.
    unfold read_digits. cbn [span_digits].
    change (is_digit "0") with true. cbn iota.
    rewrite (span_digits_stops rest Hrest).
    destruct rest as [|c r]; [reflexivity|]. cbn in Hrest.
    destruct (is_digit c); [discriminate|]. cbn in Hrest.
    destruct (_ || _); [discriminate | reflexivity].
  - destruct (digits_of_Npos_head p) as (c & s & Hc & Hd).
    rewrite <- (read_digits_Npos false p rest Hrest).
    rewrite Hc, append_cons. apply parse_number_digit, Hd.
  - rewrite append_cons, append_nil_l.
    apply (read_digits_Npos true p rest Hrest).
Qed.

Lemma Z_to_string_head (z : Z) :
  exists c s, Z_to_string z = String c s
              /\ (Ascii.eqb c "-" || is_digit c = true).
Proof.
  destruct z as [|p|p]; cbn [Z_to_string].
  - exists "0"%char, EmptyString. split; reflexivity.
  - destruct (digits_of_Npos_head p) as (c & s & Hc & Hd).
    exists c, s. split; [exact Hc|]. rewrite Hd. apply orb_true_r.
  - eexists _, _. split; reflexivity.
Qed.

Lemma parse_value_number (fuel : nat) (c : ascii) (r : string) :
  Ascii.eqb c "-" || is_digit c = true ->
  parse_value (S fuel) (String c r)
  = match parse_number (String c r) with
    | Some (n, r') => Some (VNumber n, r')
    | None => None
    end.
Proof.
  destruct c as [[] [] [] [] [] [] [] []]; try discriminate; reflexivity.
Qed.

(** *** Values *)

Local Arguments String.append : simpl nomatch.

Lemma skip_ws_blank (w s : string) :
  blank w = true -> skip_ws (w +:+ s) = skip_ws s.
Proof.
  induction w as [|c w IH]; [reflexivity|].
  cbn. intros H. apply andb_true_iff in H as [Hc Hw].
  rewrite Hc. auto.
Qed.

Lemma blank_app (a b : string) : blank (a +:+ b) = blank a && blank b.
Proof.
  induction a as [|c a IH]; [reflexivity|].
  cbn. rewrite IH. apply andb_assoc.
Qed.

Lemma parse_value_blank (fuel : nat) (w s : string) :
  blank w = true -> parse_value fuel (w +:+ s) = parse_value fuel s.
Proof.
  intros H. destruct fuel; [reflexivity|].
  cbn [parse_value]. rewrite skip_ws_blank by exact H. reflexivity.
Qed.

Lemma parse_members_blank (fuel : nat) (w s : string) :
  blank w = true -> parse_members fuel (w +:+ s) = parse_members fuel s.
Proof.
  intros H. destruct fuel; [reflexivity|].
  cbn [parse_members]. rewrite skip_ws_blank by exact H. reflexivity.
Qed.

Lemma serialize_array (indent : string) (items : list value) :
  serialize indent (VArray items)
  = match items with
    | [] => "[]"
    | _ => "[" +:+ newline (indent +:+ gap)
           +:+ join_with ("," +:+ newline (indent +:+ gap))
                 (map (serialize (indent +:+ gap)) items)
           +:+ newline indent +:+ "]"
    end.
Proof.
  destruct items; reflexivity.
Qed.

Lemma serialize_object (indent : string) (props : list (string * value)) :
  Forall (fun kv => is_undefined (snd kv) = false) props ->
  serialize indent (VObject props)
  = match props with
    | [] => "{}"
    | _ => "{" +:+ newline (indent +:+ gap)
           +:+ join_with ("," +:+ newline (indent +:+ gap))
                 (map (member_text (indent +:+ gap)) props)
           +:+ newline indent +:+ "}"
    end.
Proof.
  intros H. cbn [serialize].
  lazymatch goal with
  | |- context [match ?m with [] => _ | _ :: _ => _ end] =>
      assert (E : m = map (member_text (indent +:+ gap)) props)
  end.
  { induction H as [|[k x] l Hx _ IH]; [reflexivity|].
    cbn in Hx. cbn [map]. rewrite <- IH. rewrite Hx. reflexivity. }
  rewrite E. destruct props; reflexivity.
Qed.

Lemma value_ind' (P : value -> Prop) :
  P VUndefined -> P VNull -> (forall b, P (VBool b)) ->
  (forall n, P (VNumber n)) -> (forall s, P (VString s)) ->
  (forall items, Forall P items -> P (VArray items)) ->
  (forall props, Forall (fun kv => P (snd kv)) props -> P (VObject props)) ->
  forall v, P v.
Proof.
  intros Hu Hn Hb Hnum Hs Ha Ho.
  fix IH 1. intros [| |b|n|s|items|props].
  - exact Hu.
  - exact Hn.
  - apply Hb.
  - apply Hnum.
  - apply Hs.
  - apply Ha. revert items. fix IHl 1. intros [|x items].
    + constructor.
    + constructor; [apply IH | apply IHl].
  - apply Ho. revert props. fix IHl 1. intros [|[k x] props].
    + constructor.
    + constructor; [apply IH | apply IHl].
Qed.

Lemma serialize_head (indent : string) (v : value) :
  exists c s, serialize indent v = String c s
              /\ is_ws c = false /\ Ascii.eqb c "]" = false.
Proof.
  destruct v as [| |[]|[z| | |]|s|items|props]; try (eexists _, _; split; [reflexivity|split; reflexivity]).
  - cbn [serialize number_to_json].
    destruct (Z_to_string_head z) as (c & s & Hs & Hc). exists c, s.
    split; [exact Hs|].
    destruct c as [[] [] [] [] [] [] [] []]; try discriminate; split; reflexivity.
  - rewrite serialize_array. destruct items; eexists _, _; split; try reflexivity; split; reflexivity.
  - cbn [serialize].
    match goal with
    | |- context [match ?m with [] => _ | _ :: _ => _ end] => destruct m
    end; eexists _, _; split; try reflexivity; split; reflexivity.
Qed.

Lemma join_with_cons (sep a b : string) (r : list string) :
  join_with sep (a :: b :: r) = a +:+ sep +:+ join_with sep (b :: r).
Proof. reflexivity. Qed.

Lemma parse_elements_more (fuel : nat) (s : string) (x : value) (tail : string) :
  parse_value fuel s = Some (x, "," +:+ tail) ->
  parse_elements (S fuel) s
  = match parse_elements fuel tail with
    | Some (vs, r) => Some (x :: vs, r)
    | None => None
    end.
Proof.
  intros H. cbn [parse_elements]. rewrite H. reflexivity.
Qed.

Lemma parse_elements_last (fuel : nat) (s : string) (x : value) (w rest : string) :
  parse_value fuel s = Some (x, w +:+ "]" +:+ rest) -> blank w = true ->
  parse_elements (S fuel) s = Some ([x], rest).
Proof.
  intros H Hw. cbn [parse_elements]. rewrite H, skip_ws_blank by exact Hw.
  reflexivity.
Qed.

Lemma stops_newline (s : string) : stops (newline s) = true.
Proof. reflexivity. Qed.

Lemma stops_comma (s : string) : stops ("," +:+ s) = true.
Proof. reflexivity. Qed.

Lemma blank_newline (s : string) : blank (newline s) = blank s.
Proof. reflexivity. Qed.

Lemma parse_elements_items (indent closing rest : string) :
  blank indent = true -> blank closing = true ->
  forall items, items <> [] -> Forall parses items ->
  forall lead fuel, blank lead = true ->
    (fold_right (fun x n => S (fuel_for x + n)) O items <= fuel)%nat ->
    parse_elements fuel
      (lead +:+ join_with ("," +:+ newline indent) (map (serialize indent) items)
       +:+ newline closing +:+ "]" +:+ rest)
    = Some (items, rest).
Proof.
  intros Hi Hc items. induction items as [|x items IH]; [congruence|].
  intros _ Hall lead fuel Hlead Hfuel.
  inversion Hall as [|? ? Hx Hrest]; subst.
  cbn [fold_right] in Hfuel. destruct fuel as [|fuel]; [lia|].
  destruct items as [|y items].
  - apply (parse_elements_last fuel _ x (newline closing) rest).
    + rewrite parse_value_blank by exact Hlead.
      cbn [map join_with]. apply Hx; [exact Hi | reflexivity | cbn [fold_right] in Hfuel; lia].
    + exact Hc.
  - rewrite (parse_elements_more fuel _ x
               (newline indent
                +:+ join_with ("," +:+ newline indent) (map (serialize indent) (y :: items))
                +:+ newline closing +:+ "]" +:+ rest)).
    + rewrite IH; [reflexivity | discriminate | exact Hrest | exact Hi | lia].
    + rewrite parse_value_blank by exact Hlead.
      rewrite !map_cons, join_with_cons, !append_assoc.
      apply Hx; [exact Hi | reflexivity | lia].
Qed.

Lemma parse_members_more (fuel : nat) (lead k V : string) (x : value) (tail : string) :
  blank lead = true ->
  parse_value fuel V = Some (x, "," +:+ tail) ->
  parse_members (S fuel) (lead +:+ QuoteJSONString k +:+ ": " +:+ V)
  = match parse_members fuel tail with
    | Some (ms, r) => Some ((k, x) :: ms, r)
    | None => None
    end.
Proof.
  intros Hlead HV. cbn [parse_members]. rewrite skip_ws_blank by exact Hlead.
  replace (QuoteJSONString k +:+ ": " +:+ V)
    with (String dquote (escape k +:+ String dquote (String ":" (" " +:+ V))))
    by (unfold QuoteJSONString; cbn; rewrite ?append_assoc; reflexivity).
  cbn [skip_ws]. change (is_ws dquote) with false. cbn iota.
  change (Ascii.eqb dquote dquote) with true. cbn iota.
  rewrite parse_string_escape.
  cbn [skip_ws]. change (is_ws ":") with false. cbn iota.
  rewrite (parse_value_blank fuel " " V) by reflexivity.
  rewrite HV. reflexivity.
Qed.

Lemma parse_members_last (fuel : nat) (lead k V : string) (x : value) (w rest : string) :
  blank lead = true -> blank w = true ->
  parse_value fuel V = Some (x, w +:+ "}" +:+ rest) ->
  parse_members (S fuel) (lead +:+ QuoteJSONString k +:+ ": " +:+ V)
  = Some ([(k, x)], rest).
Proof.
  intros Hlead Hw HV. cbn [parse_members]. rewrite skip_ws_blank by exact Hlead.
  replace (QuoteJSONString k +:+ ": " +:+ V)
    with (String dquote (escape k +:+ String dquote (String ":" (" " +:+ V))))
    by (unfold QuoteJSONString; cbn; rewrite ?append_assoc; reflexivity).
  cbn [skip_ws]. change (is_ws dquote) with false. cbn iota.
  change (Ascii.eqb dquote dquote) with true. cbn iota.
  rewrite parse_string_escape.
  cbn [skip_ws]. change (is_ws ":") with false. cbn iota.
  rewrite (parse_value_blank fuel " " V) by reflexivity.
  rewrite HV, skip_ws_blank by exact Hw. reflexivity.
Qed.

Lemma parse_members_props (indent closing rest : string) :
  blank indent = true -> blank closing = true ->
  forall props, props <> [] -> Forall (fun kv => parses (snd kv)) props ->
  forall lead fuel, blank lead = true ->
    (fold_right (fun kv n => S (fuel_for (snd kv) + n)) O props <= fuel)%nat ->
    parse_members fuel
      (lead +:+ join_with ("," +:+ newline indent) (map (member_text indent) props)
       +:+ newline closing +:+ "}" +:+ rest)
    = Some (props, rest).
Proof.
  intros Hi Hc props. induction props as [|[k x] props IH]; [congruence|].
  intros _ Hall lead fuel Hlead Hfuel.
  inversion Hall as [|? ? Hx Hrest]; subst. cbn [snd] in Hx.
  cbn [fold_right snd] in Hfuel. destruct fuel as [|fuel]; [lia|].
  destruct props as [|kv props].
  - cbn [map join_with]. unfold member_text. cbn [fst snd].
    rewrite !append_assoc.
    apply (parse_members_last fuel lead k _ x (newline closing) rest Hlead Hc).
    apply Hx; [exact Hi | reflexivity | cbn [fold_right] in Hfuel; lia].
  - rewrite !map_cons, join_with_cons. unfold member_text at 1. cbn [fst snd].
    rewrite !append_assoc.
    rewrite (parse_members_more fuel lead k _ x
               (newline indent
                +:+ join_with ("," +:+ newline indent) (map (member_text indent) (kv :: props))
                +:+ newline closing +:+ "}" +:+ rest) Hlead).
    + rewrite map_cons, IH; [reflexivity | discriminate | exact Hrest | exact Hi | lia].
    + rewrite <- map_cons. apply Hx; [exact Hi | reflexivity | lia].
Qed.

Lemma set_prop_fresh (props : list (string * value)) (k : string) (v : value) :
  ~ In k (map fst props) -> set_prop props k v = (props ++ [(k, v)])%list.
Proof.
  induction props as [|[k' v'] props IH]; cbn; [reflexivity|].
  intros H. destruct (String.eqb_spec k' k) as [->|_]; [tauto|].
  rewrite IH by tauto. reflexivity.
Qed.

Lemma build_object_NoDup (props : list (string * value)) :
  NoDup (map fst props) -> build_object props = VObject props.
Proof.
  unfold build_object. intros H. f_equal.
  enough (G : forall l acc, NoDup (map fst (acc ++ l)%list) ->
            fold_left (fun o kv => set_prop o (fst kv) (snd kv)) l acc = (acc ++ l)%list)
    by (apply (G props []); exact H).
  induction l as [|[k v] l IH]; intros acc Hnd; cbn [fold_left fst snd].
  - rewrite app_nil_r. reflexivity.
  - rewrite set_prop_fresh.
    + rewrite IH; rewrite <- app_assoc; [reflexivity | exact Hnd].
    + rewrite map_app in Hnd. apply NoDup_app in Hnd as (_ & Hdisj & _).
      intros Hin. apply (Hdisj k); [apply list_elem_of_In, Hin | left].
Qed.

Lemma parse_value_array (fuel : nat) (w : string) (c : ascii) (X : string) :
  blank w = true -> is_ws c = false -> Ascii.eqb c "]" = false ->
  parse_value (S fuel) (String "[" (w +:+ String c X))
  = match parse_elements fuel (w +:+ String c X) with
    | Some (items, r') => Some (VArray items, r')
    | None => None
    end.
Proof.
  intros Hw Hc Hb.
  change (parse_value (S fuel) (String "[" (w +:+ String c X)))
    with (match skip_ws (w +:+ String c X) with
          | String "]" r' => Some (VArray [], r')
          | _ =>
              match parse_elements fuel (w +:+ String c X) with
              | Some (items, r') => Some (VArray items, r')
              | None => None
              end
          end).
  rewrite skip_ws_blank by exact Hw. cbn [skip_ws]. rewrite Hc.
  destruct c as [[] [] [] [] [] [] [] []]; try discriminate; reflexivity.
Qed.

Lemma parse_value_object (fuel : nat) (w : string) (X : string) :
  blank w = true ->
  parse_value (S fuel) (String "{" (w +:+ String dquote X))
  = match parse_members fuel (w +:+ String dquote X) with
    | Some (members, r') => Some (build_object members, r')
    | None => None
    end.
Proof.
  intros Hw.
  change (parse_value (S fuel) (String "{" (w +:+ String dquote X)))
    with (match skip_ws (w +:+ String dquote X) with
          | String "}" r' => Some (VObject [], r')
          | _ =>
              match parse_members fuel (w +:+ String dquote X) with
              | Some (members, r') => Some (build_object members, r')
              | None => None
              end
          end).
  rewrite skip_ws_blank by exact Hw. reflexivity.
Qed.

Lemma writable_items (items : list value) :
  fold_right (fun x P => writable x /\ P) True items <-> Forall writable items.
Proof.
  induction items as [|x items IH]; cbn; [split; auto|].
  rewrite IH, Forall_cons. reflexivity.
Qed.

Lemma writable_props (props : list (string * value)) :
  fold_right (fun kv P => writable (snd kv) /\ P) True props
  <-> Forall (fun kv => writable (snd kv)) props.
Proof.
  induction props as [|x props IH]; cbn; [split; auto|].
  rewrite IH, Forall_cons. reflexivity.
Qed.

Lemma writable_defined (v : value) : writable v -> is_undefined v = false.
Proof.
  destruct v; cbn; tauto || reflexivity.
Qed.

(** Reading back what was written: the text of a writable value, with
    anything after it that ends a number, parses to the value and leaves
    what follows. *)
Lemma serialize_parses (v : value) : writable v -> parses v.
Proof.
  induction v as [| |b|n|s|items IH|props IH] using value_ind';
    intros Hw indent rest fuel Hindent Hrest Hfuel.
  - destruct Hw.
  - destruct fuel; [cbn in Hfuel; lia | reflexivity].
  - destruct fuel; [cbn in Hfuel; lia | destruct b; reflexivity].
  - destruct n as [z| | |]; [|destruct Hw..]. cbn in Hw.
    destruct fuel as [|fuel]; [cbn in Hfuel; lia|].
    cbn [serialize number_to_json].
    destruct (Z_to_string_head z) as (c & s & Hs & Hc).
    rewrite Hs, append_cons, parse_value_number by exact Hc.
    rewrite <- append_cons, <- Hs, parse_number_Z by exact Hrest.
    rewrite Hw. reflexivity.
  - destruct fuel as [|fuel]; [cbn in Hfuel; lia|].
    cbn [serialize]. unfold QuoteJSONString.
    rewrite append_cons, append_assoc.
    change (parse_value (S fuel) (String dquote (escape s +:+ String dquote EmptyString +:+ rest)))
      with (match parse_string (escape s +:+ String dquote rest) with
            | Some (str, r') => Some (VString str, r')
            | None => None
            end).
    rewrite parse_string_escape. reflexivity.
  - cbn [writable] in Hw. apply writable_items in Hw.
    assert (Hall : Forall parses items).
    { rewrite Forall_forall in IH, Hw |- *. intros x Hx. apply IH; auto. }
    cbn [fuel_for] in Hfuel. destruct fuel as [|fuel]; [lia|].
    rewrite serialize_array.
    destruct items as [|x items]; [reflexivity|].
    rewrite !append_assoc.
    destruct (serialize_head (indent +:+ gap) x) as (c & s & Hs & Hc & Hb).
    assert (Hgap : blank (indent +:+ gap) = true)
      by (rewrite blank_app, Hindent; reflexivity).
    pose proof (parse_elements_items (indent +:+ gap) indent rest Hgap Hindent
                  (x :: items) ltac:(discriminate) Hall
                  (newline (indent +:+ gap)) fuel Hgap ltac:(lia)) as Hel.
    revert Hel.
    destruct items as [|y items].
    + cbn [map join_with]. rewrite Hs, !append_cons, ?append_nil_l.
      intros Hel. 
      rewrite (parse_value_array fuel (newline (indent +:+ gap)) c _ Hgap Hc Hb).
      rewrite Hel. reflexivity.
    + rewrite !map_cons, join_with_cons, !append_assoc, Hs, !append_cons, ?append_nil_l.
      intros Hel.
      rewrite (parse_value_array fuel (newline (indent +:+ gap)) c _ Hgap Hc Hb).
      rewrite Hel. reflexivity.
  - cbn [writable] in Hw. destruct Hw as [Hnd Hw]. apply writable_props in Hw.
    assert (Hall : Forall (fun kv => parses (snd kv)) props).
    { rewrite Forall_forall in IH, Hw |- *. intros x Hx. apply IH; auto. }
    assert (Hdef : Forall (fun kv => is_undefined (snd kv) = false) props).
    { eapply Forall_impl; [exact Hw|]. intros kv. apply writable_defined. }
    cbn [fuel_for] in Hfuel. destruct fuel as [|fuel]; [lia|].
    rewrite (serialize_object indent props Hdef).
    destruct props as [|[k x] props]; [reflexivity|].
    rewrite !append_assoc.
    assert (Hgap : blank (indent +:+ gap) = true)
      by (rewrite blank_app, Hindent; reflexivity).
    pose proof (parse_members_props (indent +:+ gap) indent rest Hgap Hindent
                  ((k, x) :: props) ltac:(discriminate) Hall
                  (newline (indent +:+ gap)) fuel Hgap ltac:(lia)) as Hel.
    revert Hel.
    assert (Hq : exists X, join_with ("," +:+ newline (indent +:+ gap))
                             (map (member_text (indent +:+ gap)) ((k, x) :: props))
                           +:+ newline indent +:+ "}" +:+ rest = String dquote X).
    { destruct props as [|kv props]; cbn [map join_with]; unfold member_text at 1;
        unfold QuoteJSONString; rewrite !append_cons; eauto. }
    destruct Hq as [X HX]. rewrite HX, append_cons, append_nil_l. intros Hel.
    rewrite (parse_value_object fuel (newline (indent +:+ gap)) X Hgap).
    rewrite Hel, (build_object_NoDup _ Hnd). reflexivity.
Qed.

(** The text of a value is at least as long as the fuel the value
    needs. *)
Lemma length_join_with (sep : string) (texts : list string) :
  (1 <= String.length sep)%nat ->
  (fold_right (fun t n => S (String.length t + n)) O texts
   <= S (String.length (join_with sep texts)))%nat.
Proof.
  intros Hsep. induction texts as [|t texts IH]; [cbn; lia|].
  destruct texts as [|u texts].
  - cbn. lia.
  - rewrite join_with_cons, !length_append.
    cbn [fold_right] in IH |- *. lia.
Qed.

Lemma fuel_for_length (v : value) :
  writable v -> forall indent, (fuel_for v <= String.length (serialize indent v))%nat.
Proof.
  induction v as [| |b|n|s|items IH|props IH] using value_ind'; intros Hw indent.
  - destruct Hw.
  - cbn. lia.
  - destruct b; cbn; lia.
  - destruct n as [z| | |]; [|destruct Hw..].
    cbn [serialize number_to_json fuel_for].
    destruct (Z_to_string_head z) as (c & s & -> & _). cbn. lia.
  - cbn. lia.
  - cbn [writable] in Hw. apply writable_items in Hw.
    rewrite serialize_array. cbn [fuel_for].
    destruct items as [|x items]; [cbn; lia|].
    rewrite !length_append.
    pose proof (length_join_with ("," +:+ newline (indent +:+ gap))
                  (map (serialize (indent +:+ gap)) (x :: items))
                  ltac:(cbn; lia)) as Hj.
    assert (Hsum : (fold_right (fun y n => S (fuel_for y + n)) O (x :: items)
                    <= fold_right (fun t n => S (String.length t + n)) O
                         (map (serialize (indent +:+ gap)) (x :: items)))%nat).
    { clear Hj. induction (x :: items) as [|y l IHl]; [cbn; lia|].
      apply Forall_cons in IH as [IHy IH]. apply Forall_cons in Hw as [Hy Hw].
      cbn [map fold_right]. specialize (IHy Hy (indent +:+ gap)).
      specialize (IHl IH Hw). lia. }
    cbn [String.length newline] in *. lia.
  - cbn [writable] in Hw. destruct Hw as [_ Hw]. apply writable_props in Hw.
    assert (Hdef : Forall (fun kv => is_undefined (snd kv) = false) props).
    { eapply Forall_impl; [exact Hw|]. intros kv. apply writable_defined. }
    rewrite (serialize_object indent props Hdef). cbn [fuel_for].
    destruct props as [|kx props]; [cbn; lia|].
    rewrite !length_append.
    pose proof (length_join_with ("," +:+ newline (indent +:+ gap))
                  (map (member_text (indent +:+ gap)) (kx :: props))
                  ltac:(cbn; lia)) as Hj.
    assert (Hsum : (fold_right (fun kv n => S (fuel_for (snd kv) + n)) O (kx :: props)
                    <= fold_right (fun t n => S (String.length t + n)) O
                         (map (member_text (indent +:+ gap)) (kx :: props)))%nat).
    { clear Hj Hdef. induction (kx :: props) as [|y l IHl]; [cbn; lia|].
      apply Forall_cons in IH as [IHy IH]. apply Forall_cons in Hw as [Hy Hw].
      cbn [map fold_right]. specialize (IHy Hy (indent +:+ gap)).
      specialize (IHl IH Hw).
      unfold member_text at 1. rewrite !length_append. lia. }
    cbn [String.length newline] in *. lia.
Qed.

Lemma append_nil_r (s : string) : s +:+ EmptyString = s.
Proof.
  induction s as [|c s IH]; [reflexivity|]. rewrite append_cons, IH. reflexivity.
Qed.

(** [JSON.parse(JSON.stringify(v, null, 4))] is [v] again, for every
    writable value. *)
Theorem JSON_parse_stringify (v : value) (text : string) :
  writable v -> JSON_stringify v = Some text -> JSON_parse text = Resolved v.
Proof.
  intros Hw Htext. unfold JSON_stringify in Htext.
  rewrite (writable_defined v Hw) in Htext. inversion Htext; subst text.
  unfold JSON_parse.
  pose proof (serialize_parses v Hw EmptyString EmptyString
                (S (String.length (serialize EmptyString v)))
                eq_refl eq_refl) as H.
  rewrite append_nil_r in H. rewrite H.
  - reflexivity.
  - pose proof (fuel_for_length v Hw EmptyString). lia.
Qed.

Lemma toWellFormed_isWellFormed (s : string) :
  isWellFormed s = true -> toWellFormed s = s.
Proof.
  unfold isWellFormed. intros H. apply negb_true_iff in H.
  induction s as [|c r IH]; [reflexivity|].
  cbn [has_lone_surrogate] in H. cbn [toWellFormed].
  destruct r as [|d r']; [reflexivity|].
  apply orb_false_iff in H as [Hcd Hr]. specialize (IH Hr).
  destruct r' as [|e r'']; [rewrite IH; reflexivity|].
  rewrite Hcd, IH. reflexivity.
Qed.

Lemma blank_stops (w : string) : blank w = true -> stops w = true.
Proof.
  destruct w as [|c w]; [reflexivity|]. cbn [blank stops].
  intros H. apply andb_true_iff in H as [H _]. revert H.
  destruct c as [[] [] [] [] [] [] [] []]; vm_compute; congruence.
Qed.

(** *** Any JSON text *)

Lemma scan_string_chars (us : list (ascii + N)) (body : string) :
  json_chars us body ->
  forall rest, scan_string (body +:+ String dquote rest) = Some (us, rest).
Proof.
  induction 1 as [|c us body Hq Hb Hc _ IH|e u us body He _ IH
                  |h1 h2 h3 h4 u us body Hh _ IH]; intros rest.
  - reflexivity.
  - rewrite append_cons. cbn [scan_string]. cbv zeta.
    rewrite Hq, Hb, Hc, IH. reflexivity.
  - rewrite !append_cons.
    change (scan_string (String backslash (String e (body +:+ String dquote rest))))
      with (match simple_escape e with
            | Some u =>
                match scan_string (body +:+ String dquote rest) with
                | Some (us, rest) => Some (inr u :: us, rest)
                | None => None
                end
            | None =>
                if (N_of_ascii e =? 117)%N then
                  match body +:+ String dquote rest with
                  | String h1 (String h2 (String h3 (String h4 r2))) =>
                      match hex4 h1 h2 h3 h4 with
                      | Some u =>
                          match scan_string r2 with
                          | Some (us, rest) => Some (inr u :: us, rest)
                          | None => None
                          end
                      | None => None
                      end
                  | _ => None
                  end
                else None
            end).
    rewrite He, IH. reflexivity.
  - rewrite !append_cons.
    change (scan_string
              (String backslash
                 (String "u" (String h1 (String h2 (String h3 (String h4
                    (body +:+ String dquote rest))))))))
      with (match hex4 h1 h2 h3 h4 with
            | Some u =>
                match scan_string (body +:+ String dquote rest) with
                | Some (us, rest) => Some (inr u :: us, rest)
                | None => None
                end
            | None => None
            end).
    rewrite Hh, IH. reflexivity.
Qed.

Lemma parse_string_chars (us : list (ascii + N)) (body rest : string) :
  json_chars us body ->
  parse_string (body +:+ String dquote rest) = Some (encode_units us, rest).
Proof.
  intros H. unfold parse_string. rewrite (scan_string_chars us body H). reflexivity.
Qed.

Lemma json_text_head (v : value) (t : string) :
  json_text v t ->
  exists c s, t = String c s /\ is_ws c = false /\ Ascii.eqb c "]" = false.
Proof.
  destruct 1 as [| | |z Hz|us body Hb|w Hw|items w rest Hw He|w Hw|props w rest Hnd Hw Hm];
    try (eexists _, _; split; [reflexivity | split; reflexivity]).
  destruct (Z_to_string_head z) as (c & s & Hs & Hc). exists c, s.
  split; [exact Hs|].
  destruct c as [[] [] [] [] [] [] [] []]; try discriminate; split; reflexivity.
Qed.

Lemma json_elements_head (items : list value) (t : string) :
  json_elements items t ->
  exists c s, t = String c s /\ is_ws c = false /\ Ascii.eqb c "]" = false.
Proof.
  destruct 1 as [x t w Hx Hw|x t w1 w2 items rest Hx Hw1 Hw2 Hr];
    destruct (json_text_head _ _ Hx) as (c & s & -> & Hc & Hb);
    eexists c, _; (split; [apply append_cons | split; assumption]).
Qed.

Lemma json_members_head (props : list (string * value)) (t : string) :
  json_members props t -> exists s, t = String dquote s.
Proof.
  destruct 1; eexists; unfold json_literal; rewrite append_cons; reflexivity.
Qed.

Lemma stops_blank (w rest : string) :
  blank w = true -> stops rest = true -> stops (w +:+ rest) = true.
Proof.
  destruct w as [|c w]; [intros _ H; exact H|]. intros Hw _.
  change (stops (String c w +:+ rest)) with (stops (String c w)).
  apply blank_stops, Hw.
Qed.

Lemma parse_elements_blank (fuel : nat) (w s : string) :
  blank w = true -> parse_elements fuel (w +:+ s) = parse_elements fuel s.
Proof.
  intros H. destruct fuel; [reflexivity|].
  cbn [parse_elements]. rewrite parse_value_blank by exact H. reflexivity.
Qed.

Lemma parse_elements_comma (fuel : nat) (s : string) (x : value) (w tail : string) :
  parse_value fuel s = Some (x, w +:+ "," +:+ tail) -> blank w = true ->
  parse_elements (S fuel) s
  = match parse_elements fuel tail with
    | Some (vs, r) => Some (x :: vs, r)
    | None => None
    end.
Proof.
  intros H Hw. cbn [parse_elements]. rewrite H, skip_ws_blank by exact Hw.
  reflexivity.
Qed.

Lemma parse_members_key (fuel : nat) (us : list (ascii + N)) (key w tail : string) :
  json_chars us key -> blank w = true ->
  parse_members (S fuel) (json_literal key +:+ w +:+ ":" +:+ tail)
  = match parse_value fuel tail with
    | Some (v, r3) =>
        match skip_ws r3 with
        | String "," r4 =>
            match parse_members fuel r4 with
            | Some (ms, r5) => Some ((encode_units us, v) :: ms, r5)
            | None => None
            end
        | String "}" r4 => Some ([(encode_units us, v)], r4)
        | _ => None
        end
    | None => None
    end.
Proof.
  intros Hk Hw.
  replace (json_literal key +:+ w +:+ ":" +:+ tail)
    with (String dquote (key +:+ String dquote (w +:+ String ":" tail)))
    by (unfold json_literal; rewrite append_cons, append_assoc; reflexivity).
  cbn [parse_members skip_ws]. change (is_ws dquote) with false. cbn iota.
  change (Ascii.eqb dquote dquote) with true. cbn iota.
  rewrite (parse_string_chars us key _ Hk), skip_ws_blank by exact Hw.
  cbn [skip_ws]. change (is_ws ":") with false. cbn iota. reflexivity.
Qed.

(** Every JSON text of a value parses to the value, and leaves what
    follows it. *)
Lemma json_text_parses :
  (forall v t, json_text v t ->
     forall rest fuel, stops rest = true -> (fuel_for v <= fuel)%nat ->
       parse_value fuel (t +:+ rest) = Some (v, rest))
  /\ (forall items t, json_elements items t ->
        forall rest fuel,
          (fold_right (fun x n => S (fuel_for x + n)) O items <= fuel)%nat ->
          parse_elements fuel (t +:+ rest) = Some (items, rest))
  /\ (forall props t, json_members props t ->
        forall rest fuel,
          (fold_right (fun kv n => S (fuel_for (snd kv) + n)) O props <= fuel)%nat ->
          parse_members fuel (t +:+ rest) = Some (props, rest)).
Proof.
  apply json_text_rules.
  - intros rest fuel _ Hf. destruct fuel; [cbn in Hf; lia | reflexivity].
  - intros rest fuel _ Hf. destruct fuel; [cbn in Hf; lia | reflexivity].
  - intros rest fuel _ Hf. destruct fuel; [cbn in Hf; lia | reflexivity].
  - intros z Hz rest fuel Hrest Hf. destruct fuel as [|fuel]; [cbn in Hf; lia|].
    destruct (Z_to_string_head z) as (c & s & Hs & Hc).
    rewrite Hs, append_cons, parse_value_number by exact Hc.
    rewrite <- append_cons, <- Hs, parse_number_Z by exact Hrest.
    rewrite Hz. reflexivity.
  - intros us body Hb rest fuel _ Hf. destruct fuel as [|fuel]; [cbn in Hf; lia|].
    unfold json_literal. rewrite append_cons, append_assoc.
    change (parse_value (S fuel) (String dquote (body +:+ String dquote EmptyString +:+ rest)))
      with (match parse_string (body +:+ String dquote rest) with
            | Some (str, r') => Some (VString str, r')
            | None => None
            end).
    rewrite (parse_string_chars us body rest Hb). reflexivity.
  - intros w Hw rest fuel _ Hf. destruct fuel as [|fuel]; [cbn in Hf; lia|].
    rewrite !append_cons, ?append_nil_l, ?append_assoc.
    cbn [parse_value skip_ws]. change (is_ws "[") with false. cbn iota.
    change (Ascii.eqb "[" "{") with false. change (Ascii.eqb "[" "[") with true.
    cbn iota. rewrite skip_ws_blank by exact Hw. reflexivity.
  - intros items w t Hw Ht IH rest fuel _ Hf.
    cbn [fuel_for] in Hf. destruct fuel as [|fuel]; [lia|].
    rewrite !append_cons, ?append_nil_l, ?append_assoc.
    destruct (json_elements_head _ _ Ht) as (c & s & Hs & Hc & Hb).
    specialize (IH rest fuel ltac:(lia)). revert IH. rewrite Hs, append_cons. intros IH.
    rewrite (parse_value_array fuel w c _ Hw Hc Hb).
    rewrite parse_elements_blank by exact Hw. rewrite IH. reflexivity.
  - intros w Hw rest fuel _ Hf. destruct fuel as [|fuel]; [cbn in Hf; lia|].
    rewrite !append_cons, ?append_nil_l, ?append_assoc.
    cbn [parse_value skip_ws]. change (is_ws "{") with false. cbn iota.
    change (Ascii.eqb "{" "{") with true.
    cbn iota. rewrite skip_ws_blank by exact Hw. reflexivity.
  - intros props w t Hnd Hw Ht IH rest fuel _ Hf.
    cbn [fuel_for] in Hf. destruct fuel as [|fuel]; [lia|].
    rewrite !append_cons, ?append_nil_l, ?append_assoc.
    destruct (json_members_head _ _ Ht) as (s & Hs).
    specialize (IH rest fuel ltac:(lia)). revert IH. rewrite Hs, append_cons. intros IH.
    rewrite (parse_value_object fuel w _ Hw).
    rewrite parse_members_blank by exact Hw.
    rewrite IH, (build_object_NoDup _ Hnd). reflexivity.
  - intros x t w Hx IH Hw rest fuel Hf.
    cbn [fold_right] in Hf. destruct fuel as [|fuel]; [lia|].
    rewrite !append_assoc.
    apply (parse_elements_last fuel _ x w rest); [|exact Hw].
    apply IH; [|lia]. apply stops_blank; [exact Hw | reflexivity].
  - intros x t w1 w2 items body Hx IHx Hw1 Hw2 Hi IH rest fuel Hf.
    cbn [fold_right] in Hf. destruct fuel as [|fuel]; [lia|].
    rewrite !append_assoc.
    rewrite (parse_elements_comma fuel _ x w1 (w2 +:+ body +:+ rest)).
    + rewrite parse_elements_blank by exact Hw2.
      rewrite IH by lia. reflexivity.
    + apply IHx; [|lia]. apply stops_blank; [exact Hw1 | reflexivity].
    + exact Hw1.
  - intros us key x t w1 w2 w3 Hk Hx IH Hw1 Hw2 Hw3 rest fuel Hf.
    cbn [fold_right snd] in Hf. destruct fuel as [|fuel]; [lia|].
    rewrite !append_assoc.
    rewrite (parse_members_key fuel us key w1 _ Hk Hw1).
    rewrite parse_value_blank by exact Hw2.
    rewrite (IH (w3 +:+ "}" +:+ rest) fuel);
      [|apply stops_blank; [exact Hw3 | reflexivity] | lia].
    rewrite skip_ws_blank by exact Hw3. reflexivity.
  - intros us key x t w1 w2 w3 w4 props body Hk Hx IHx Hw1 Hw2 Hw3 Hw4 Hp IH rest fuel Hf.
    cbn [fold_right snd] in Hf. destruct fuel as [|fuel]; [lia|].
    rewrite !append_assoc.
    rewrite (parse_members_key fuel us key w1 _ Hk Hw1).
    rewrite parse_value_blank by exact Hw2.
    rewrite (IHx (w3 +:+ "," +:+ w4 +:+ body +:+ rest) fuel);
      [|apply stops_blank; [exact Hw3 | reflexivity] | lia].
    rewrite skip_ws_blank by exact Hw3.
    change (skip_ws ("," +:+ w4 +:+ body +:+ rest))
      with (String "," (w4 +:+ body +:+ rest)). cbv iota.
    rewrite parse_members_blank by exact Hw4.
    rewrite IH by lia. reflexivity.
Qed.

Lemma json_text_length :
  (forall v t, json_text v t -> (fuel_for v <= String.length t)%nat)
  /\ (forall items t, json_elements items t ->
        (fold_right (fun x n => S (fuel_for x + n)) O items <= String.length t)%nat)
  /\ (forall props t, json_members props t ->
        (fold_right (fun kv n => S (fuel_for (snd kv) + n)) O props
         <= String.length t)%nat).
Proof.
  apply json_text_rules; intros; unfold json_literal;
    cbn [fuel_for fold_right snd]; rewrite ?length_append; cbn [String.length];
    rewrite ?length_append; cbn [String.length]; try lia.
  destruct (Z_to_string_head z) as (c & s & -> & _). cbn. lia.
Qed.

(** A JSON text with white space around it is read as its value. *)
Lemma JSON_parse_json_text (v : value) (lead body trail : string) :
  json_text v body -> blank lead = true -> blank trail = true ->
  JSON_parse (lead +:+ body +:+ trail) = Resolved v.
Proof.
  intros Hv Hlead Htrail. unfold JSON_parse.
  rewrite parse_value_blank by exact Hlead.
  rewrite (proj1 json_text_parses v body Hv trail _ (blank_stops _ Htrail)).
  - pose proof (skip_ws_blank trail EmptyString Htrail) as H.
    rewrite append_nil_r in H. rewrite H. reflexivity.
  - pose proof (proj1 json_text_length v body Hv).
    rewrite !length_append. lia.
Qed.

(** What [JSON.stringify] writes is one of the JSON texts. *)
Lemma json_chars_escape (s : string) :
  json_chars (map unit_of (list_ascii_of_string s)) (escape s).
Proof.
  induction s as [|c s IH]; [constructor|].
  cbn [list_ascii_of_string map escape].
  destruct c as [[] [] [] [] [] [] [] []];
    lazymatch goal with
    | |- json_chars (unit_of ?c :: ?us) (escape_char ?c +:+ ?r) =>
        let u := eval vm_compute in (unit_of c) in
        let e := eval vm_compute in (escape_char c) in
        change (json_chars (u :: us) (e +:+ r))
    end;
    rewrite ?append_cons, ?append_nil_l;
    first [ apply chars_raw; [reflexivity | reflexivity | reflexivity | exact IH]
          | apply chars_escape; [reflexivity | exact IH]
          | apply chars_hex; [reflexivity | exact IH] ].
Qed.

Lemma encode_units_escape (s : string) :
  encode_units (map unit_of (list_ascii_of_string s)) = s.
Proof.
  induction s as [|c s IH]; [reflexivity|].
  cbn [list_ascii_of_string map]. rewrite encode_units_unit_of, IH. reflexivity.
Qed.

Lemma text_quoted (s : string) : json_text (VString s) (QuoteJSONString s).
Proof.
  rewrite <- (encode_units_escape s) at 1.
  apply (text_string _ (escape s)), json_chars_escape.
Qed.

Lemma members_last_quoted (k : string) (x : value) (t w1 w2 w3 : string) :
  json_text x t -> blank w1 = true -> blank w2 = true -> blank w3 = true ->
  json_members [(k, x)] (QuoteJSONString k +:+ w1 +:+ ":" +:+ w2 +:+ t +:+ w3 +:+ "}").
Proof.
  rewrite <- (encode_units_escape k) at 1.
  apply (members_last _ (escape k)), json_chars_escape.
Qed.

Lemma members_more_quoted (k : string) (x : value) (t w1 w2 w3 w4 : string)
    (props : list (string * value)) (rest : string) :
  json_text x t ->
  blank w1 = true -> blank w2 = true -> blank w3 = true -> blank w4 = true ->
  json_members props rest ->
  json_members ((k, x) :: props)
    (QuoteJSONString k +:+ w1 +:+ ":" +:+ w2 +:+ t +:+ w3 +:+ "," +:+ w4 +:+ rest).
Proof.
  rewrite <- (encode_units_escape k) at 1.
  apply (members_more _ (escape k)), json_chars_escape.
Qed.

Lemma json_elements_join (indent closing : string) (items : list value) :
  blank indent = true -> blank closing = true -> items <> [] ->
  Forall (fun x => json_text x (serialize indent x)) items ->
  json_elements items
    (join_with ("," +:+ newline indent) (map (serialize indent) items)
     +:+ newline closing +:+ "]").
Proof.
  intros Hi Hc. induction items as [|x items IH]; [congruence|]. intros _ Hall.
  inversion Hall as [|? ? Hx Hrest]; subst.
  destruct items as [|y items].
  - cbn [map join_with]. apply elements_last; [exact Hx | exact Hc].
  - rewrite !map_cons, join_with_cons, !append_assoc.
    apply (elements_more x (serialize indent x) EmptyString (newline indent));
      [exact Hx | reflexivity | exact Hi|].
    rewrite <- map_cons. apply IH; [discriminate | exact Hrest].
Qed.

Lemma json_members_join (indent closing : string) (props : list (string * value)) :
  blank indent = true -> blank closing = true -> props <> [] ->
  Forall (fun kv => json_text (snd kv) (serialize indent (snd kv))) props ->
  json_members props
    (join_with ("," +:+ newline indent) (map (member_text indent) props)
     +:+ newline closing +:+ "}").
Proof.
  intros Hi Hc. induction props as [|[k x] props IH]; [congruence|]. intros _ Hall.
  inversion Hall as [|? ? Hx Hrest]; subst. cbn [snd] in Hx.
  destruct props as [|kv props].
  - cbn [map join_with]. unfold member_text. cbn [fst snd]. rewrite !append_assoc.
    apply (members_last_quoted k x (serialize indent x) EmptyString " " (newline closing));
      [exact Hx | reflexivity | reflexivity | exact Hc].
  - rewrite !map_cons, join_with_cons. unfold member_text at 1. cbn [fst snd].
    rewrite !append_assoc.
    apply (members_more_quoted k x (serialize indent x) EmptyString " " EmptyString
             (newline indent));
      [exact Hx | reflexivity | reflexivity | reflexivity | exact Hi|].
    rewrite <- map_cons. apply IH; [discriminate | exact Hrest].
Qed.

Lemma serialize_json_text (v : value) :
  writable v ->
  forall indent, blank indent = true -> json_text v (serialize indent v).
Proof.
  induction v as [| |b|n|s|items IH|props IH] using value_ind';
    intros Hw indent Hindent.
  - destruct Hw.
  - constructor.
  - destruct b; constructor.
  - destruct n as [z| | |]; [|destruct Hw..]. apply text_number, Hw.
  - apply text_quoted.
  - cbn [writable] in Hw. apply writable_items in Hw.
    assert (Hgap : blank (indent +:+ gap) = true)
      by (rewrite blank_app, Hindent; reflexivity).
    rewrite serialize_array.
    destruct items as [|x items]; [apply (text_empty_array EmptyString); reflexivity|].
    apply (text_array _ (newline (indent +:+ gap))); [exact Hgap|].
    apply json_elements_join; [exact Hgap | exact Hindent | discriminate|].
    rewrite Forall_forall in IH, Hw |- *. intros y Hy. apply IH; auto.
  - cbn [writable] in Hw. destruct Hw as [Hnd Hw]. apply writable_props in Hw.
    assert (Hdef : Forall (fun kv => is_undefined (snd kv) = false) props).
    { eapply Forall_impl; [exact Hw|]. intros kv. apply writable_defined. }
    assert (Hgap : blank (indent +:+ gap) = true)
      by (rewrite blank_app, Hindent; reflexivity).
    rewrite (serialize_object indent props Hdef).
    destruct props as [|kx props]; [apply (text_empty_object EmptyString); reflexivity|].
    apply (text_object _ (newline (indent +:+ gap))); [exact Hnd | exact Hgap|].
    apply json_members_join; [exact Hgap | exact Hindent | discriminate|].
    rewrite Forall_forall in IH, Hw |- *. intros y Hy. apply IH; auto.
Qed.

(** ** Paths, rounding and writing *)

(** *** Paths *)

Lemma split_on_nonempty (s : string) : split_on slash s <> [].
Proof.
  destruct s as [|c s]; cbn; [discriminate|].
  destruct (Ascii.eqb c slash); [discriminate|].
  destruct (split_on slash s); discriminate.
Qed.

Lemma split_on_app (a b : string) :
  split_on slash (a +:+ String slash b) = (split_on slash a ++ split_on slash b)%list.
Proof.
  induction a as [|c a IH].
  - reflexivity.
  - rewrite append_cons. cbn [split_on]. rewrite IH.
    destruct (Ascii.eqb c slash); [reflexivity|].
    pose proof (split_on_nonempty a) as Hne.
    destruct (split_on slash a); [congruence | reflexivity].
Qed.

Lemma split_on_noslash (s : string) : Forall (fun t => noslash t = true) (split_on slash s).
Proof.
  induction s as [|c s IH]; cbn.
  - repeat constructor.
  - destruct (Ascii.eqb c slash) eqn:E.
    + constructor; [reflexivity | exact IH].
    + destruct (split_on slash s) as [|h t]; [repeat constructor; cbn; rewrite E; reflexivity|].
      apply Forall_cons in IH as [Hh Ht]. constructor; [|exact Ht].
      cbn. rewrite E, Hh. reflexivity.
Qed.

Lemma split_on_single (s : string) : noslash s = true -> split_on slash s = [s].
Proof.
  induction s as [|c s IH]; cbn; [reflexivity|].
  intros H. apply andb_true_iff in H as [Hc Hs].
  apply negb_true_iff in Hc. rewrite Hc, (IH Hs). reflexivity.
Qed.

Lemma split_on_join (l : list string) :
  l <> [] -> Forall (fun t => noslash t = true) l ->
  split_on slash (join_with "/" l) = l.
Proof.
  induction l as [|x l IH]; [congruence|].
  intros _ H. apply Forall_cons in H as [Hx Hl].
  destruct l as [|y l].
  - cbn. apply split_on_single, Hx.
  - change (join_with "/" (x :: y :: l)) with (x +:+ String slash (join_with "/" (y :: l))).
    rewrite split_on_app, (split_on_single x Hx), IH; [reflexivity | discriminate | exact Hl].
Qed.

Lemma normalize_step_normal (A : bool) (st : list string) (seg : string) :
  noslash seg = true -> normal A st -> normal A (normalize_step A st seg).
Proof.
  intros Hseg Hst. unfold normalize_step.
  destruct (String.eqb_spec seg EmptyString) as [->|Hne]; [exact Hst|].
  destruct (String.eqb_spec seg ".") as [->|Hnd]; [exact Hst|]. cbn [orb].
  destruct (String.eqb_spec seg "..") as [->|Hnu].
  - destruct Hst as [|st HA Hst Hall|s st Hs Hsn Hst].
    + destruct A eqn:EA; [|constructor].
      apply normal_up; [reflexivity | constructor | constructor].
    + rewrite String.eqb_refl.
      apply normal_up; [exact HA | apply normal_up; assumption | constructor; auto].
    + destruct (String.eqb_spec s "..") as [->|_]; [congruence | exact Hst].
  - apply normal_seg; [repeat split; assumption | exact Hnu | exact Hst].
Qed.

Lemma fold_normalize_step_normal (A : bool) (segs : list string) (st : list string) :
  Forall (fun t => noslash t = true) segs -> normal A st ->
  normal A (fold_left (normalize_step A) segs st).
Proof.
  intros H. revert st. induction H as [|seg segs Hseg _ IH]; intros st Hst; cbn.
  - exact Hst.
  - apply IH, normalize_step_normal; assumption.
Qed.

(** Going again over a normal stack builds it again. *)
Lemma fold_normalize_step_again (A : bool) (st : list string) :
  normal A st -> fold_left (normalize_step A) (rev st) [] = st.
Proof.
  induction 1 as [|st HA Hst IH Hall|s st Hs Hsn Hst IH]; [reflexivity| |];
    cbn [rev]; rewrite List.fold_left_app, IH; cbn [fold_left]; unfold normalize_step.
  - cbn. destruct Hall as [|t st -> _]; [rewrite HA; reflexivity | reflexivity].
  - destruct Hs as (Hne & Hnd & _).
    destruct (String.eqb_spec s EmptyString); [congruence|].
    destruct (String.eqb_spec s "."); [congruence|].
    destruct (String.eqb_spec s ".."); [congruence | reflexivity].
Qed.

Lemma normal_kept (A : bool) (st : list string) :
  normal A st -> Forall (fun s => s <> EmptyString /\ noslash s = true) st.
Proof.
  induction 1 as [|st HA Hst IH Hall|s st Hs Hsn Hst IH].
  - constructor.
  - constructor; [|exact IH]. split; [discriminate | reflexivity].
  - constructor; [|exact IH]. destruct Hs as (? & ? & ?). auto.
Qed.

Lemma join_with_empty (l : list string) :
  Forall (fun s => s <> EmptyString /\ noslash s = true) l ->
  join_with "/" l = EmptyString -> l = [].
Proof.
  destruct 1 as [|x l [Hx _] _]; [reflexivity|].
  destruct l; cbn; [congruence|].
  destruct x; [congruence | discriminate].
Qed.

Lemma join_with_head (l : list string) :
  l <> [] -> Forall (fun s => s <> EmptyString /\ noslash s = true) l ->
  starts_with_slash (join_with "/" l) = false.
Proof.
  destruct l as [|x l]; [congruence|]. intros _ H.
  apply Forall_cons in H as [[Hx Hs] _].
  destruct x as [|c x]; [congruence|].
  cbn in Hs. apply andb_true_iff in Hs as [Hc _]. apply negb_true_iff in Hc.
  destruct l; cbn; exact Hc.
Qed.

Lemma split_on_trailing (s : string) :
  split_on slash (s +:+ "/") = (split_on slash s ++ [EmptyString])%list.
Proof.
  apply (split_on_app s EmptyString).
Qed.

Lemma fold_normalize_step_skip (A : bool) (segs : list string) (st : list string) :
  fold_left (normalize_step A) (segs ++ [EmptyString]) st
  = fold_left (normalize_step A) segs st.
Proof.
  rewrite List.fold_left_app. reflexivity.
Qed.

(** [normalize] keeps what [normalizeString] built: normalising its
    answer again gives the same stack. *)
Lemma stack_normalize (a : string) :
  a <> EmptyString ->
  let A := negb (starts_with_slash a) in
  fold_left (normalize_step A) (split_on slash (normalize a)) []
  = fold_left (normalize_step A) (split_on slash a) [].
Proof.
  intros Ha A. unfold normalize.
  destruct (String.eqb_spec a EmptyString) as [|_]; [congruence|].
  unfold normalizeString. fold A.
  set (st := fold_left (normalize_step A) (split_on slash a) []).
  assert (Hst : normal A st).
  { apply fold_normalize_step_normal; [apply split_on_noslash | constructor]. }
  pose proof (normal_kept A st Hst) as Hkept.
  assert (Hrev : Forall (fun s => s <> EmptyString /\ noslash s = true) (rev st)).
  { apply Forall_forall. intros s Hs. rewrite Forall_forall in Hkept.
    apply Hkept. apply list_elem_of_In. apply list_elem_of_In, in_rev in Hs.
    exact Hs. }
  destruct (String.eqb_spec (join_with "/" (rev st)) EmptyString) as [Hq|Hq].
  - apply join_with_empty in Hq; [|exact Hrev].
    assert (st = []) as -> by (destruct st; [reflexivity|]; cbn in Hq;
                               destruct (rev st); discriminate).
    destruct (starts_with_slash a); [reflexivity|].
    destruct (ends_with_slash a); reflexivity.
  - assert (Hne : rev st <> []) by (intros E; rewrite E in Hq; apply Hq; reflexivity).
    assert (Hsplit : split_on slash (join_with "/" (rev st)) = rev st).
    { apply split_on_join; [exact Hne|].
      eapply Forall_impl; [exact Hrev|]. intros s [_ H]. exact H. }
    assert (Hagain : fold_left (normalize_step A) (rev st) [] = st)
      by (apply fold_normalize_step_again, Hst).
    destruct (starts_with_slash a), (ends_with_slash a).
    + rewrite append_cons, append_nil_l. cbn [split_on].
      change (Ascii.eqb "/" slash) with true. cbn iota.
      rewrite split_on_trailing, Hsplit. cbn [fold_left].
      rewrite fold_normalize_step_skip. exact Hagain.
    + rewrite append_cons, append_nil_l. cbn [split_on].
      change (Ascii.eqb "/" slash) with true. cbn iota.
      rewrite Hsplit. cbn [fold_left]. exact Hagain.
    + rewrite split_on_trailing, Hsplit, fold_normalize_step_skip. exact Hagain.
    + rewrite Hsplit. exact Hagain.
Qed.

Lemma normalize_nonempty (a : string) : normalize a <> EmptyString.
Proof.
  unfold normalize.
  destruct (String.eqb a EmptyString); [discriminate|].
  destruct (String.eqb_spec (normalizeString a (negb (starts_with_slash a))) EmptyString)
    as [|Hq].
  - destruct (starts_with_slash a); [discriminate|].
    destruct (ends_with_slash a); discriminate.
  - destruct (starts_with_slash a); [discriminate|].
    destruct (ends_with_slash a).
    + destruct (normalizeString a _); discriminate.
    + exact Hq.
Qed.

Lemma starts_with_slash_normalize (a : string) :
  a <> EmptyString -> starts_with_slash (normalize a) = starts_with_slash a.
Proof.
  intros Ha. unfold normalize.
  destruct (String.eqb_spec a EmptyString) as [|_]; [congruence|].
  unfold normalizeString.
  set (A := negb (starts_with_slash a)).
  set (st := fold_left (normalize_step A) (split_on slash a) []).
  assert (Hst : normal A st).
  { apply fold_normalize_step_normal; [apply split_on_noslash | constructor]. }
  pose proof (normal_kept A st Hst) as Hkept.
  assert (Hrev : Forall (fun s => s <> EmptyString /\ noslash s = true) (rev st)).
  { apply Forall_forall. intros s Hs. rewrite Forall_forall in Hkept.
    apply Hkept. apply list_elem_of_In. apply list_elem_of_In, in_rev in Hs.
    exact Hs. }
  destruct (String.eqb_spec (join_with "/" (rev st)) EmptyString) as [Hq|Hq].
  - subst A. destruct (starts_with_slash a); [reflexivity|].
    destruct (ends_with_slash a); reflexivity.
  - assert (Hne : rev st <> []) by (intros E; rewrite E in Hq; apply Hq; reflexivity).
    pose proof (join_with_head (rev st) Hne Hrev) as Hhead.
    subst A. destruct (starts_with_slash a); [reflexivity|].
    destruct (ends_with_slash a); [|exact Hhead].
    destruct (join_with "/" (rev st)); [congruence | exact Hhead].
Qed.

Lemma starts_with_slash_app (x y : string) :
  x <> EmptyString -> starts_with_slash (x +:+ y) = starts_with_slash x.
Proof.
  destruct x; [congruence | reflexivity].
Qed.

Lemma ends_with_slash_cons (c : ascii) (r : string) :
  r <> EmptyString -> ends_with_slash (String c r) = ends_with_slash r.
Proof.
  destruct r; [congruence | reflexivity].
Qed.

Lemma ends_with_slash_app (x b : string) :
  ends_with_slash (x +:+ String slash b) = ends_with_slash (String slash b).
Proof.
  induction x as [|c x IH]; [reflexivity|].
  rewrite append_cons, ends_with_slash_cons; [exact IH|].
  destruct x; discriminate.
Qed.

Lemma normalize_join (a b : string) :
  a <> EmptyString ->
  normalize (normalize a +:+ String slash b) = normalize (a +:+ String slash b).
Proof.
  intros Ha.
  assert (Hs : starts_with_slash (normalize a +:+ String slash b)
               = starts_with_slash (a +:+ String slash b)).
  { rewrite !starts_with_slash_app by (auto using normalize_nonempty).
    apply starts_with_slash_normalize, Ha. }
  assert (He : ends_with_slash (normalize a +:+ String slash b)
               = ends_with_slash (a +:+ String slash b)).
  { rewrite !ends_with_slash_app. reflexivity. }
  assert (Hq : normalizeString (normalize a +:+ String slash b)
                 (negb (starts_with_slash (a +:+ String slash b)))
               = normalizeString (a +:+ String slash b)
                   (negb (starts_with_slash (a +:+ String slash b)))).
  { unfold normalizeString. rewrite !split_on_app, !List.fold_left_app.
    rewrite (starts_with_slash_app a _ Ha).
    rewrite (stack_normalize a Ha). reflexivity. }
  assert (U : forall p, normalize p =
            if String.eqb p EmptyString then "."
            else
              let q := normalizeString p (negb (starts_with_slash p)) in
              if String.eqb q EmptyString then
                if starts_with_slash p then "/"
                else if ends_with_slash p then "./" else "."
              else
                let q := if ends_with_slash p then q +:+ "/" else q in
                if starts_with_slash p then "/" +:+ q else q) by reflexivity.
  rewrite (U (normalize a +:+ String slash b)), (U (a +:+ String slash b)).
  cbn zeta. rewrite Hs, He, Hq.
  assert (E1 : String.eqb (normalize a +:+ String slash b) EmptyString = false).
  { apply String.eqb_neq. pose proof (normalize_nonempty a).
    destruct (normalize a); [congruence | discriminate]. }
  assert (E2 : String.eqb (a +:+ String slash b) EmptyString = false).
  { apply String.eqb_neq. destruct a; [congruence | discriminate]. }
  rewrite E1, E2. reflexivity.
Qed.

Lemma join_with_app (p1 p2 : list string) :
  p1 <> [] -> p2 <> [] ->
  join_with "/" (p1 ++ p2) = join_with "/" p1 +:+ String slash (join_with "/" p2).
Proof.
  intros H1 H2. induction p1 as [|x p1 IH]; [congruence|].
  destruct p1 as [|y p1].
  - destruct p2 as [|z p2]; [congruence|]. reflexivity.
  - change (join_with "/" ((x :: y :: p1) ++ p2))
      with (x +:+ String slash (join_with "/" ((y :: p1) ++ p2))).
    rewrite IH by discriminate.
    change (join_with "/" (x :: y :: p1))
      with (x +:+ String slash (join_with "/" (y :: p1))).
    rewrite append_assoc, append_cons. reflexivity.
Qed.

Lemma join_with_nonempty (p : list string) :
  p <> [] -> Forall (fun s => s <> EmptyString) p -> join_with "/" p <> EmptyString.
Proof.
  destruct p as [|x p]; [congruence|]. intros _ H.
  apply Forall_cons in H as [Hx _].
  destruct x; [congruence|]. destruct p; discriminate.
Qed.

Lemma nonempty_Forall (l : list string) :
  Forall (fun s => s <> EmptyString) (nonempty l).
Proof.
  apply Forall_forall. intros s Hs.
  apply list_elem_of_In, filter_In in Hs as [_ Hs].
  apply negb_true_iff, String.eqb_neq in Hs. exact Hs.
Qed.

Lemma path_join_nonempty (l : list string) : path_join l <> EmptyString.
Proof.
  unfold path_join. destruct (List.filter _ l); [discriminate|].
  apply normalize_nonempty.
Qed.

(** Joining onto a joined path is joining everything at once. *)
Lemma path_join_nested (l1 l2 : list string) :
  nonempty l1 <> [] -> nonempty l2 <> [] ->
  path_join (path_join l1 :: l2) = path_join (l1 ++ l2).
Proof.
  intros H1 H2. unfold path_join at 1 3.
  cbn [List.filter].
  destruct (String.eqb_spec (path_join l1) EmptyString) as [E|_];
    [exfalso; exact (path_join_nonempty l1 E)|].
  cbn [negb]. rewrite List.filter_app. fold (nonempty l1) (nonempty l2).
  destruct (nonempty l2) as [|y p2] eqn:E2; [congruence|].
  destruct (nonempty l1) as [|x p1] eqn:E1; [congruence|].
  change (join_with "/" (path_join l1 :: y :: p2))
    with (path_join l1 +:+ String slash (join_with "/" (y :: p2))).
  unfold path_join. fold (nonempty l1). rewrite E1.
  rewrite normalize_join.
  - rewrite <- join_with_app by discriminate. reflexivity.
  - apply join_with_nonempty; [discriminate|].
    rewrite <- E1. apply nonempty_Forall.
Qed.

Lemma chapterPath_metadataFilePath (D X F : string) :
  F <> EmptyString ->
  path_join [path_join [D; "data"; "chapters"; X]; F]
  = path_join [CHAPTERS_METADATA_DIR D; X; F].
Proof.
  intros HF.
  assert (HFne : forall l, nonempty (l ++ [F]) <> []).
  { intros l. unfold nonempty. rewrite List.filter_app. cbn.
    destruct (String.eqb_spec F EmptyString); [congruence|]. cbn.
    destruct (List.filter _ l); discriminate. }
  unfold CHAPTERS_METADATA_DIR, DATA_DIR.
  rewrite (path_join_nested [D; "data"; "chapters"; X] [F]).
  2:{ unfold nonempty. cbn. destruct (negb (String.eqb D EmptyString)); discriminate. }
  2:{ apply (HFne []). }
  rewrite (path_join_nested [path_join [D; "data"]; "chapters"] [X; F]).
  2:{ unfold nonempty. cbn.
      destruct (negb (String.eqb (path_join [D; "data"]) EmptyString)); discriminate. }
  2:{ apply (HFne [X]). }
  cbn [app].
  rewrite (path_join_nested [D; "data"] ["chapters"; X; F]).
  2:{ unfold nonempty. cbn. destruct (negb (String.eqb D EmptyString)); discriminate. }
  2:{ apply (HFne ["chapters"; X]). }
  reflexivity.
Qed.


(** *** Rounding *)

(** A double is its own nearest double. *)
Lemma round_to_double_again (m z : Z) :
  0 <= m -> round_to_double m = Finite z ->
  0 <= z /\ round_to_double z = Finite z.
Proof.
  intros Hm. unfold round_to_double at 1.
  destruct (m <? 2 ^ 53) eqn:Hsmall.
  { intros H. inversion H; subst z. split; [exact Hm|].
    unfold round_to_double. rewrite Hsmall. reflexivity. }
  apply Z.ltb_ge in Hsmall.
  set (e := Z.log2 m - 52).
  set (q := m / 2 ^ e).
  set (q' := if (2 ^ (e - 1) <? m mod 2 ^ e) || ((m mod 2 ^ e =? 2 ^ (e - 1)) && Z.odd q)
             then q + 1 else q).
  cbn zeta. fold e. fold q. fold q'.
  destruct (2 ^ 1024 <=? q' * 2 ^ e) eqn:Hbig; [discriminate|].
  intros H. inversion H; subst z. clear H.
  apply Z.leb_gt in Hbig.
  assert (Hlog : 53 <= Z.log2 m).
  { apply Z.log2_le_pow2; lia. }
  assert (He : 1 <= e) by (unfold e; lia).
  assert (Hpe : 0 < 2 ^ e) by (apply Z.pow_pos_nonneg; lia).
  destruct (Z.log2_spec m ltac:(lia)) as [Hlo Hhi].
  assert (Hsplit : 2 ^ Z.log2 m = 2 ^ 52 * 2 ^ e).
  { rewrite <- Z.pow_add_r by lia. f_equal. unfold e. lia. }
  assert (Hsplit' : 2 ^ Z.succ (Z.log2 m) = 2 ^ 53 * 2 ^ e).
  { rewrite <- Z.pow_add_r by lia. f_equal. unfold e. lia. }
  assert (Hq : 2 ^ 52 <= q < 2 ^ 53).
  { unfold q. split.
    - apply Z.div_le_lower_bound; lia.
    - apply Z.div_lt_upper_bound; lia. }
  assert (Hq' : 2 ^ 52 <= q' <= 2 ^ 53).
  { unfold q'. destruct (_ || _); lia. }
  split; [nia|].
  unfold round_to_double.
  assert (Hz : 2 ^ 53 <= q' * 2 ^ e) by nia.
  replace (q' * 2 ^ e <? 2 ^ 53) with false by (symmetry; apply Z.ltb_ge; exact Hz).
  cbn zeta.
  destruct (Z.eq_dec q' (2 ^ 53)) as [Htop|Hntop].
  - (* the mantissa overflowed: the value is a power of two *)
    rewrite Htop in *.
    assert (Hval : 2 ^ 53 * 2 ^ e = 2 ^ (53 + e)) by (rewrite Z.pow_add_r by lia; reflexivity).
    rewrite Hval in *.
    rewrite Z.log2_pow2 by lia.
    replace (53 + e - 52) with (e + 1) by lia.
    assert (Hdiv : 2 ^ (53 + e) = 2 ^ 52 * 2 ^ (e + 1)).
    { rewrite <- Z.pow_add_r by lia. f_equal. lia. }
    assert (Hp : 0 < 2 ^ (e + 1)) by (apply Z.pow_pos_nonneg; lia).
    replace (2 ^ (53 + e) / 2 ^ (e + 1)) with (2 ^ 52)
      by (rewrite Hdiv, Z.div_mul; lia).
    replace (2 ^ (53 + e) mod 2 ^ (e + 1)) with 0
      by (rewrite Hdiv, Z.mod_mul; lia).
    replace (e + 1 - 1) with e by lia.
    replace (2 ^ e <? 0) with false by (symmetry; apply Z.ltb_ge; lia).
    replace (0 =? 2 ^ e) with false by (symmetry; apply Z.eqb_neq; lia).
    cbn [orb andb].
    replace (2 ^ 52 * 2 ^ (e + 1)) with (2 ^ (53 + e)) by exact Hdiv.
    replace (2 ^ 1024 <=? 2 ^ (53 + e)) with false
      by (symmetry; apply Z.leb_gt; exact Hbig).
    reflexivity.
  - assert (Hlz : Z.log2 (q' * 2 ^ e) = 52 + e).
    { rewrite Z.log2_mul_pow2 by lia.
      assert (Z.log2 q' = 52); [|lia].
      apply Z.log2_unique; lia. }
    rewrite Hlz. replace (52 + e - 52) with e by lia.
    rewrite Z.div_mul, Z.mod_mul by lia.
    assert (Hhalf : 0 < 2 ^ (e - 1)) by (apply Z.pow_pos_nonneg; lia).
    replace (2 ^ (e - 1) <? 0) with false by (symmetry; apply Z.ltb_ge; lia).
    replace (0 =? 2 ^ (e - 1)) with false by (symmetry; apply Z.eqb_neq; lia).
    cbn [orb andb].
    replace (2 ^ 1024 <=? q' * 2 ^ e) with false
      by (symmetry; apply Z.leb_gt; exact Hbig).
    reflexivity.
Qed.

Lemma parseInt_cases (s : string) :
  parseInt s = NaN \/ exists negative m, parseInt s = number_of_digits negative m.
Proof.
  unfold parseInt.
  destruct (match trim_start s with
            | String "-" r => (true, r)
            | String "+" r => (false, r)
            | _ => (false, trim_start s)
            end) as [negative u].
  destruct (digits_value (fst (span_digits u))) as [m|]; [|left; reflexivity].
  destruct (String.eqb (fst (span_digits u)) EmptyString); [left; reflexivity|].
  right. eauto.
Qed.

(** A positive finite number out of [parseInt] is written and read back
    as itself. *)
Lemma parseInt_writable (s : string) (z : Z) :
  parseInt s = Finite z -> 0 < z -> writable (VNumber (Finite z)).
Proof.
  intros Hp Hz. cbn [writable].
  destruct (parseInt_cases s) as [E|(negative & m & E)]; rewrite E in Hp;
    [discriminate|].
  unfold number_of_digits in Hp |- *.
  replace (z <? 0) with false by (symmetry; apply Z.ltb_ge; lia).
  rewrite N2Z.inj_abs_N, Z.abs_eq by lia.
  destruct negative.
  - destruct (round_to_double (Z.of_N m)) as [z'| | |] eqn:R; try discriminate.
    cbn in Hp. inversion Hp; subst z.
    destruct (round_to_double_again _ _ (N2Z.is_nonneg m) R). lia.
  - destruct (round_to_double_again _ _ (N2Z.is_nonneg m) Hp) as [_ H]. exact H.
Qed.

(** *** File names *)

Lemma span_digits_split (s : string) :
  s = fst (span_digits s) +:+ snd (span_digits s)
  /\ digits_only (fst (span_digits s)) = true.
Proof.
  induction s as [|c s [IH1 IH2]]; [split; reflexivity|].
  cbn [span_digits]. destruct (is_digit c) eqn:Hc.
  - destruct (span_digits s) as [ds rest]. cbn [fst snd] in *.
    rewrite append_cons, <- IH1. cbn [digits_only]. rewrite Hc, IH2.
    split; reflexivity.
  - split; reflexivity.
Qed.

Lemma fileNameRegex_test_true (name : string) :
  fileNameRegex_test name = true ->
  exists K, name = K +:+ ".html" /\ digits_only K = true.
Proof.
  unfold fileNameRegex_test.
  destruct (span_digits_split name) as [H1 H2].
  destruct (span_digits name) as [ds rest]. cbn [fst snd] in *.
  intros H. apply andb_true_iff in H as [_ H]. apply String.eqb_eq in H.
  subst rest. eauto.
Qed.

Lemma replace_first_extension (K : string) :
  digits_only K = true ->
  replace_first ".html" ".json" (K +:+ ".html") = K +:+ ".json".
Proof.
  induction K as [|c K IH]; [reflexivity|].
  cbn [digits_only]. intros H. apply andb_true_iff in H as [Hc HK].
  rewrite !append_cons. cbn [replace_first String.prefix].
  destruct (ascii_dec "." c) as [<-|_]; [discriminate Hc|].
  rewrite (IH HK). reflexivity.
Qed.

(** *** Writing *)

Lemma writeFile_lookup (fs fs' : filesystem) (p data : string) :
  writeFile fs p data = Resolved fs' -> fs' !! p = Some (File data).
Proof.
  unfold writeFile.
  destruct (fs !! p) as [[]|]; try discriminate.
  - intros H; inversion H. apply lookup_insert_eq.
  - destruct (fs !! parent_of p) as [[]|]; try discriminate.
    intros H; inversion H. apply lookup_insert_eq.
Qed.

(** *** Creating and removing entries *)

(** Listing a name touches directories only. *)
Lemma add_name_file (fs : filesystem) (p q content : string) :
  fs !! q = Some (File content) -> add_name fs p !! q = Some (File content).
Proof.
  intros Hq. unfold add_name.
  destruct (fs !! parent_of p) as [[]|] eqn:E; try exact Hq.
  destruct (existsb _ _); [exact Hq|].
  rewrite lookup_insert_ne; [exact Hq|]. congruence.
Qed.

Lemma remove_name_file (fs : filesystem) (p q content : string) :
  fs !! q = Some (File content) -> remove_name fs p !! q = Some (File content).
Proof.
  intros Hq. unfold remove_name.
  destruct (fs !! parent_of p) as [[]|] eqn:E; try exact Hq.
  rewrite lookup_insert_ne; [exact Hq|]. congruence.
Qed.

Lemma remove_name_absent (fs : filesystem) (p q : string) :
  fs !! q = None -> remove_name fs p !! q = None.
Proof.
  intros Hq. unfold remove_name.
  destruct (fs !! parent_of p) as [[]|] eqn:E; try exact Hq.
  rewrite lookup_insert_ne; [exact Hq|]. congruence.
Qed.

(** [mkdir] leaves the files there are. *)
Lemma mkdir_each_file (paths : list string) (fs fs' : filesystem) (q content : string) :
  mkdir_each fs paths = Resolved fs' ->
  fs !! q = Some (File content) -> fs' !! q = Some (File content).
Proof.
  revert fs. induction paths as [|p r IH]; intros fs; cbn.
  - intros H; inversion H; auto.
  - destruct (fs !! p) as [[]|] eqn:E; try discriminate.
    + apply IH.
    + intros H Hq. apply (IH _ H).
      rewrite lookup_insert_ne by congruence.
      apply add_name_file, Hq.
Qed.

(** Writing a file leaves the other files. *)
Lemma writeFile_other (fs fs' : filesystem) (p data q content : string) :
  writeFile fs p data = Resolved fs' -> q <> p ->
  fs !! q = Some (File content) -> fs' !! q = Some (File content).
Proof.
  unfold writeFile. intros H Hne Hq.
  destruct (fs !! p) as [[]|]; try discriminate.
  - inversion H. rewrite lookup_insert_ne by congruence. exact Hq.
  - destruct (fs !! parent_of p) as [[]|] eqn:E; try discriminate.
    inversion H. rewrite lookup_insert_ne by congruence.
    apply add_name_file, Hq.
Qed.

(** What [unlink] removed is gone, and what was not there before is not
    there after. *)
Lemma unlink_gone (fs fs' : filesystem) (p : string) :
  unlink fs p = Resolved fs' -> fs' !! p = None.
Proof.
  unfold unlink.
  destruct (fs !! p) as [[]|]; try discriminate;
    intros H; inversion H; apply remove_name_absent, lookup_delete_eq.
Qed.

Lemma unlink_absent (fs fs' : filesystem) (p q : string) :
  unlink fs p = Resolved fs' -> fs !! q = None -> fs' !! q = None.
Proof.
  unfold unlink. intros H Hq.
  assert (delete p fs !! q = None) as Hd.
  { destruct (decide (p = q)) as [->|Hne];
      [apply lookup_delete_eq | rewrite lookup_delete_ne by exact Hne; exact Hq]. }
  destruct (fs !! p) as [[]|]; try discriminate;
    inversion H; apply remove_name_absent, Hd.
Qed.

Lemma unlink_other (fs fs' : filesystem) (p q content : string) :
  unlink fs p = Resolved fs' -> q <> p ->
  fs !! q = Some (File content) -> fs' !! q = Some (File content).
Proof.
  unfold unlink. intros H Hne Hq.
  assert (delete p fs !! q = Some (File content)) as Hd
    by (rewrite lookup_delete_ne by congruence; exact Hq).
  destruct (fs !! p) as [[]|]; try discriminate;
    inversion H; apply remove_name_file, Hd.
Qed.

(** After [rm] nothing is left at the path, and the files that are
    neither the path nor below it are left as they were. *)
Lemma rm_recursive_gone (fs fs' : filesystem) (p : string) :
  rm_recursive fs p = Resolved fs' -> fs' !! p = None.
Proof.
  unfold rm_recursive.
  destruct (fs !! p) as [n|] eqn:E.
  - destruct (existsb _ _); [discriminate|].
    intros H; inversion H. apply remove_name_absent.
    apply map_lookup_filter_None. right. intros n' _. cbn.
    unfold doomed. rewrite String.eqb_refl. discriminate.
  - intros H; inversion H; subst. exact E.
Qed.

Lemma rm_recursive_other (fs fs' : filesystem) (p q content : string) :
  rm_recursive fs p = Resolved fs' -> doomed p q = false ->
  fs !! q = Some (File content) -> fs' !! q = Some (File content).
Proof.
  unfold rm_recursive. intros H Hd Hq.
  destruct (fs !! p) as [n|] eqn:E.
  - destruct (existsb _ _); [discriminate|].
    inversion H. apply remove_name_file.
    apply map_lookup_filter_Some. split; [exact Hq | exact Hd].
  - inversion H; subst. exact Hq.
Qed.

(** *** Paths ending in plain segments *)

Lemma normalize_step_kept (A : bool) (st : list string) (s : string) :
  kept s -> s <> ".." -> normalize_step A st s = s :: st.
Proof.
  intros (Hne & Hnd & _) Hnu. unfold normalize_step.
  destruct (String.eqb_spec s EmptyString); [congruence|].
  destruct (String.eqb_spec s "."); [congruence|].
  destruct (String.eqb_spec s ".."); [congruence | reflexivity].
Qed.

Lemma ends_with_slash_noslash (s : string) :
  noslash s = true -> ends_with_slash s = false.
Proof.
  induction s as [|c s IH]; [reflexivity|].
  cbn [noslash]. intros H. apply andb_true_iff in H as [Hc Hs].
  apply negb_true_iff in Hc.
  destruct s as [|d s]; [exact Hc | exact (IH Hs)].
Qed.

Lemma ends_with_slash_segment (x s : string) :
  kept s -> ends_with_slash (x +:+ String slash s) = false.
Proof.
  intros (Hne & _ & Hs).
  rewrite ends_with_slash_app, ends_with_slash_cons by exact Hne.
  apply ends_with_slash_noslash, Hs.
Qed.

Lemma split_on_segment (x s : string) :
  kept s ->
  split_on slash (x +:+ String slash s) = (split_on slash x ++ [s])%list.
Proof.
  intros (_ & _ & Hs). rewrite split_on_app, (split_on_single s Hs). reflexivity.
Qed.

Lemma append_slash_nonempty (a b : string) : a +:+ String slash b <> EmptyString.
Proof.
  destruct a; cbn; discriminate.
Qed.

Lemma normalize_child (a t : string) (pre : list string) (s : string) :
  a <> EmptyString -> split_on slash a = (pre ++ [s])%list ->
  ends_with_slash a = false ->
  kept s -> s <> ".." -> kept t -> t <> ".." ->
  normalize (a +:+ String slash t) = normalize a +:+ String slash t.
Proof.
  intros Ha Hsplit Hend Hs Hsu Ht Htu.
  assert (U : forall p, normalize p =
            if String.eqb p EmptyString then "."
            else
              let q := normalizeString p (negb (starts_with_slash p)) in
              if String.eqb q EmptyString then
                if starts_with_slash p then "/"
                else if ends_with_slash p then "./" else "."
              else
                let q := if ends_with_slash p then q +:+ "/" else q in
                if starts_with_slash p then "/" +:+ q else q) by reflexivity.
  rewrite (U (a +:+ String slash t)), (U a). cbn zeta.
  rewrite (starts_with_slash_app a _ Ha), Hend, (ends_with_slash_segment a t Ht).
  set (A := negb (starts_with_slash a)).
  unfold normalizeString.
  rewrite (split_on_segment a t Ht), Hsplit, !List.fold_left_app. cbn [fold_left].
  set (st := fold_left (normalize_step A) pre []).
  rewrite (normalize_step_kept A st s Hs Hsu).
  rewrite (normalize_step_kept A (s :: st) t Ht Htu).
  cbn [rev].
  assert (Hq : join_with "/" (rev st ++ [s]) <> EmptyString).
  { destruct Hs as (Hne & _). destruct (rev st) as [|y r]; [exact Hne|].
    rewrite (join_with_app (y :: r) [s]); [|discriminate..].
    destruct (join_with "/" (y :: r)); cbn; discriminate. }
  rewrite (join_with_app (rev st ++ [s]) [t])
    by (try discriminate; destruct (rev st); discriminate).
  cbn [join_with].
  assert (E1 : String.eqb (a +:+ String slash t) EmptyString = false).
  { apply String.eqb_neq. destruct a; [congruence | discriminate]. }
  assert (E2 : String.eqb a EmptyString = false) by (apply String.eqb_neq, Ha).
  assert (E3 : String.eqb (join_with "/" (rev st ++ [s])) EmptyString = false)
    by (apply String.eqb_neq, Hq).
  assert (E4 : String.eqb (join_with "/" (rev st ++ [s]) +:+ String slash t) EmptyString
               = false).
  { apply String.eqb_neq. destruct (join_with "/" (rev st ++ [s])); discriminate. }
  rewrite E1, E2, E3, E4.
  destruct (starts_with_slash a); [|reflexivity].
  rewrite append_assoc. reflexivity.
Qed.

(** Joining one more plain segment onto a path that ends in one appends
    it. *)
Lemma path_join_child (l : list string) (s t : string) :
  kept s -> s <> ".." -> kept t -> t <> ".." ->
  path_join (l ++ [s; t]) = path_join (l ++ [s]) +:+ String slash t.
Proof.
  intros Hs Hsu Ht Htu.
  assert (Hse : negb (String.eqb s EmptyString) = true)
    by (apply negb_true_iff, String.eqb_neq, Hs).
  assert (Hte : negb (String.eqb t EmptyString) = true)
    by (apply negb_true_iff, String.eqb_neq, Ht).
  unfold path_join. rewrite !List.filter_app. cbn [List.filter].
  rewrite Hse, Hte. fold (nonempty l).
  set (p := nonempty l).
  assert (Hp : Forall (fun x => x <> EmptyString) p) by apply nonempty_Forall.
  replace (p ++ [s; t])%list with ((p ++ [s]) ++ [t])%list
    by (rewrite <- app_assoc; reflexivity).
  destruct (p ++ [s])%list as [|y r] eqn:Eps; [destruct p; discriminate|].
  rewrite <- Eps.
  destruct ((p ++ [s]) ++ [t])%list as [|y' r'] eqn:Epst; [destruct p; discriminate|].
  rewrite <- Epst.
  rewrite (join_with_app (p ++ [s]) [t]) by (try discriminate; destruct p; discriminate).
  cbn [join_with].
  destruct p as [|x p'] eqn:Ep.
  - cbn [app join_with].
    apply (normalize_child s t [] s); auto.
    + apply Hs.
    + apply split_on_single, Hs.
    + apply ends_with_slash_noslash, Hs.
  - rewrite (join_with_app (x :: p') [s]) by discriminate. cbn [join_with].
    apply (normalize_child _ t (split_on slash (join_with "/" (x :: p'))) s); auto.
    + apply append_slash_nonempty.
    + apply split_on_segment, Hs.
    + apply ends_with_slash_segment, Hs.
Qed.

(** *** Absolute paths by their segments *)

Lemma normal_plain (st : list string) : normal false st -> Forall plain st.
Proof.
  induction 1 as [|st HA _ _ _|s st Hs Hsn _ IH]; [constructor | discriminate|].
  constructor; [split; assumption | exact IH].
Qed.

Lemma segments_of_plain (p : string) : Forall plain (segments_of p).
Proof.
  unfold segments_of. apply Forall_rev, normal_plain.
  apply fold_normalize_step_normal; [apply split_on_noslash | constructor].
Qed.

Lemma plain_noslash (l : list string) :
  Forall plain l -> Forall (fun t => noslash t = true) l.
Proof.
  intros Hl. eapply Forall_impl; [exact Hl|]. intros s [(_ & _ & H) _]. exact H.
Qed.

Lemma plain_nonempty (l : list string) : Forall plain l -> nonempty l = l.
Proof.
  induction 1 as [|s l [(Hne & _) _] _ IH]; [reflexivity|].
  unfold nonempty in *. cbn [List.filter].
  destruct (String.eqb_spec s EmptyString); [congruence|]. cbn [negb]. rewrite IH.
  reflexivity.
Qed.

Lemma fold_normalize_step_plain (A : bool) (l st : list string) :
  Forall plain l -> fold_left (normalize_step A) l st = (rev l ++ st)%list.
Proof.
  intros H. revert st. induction H as [|s l [Hs Hsu] _ IH]; intros st; [reflexivity|].
  cbn [fold_left rev]. rewrite (normalize_step_kept A st s Hs Hsu), IH.
  rewrite <- app_assoc. reflexivity.
Qed.

Lemma rooted_snoc (l : list string) (s : string) :
  l <> [] -> rooted l +:+ String slash s = rooted (l ++ [s]).
Proof.
  intros Hl. unfold rooted. rewrite (join_with_app l [s]) by (try discriminate; exact Hl).
  cbn [join_with]. rewrite append_assoc. reflexivity.
Qed.

(** Joining a plain segment onto an absolute path. *)
Lemma path_join_rooted_one (D s : string) :
  starts_with_slash D = true -> plain s ->
  path_join [D; s] = rooted (segments_of D ++ [s]).
Proof.
  intros HD [Hs Hsu].
  assert (HDne : D <> EmptyString) by (intros ->; discriminate HD).
  unfold path_join. cbn [List.filter].
  destruct (String.eqb_spec D EmptyString) as [|_]; [congruence|].
  destruct (String.eqb_spec s EmptyString) as [E|_]; [destruct Hs; congruence|].
  cbn [negb join_with].
  assert (U : forall p, normalize p =
            if String.eqb p EmptyString then "."
            else
              let q := normalizeString p (negb (starts_with_slash p)) in
              if String.eqb q EmptyString then
                if starts_with_slash p then "/"
                else if ends_with_slash p then "./" else "."
              else
                let q := if ends_with_slash p then q +:+ "/" else q in
                if starts_with_slash p then "/" +:+ q else q) by reflexivity.
  change (D +:+ "/" +:+ s) with (D +:+ String slash s).
  rewrite U. cbn zeta.
  rewrite (starts_with_slash_app D _ HDne), HD, (ends_with_slash_segment D s Hs).
  cbn [negb]. unfold normalizeString.
  rewrite (split_on_segment D s Hs), List.fold_left_app. cbn [fold_left].
  rewrite (normalize_step_kept false _ s Hs Hsu). cbn [rev].
  fold (segments_of D).
  assert (E1 : String.eqb (D +:+ String slash s) EmptyString = false)
    by (apply String.eqb_neq, append_slash_nonempty).
  assert (E2 : String.eqb (join_with "/" (segments_of D ++ [s])) EmptyString = false).
  { apply String.eqb_neq. destruct (segments_of D) as [|y r]; [apply Hs|].
    rewrite (join_with_app (y :: r) [s]); [|discriminate..].
    apply append_slash_nonempty. }
  rewrite E1, E2. reflexivity.
Qed.

Lemma Forall_plain_snoc (l : list string) (s : string) :
  Forall plain l -> plain s -> Forall plain (l ++ [s]).
Proof.
  intros Hl Hs. apply Forall_app. split; [exact Hl | constructor; [exact Hs | constructor]].
Qed.

(** Joining plain segments onto an absolute path: its segments, then
    theirs. *)
Lemma path_join_rooted (D : string) (ss : list string) :
  starts_with_slash D = true -> ss <> [] -> Forall plain ss ->
  path_join (D :: ss) = rooted (segments_of D ++ ss).
Proof.
  intros HD. induction ss as [|t ss IH] using rev_ind; [congruence|].
  intros _ Hall. apply Forall_app in Hall as [Hss Ht].
  apply Forall_cons in Ht as [Ht _].
  destruct ss as [|s0 ss0] using rev_ind.
  - apply path_join_rooted_one; assumption.
  - clear IHss0. apply Forall_app in Hss as [Hss0 Hs0].
    apply Forall_cons in Hs0 as [Hs0 _].
    replace (D :: (ss0 ++ [s0]) ++ [t])%list with ((D :: ss0) ++ [s0; t])%list
      by (cbn; rewrite <- app_assoc; reflexivity).
    rewrite (path_join_child (D :: ss0) s0 t (proj1 Hs0) (proj2 Hs0) (proj1 Ht) (proj2 Ht)).
    change ((D :: ss0) ++ [s0])%list with (D :: (ss0 ++ [s0]))%list.
    rewrite IH; [|destruct ss0; discriminate | apply Forall_plain_snoc; assumption].
    rewrite rooted_snoc
      by (intros E; apply app_eq_nil in E as [_ E]; apply app_eq_nil in E as [_ E];
          discriminate).
    rewrite <- app_assoc. reflexivity.
Qed.

Lemma split_on_rooted (l : list string) :
  l <> [] -> Forall plain l -> split_on slash (rooted l) = EmptyString :: l.
Proof.
  intros Hl Hall. unfold rooted.
  change ("/" +:+ join_with "/" l) with (EmptyString +:+ String slash (join_with "/" l)).
  rewrite split_on_app, (split_on_join l Hl (plain_noslash l Hall)). reflexivity.
Qed.

(** Two lists of plain segments that give the same path are the same. *)
Lemma rooted_inj (l1 l2 : list string) :
  Forall plain l1 -> Forall plain l2 -> rooted l1 = rooted l2 -> l1 = l2.
Proof.
  intros H1 H2 E.
  assert (Hroot : forall l, Forall plain l -> rooted [] = rooted l -> l = []).
  { intros l Hl El. destruct l as [|x l]; [reflexivity|].
    apply (f_equal (split_on slash)) in El.
    rewrite (split_on_rooted (x :: l)) in El by (try discriminate; exact Hl).
    cbn in El. inversion El; subst.
    apply Forall_cons in Hl as [[(Hne & _) _] _]. congruence. }
  destruct l1 as [|x1 l1].
  - symmetry. apply Hroot; assumption.
  - destruct l2 as [|x2 l2]; [apply (Hroot (x1 :: l1) H1); auto|].
    apply (f_equal (split_on slash)) in E.
    rewrite !split_on_rooted in E by (try discriminate; assumption).
    inversion E. reflexivity.
Qed.

Lemma removelast_snoc {A} (l : list A) (x : A) : List.removelast (l ++ [x]) = l.
Proof.
  apply List.removelast_last.
Qed.

Lemma parent_of_rooted (l : list string) (s : string) :
  Forall plain l -> plain s -> parent_of (rooted (l ++ [s])) = rooted l.
Proof.
  intros Hl Hs. unfold parent_of.
  rewrite split_on_rooted by (try (destruct l; discriminate); apply Forall_plain_snoc; assumption).
  change (EmptyString :: l ++ [s])%list with ((EmptyString :: l) ++ [s])%list.
  rewrite removelast_snoc.
  destruct l as [|x l]; reflexivity.
Qed.

Lemma basename_rooted (l : list string) (s : string) :
  Forall plain l -> plain s -> basename (rooted (l ++ [s])) = s.
Proof.
  intros Hl Hs. unfold basename.
  rewrite split_on_rooted by (try (destruct l; discriminate); apply Forall_plain_snoc; assumption).
  change (EmptyString :: l ++ [s])%list with ((EmptyString :: l) ++ [s])%list.
  apply List.last_last.
Qed.

Lemma prefixes_from_app (base : string) (l1 l2 : list string) :
  prefixes_from base (l1 ++ l2)
  = (prefixes_from base l1
     ++ prefixes_from (fold_left (fun b s => b +:+ "/" +:+ s) l1 base) l2)%list.
Proof.
  revert base. induction l1 as [|s l1 IH]; intros base; [reflexivity|].
  cbn [app prefixes_from fold_left]. rewrite IH. reflexivity.
Qed.

Lemma fold_left_rooted (l : list string) :
  l <> [] ->
  fold_left (fun b s => b +:+ "/" +:+ s) l EmptyString = rooted l.
Proof.
  induction l as [|t l IH] using rev_ind; [congruence|]. intros _.
  rewrite List.fold_left_app. cbn [fold_left].
  destruct l as [|x l'].
  - reflexivity.
  - rewrite IH by discriminate.
    change (rooted (x :: l') +:+ "/" +:+ t) with (rooted (x :: l') +:+ String slash t).
    apply rooted_snoc. discriminate.
Qed.

Lemma ancestors_rooted_nil : ancestors (rooted []) = [].
Proof. reflexivity. Qed.

Lemma ancestors_prefixes (l : list string) :
  Forall plain l -> ancestors (rooted l) = prefixes_from EmptyString l.
Proof.
  intros Hl. destruct l as [|x l']; [reflexivity|].
  unfold ancestors. rewrite split_on_rooted by (try discriminate; exact Hl).
  change (List.filter (fun s => negb (String.eqb s EmptyString)) (EmptyString :: x :: l'))
    with (nonempty (x :: l')).
  rewrite (plain_nonempty _ Hl). reflexivity.
Qed.

(** The ancestors of a path: those of its directory, then itself. *)
Lemma ancestors_rooted (l : list string) (s : string) :
  Forall plain l -> plain s ->
  ancestors (rooted (l ++ [s])) = (ancestors (rooted l) ++ [rooted (l ++ [s])])%list.
Proof.
  intros Hl Hs.
  rewrite !ancestors_prefixes by (try apply Forall_plain_snoc; assumption).
  rewrite prefixes_from_app. cbn [prefixes_from]. f_equal. f_equal.
  destruct l as [|x l'].
  - reflexivity.
  - rewrite fold_left_rooted by discriminate.
    change (rooted (x :: l') +:+ "/" +:+ s) with (rooted (x :: l') +:+ String slash s).
    apply rooted_snoc. discriminate.
Qed.

(** Every ancestor of a path is the path of a prefix of its segments,
    and so is the directory it lies in. *)
Lemma ancestors_prefix (l : list string) (q : string) :
  Forall plain l -> In q (ancestors (rooted l)) ->
  exists l1 s l2, l = (l1 ++ s :: l2)%list /\ q = rooted (l1 ++ [s]).
Proof.
  induction l as [|t l IH] using rev_ind; [intros _ []|].
  intros Hall Hin. apply Forall_app in Hall as [Hl Ht].
  apply Forall_cons in Ht as [Ht _].
  rewrite (ancestors_rooted l t Hl Ht) in Hin.
  apply in_app_or in Hin as [Hin|[<-|[]]].
  - destruct (IH Hl Hin) as (l1 & s & l2 & -> & ->).
    exists l1, s, (l2 ++ [t])%list. rewrite <- app_assoc. split; reflexivity.
  - exists l, t, []. split; reflexivity.
Qed.

(** *** What creating entries leaves alone *)

Lemma add_name_untouched (fs : filesystem) (p r : string) :
  r <> parent_of p -> add_name fs p !! r = fs !! r.
Proof.
  intros Hne. unfold add_name.
  destruct (fs !! parent_of p) as [[]|]; try reflexivity.
  destruct (existsb _ _); [reflexivity|].
  apply lookup_insert_ne. congruence.
Qed.

Lemma mkdir_each_untouched (paths : list string) (fs fs' : filesystem) (r : string) :
  (forall q, In q paths -> q <> r /\ parent_of q <> r) ->
  mkdir_each fs paths = Resolved fs' -> fs' !! r = fs !! r.
Proof.
  revert fs. induction paths as [|p rest IH]; intros fs Hfar; cbn.
  - intros H; inversion H; reflexivity.
  - destruct (Hfar p (or_introl eq_refl)) as [Hp Hpp].
    assert (Hrest : forall q, In q rest -> q <> r /\ parent_of q <> r)
      by (intros q Hq; apply Hfar; right; exact Hq).
    destruct (fs !! p) as [[]|] eqn:E; try discriminate.
    + apply IH, Hrest.
    + intros H. rewrite (IH _ Hrest H).
      rewrite lookup_insert_ne by exact Hp.
      apply add_name_untouched. congruence.
Qed.

Lemma mkdir_each_app (p1 p2 : list string) (fs fs' : filesystem) :
  mkdir_each fs (p1 ++ p2) = Resolved fs' ->
  exists fs1, mkdir_each fs p1 = Resolved fs1 /\ mkdir_each fs1 p2 = Resolved fs'.
Proof.
  revert fs. induction p1 as [|p r IH]; intros fs; [eauto|].
  cbn [app mkdir_each].
  destruct (fs !! p) as [[]|]; try discriminate; apply IH.
Qed.

Lemma length_app_lt {A} (l1 l2 : list A) (x : A) (l : list A) :
  l = (l1 ++ x :: l2)%list -> (length l1 < length l)%nat /\ (length (l1 ++ [x]) <= length l)%nat.
Proof.
  intros ->. rewrite !length_app. cbn. lia.
Qed.

(** [mkdir] of a path leaves every path with more segments as it was. *)
Lemma mkdir_recursive_untouched (fs fs' : filesystem) (l r : list string) :
  Forall plain l -> Forall plain r -> (length l < length r)%nat ->
  mkdir_recursive fs (rooted l) = Resolved fs' ->
  fs' !! rooted r = fs !! rooted r.
Proof.
  intros Hl Hr Hlen. apply mkdir_each_untouched.
  intros q Hq. destruct (ancestors_prefix l q Hl Hq) as (l1 & s & l2 & El & ->).
  destruct (length_app_lt l1 l2 s l El) as [H1 H2].
  assert (Hl1 : Forall plain l1 /\ plain s).
  { rewrite El in Hl. apply Forall_app in Hl as [Ha Hb].
    apply Forall_cons in Hb as [Hb _]. auto. }
  destruct Hl1 as [Hl1 Hs].
  split.
  - intros E. apply rooted_inj in E; [|apply Forall_plain_snoc; assumption | exact Hr].
    subst r. lia.
  - rewrite (parent_of_rooted l1 s Hl1 Hs).
    intros E. apply rooted_inj in E; [|assumption..]. subst r. lia.
Qed.

(** [mkdir] of a path makes it a directory, an empty one when nothing
    was there. *)
Lemma mkdir_recursive_target (fs fs' : filesystem) (l : list string) (s : string) :
  Forall plain l -> plain s ->
  mkdir_recursive fs (rooted (l ++ [s])) = Resolved fs' ->
  exists names,
    fs' !! rooted (l ++ [s]) = Some (Directory names)
    /\ (fs !! rooted (l ++ [s]) = Some (Directory names)
        \/ (fs !! rooted (l ++ [s]) = None /\ names = [])).
Proof.
  intros Hl Hs. unfold mkdir_recursive.
  rewrite (ancestors_rooted l s Hl Hs). intros Hall.
  apply mkdir_each_app in Hall as (fs1 & Hfirst & Hlast). revert Hlast.
  assert (Hsame : fs1 !! rooted (l ++ [s]) = fs !! rooted (l ++ [s])).
  { apply (mkdir_recursive_untouched fs fs1 l (l ++ [s]) Hl).
    - apply Forall_plain_snoc; assumption.
    - rewrite length_app. cbn. lia.
    - exact Hfirst. }
  cbn [mkdir_each]. rewrite Hsame.
  destruct (fs !! rooted (l ++ [s])) as [[]|] eqn:E; try discriminate;
    intros H; inversion H; subst fs'.
  - eexists. split; [rewrite Hsame; reflexivity | left; reflexivity].
  - exists []. split; [apply lookup_insert_eq | right; split; reflexivity].
Qed.

Lemma writeFile_untouched (fs fs' : filesystem) (p data r : string) :
  writeFile fs p data = Resolved fs' -> r <> p -> r <> parent_of p ->
  fs' !! r = fs !! r.
Proof.
  unfold writeFile. intros H Hp Hpp.
  destruct (fs !! p) as [[]|]; try discriminate.
  - inversion H. apply lookup_insert_ne. congruence.
  - destruct (fs !! parent_of p) as [[]|] eqn:E; try discriminate.
    inversion H. rewrite lookup_insert_ne by congruence.
    apply add_name_untouched, Hpp.
Qed.

(** A file that was not there is listed in its directory once it is
    written. *)
Lemma writeFile_listed (fs fs' : filesystem) (p data : string) (names : list string) :
  writeFile fs p data = Resolved fs' ->
  fs !! p = None -> fs !! parent_of p = Some (Directory names) ->
  ~ In (basename p) names ->
  fs' !! parent_of p = Some (Directory (names ++ [basename p])).
Proof.
  unfold writeFile. intros H Hp Hdir Hnew. rewrite Hp, Hdir in H.
  inversion H; subst fs'.
  assert (Hne : p <> parent_of p) by (intros E; rewrite <- E, Hp in Hdir; discriminate).
  rewrite lookup_insert_ne by exact Hne.
  unfold add_name. rewrite Hdir.
  destruct (existsb _ names) eqn:Ex.
  - exfalso. apply existsb_exists in Ex as (x & Hx & Hb).
    apply String.eqb_eq in Hb. subst x. exact (Hnew Hx).
  - apply lookup_insert_eq.
Qed.

Section Properties.

Variable __dirname : string.
Variable ToNumber_other : value -> result number.

Local Abbreviation getStories := (getStories __dirname).
Local Abbreviation getStoryByFolderName := (getStoryByFolderName __dirname).
Local Abbreviation getChaptersForStory := (getChaptersForStory __dirname ToNumber_other).
Local Abbreviation getChapterDetails := (getChapterDetails __dirname).
Local Abbreviation readChapterContent := (readChapterContent __dirname).
Local Abbreviation CHAPTERS_METADATA_DIR := (CHAPTERS_METADATA_DIR __dirname).
Local Abbreviation chapterPath := (chapterPath __dirname).

(** C2.  When the chapter directory of a story is absent, so that
    reading it fails with ENOENT, [getChaptersForStory] resolves to the
    empty array; it does not reject. *)
Theorem getChaptersForStory_absent_directory
    (first : nat) (fs : filesystem) (folderName : string) :
  readdir fs (path_join [CHAPTERS_METADATA_DIR; folderName])
    = Rejected (SystemError ENOENT) ->
  getChaptersForStory first fs folderName = Resolved [].
Proof.
  intros H. unfold getChaptersForStory, read_chapters.
  rewrite H. reflexivity.
Qed.



(** *** The catalog *)

Lemma Array_find_first (pred : value -> result bool)
    (before : list value) (s : value) (after : list value) :
  Forall (fun t => pred t = Resolved false) before ->
  pred s = Resolved true ->
  Array_find pred (before ++ s :: after)%list = Resolved s.
Proof.
  induction 1 as [|t before Ht _ IH]; intros Hs; cbn.
  - rewrite Hs. reflexivity.
  - rewrite Ht. cbn. auto.
Qed.

Lemma Array_find_none (pred : value -> result bool) (items : list value) :
  Forall (fun t => pred t = Resolved false) items ->
  Array_find pred items = Resolved VUndefined.
Proof.
  induction 1 as [|t items Ht _ IH]; cbn; [reflexivity|].
  rewrite Ht. cbn. exact IH.
Qed.

(** The callback of [find] on an entry that is not [null]: it answers
    whether the entry holds the folder name, as a string. *)
Lemma find_story_callback (folderName : string) (s : value) :
  s <> VNull -> s <> VUndefined ->
  (f ← get_prop s "folder_name"; Resolved (strict_equals f (VString folderName)))
  = Resolved (bool_decide (string_field "folder_name" s = Some folderName)).
Proof.
  intros Hn Hu. destruct s as [| |b|n|t|items|props]; try congruence; cbn;
    try (rewrite bool_decide_eq_false_2; [reflexivity | discriminate]).
  destruct (lookup_prop props "folder_name") as [| |b|n|t|items|ps]; cbn;
    try (rewrite bool_decide_eq_false_2; [reflexivity | discriminate]).
  destruct (String.eqb_spec t folderName) as [->|Hne].
  - rewrite bool_decide_eq_true_2; reflexivity.
  - rewrite bool_decide_eq_false_2; [reflexivity | congruence].
Qed.

(** C10.  On a catalog that loads as an array of records,
    [getStoryByFolderName] resolves to the first entry whose
    [folder_name] is the argument, whatever follows it (entries with the
    same folder name included), and it resolves to [undefined] exactly
    when no entry has that folder name. *)
Theorem getStoryByFolderName_first_match
    (fs : filesystem) (folderName : string) (stories : list value) :
  getStories fs = Resolved (VArray stories) ->
  Forall (fun s => s <> VNull /\ s <> VUndefined) stories ->
  (forall before s after,
      stories = (before ++ s :: after)%list ->
      string_field "folder_name" s = Some folderName ->
      Forall (fun t => string_field "folder_name" t <> Some folderName) before ->
      getStoryByFolderName fs folderName = Resolved s)
  /\ (getStoryByFolderName fs folderName = Resolved VUndefined
      <-> Forall (fun t => string_field "folder_name" t <> Some folderName) stories).
Proof.
  intros Hload Hrec.
  unfold getStoryByFolderName. rewrite Hload. cbn.
  set (pred := fun s : value =>
         f ← get_prop s "folder_name";
         Resolved (strict_equals f (VString folderName))).
  assert (Hpred : forall s, In s stories ->
            pred s = Resolved (bool_decide (string_field "folder_name" s = Some folderName))).
  { intros s Hs. rewrite Forall_forall in Hrec.
    destruct (Hrec s) as [? ?]; [apply list_elem_of_In; exact Hs|].
    apply find_story_callback; assumption. }
  assert (Hfirst : forall before s after,
      stories = (before ++ s :: after)%list ->
      string_field "folder_name" s = Some folderName ->
      Forall (fun t => string_field "folder_name" t <> Some folderName) before ->
      Array_find pred stories = Resolved s).
  { intros before s after -> Hs Hb.
    apply Array_find_first.
    - rewrite Forall_forall in Hb |- *. intros t Ht.
      rewrite Hpred.
      + rewrite bool_decide_eq_false_2; [reflexivity|]. apply Hb, Ht.
      + apply in_or_app. left. apply list_elem_of_In, Ht.
    - rewrite Hpred.
      + rewrite bool_decide_eq_true_2; [reflexivity | exact Hs].
      + apply in_or_app. right. left. reflexivity. }
  split.
  - intros before s after Hdec Hs Hb.
    rewrite (Hfirst before s after Hdec Hs Hb). reflexivity.
  - split.
    + intros Hres.
      destruct (Array_find pred stories) as [found|e] eqn:Hfind; cbn in Hres;
        [|discriminate].
      inversion Hres; subst found; clear Hres.
      (* a first match, if there were one, would be the answer *)
      assert (Hno : ~ exists before s after,
                 stories = (before ++ s :: after)%list
                 /\ string_field "folder_name" s = Some folderName
                 /\ Forall (fun t => string_field "folder_name" t <> Some folderName) before).
      { intros (before & s & after & Hdec & Hs & Hb).
        pose proof (Hfirst before s after Hdec Hs Hb) as Heq.
        inversion Heq as [Heq']. rewrite <- Heq' in Hs. discriminate Hs. }
      clear Hfind Hfirst Hpred Hrec Hload.
      induction stories as [|t rest IH]; [constructor|].
      assert (Ht : string_field "folder_name" t <> Some folderName).
      { intros Ht. apply Hno. exists [], t, rest. repeat split; auto. }
      constructor; [exact Ht|].
      apply IH. intros (before & s & after & -> & Hs & Hb).
      apply Hno. exists (t :: before), s, after. repeat split; auto.
    + intros Hnone.
      rewrite Array_find_none; [reflexivity|].
      rewrite Forall_forall in Hnone |- *. intros t Ht.
      rewrite Hpred; [|apply list_elem_of_In, Ht].
      rewrite bool_decide_eq_false_2; [reflexivity|]. apply Hnone, Ht.
Qed.

(** *** Listing a chapter directory *)

(** C9.  In a chapter directory that is there, [getChaptersForStory]
    looks at the names ending in [.json] and at nothing else: with no such
    name the answer is the empty array whatever else the directory holds,
    and two file systems whose listings have the same [.json] names, with
    the same nodes behind them, get the same answer. *)
Theorem getChaptersForStory_only_json
    (first : nat) (fs : filesystem) (folderName : string) (files : list string) :
  let dir := path_join [CHAPTERS_METADATA_DIR; folderName] in
  readdir fs dir = Resolved files ->
  (Forall (fun file => endsWith file ".json" = false) files ->
     getChaptersForStory first fs folderName = Resolved [])
  /\ (forall (fs' : filesystem) (files' : list string),
        readdir fs' dir = Resolved files' ->
        List.filter (fun file => endsWith file ".json") files'
          = List.filter (fun file => endsWith file ".json") files ->
        (forall file, In file files -> endsWith file ".json" = true ->
           fs' !! path_join [dir; file] = fs !! path_join [dir; file]) ->
        getChaptersForStory first fs' folderName
          = getChaptersForStory first fs folderName).
Proof.
  intros dir Hdir. split.
  - intros Hnone.
    unfold getChaptersForStory, read_chapters. fold dir. rewrite Hdir. cbn.
    replace (List.filter (fun file => endsWith file ".json") files) with (@nil string).
    + reflexivity.
    + symmetry. clear Hdir. induction Hnone as [|f l Hf _ IH]; cbn; [reflexivity|].
      rewrite Hf. exact IH.
  - intros fs' files' Hdir' Hsame Hnodes.
    unfold getChaptersForStory, read_chapters. fold dir.
    rewrite Hdir, Hdir'. cbn. rewrite Hsame.
    destruct (length (List.filter (fun file => endsWith file ".json") files) =? 0)%nat;
      [reflexivity|].
    replace (map (fun jsonFile => readFile fs' (path_join [dir; jsonFile]) ≫= JSON_parse)
               (List.filter (fun file => endsWith file ".json") files))
      with (map (fun jsonFile => readFile fs (path_join [dir; jsonFile]) ≫= JSON_parse)
               (List.filter (fun file => endsWith file ".json") files)).
    + reflexivity.
    + apply map_ext_in. intros f Hf. apply filter_In in Hf as [Hin Hjson].
      unfold readFile. rewrite (Hnodes f Hin Hjson). reflexivity.
Qed.

(** *** The neighbours of a chapter *)

Lemma Array_findIndex_from_first (pred : value -> result bool) (k : Z)
    (before : list value) (cur : value) (after : list value) :
  Forall (fun b => pred b = Resolved false) before ->
  pred cur = Resolved true ->
  Array_findIndex_from pred k (before ++ cur :: after)%list
    = Resolved (k + Z.of_nat (length before)).
Proof.
  intros Hb Hc. revert k.
  induction Hb as [|b before Hb _ IH]; intros k; cbn [app Array_findIndex_from].
  - rewrite Hc. cbn. f_equal. lia.
  - rewrite Hb. cbn -[Z.of_nat]. rewrite IH. f_equal. cbn [length]. lia.
Qed.

Lemma get_prop_string_field (k : string) (v : value) (s : string) :
  string_field k v = Some s -> get_prop v k = Resolved (VString s).
Proof.
  destruct v as [| | | | | |props]; try discriminate. cbn.
  destruct (lookup_prop props k); try discriminate.
  intros H; inversion H; reflexivity.
Qed.

(** C4.  The neighbours of a chapter are its neighbours in the array.
    In a chapter list in which every record has its own
    [original_file_name], the chapter shown (located by that name) gets
    as previous chapter the element just before it, none when it is the
    first, and as next chapter the element just after it, none when it is
    the last.  The chapter numbers play no part: with chapters numbered
    1, 2, 3 the neighbours of chapter 2 are chapters 1 and 3, and they
    would be the same with a gap in the numbers. *)
Theorem adjacent_chapters_by_position
    (before : list value) (cur : value) (after : list value)
    (chapterMetadata : value) :
  let allChapters := (before ++ cur :: after)%list in
  Forall (fun chap => is_Some (string_field "original_file_name" chap)) allChapters ->
  NoDup (map (string_field "original_file_name") allChapters) ->
  string_field "original_file_name" chapterMetadata
    = string_field "original_file_name" cur ->
  adjacent_chapters allChapters chapterMetadata
    = Resolved (List.last before VNull, List.hd VNull after).
Proof.
  intros allChapters Hnamed Hdistinct Hsame.
  assert (Hcur : is_Some (string_field "original_file_name" cur)).
  { rewrite Forall_forall in Hnamed. apply Hnamed.
    apply list_elem_of_In, in_or_app. right. left. reflexivity. }
  destruct Hcur as [name Hname]. rewrite Hname in Hsame.
  unfold adjacent_chapters, Array_findIndex.
  rewrite (Array_findIndex_from_first _ 0 before cur after).
  - cbn -[Z.of_nat Array_get length]. f_equal. f_equal.
    + (* previous *)
      destruct before as [|b0 before0] using rev_ind; [reflexivity|].
      clear IHbefore0.
      rewrite last_last. subst allChapters.
      rewrite length_app. cbn [length].
      replace (0 <? 0 + Z.of_nat (length before0 + 1)) with true
        by (symmetry; apply Z.ltb_lt; lia).
      unfold Array_get.
      replace (0 + Z.of_nat (length before0 + 1) - 1 <? 0) with false
        by (symmetry; apply Z.ltb_ge; lia).
      replace (Z.to_nat (0 + Z.of_nat (length before0 + 1) - 1))
        with (length before0) by lia.
      rewrite <- !app_assoc. cbn [app]. apply nth_middle.
    + (* next *)
      subst allChapters. rewrite length_app. cbn [length].
      destruct after as [|a0 after0].
      * cbn [length hd].
        replace (0 + Z.of_nat (length before) <? Z.of_nat (length before + 1) - 1)
          with false by (symmetry; apply Z.ltb_ge; lia).
        reflexivity.
      * cbn [length hd].
        replace (0 + Z.of_nat (length before)
                   <? Z.of_nat (length before + S (S (length after0))) - 1)
          with true by (symmetry; apply Z.ltb_lt; lia).
        unfold Array_get.
        replace (0 + Z.of_nat (length before) + 1 <? 0) with false
          by (symmetry; apply Z.ltb_ge; lia).
        replace (Z.to_nat (0 + Z.of_nat (length before) + 1))
          with (length (before ++ [cur])) by (rewrite length_app; cbn; lia).
        replace (before ++ cur :: a0 :: after0)%list
          with ((before ++ [cur]) ++ a0 :: after0)%list
          by (rewrite <- app_assoc; reflexivity).
        apply nth_middle.
  - (* no chapter before the current one has its name *)
    rewrite Forall_forall. intros b Hb.
    assert (Hb' : is_Some (string_field "original_file_name" b)).
    { rewrite Forall_forall in Hnamed. apply Hnamed.
      apply list_elem_of_In, in_or_app. left. apply list_elem_of_In, Hb. }
    destruct Hb' as [nb Hnb].
    rewrite (get_prop_string_field _ _ _ Hnb), (get_prop_string_field _ _ _ Hsame).
    cbn. f_equal. apply String.eqb_neq. intros ->.
    subst allChapters. rewrite map_app in Hdistinct. cbn [map] in Hdistinct.
    apply NoDup_app in Hdistinct as (_ & Hdisj & _).
    apply (Hdisj (Some name)).
    + rewrite <- Hnb. apply list_elem_of_In, in_map, list_elem_of_In, Hb.
    + rewrite Hname. left.
  - rewrite (get_prop_string_field _ _ _ Hname), (get_prop_string_field _ _ _ Hsame).
    cbn. rewrite String.eqb_refl. reflexivity.
Qed.

(** *** A file that does not parse *)

Lemma rejections_In {A} (rs : list (result A)) (e : error) :
  In e (rejections rs) <-> In (Rejected e) rs.
Proof.
  induction rs as [|[a|e'] rs IH]; cbn; [tauto | |].
  - rewrite IH. split; [auto | intros [H|H]; [discriminate | exact H]].
  - rewrite IH. split; intros [H|H]; auto; left; congruence.
Qed.

Lemma Promise_all_rejected {A} (first : nat) (rs : list (result A)) (e0 : error) :
  In (Rejected e0) rs ->
  exists e, Promise_all first rs = Rejected e /\ In (Rejected e) rs.
Proof.
  intros H0. apply rejections_In in H0. unfold Promise_all.
  destruct (rejections rs) as [|e es] eqn:E; [destruct H0|].
  eexists. split; [reflexivity|].
  apply rejections_In. rewrite E.
  destruct (nth_in_or_default first (e :: es) e) as [H|H]; [exact H|].
  rewrite H. left. reflexivity.
Qed.

(** X2.  When every listed [.json] file is there, a file that does not parse
    makes the whole call reject, with the error of one of the files that
    failed: nothing is skipped and no partial list is answered. *)
Theorem getChaptersForStory_parse_failure_rejects
    (first : nat) (fs : filesystem) (folderName : string)
    (files : list string) (bad message : string) :
  let dir := path_join [CHAPTERS_METADATA_DIR; folderName] in
  let load := fun jsonFile => readFile fs (path_join [dir; jsonFile]) ≫= JSON_parse in
  readdir fs dir = Resolved files ->
  In bad files -> endsWith bad ".json" = true ->
  load bad = Rejected (SyntaxError message) ->
  (forall file, In file files -> endsWith file ".json" = true ->
     fs !! path_join [dir; file] <> None) ->
  exists e,
    getChaptersForStory first fs folderName = Rejected e
    /\ exists file, In file files /\ endsWith file ".json" = true
                    /\ load file = Rejected e.
Proof.
  intros dir load Hdir Hbad Hjson Hfail Hthere.
  unfold getChaptersForStory, read_chapters. fold dir. rewrite Hdir. cbn.
  set (jsonFiles := List.filter (fun file => endsWith file ".json") files).
  assert (Hin : In bad jsonFiles) by (apply filter_In; auto).
  destruct (length jsonFiles =? 0)%nat eqn:Hlen.
  { apply Nat.eqb_eq in Hlen. destruct jsonFiles; [destruct Hin | discriminate]. }
  change (map _ jsonFiles) with (map load jsonFiles).
  destruct (Promise_all_rejected first (map load jsonFiles) (SyntaxError message))
    as (e & Hall & He).
  { rewrite <- Hfail. apply in_map, Hin. }
  rewrite Hall. cbn.
  apply in_map_iff in He as (file & Hfile & Hfin).
  apply filter_In in Hfin as [Hfin Hfjson].
  assert (Hcode : is_ENOENT e = false).
  { unfold load in Hfile.
    destruct (readFile fs (path_join [dir; file])) as [text|e'] eqn:R; cbn in Hfile.
    - eapply JSON_parse_rejection, Hfile.
    - inversion Hfile; subst e'.
      destruct (is_ENOENT e) eqn:E; [|reflexivity].
      apply (readFile_ENOENT _ _ _ R) in E.
      exfalso. exact (Hthere file Hfin Hfjson E). }
  rewrite Hcode. exists e. split; [reflexivity|].
  exists file. auto.
Qed.

(** *** The order of the chapters *)

Lemma number_le_trans (a b c : number) :
  number_le a b -> number_le b c -> number_le a c.
Proof.
  destruct a, b, c; cbn; try tauto; lia.
Qed.

Lemma above_zero_false (x y : number) :
  x <> NaN -> y <> NaN ->
  above_zero (number_sub x y) = false -> number_le x y.
Proof.
  destruct x, y; cbn; try congruence; try tauto.
  intros _ _ H. apply Z.ltb_ge in H. lia.
Qed.

Lemma above_zero_true (x y : number) :
  above_zero (number_sub x y) = true -> number_le y x.
Proof.
  destruct x, y; cbn; try congruence; try tauto.
  intros H. apply Z.ltb_lt in H. lia.
Qed.

Lemma compare_chapters_numbers (a b : value) (x y : number) :
  chapter_number_of a = Some x -> chapter_number_of b = Some y ->
  compare_chapters ToNumber_other a b = Resolved (number_sub x y).
Proof.
  unfold compare_chapters, chapter_number_of.
  destruct a as [| | | | | |pa]; try discriminate.
  destruct b as [| | | | | |pb]; try discriminate.
  cbn.
  destruct (lookup_prop pa "chapter_number"); try discriminate.
  destruct (lookup_prop pb "chapter_number"); try discriminate.
  intros Hx Hy. inversion Hx; inversion Hy; subst. reflexivity.
Qed.

Lemma chapter_le_trans (a b c : value) :
  chapter_le a b -> chapter_le b c -> chapter_le a c.
Proof.
  unfold chapter_le.
  destruct (chapter_number_of a), (chapter_number_of b), (chapter_number_of c);
    try tauto.
  apply number_le_trans.
Qed.

Lemma sort_insert_sorted (x : value) (sorted : list value) :
  is_chapter x -> Forall is_chapter sorted -> StronglySorted chapter_le sorted ->
  exists l, sort_insert ToNumber_other x sorted = Resolved l
            /\ l ≡ₚ x :: sorted
            /\ StronglySorted chapter_le l.
Proof.
  intros (nx & Hx & Hxn) Hall Hsorted.
  induction Hsorted as [|y r Hr IH Hy]; cbn [sort_insert].
  - exists [x]. split; [reflexivity|]. split; [reflexivity|].
    repeat constructor.
  - apply Forall_cons in Hall as [(ny & Hny & Hyn) Hall].
    rewrite (compare_chapters_numbers x y nx ny Hx Hny). cbn.
    destruct (above_zero (number_sub nx ny)) eqn:Hcmp.
    + destruct (IH Hall) as (l & Hl & Hperm & Hs).
      rewrite Hl. cbn. exists (y :: l).
      split; [reflexivity|]. split.
      * rewrite Hperm. apply perm_swap.
      * constructor; [exact Hs|].
        rewrite Hperm. constructor; [|exact Hy].
        unfold chapter_le. rewrite Hny, Hx.
        apply above_zero_true, Hcmp.
    + exists (x :: y :: r). split; [reflexivity|]. split; [reflexivity|].
      assert (Hxy : chapter_le x y).
      { unfold chapter_le. rewrite Hx, Hny. apply above_zero_false; assumption. }
      constructor; [constructor; assumption|].
      constructor; [exact Hxy|].
      eapply Forall_impl; [exact Hy|].
      intros z Hz. eapply chapter_le_trans; eassumption.
Qed.

Lemma Array_sort_sorted (chapters : list value) :
  Forall is_chapter chapters ->
  exists l, Array_sort ToNumber_other chapters = Resolved l
            /\ l ≡ₚ chapters
            /\ StronglySorted chapter_le l.
Proof.
  induction 1 as [|x r Hx Hr IH]; cbn [Array_sort].
  - exists []. repeat split; constructor.
  - destruct IH as (l & Hl & Hperm & Hs). rewrite Hl. cbn.
    destruct (sort_insert_sorted x l Hx) as (l' & Hl' & Hperm' & Hs').
    + rewrite Hperm. exact Hr.
    + exact Hs.
    + exists l'. split; [exact Hl'|]. split; [|exact Hs'].
      rewrite Hperm', Hperm. reflexivity.
Qed.

Lemma Promise_all_resolved {A} (first : nat) (rs : list (result A)) :
  Forall (fun r => exists a, r = Resolved a) rs ->
  Promise_all first rs = Resolved (resolutions rs).
Proof.
  intros H. unfold Promise_all.
  replace (rejections rs) with (@nil error); [reflexivity|].
  induction H as [|r rs [a ->] _ IH]; cbn; [reflexivity | exact IH].
Qed.

(** C1.  When the chapter directory is there and every [.json] file in
    it parses to a chapter record, [getChaptersForStory] resolves to the
    records of those files ordered by [chapter_number]: each record's
    number is at most the number of every record after it.  This holds
    for every listing [readdir] may answer, so whatever the order of the
    names in it. *)
Theorem getChaptersForStory_sorted
    (first : nat) (fs : filesystem) (folderName : string) (files : list string) :
  let dir := path_join [CHAPTERS_METADATA_DIR; folderName] in
  let load := fun jsonFile => readFile fs (path_join [dir; jsonFile]) ≫= JSON_parse in
  let jsonFiles := List.filter (fun file => endsWith file ".json") files in
  readdir fs dir = Resolved files ->
  (forall file, In file jsonFiles ->
     exists chapter, load file = Resolved chapter /\ is_chapter chapter) ->
  exists chapters,
    getChaptersForStory first fs folderName = Resolved chapters
    /\ StronglySorted chapter_le chapters
    /\ chapters ≡ₚ resolutions (map load jsonFiles).
Proof.
  intros dir load jsonFiles Hdir Hparse.
  unfold getChaptersForStory, read_chapters. fold dir. rewrite Hdir. cbn.
  fold jsonFiles.
  destruct (length jsonFiles =? 0)%nat eqn:Hlen.
  { apply Nat.eqb_eq in Hlen. destruct jsonFiles; [|discriminate].
    exists []. repeat split; constructor. }
  change (map _ jsonFiles) with (map load jsonFiles).
  assert (Hall : Forall (fun r => exists a, r = Resolved a) (map load jsonFiles)
                 /\ Forall is_chapter (resolutions (map load jsonFiles))).
  { clear Hlen. induction jsonFiles as [|f l IH]; cbn; [split; constructor|].
    destruct (Hparse f (or_introl eq_refl)) as (c & Hc & Hchap).
    destruct IH as [IH1 IH2]; [intros g Hg; apply Hparse; right; exact Hg|].
    rewrite Hc. cbn. split; constructor; eauto. }
  destruct Hall as [Hres Hchap].
  rewrite (Promise_all_resolved first _ Hres). cbn.
  destruct (Array_sort_sorted _ Hchap) as (l & Hl & Hperm & Hs).
  rewrite Hl. exists l. auto.
Qed.

(** *** The catalog file *)

Lemma story_value_writable (s : Story) : writable (story_value s).
Proof.
  cbn. split; [|tauto].
  repeat constructor; rewrite ?list_elem_of_In; cbn; intuition discriminate.
Qed.

(** The catalog as the application writes it is one of the JSON texts
    of its records. *)
Lemma catalog_text_json (stories : list Story) :
  json_text (VArray (map story_value stories)) (catalog_text stories).
Proof.
  apply serialize_json_text; [|reflexivity].
  cbn [writable]. apply writable_items, Forall_forall.
  intros v Hv. apply list_elem_of_In, in_map_iff in Hv as (s & <- & _).
  apply story_value_writable.
Qed.

Lemma story_value_is_story_record (stories : list Story) :
  forallb is_story_record (map story_value stories) = true.
Proof.
  induction stories as [|s stories IH]; [reflexivity|].
  cbn [map forallb]. rewrite IH. reflexivity.
Qed.

(** C8.  From a catalog file holding a JSON array of story records,
    however it is laid out (whatever white space between its tokens and
    around the text, every string in whatever spelling, the fields of a
    record in whatever order), [getStories] resolves to those records, in
    the order of the file, each with its [id], [title], [folder_name] and
    [description] as the file has them, whatever strings they are.  The
    layout of [JSON.stringify(stories, null, 4)], in which every writer of
    the file in the repository writes it, is one of them
    ([catalog_text_json], [story_value_is_story_record]). *)
Theorem getStories_file_order (fs : filesystem) (records : list value)
    (lead body trail : string) :
  blank lead = true -> blank trail = true ->
  forallb is_story_record records = true ->
  json_text (VArray records) body ->
  fs !! STORIES_FILE __dirname = Some (File (lead +:+ body +:+ trail)) ->
  getStories fs = Resolved (VArray records).
Proof.
  intros Hlead Htrail _ Hbody Hfile. unfold getStories, readFile. rewrite Hfile.
  cbn [mbind result_bind bind].
  rewrite (JSON_parse_json_text _ lead body trail Hbody Hlead Htrail). reflexivity.
Qed.

(** *** Writing a chapter and reading it back *)

Lemma create_files_written (fs fs' : filesystem)
    (X title : string) (num : number) (ofn content : string) :
  create_files __dirname fs X title num ofn content = (fs', Resolved tt) ->
  exists text,
    JSON_stringify (chapterMetadata X title num ofn) = Some text
    /\ fs' !! path_join [path_join [__dirname; "data"; "chapters"; X];
                         replace_first ".html" ".json" ofn]
       = Some (File text).
Proof.
  unfold create_files.
  destruct (mkdir_recursive fs _) as [fs1|]; [|intros H; inversion H].
  destruct (writeFile fs1 _ _) as [fs2|]; [|intros H; inversion H].
  destruct (mkdir_recursive fs2 _) as [fs3|]; [|intros H; inversion H].
  destruct (JSON_stringify _) as [text|]; [|intros H; inversion H].
  destruct (writeFile fs3 _ text) as [fs4|] eqn:W; intros H; inversion H; subst.
  exists text. split; [reflexivity|]. eapply writeFile_lookup, W.
Qed.

Lemma check_chapter_passed (first : nat) (fs : filesystem)
    (X title cn ofn content : string) (num : number) :
  check_chapter __dirname ToNumber_other first fs X title cn ofn content
    = Resolved (inr num) ->
  num = parseInt cn /\ at_most_zero num = false
  /\ fileNameRegex_test ofn = true.
Proof.
  unfold check_chapter.
  destruct (getStoryByFolderName fs X) as [story|];
    cbn [mbind result_bind bind]; [|discriminate].
  destruct (negb (truthy story)); [discriminate|].
  destruct (_ || _); [discriminate|].
  destruct (is_NaN (parseInt cn) || at_most_zero (parseInt cn)) eqn:Hnum;
    [discriminate|].
  destruct (fileNameRegex_test ofn) eqn:Hre; cbn [negb]; [|discriminate].
  repeat match goal with
    | |- (?r ≫= _) = _ -> _ =>
        destruct r as [?|?]; cbn [mbind result_bind bind]; [|discriminate]
    | |- (if ?b then _ else _) = _ -> _ => destruct b; try discriminate
    | |- (match ?r with Resolved _ => _ | Rejected _ => _ end) = _ -> _ =>
        destruct r; cbn beta iota; try discriminate
    end.
  intros H; inversion H; subst.
  apply orb_false_iff in Hnum as [_ Hpos]. auto.
Qed.

Lemma check_chapter_page (first : nat) (fs : filesystem)
    (X title cn ofn content : string) (page : response) :
  check_chapter __dirname ToNumber_other first fs X title cn ofn content
    = Resolved (inl page) ->
  exists status view message, page = Render status view message.
Proof.
  unfold check_chapter.
  destruct (getStoryByFolderName fs X) as [story|];
    cbn [mbind result_bind bind]; [|discriminate].
  repeat match goal with
    | |- (?r ≫= _) = _ -> _ =>
        destruct r as [?|?]; cbn [mbind result_bind bind]; [|discriminate]
    | |- (if ?b then _ else _) = _ -> _ => destruct b
    | |- (match ?r with Resolved _ => _ | Rejected _ => _ end) = _ -> _ =>
        destruct r; cbn beta iota
    end;
    intros H; inversion H; eauto.
Qed.

Lemma create_chapter_redirect (first : nat) (fs fs' : filesystem)
    (X title cn ofn content location : string) :
  create_chapter __dirname ToNumber_other first fs X title cn ofn content
    = (fs', Redirect location) ->
  exists num,
    check_chapter __dirname ToNumber_other first fs X title cn ofn content
      = Resolved (inr num)
    /\ create_files __dirname fs X title num ofn content = (fs', Resolved tt).
Proof.
  unfold create_chapter.
  destruct (check_chapter _ _ _ _ _ _ _ _ _) as [[page|num]|] eqn:Hcheck.
  - intros H.
    destruct (check_chapter_page _ _ _ _ _ _ _ _ Hcheck) as (? & ? & ? & ->).
    inversion H.
  - destruct (create_files _ _ _ _ _ _ _) as [fs2 [[]|]] eqn:Hfiles;
      intros H; inversion H; subst.
    exists num. split; [reflexivity | exact Hfiles].
  - intros H; inversion H.
Qed.

(** X1.  For a request whose fields are strings: apart from a chapter
    number too large for a double, what the create-chapter handler writes
    is what [getChapterDetails] reads.  When the handler has accepted the
    request (it answers with the redirection) and the chapter number it
    parsed is finite, reading the chapter back under the key of its file
    name gives the record written, field for field. *)
Theorem create_chapter_read_back (first : nat) (fs fs' : filesystem)
    (X title cn ofn content location : string) (z : Z) :
  create_chapter __dirname ToNumber_other first fs X title cn ofn content
    = (fs', Redirect location) ->
  parseInt cn = Finite z ->
  exists K,
    ofn = K +:+ ".html"
    /\ getChapterDetails fs' X K
       = Resolved (chapterMetadata X title (Finite z) ofn).
Proof.
  intros Hok Hnum.
  destruct (create_chapter_redirect _ _ _ _ _ _ _ _ _ Hok) as (num & Hcheck & Hfiles).
  destruct (check_chapter_passed _ _ _ _ _ _ _ _ Hcheck) as (-> & Hpos & Hre).
  rewrite Hnum in *. cbn in Hpos. apply Z.leb_gt in Hpos.
  destruct (fileNameRegex_test_true ofn Hre) as (K & -> & HK).
  exists K. split; [reflexivity|].
  destruct (create_files_written _ _ _ _ _ _ _ Hfiles) as (text & Htext & Hfile).
  rewrite (replace_first_extension K HK) in Hfile.
  rewrite chapterPath_metadataFilePath in Hfile
    by (destruct K; discriminate).
  unfold getChapterDetails, chapterPath, readFile. rewrite Hfile.
  cbn [mbind result_bind bind].
  rewrite (JSON_parse_stringify
             (chapterMetadata X title (Finite z) (K +:+ ".html")) text);
    [reflexivity | | exact Htext].
  cbn [chapterMetadata writable fold_right snd map fst].
  split; [|repeat split; exact (parseInt_writable cn z Hnum Hpos)].
  repeat constructor; rewrite ?list_elem_of_In; cbn; intuition discriminate.
Qed.

End Properties.


(** ** The other routes *)

Section RouteProperties.

Variable __dirname : string.
Variable ToNumber_other : value -> result number.
Variable error_message : error -> string.

Local Abbreviation STORIES_FILE := (STORIES_FILE __dirname).
Local Abbreviation getStories := (getStories __dirname).
Local Abbreviation getStoryByFolderName := (getStoryByFolderName __dirname).
Local Abbreviation getChaptersForStory := (getChaptersForStory __dirname ToNumber_other).
Local Abbreviation getChapterDetails := (getChapterDetails __dirname).
Local Abbreviation readChapterContent := (readChapterContent __dirname).
Local Abbreviation chapterPath := (chapterPath __dirname).
Local Abbreviation create_story := (create_story __dirname).
Local Abbreviation edit_story := (edit_story __dirname).
Local Abbreviation delete_story := (delete_story __dirname error_message).
Local Abbreviation delete_chapter := (delete_chapter __dirname ToNumber_other error_message).
Local Abbreviation edit_chapter := (edit_chapter __dirname ToNumber_other).
Local Abbreviation create_chapter := (create_chapter __dirname ToNumber_other).
Local Abbreviation chapter_detail := (chapter_detail __dirname ToNumber_other).
Local Abbreviation story_chapters := (story_chapters __dirname ToNumber_other).
Local Abbreviation CHAPTERS_METADATA_DIR := (CHAPTERS_METADATA_DIR __dirname).

(** *** The catalog under the story handlers *)

Lemma storiesFilePath_STORIES_FILE :
  path_join [__dirname; "data"; "stories.json"] = STORIES_FILE.
Proof.
  unfold STORIES_FILE, DATA_DIR.
  rewrite (path_join_nested [__dirname; "data"] ["stories.json"]); [reflexivity| |].
  - unfold nonempty. cbn. destruct (negb (String.eqb __dirname EmptyString)); discriminate.
  - discriminate.
Qed.

Lemma catalog_writable (stories : list Story) :
  writable (VArray (map story_value stories)).
Proof.
  cbn [writable]. apply writable_items, Forall_forall.
  intros v Hv. apply list_elem_of_In, in_map_iff in Hv as (s & <- & _).
  apply story_value_writable.
Qed.

Lemma getStories_catalog (fs : filesystem) (stories : list Story) :
  fs !! STORIES_FILE = Some (File (catalog_text stories)) ->
  getStories fs = Resolved (VArray (map story_value stories)).
Proof.
  intros Hfile. unfold getStories, readFile. rewrite Hfile.
  cbn [mbind result_bind bind].
  rewrite (JSON_parse_stringify (VArray (map story_value stories))
             (catalog_text stories) (catalog_writable stories) eq_refl).
  reflexivity.
Qed.

Lemma write_json_catalog (fs fs' : filesystem) (stories : list Story) :
  write_json fs (path_join [__dirname; "data"; "stories.json"])
    (VArray (map story_value stories)) = Resolved fs' ->
  fs' !! STORIES_FILE = Some (File (catalog_text stories)).
Proof.
  unfold write_json. cbn [JSON_stringify is_undefined].
  rewrite storiesFilePath_STORIES_FILE. apply writeFile_lookup.
Qed.

Lemma has_folder_name_story (folder_name : string) (s : Story) :
  has_folder_name folder_name (story_value s) = Resolved (named folder_name s).
Proof. reflexivity. Qed.

Lemma Array_some_stories (folder_name : string) (stories : list Story) :
  Array_some (has_folder_name folder_name) (map story_value stories)
  = Resolved (existsb (named folder_name) stories).
Proof.
  induction stories as [|s r IH]; [reflexivity|].
  cbn [map Array_some existsb]. rewrite has_folder_name_story.
  cbn [mbind result_bind bind].
  destruct (named folder_name s); [reflexivity | exact IH].
Qed.

Lemma existsb_named (folder_name : string) (stories : list Story) :
  existsb (named folder_name) stories = false <->
  ~ In folder_name (map story_folder_name stories).
Proof.
  induction stories as [|s r IH]; cbn; [tauto|].
  unfold named at 1.
  destruct (String.eqb_spec (story_folder_name s) folder_name); cbn.
  - split; [discriminate | tauto].
  - rewrite IH. tauto.
Qed.

Lemma Array_find_stories (folder_name : string) (before after : list Story) (s : Story) :
  ~ In folder_name (map story_folder_name before) ->
  story_folder_name s = folder_name ->
  find_story (VArray (map story_value (before ++ s :: after))) folder_name
  = Resolved (story_value s).
Proof.
  intros Hb Hs. unfold find_story.
  rewrite map_app. cbn [map].
  apply Array_find_first.
  - apply Forall_forall. intros v Hv.
    apply list_elem_of_In, in_map_iff in Hv as (t & <- & Ht).
    cbn. apply f_equal. apply String.eqb_neq. intros E. apply Hb.
    apply in_map_iff. exists t. auto.
  - cbn. rewrite Hs, String.eqb_refl. reflexivity.
Qed.

Lemma Array_find_no_story (folder_name : string) (stories : list Story) :
  ~ In folder_name (map story_folder_name stories) ->
  find_story (VArray (map story_value stories)) folder_name = Resolved VUndefined.
Proof.
  intros Hb. unfold find_story.
  apply Array_find_none.
  apply Forall_forall. intros v Hv.
  apply list_elem_of_In, in_map_iff in Hv as (t & <- & Ht).
  cbn. apply f_equal. apply String.eqb_neq. intros E. apply Hb.
  apply in_map_iff. exists t. auto.
Qed.

(** What an accepted request to create a story has gone through. *)
Lemma create_story_redirect (fs fs' : filesystem) (stories : list Story)
    (title folder_name description location : string) :
  getStories fs = Resolved (VArray (map story_value stories)) ->
  create_story fs title folder_name description = (fs', Redirect location) ->
  folderNameRegex_test folder_name = true
  /\ ~ In folder_name (map story_folder_name stories)
  /\ fs' !! STORIES_FILE
     = Some (File (catalog_text (stories ++ [new_story title folder_name description]))).
Proof.
  intros Hload. unfold create_story.
  destruct (_ || _); [intros H; inversion H|].
  destruct (folderNameRegex_test folder_name); cbn [negb]; [|intros H; inversion H].
  rewrite Hload, Array_some_stories.
  destruct (existsb (named folder_name) stories) eqn:Hnew; [intros H; inversion H|].
  change (VObject _) with (story_value (new_story title folder_name description)).
  change [story_value (new_story title folder_name description)]
    with (map story_value [new_story title folder_name description]).
  rewrite <- map_app.
  destruct (write_json fs _ _) as [fs1|] eqn:W; [|intros H; inversion H].
  destruct (mkdir_recursive fs1 _) as [fs2|] eqn:M; intros H; inversion H; subst.
  split; [reflexivity|]. split; [apply existsb_named, Hnew|].
  eapply mkdir_each_file; [exact M|].
  apply (write_json_catalog fs fs1), W.
Qed.

(** X7.  An accepted request to create a story (the handler answers with
    the redirection), with fields that are strings, puts the record of the
    story, with the folder name as its id, at the end of the catalog,
    after the records that were there, which stay as they were: that is
    what [getStories] reads after the request when it read the records
    before it; and [getStoryByFolderName] then finds the new record. *)
Theorem create_story_appends (fs fs' : filesystem) (stories : list Story)
    (title folder_name description location : string) :
  getStories fs = Resolved (VArray (map story_value stories)) ->
  create_story fs title folder_name description = (fs', Redirect location) ->
  getStories fs'
  = Resolved (VArray (map story_value
                        (stories ++ [new_story title folder_name description])))
  /\ getStoryByFolderName fs' folder_name
     = Resolved (story_value (new_story title folder_name description)).
Proof.
  intros Hload Hok.
  destruct (create_story_redirect _ _ _ _ _ _ _ Hload Hok) as (_ & Hnew & Hfile').
  split; [exact (getStories_catalog fs' _ Hfile')|].
  unfold getStoryByFolderName.
  rewrite (getStories_catalog fs' _ Hfile'). cbn [mbind result_bind bind].
  rewrite (Array_find_stories folder_name stories []); auto.
Qed.

(** What a request to create a story leaves of the catalog, whatever
    the answer. *)
Lemma create_story_catalog (fs fs' : filesystem) (stories : list Story)
    (title folder_name description : string) (answer : response) :
  getStories fs = Resolved (VArray (map story_value stories)) ->
  create_story fs title folder_name description = (fs', answer) ->
  fs' = fs
  \/ (~ In folder_name (map story_folder_name stories)
      /\ fs' !! STORIES_FILE
         = Some (File (catalog_text (stories ++ [new_story title folder_name description])))).
Proof.
  intros Hload. unfold create_story.
  destruct (_ || _); [intros H; inversion H; subst; auto|].
  destruct (folderNameRegex_test folder_name); cbn [negb];
    [|intros H; inversion H; subst; auto].
  rewrite Hload, Array_some_stories.
  destruct (existsb (named folder_name) stories) eqn:Hnew;
    [intros H; inversion H; subst; auto|].
  change (VObject _) with (story_value (new_story title folder_name description)).
  change [story_value (new_story title folder_name description)]
    with (map story_value [new_story title folder_name description]).
  rewrite <- map_app.
  destruct (write_json fs _ _) as [fs1|] eqn:W; [|intros H; inversion H; subst; auto].
  apply write_json_catalog in W.
  apply existsb_named in Hnew.
  destruct (mkdir_recursive fs1 _) as [fs2|] eqn:M; intros H; inversion H; subst; auto.
  right. split; [exact Hnew|]. eapply mkdir_each_file; [exact M | exact W].
Qed.

(** X8.  No request to create a story whose fields are strings, be it
    accepted or refused or failing half way, makes two records of the
    catalog share a folder name: when [getStories] reads story records
    with distinct folder names before the request, it reads story records
    with distinct folder names after it.  (A JSON body with an array for
    the folder name is another matter; it is outside the model.) *)
Theorem create_story_keeps_folder_names_distinct (fs fs' : filesystem)
    (stories : list Story) (title folder_name description : string)
    (answer : response) :
  getStories fs = Resolved (VArray (map story_value stories)) ->
  NoDup (map story_folder_name stories) ->
  create_story fs title folder_name description = (fs', answer) ->
  exists stories',
    getStories fs' = Resolved (VArray (map story_value stories'))
    /\ NoDup (map story_folder_name stories').
Proof.
  intros Hload Hdistinct Hreq.
  destruct (create_story_catalog _ _ _ _ _ _ _ Hload Hreq) as [->|[Hnew Hmore]].
  - exists stories. auto.
  - exists (stories ++ [new_story title folder_name description])%list.
    split; [exact (getStories_catalog fs' _ Hmore)|].
    rewrite map_app. cbn [map new_story story_folder_name].
    apply NoDup_app. split; [exact Hdistinct|]. split.
    + intros x Hx Hx'. apply list_elem_of_In in Hx.
      apply list_elem_of_In in Hx'. destruct Hx' as [<-|[]]. exact (Hnew Hx).
    + apply NoDup_singleton.
Qed.

(** *** Editing and deleting a story *)

Lemma first_named (folder_name : string) (stories : list Story) :
  existsb (named folder_name) stories = true ->
  exists before s after,
    stories = (before ++ s :: after)%list
    /\ story_folder_name s = folder_name
    /\ ~ In folder_name (map story_folder_name before).
Proof.
  induction stories as [|t r IH]; [discriminate|]. cbn [existsb].
  destruct (named folder_name t) eqn:Ht; cbn [orb].
  - intros _. exists [], t, r. repeat split; [|tauto].
    apply String.eqb_eq, Ht.
  - intros H. destruct (IH H) as (before & s & after & -> & Hs & Hb).
    exists (t :: before), s, after. repeat split; [exact Hs|].
    cbn. intros [E|E]; [|exact (Hb E)].
    apply String.eqb_neq in Ht. exact (Ht E).
Qed.

Lemma Array_findIndex_no_story (folder_name : string) (stories : list Story) (k : Z) :
  existsb (named folder_name) stories = false ->
  Array_findIndex_from (has_folder_name folder_name) k (map story_value stories)
  = Resolved (-1).
Proof.
  revert k. induction stories as [|t r IH]; intros k; [reflexivity|].
  cbn [existsb map Array_findIndex_from]. rewrite has_folder_name_story.
  cbn [mbind result_bind bind].
  destruct (named folder_name t); [discriminate|]. apply IH.
Qed.

Lemma Array_findIndex_story (folder_name : string) (before after : list Story) (s : Story) :
  ~ In folder_name (map story_folder_name before) ->
  story_folder_name s = folder_name ->
  Array_findIndex (has_folder_name folder_name) (map story_value (before ++ s :: after))
  = Resolved (Z.of_nat (length before)).
Proof.
  intros Hb Hs. unfold Array_findIndex. rewrite map_app. cbn [map].
  rewrite Array_findIndex_from_first.
  - rewrite length_map. reflexivity.
  - apply Forall_forall. intros v Hv.
    apply list_elem_of_In, in_map_iff in Hv as (t & <- & Ht).
    rewrite has_folder_name_story. apply f_equal. apply String.eqb_neq.
    intros E. apply Hb. apply in_map_iff. exists t. auto.
  - rewrite has_folder_name_story. unfold named. rewrite Hs, String.eqb_refl. reflexivity.
Qed.

(** X9.  An accepted request to edit a story, with a title and a
    description that are strings, changes the title and the description
    of the first record of the catalog with the folder name, and nothing
    else: when [getStories] read the records before the request, it reads
    after it the same records, in their order, but for that one, which
    has kept its id and its folder name. *)
Theorem edit_story_updates (fs fs' : filesystem) (stories : list Story)
    (folder_name title description location : string) :
  getStories fs = Resolved (VArray (map story_value stories)) ->
  edit_story fs folder_name title description = (fs', Redirect location) ->
  exists before s after,
    stories = (before ++ s :: after)%list
    /\ story_folder_name s = folder_name
    /\ ~ In folder_name (map story_folder_name before)
    /\ getStories fs'
       = Resolved (VArray (map story_value
                             (before ++ {| story_id := story_id s;
                                           story_title := title;
                                           story_folder_name := folder_name;
                                           story_description := description |}
                                     :: after))).
Proof.
  intros Hload. unfold edit_story.
  destruct (String.eqb title EmptyString); [intros H; inversion H|].
  rewrite Hload.
  destruct (existsb (named folder_name) stories) eqn:Hsome.
  2:{ unfold Array_findIndex. rewrite (Array_findIndex_no_story _ _ _ Hsome).
      cbn. intros H; inversion H. }
  destruct (first_named _ _ Hsome) as (before & s & after & -> & Hs & Hb).
  rewrite (Array_findIndex_story folder_name before after s Hb Hs).
  destruct (Z.of_nat (length before) =? -1) eqn:E; [apply Z.eqb_eq in E; lia|].
  unfold Array_get.
  destruct (Z.of_nat (length before) <? 0) eqn:E0; [apply Z.ltb_lt in E0; lia|].
  rewrite Nat2Z.id.
  rewrite map_app. cbn [map].
  replace (nth (length before) (map story_value before ++ story_value s :: map story_value after)
             VUndefined) with (story_value s).
  2:{ rewrite app_nth2 by (rewrite length_map; lia).
      rewrite length_map, Nat.sub_diag. reflexivity. }
  rewrite insert_app_r_alt by (rewrite length_map; lia).
  rewrite length_map, Nat.sub_diag. cbn [assign story_value set_prop String.eqb Ascii.eqb Bool.eqb].
  cbn [insert list_insert].
  set (s' := {| story_id := story_id s; story_title := title;
                story_folder_name := folder_name; story_description := description |}).
  replace (VObject _) with (story_value s').
  2:{ unfold s', story_value. cbn. rewrite Hs. reflexivity. }
  change (map story_value before ++ story_value s' :: map story_value after)%list
    with (map story_value before ++ map story_value (s' :: after))%list.
  rewrite <- map_app.
  destruct (write_json fs _ _) as [fs1|] eqn:W; intros H; inversion H; subst fs1.
  exists before, s, after. repeat split; auto.
  apply getStories_catalog, (write_json_catalog fs fs'), W.
Qed.

Lemma has_other_folder_name_story (folder_name : string) (s : Story) :
  has_other_folder_name folder_name (story_value s)
  = Resolved (negb (named folder_name s)).
Proof. reflexivity. Qed.

Lemma Array_filter_stories (folder_name : string) (stories : list Story) :
  Array_filter (has_other_folder_name folder_name) (map story_value stories)
  = Resolved (map story_value
                (List.filter (fun s => negb (named folder_name s)) stories)).
Proof.
  induction stories as [|s r IH]; [reflexivity|].
  cbn [map Array_filter List.filter]. rewrite has_other_folder_name_story, IH.
  cbn [mbind result_bind bind].
  destruct (negb (named folder_name s)); reflexivity.
Qed.

Lemma filter_keeps_all {A} (f : A -> bool) (l : list A) :
  (length (List.filter f l) <? length l)%nat = false -> List.filter f l = l.
Proof.
  intros H. apply Nat.ltb_ge in H.
  induction l as [|x l IH]; [reflexivity|]. cbn in *.
  pose proof (List.filter_length_le f l) as Hle.
  destruct (f x); cbn in H.
  - f_equal. apply IH. lia.
  - lia.
Qed.

Lemma string_prefix_app (b u v : string) :
  String.prefix (b +:+ u) (b +:+ v) = String.prefix u v.
Proof.
  induction b as [|c b IH]; [reflexivity|].
  rewrite !append_cons. cbn [String.prefix].
  destruct (ascii_dec c c); [exact IH | congruence].
Qed.

Lemma string_eqb_app (b u v : string) :
  String.eqb (b +:+ u) (b +:+ v) = String.eqb u v.
Proof.
  induction b as [|c b IH]; [reflexivity|].
  rewrite !append_cons. cbn [String.eqb]. rewrite Ascii.eqb_refl. exact IH.
Qed.

Lemma kept_literal (s : string) :
  (negb (String.eqb s EmptyString) && negb (String.eqb s ".") && noslash s) = true ->
  kept s.
Proof.
  intros H. apply andb_true_iff in H as [H H3]. apply andb_true_iff in H as [H1 H2].
  apply negb_true_iff, String.eqb_neq in H1.
  apply negb_true_iff, String.eqb_neq in H2.
  repeat split; assumption.
Qed.

(** The directory of a story's chapters lies beside the catalog file,
    not above it. *)
Lemma chapterDirPath_child (X : string) :
  kept X -> X <> ".." ->
  path_join [__dirname; "data"; "chapters"; X]
  = path_join [__dirname; "data"] +:+ String slash ("chapters" +:+ String slash X).
Proof.
  intros HX HXu.
  assert (Hd : kept "data") by (apply kept_literal; reflexivity).
  assert (Hc : kept "chapters") by (apply kept_literal; reflexivity).
  pose proof (path_join_child [__dirname; "data"] "chapters" X Hc ltac:(discriminate)
                HX HXu) as H1.
  pose proof (path_join_child [__dirname] "data" "chapters" Hd ltac:(discriminate)
                Hc ltac:(discriminate)) as H2.
  cbn [app] in H1, H2. rewrite H1, H2, append_assoc, append_cons. reflexivity.
Qed.

Lemma STORIES_FILE_child :
  STORIES_FILE = path_join [__dirname; "data"] +:+ String slash "stories.json".
Proof.
  rewrite <- storiesFilePath_STORIES_FILE.
  apply (path_join_child [__dirname] "data" "stories.json");
    [apply kept_literal; reflexivity | discriminate
    |apply kept_literal; reflexivity | discriminate].
Qed.

Lemma STORIES_FILE_not_doomed (X : string) :
  kept X -> X <> ".." ->
  doomed (path_join [__dirname; "data"; "chapters"; X]) STORIES_FILE = false.
Proof.
  intros HX HXu. rewrite (chapterDirPath_child X HX HXu), STORIES_FILE_child.
  unfold doomed, below. rewrite append_assoc, string_eqb_app, string_prefix_app.
  reflexivity.
Qed.

Lemma chapters_directory (X : string) :
  X <> EmptyString ->
  path_join [CHAPTERS_METADATA_DIR; X]
  = path_join [__dirname; "data"; "chapters"; X].
Proof.
  intros HX. unfold CHAPTERS_METADATA_DIR, DATA_DIR.
  assert (HXne : forall l, nonempty (l ++ [X]) <> []).
  { intros l. unfold nonempty. rewrite List.filter_app. cbn.
    destruct (String.eqb_spec X EmptyString); [congruence|]. cbn.
    destruct (List.filter _ l); discriminate. }
  rewrite (path_join_nested [path_join [__dirname; "data"]; "chapters"] [X]).
  2:{ unfold nonempty. cbn.
      destruct (negb (String.eqb (path_join [__dirname; "data"]) EmptyString)); discriminate. }
  2:{ apply (HXne []). }
  cbn [app].
  rewrite (path_join_nested [__dirname; "data"] ["chapters"; X]).
  2:{ unfold nonempty. cbn. destruct (negb (String.eqb __dirname EmptyString)); discriminate. }
  2:{ apply (HXne ["chapters"]). }
  reflexivity.
Qed.

Lemma getChaptersForStory_no_directory (first : nat) (fs : filesystem) (X : string) :
  X <> EmptyString ->
  fs !! path_join [__dirname; "data"; "chapters"; X] = None ->
  getChaptersForStory first fs X = Resolved [].
Proof.
  intros HX Hdir. unfold getChaptersForStory, read_chapters, readdir.
  rewrite (chapters_directory X HX), Hdir. reflexivity.
Qed.

(** What the [try] of the delete handler leaves when it goes through. *)
Lemma remove_story_done (fs fs' : filesystem) (stories : list Story) (X : string) :
  kept X -> X <> ".." ->
  fs !! STORIES_FILE = Some (File (catalog_text stories)) ->
  remove_story __dirname fs X = (fs', Resolved tt) ->
  fs' !! STORIES_FILE
  = Some (File (catalog_text (List.filter (fun s => negb (named X s)) stories)))
  /\ fs' !! path_join [__dirname; "data"; "chapters"; X] = None.
Proof.
  intros HX HXu Hfile. unfold remove_story.
  rewrite (getStories_catalog fs stories Hfile), Array_filter_stories.
  rewrite !length_map.
  set (remaining := List.filter (fun s => negb (named X s)) stories).
  set (dir := path_join [__dirname; "data"; "chapters"; X]).
  assert (Hcat : forall fs1,
            (if (length remaining <? length stories)%nat
             then write_json fs (path_join [__dirname; "data"; "stories.json"])
                    (VArray (map story_value remaining))
             else Resolved fs) = Resolved fs1 ->
            fs1 !! STORIES_FILE = Some (File (catalog_text remaining))).
  { intros fs1. destruct (length remaining <? length stories)%nat eqn:Hlen.
    - apply write_json_catalog.
    - intros H; inversion H; subst fs1. unfold remaining.
      rewrite (filter_keeps_all _ _ Hlen). exact Hfile. }
  destruct (if (length remaining <? length stories)%nat then _ else _) as [fs1|];
    [|intros H; inversion H].
  specialize (Hcat fs1 eq_refl).
  unfold access.
  destruct (fs1 !! dir) as [n|] eqn:Hdir; cbn [mbind result_bind bind].
  - destruct (rm_recursive fs1 dir) as [fs2|e] eqn:Hrm.
    + intros H; inversion H; subst fs2. split.
      * eapply rm_recursive_other; [exact Hrm | | exact Hcat].
        apply STORIES_FILE_not_doomed; assumption.
      * eapply rm_recursive_gone, Hrm.
    + unfold rm_recursive in Hrm. rewrite Hdir in Hrm.
      destruct (existsb _ _); [|discriminate]. inversion Hrm; subst e.
      cbn. intros H; inversion H.
  - cbn. intros H; inversion H; subst fs1. auto.
Qed.

(** X10.  After an accepted request to delete a story, no record of the
    catalog has its folder name (the others are there as before, in their
    order), [getStoryByFolderName] answers [undefined] for it, and it has
    no chapters any more.  The folder name is a plain path segment, as
    the names the create handler accepts are. *)
Theorem delete_story_removes (first : nat) (fs fs' : filesystem)
    (stories : list Story) (folder_name location : string) :
  kept folder_name -> folder_name <> ".." ->
  fs !! STORIES_FILE = Some (File (catalog_text stories)) ->
  delete_story fs folder_name = (fs', Answer (Redirect location)) ->
  fs' !! STORIES_FILE
  = Some (File (catalog_text
                  (List.filter (fun s => negb (named folder_name s)) stories)))
  /\ getStoryByFolderName fs' folder_name = Resolved VUndefined
  /\ getChaptersForStory first fs' folder_name = Resolved [].
Proof.
  intros HX HXu Hfile. unfold delete_story.
  destruct (remove_story __dirname fs folder_name) as [fs1 [[]|e]] eqn:Hrem.
  2:{ destruct (getStories fs1); intros H; inversion H. }
  intros H; inversion H; subst fs1.
  destruct (remove_story_done _ _ _ _ HX HXu Hfile Hrem) as [Hcat Hdir].
  split; [exact Hcat|]. split.
  - unfold getStoryByFolderName.
    rewrite (getStories_catalog fs' _ Hcat). cbn [mbind result_bind bind].
    rewrite Array_find_no_story; [reflexivity|].
    intros Hin. apply in_map_iff in Hin as (s & Hs & Hin).
    apply filter_In in Hin as [_ Hn]. unfold named in Hn.
    rewrite Hs, String.eqb_refl in Hn. discriminate.
  - apply getChaptersForStory_no_directory; [apply HX | exact Hdir].
Qed.

(** *** Deleting a chapter *)

Lemma metadataFilePath_chapterPath (X K : string) :
  path_join [__dirname; "data"; "chapters"; X; K +:+ ".json"] = chapterPath X K.
Proof.
  assert (HF : K +:+ ".json" <> EmptyString) by (destruct K; cbn; discriminate).
  unfold chapterPath.
  rewrite <- (chapterPath_metadataFilePath __dirname X _ HF).
  rewrite (path_join_nested [__dirname; "data"; "chapters"; X] [K +:+ ".json"]);
    [reflexivity| |].
  - unfold nonempty. cbn. destruct (negb (String.eqb __dirname EmptyString)); discriminate.
  - unfold nonempty. cbn. destruct (String.eqb_spec (K +:+ ".json") EmptyString);
      [congruence | discriminate].
Qed.

Lemma getChapterDetails_absent (fs : filesystem) (X K : string) :
  fs !! chapterPath X K = None -> getChapterDetails fs X K = Resolved VUndefined.
Proof.
  intros H. unfold getChapterDetails, readFile. rewrite H. reflexivity.
Qed.

Lemma unlink_if_there_gone (fs fs' : filesystem) (p : string) :
  unlink_if_there fs p = Resolved fs' -> fs' !! p = None.
Proof.
  unfold unlink_if_there.
  destruct (unlink fs p) as [fs1|e] eqn:U.
  - intros H; inversion H; subst. eapply unlink_gone, U.
  - unfold unlink in U.
    destruct (fs !! p) as [[]|] eqn:E; inversion U; subst e; cbn;
      intros H; inversion H; subst. exact E.
Qed.

Lemma unlink_if_there_absent (fs fs' : filesystem) (p q : string) :
  unlink_if_there fs p = Resolved fs' -> fs !! q = None -> fs' !! q = None.
Proof.
  unfold unlink_if_there.
  destruct (unlink fs p) as [fs1|e] eqn:U.
  - intros H; inversion H; subst. eapply unlink_absent, U.
  - destruct (is_ENOENT e); intros H; inversion H; subst. auto.
Qed.

Lemma remove_chapter_done (fs fs' : filesystem) (X K : string) :
  remove_chapter __dirname fs X K = (fs', Resolved tt) ->
  fs' !! chapterPath X K = None
  /\ forall details content_path,
       getChapterDetails fs X K = Resolved details ->
       get_prop details "content_path" = Resolved (VString content_path) ->
       content_path <> EmptyString ->
       fs' !! path_join [__dirname; content_path] = None.
Proof.
  unfold remove_chapter. rewrite metadataFilePath_chapterPath.
  destruct (getChapterDetails fs X K) as [details|]; [|intros H; inversion H].
  set (first_step := if truthy details then _ else _).
  destruct first_step as [fs1|] eqn:Hfirst; [|intros H; inversion H].
  destruct (unlink_if_there fs1 (chapterPath X K)) as [fs2|] eqn:Hsecond;
    intros H; inversion H; subst fs2.
  split; [eapply unlink_if_there_gone, Hsecond|].
  intros d cp Hd Hcp Hne. inversion Hd; subst d.
  eapply unlink_if_there_absent; [exact Hsecond|].
  unfold first_step in Hfirst.
  assert (Ht : truthy details = true).
  { destruct details; cbn in Hcp; try discriminate; reflexivity. }
  rewrite Ht, Hcp in Hfirst. cbn [mbind result_bind bind truthy join_dirname] in Hfirst.
  destruct (String.eqb_spec cp EmptyString) as [|_]; [congruence|].
  cbn [negb] in Hfirst.
  eapply unlink_if_there_gone, Hfirst.
Qed.

(** X11.  After an accepted request to delete a chapter neither its
    metadata nor its content is there: [getChapterDetails] answers
    [undefined] for it, and reading the content file its metadata named
    fails with ENOENT. *)
Theorem delete_chapter_removes (first : nat) (fs fs' : filesystem)
    (story_folder_name chapter_filename_root location : string) :
  delete_chapter first fs story_folder_name chapter_filename_root
    = (fs', Answer (Redirect location)) ->
  getChapterDetails fs' story_folder_name chapter_filename_root = Resolved VUndefined
  /\ forall details content_path,
       getChapterDetails fs story_folder_name chapter_filename_root = Resolved details ->
       get_prop details "content_path" = Resolved (VString content_path) ->
       content_path <> EmptyString ->
       readChapterContent fs' content_path = Rejected (SystemError ENOENT).
Proof.
  unfold delete_chapter.
  destruct (remove_chapter __dirname fs _ _) as [fs1 [[]|e]] eqn:Hrem.
  2:{ destruct (_ ≫= _); intros H; inversion H. }
  intros H; inversion H; subst fs1.
  destruct (remove_chapter_done _ _ _ _ Hrem) as [Hmeta Hcontent].
  split; [apply getChapterDetails_absent, Hmeta|].
  intros details cp Hd Hcp Hne.
  unfold readChapterContent, readFile.
  rewrite (Hcontent details cp Hd Hcp Hne). reflexivity.
Qed.


(** *** Editing a chapter *)

Lemma set_prop_keys_there (props : list (string * value)) (k : string) (v : value) :
  In k (map fst props) -> map fst (set_prop props k v) = map fst props.
Proof.
  induction props as [|[k' v'] r IH]; [intros []|].
  cbn [map fst set_prop]. intros Hin.
  destruct (String.eqb_spec k' k) as [->|Hne]; [reflexivity|].
  cbn [map fst]. rewrite IH; [reflexivity|].
  destruct Hin as [E|Hin]; [congruence | exact Hin].
Qed.

Lemma set_prop_NoDup (props : list (string * value)) (k : string) (v : value) :
  NoDup (map fst props) -> NoDup (map fst (set_prop props k v)).
Proof.
  intros Hnd.
  destruct (in_dec string_dec k (map fst props)) as [Hin|Hout].
  - rewrite set_prop_keys_there by exact Hin. exact Hnd.
  - rewrite set_prop_fresh by exact Hout. rewrite map_app. cbn [map fst].
    apply NoDup_app. split; [exact Hnd|]. split; [|apply NoDup_singleton].
    intros x Hx Hx'. apply list_elem_of_In in Hx.
    apply list_elem_of_In in Hx'. destruct Hx' as [<-|[]]. exact (Hout Hx).
Qed.

Lemma set_prop_values (props : list (string * value)) (k : string) (v : value) :
  fold_right (fun kv P => writable (snd kv) /\ P) True props -> writable v ->
  fold_right (fun kv P => writable (snd kv) /\ P) True (set_prop props k v).
Proof.
  intros Hprops Hv. induction props as [|[k' v'] r IH]; cbn; [auto|].
  destruct Hprops as [H1 H2].
  destruct (String.eqb k' k); cbn; auto.
Qed.

Lemma set_prop_writable (props : list (string * value)) (k : string) (v : value) :
  writable (VObject props) -> writable v -> writable (VObject (set_prop props k v)).
Proof.
  intros [Hkeys Hvalues] Hv. split;
    [apply set_prop_NoDup, Hkeys | apply set_prop_values; assumption].
Qed.

Lemma lookup_prop_set_prop (props : list (string * value)) (k k' : string) (v : value) :
  lookup_prop (set_prop props k v) k'
  = if String.eqb k k' then v else lookup_prop props k'.
Proof.
  induction props as [|[k0 v0] r IH]; cbn [set_prop lookup_prop].
  - reflexivity.
  - destruct (String.eqb_spec k0 k) as [->|Hne]; cbn [lookup_prop].
    + destruct (String.eqb k k'); reflexivity.
    + rewrite IH. destruct (String.eqb_spec k0 k') as [->|Hne'].
      * destruct (String.eqb_spec k k'); [congruence | reflexivity].
      * reflexivity.
Qed.

Lemma check_edit_passed (first : nat) (fs : filesystem)
    (X K title cn content : string) (num : number) (existing : value) :
  check_edit __dirname ToNumber_other first fs X K title cn content
    = Resolved (inr (num, existing)) ->
  num = parseInt cn /\ at_most_zero num = false
  /\ getChapterDetails fs X K = Resolved existing.
Proof.
  unfold check_edit.
  destruct (getStoryByFolderName fs X) as [story|];
    cbn [mbind result_bind bind]; [|discriminate].
  destruct (negb (truthy story)); [discriminate|].
  destruct (getChapterDetails fs X K) as [details|];
    cbn [mbind result_bind bind]; [|discriminate].
  destruct (negb (truthy details)); [discriminate|].
  destruct (_ || _); [discriminate|].
  destruct (is_NaN (parseInt cn) || at_most_zero (parseInt cn)) eqn:Hnum;
    [discriminate|].
  destruct (getChaptersForStory first fs X) as [allChapters|];
    cbn [mbind result_bind bind]; [|discriminate].
  destruct (Array_some _ allChapters) as [[]|];
    cbn [mbind result_bind bind]; try discriminate.
  intros H; inversion H; subst.
  apply orb_false_iff in Hnum as [_ Hpos]. auto.
Qed.

Lemma check_edit_page (first : nat) (fs : filesystem)
    (X K title cn content : string) (page : response) :
  check_edit __dirname ToNumber_other first fs X K title cn content
    = Resolved (inl page) ->
  exists status view message, page = Render status view message.
Proof.
  unfold check_edit.
  destruct (getStoryByFolderName fs X) as [story|];
    cbn [mbind result_bind bind]; [|discriminate].
  destruct (negb (truthy story)); [intros H; inversion H; eauto|].
  destruct (getChapterDetails fs X K) as [details|];
    cbn [mbind result_bind bind]; [|discriminate].
  destruct (negb (truthy details)); [intros H; inversion H; eauto|].
  destruct (_ || _); [intros H; inversion H; eauto|].
  destruct (is_NaN (parseInt cn) || at_most_zero (parseInt cn));
    [intros H; inversion H; eauto|].
  destruct (getChaptersForStory first fs X) as [allChapters|];
    cbn [mbind result_bind bind]; [|discriminate].
  destruct (Array_some _ allChapters) as [[]|];
    cbn [mbind result_bind bind]; intros H; inversion H; eauto.
Qed.

Lemma edit_chapter_redirect (first : nat) (fs fs' : filesystem)
    (X K title cn content location : string) :
  edit_chapter first fs X K title cn content = (fs', Redirect location) ->
  exists num existing,
    check_edit __dirname ToNumber_other first fs X K title cn content
      = Resolved (inr (num, existing))
    /\ update_files __dirname fs X K title num content existing = (fs', Resolved tt).
Proof.
  unfold edit_chapter.
  destruct (check_edit _ _ _ _ _ _ _ _ _) as [[page|[num existing]]|] eqn:Hcheck.
  - intros H.
    destruct (check_edit_page _ _ _ _ _ _ _ _ Hcheck) as (? & ? & ? & ->).
    inversion H.
  - destruct (update_files _ _ _ _ _ _ _ _) as [fs2 [[]|]] eqn:Hfiles;
      intros H; inversion H; subst.
    exists num, existing. split; [reflexivity | exact Hfiles].
  - intros H; inversion H.
Qed.

Lemma update_files_written (fs fs' : filesystem)
    (X K title : string) (num : number) (content : string) (existing : value) :
  update_files __dirname fs X K title num content existing = (fs', Resolved tt) ->
  exists content_path text,
    get_prop existing "content_path" = Resolved (VString content_path)
    /\ JSON_stringify
         (VObject (set_prop (set_prop (own_props existing) "title" (VString title))
                     "chapter_number" (VNumber num))) = Some text
    /\ fs' !! chapterPath X K = Some (File text)
    /\ (path_join [__dirname; content_path] <> chapterPath X K ->
        fs' !! path_join [__dirname; content_path] = Some (File (toWellFormed content))).
Proof.
  unfold update_files. rewrite metadataFilePath_chapterPath.
  destruct (get_prop existing "content_path") as [cp|];
    cbn [mbind result_bind bind]; [|intros H; inversion H].
  destruct cp as [| | | |content_path| |]; cbn [join_dirname];
    try (intros H; inversion H; fail).
  destruct (writeFile fs _ _) as [fs1|] eqn:W1; [|intros H; inversion H].
  unfold write_json. cbn [JSON_stringify is_undefined].
  destruct (writeFile fs1 _ _) as [fs2|] eqn:W2; intros H; inversion H; subst fs2.
  eexists content_path, _. split; [reflexivity|]. split; [reflexivity|].
  split; [eapply writeFile_lookup, W2|].
  intros Hne. eapply writeFile_other; [exact W2 | exact Hne|].
  eapply writeFile_lookup, W1.
Qed.

(** X13.  An accepted request to edit a chapter, with fields that are
    strings and a chapter number that is finite, changes the title and
    the chapter number of the record on file and nothing else, when that
    record holds only what [JSON.stringify] writes as it is (no number
    beyond the range of a double, which it writes as [null]):
    [getChapterDetails] then answers a record with the new title and
    number in which every other property is as it was
    ([original_file_name] and [content_path] among them). *)
Theorem edit_chapter_read_back (first : nat) (fs fs' : filesystem)
    (story_folder_name chapter_filename_root title chapter_number content
       location : string)
    (props : list (string * value)) (z : Z) :
  getChapterDetails fs story_folder_name chapter_filename_root
    = Resolved (VObject props) ->
  writable (VObject props) ->
  edit_chapter first fs story_folder_name chapter_filename_root title chapter_number
    content = (fs', Redirect location) ->
  parseInt chapter_number = Finite z ->
  exists updated,
    getChapterDetails fs' story_folder_name chapter_filename_root = Resolved updated
    /\ get_prop updated "title" = Resolved (VString title)
    /\ get_prop updated "chapter_number" = Resolved (VNumber (Finite z))
    /\ forall k, k <> "title" -> k <> "chapter_number" ->
         get_prop updated k = get_prop (VObject props) k.
Proof.
  intros Hbefore Hw Hok Hnum.
  destruct (edit_chapter_redirect _ _ _ _ _ _ _ _ _ Hok) as (num & existing & Hcheck & Hfiles).
  destruct (check_edit_passed _ _ _ _ _ _ _ _ _ Hcheck) as (-> & Hpos & Hexisting).
  rewrite Hbefore in Hexisting. inversion Hexisting; subst existing.
  rewrite Hnum in *. cbn in Hpos. apply Z.leb_gt in Hpos.
  destruct (update_files_written _ _ _ _ _ _ _ _ Hfiles) as (cp & text & _ & Htext & Hfile & _).
  cbn [own_props] in Htext.
  set (updated := VObject (set_prop (set_prop props "title" (VString title))
                             "chapter_number" (VNumber (Finite z)))) in *.
  exists updated. split; [|split; [|split]].
  - unfold getChapterDetails, readFile. rewrite Hfile.
    cbn [mbind result_bind bind].
    rewrite (JSON_parse_stringify updated text); [reflexivity | | exact Htext].
    apply set_prop_writable; [apply set_prop_writable; [exact Hw | exact I]|].
    exact (parseInt_writable chapter_number z Hnum Hpos).
  - cbn. rewrite !lookup_prop_set_prop. reflexivity.
  - cbn. rewrite !lookup_prop_set_prop. reflexivity.
  - intros k Ht Hn. cbn. rewrite !lookup_prop_set_prop.
    destruct (String.eqb_spec "chapter_number" k); [congruence|].
    destruct (String.eqb_spec "title" k); [congruence | reflexivity].
Qed.

(** X14.  After an accepted request to edit a chapter, with fields that
    are strings, the content the request carried is what
    [readChapterContent] gives for the chapter's [content_path] (which is
    not the path of the metadata file itself): the content as
    [fs.writeFile] encodes it, with U+FFFD for a lone surrogate, so the
    content itself when it is well-formed. *)
Theorem edit_chapter_content (first : nat) (fs fs' : filesystem)
    (story_folder_name chapter_filename_root title chapter_number content
       location : string)
    (details : value) (content_path : string) :
  getChapterDetails fs story_folder_name chapter_filename_root = Resolved details ->
  get_prop details "content_path" = Resolved (VString content_path) ->
  path_join [__dirname; content_path] <> chapterPath story_folder_name chapter_filename_root ->
  edit_chapter first fs story_folder_name chapter_filename_root title chapter_number
    content = (fs', Redirect location) ->
  readChapterContent fs' content_path = Resolved (toWellFormed content)
  /\ (isWellFormed content = true ->
      readChapterContent fs' content_path = Resolved content).
Proof.
  intros Hbefore Hcp Hne Hok.
  enough (Hread : readChapterContent fs' content_path = Resolved (toWellFormed content)).
  { split; [exact Hread|]. intros Hwf.
    rewrite Hread, (toWellFormed_isWellFormed _ Hwf). reflexivity. }
  destruct (edit_chapter_redirect _ _ _ _ _ _ _ _ _ Hok) as (num & existing & Hcheck & Hfiles).
  destruct (check_edit_passed _ _ _ _ _ _ _ _ _ Hcheck) as (_ & _ & Hexisting).
  rewrite Hbefore in Hexisting. inversion Hexisting; subst existing.
  destruct (update_files_written _ _ _ _ _ _ _ _ Hfiles) as (cp & text & Hcp' & _ & _ & Hfile).
  rewrite Hcp in Hcp'. inversion Hcp'; subst cp.
  unfold readChapterContent, readFile. rewrite (Hfile Hne). reflexivity.
Qed.

Lemma Array_some_found (pred : value -> result bool) (items : list value) (x : value) :
  In x items -> pred x = Resolved true -> Array_some pred items <> Resolved false.
Proof.
  induction items as [|y r IH]; [intros []|].
  intros Hin Hx. cbn [Array_some].
  destruct (pred y) as [[]|] eqn:Hy; cbn [mbind result_bind bind]; try discriminate.
  destruct Hin as [->|Hin]; [congruence|]. apply IH; assumption.
Qed.

(** X15.  A request to edit a chapter that asks for the number of
    another chapter of the story (one with another file name) is not
    accepted, and nothing is written. *)
Theorem edit_chapter_refuses_taken (first : nat) (fs : filesystem)
    (story_folder_name chapter_filename_root title chapter_number content : string)
    (chapters : list value) (other : value) (n : number) (file : value) :
  getChaptersForStory first fs story_folder_name = Resolved chapters ->
  In other chapters ->
  get_prop other "chapter_number" = Resolved (VNumber n) ->
  number_eqb n (parseInt chapter_number) = true ->
  get_prop other "original_file_name" = Resolved file ->
  strict_equals file (VString (chapter_filename_root +:+ ".html")) = false ->
  exists status view message,
    edit_chapter first fs story_folder_name chapter_filename_root title chapter_number
      content = (fs, Render status view message).
Proof.
  intros Hall Hin Hn Heq Hfile Hother.
  unfold edit_chapter.
  destruct (check_edit _ _ _ _ _ _ _ _ _) as [[page|[num existing]]|] eqn:Hcheck.
  - destruct (check_edit_page _ _ _ _ _ _ _ _ Hcheck) as (? & ? & ? & ->). eauto.
  - exfalso. revert Hcheck. unfold check_edit.
    destruct (getStoryByFolderName fs _) as [story|];
      cbn [mbind result_bind bind]; [|discriminate].
    destruct (negb (truthy story)); [discriminate|].
    destruct (getChapterDetails fs _ _) as [details|];
      cbn [mbind result_bind bind]; [|discriminate].
    destruct (negb (truthy details)); [discriminate|].
    destruct (_ || _); [discriminate|].
    destruct (is_NaN (parseInt chapter_number) || at_most_zero (parseInt chapter_number));
      [discriminate|].
    rewrite Hall. cbn [mbind result_bind bind].
    destruct (Array_some _ chapters) as [[]|] eqn:Hsome;
      cbn [mbind result_bind bind]; try discriminate.
    exfalso. eapply Array_some_found; [exact Hin | | exact Hsome].
    unfold number_of_another. rewrite Hn. cbn [mbind result_bind bind strict_equals].
    rewrite Heq, Hfile. cbn [mbind result_bind bind]. rewrite Hother. reflexivity.
  - eauto.
Qed.

(** *** Creating a chapter *)

(** X4.  A request to create a chapter under a chapter number or a file
    name that a chapter of the story has already is not accepted, and
    nothing is written. *)
Theorem create_chapter_refuses_taken (first : nat) (fs : filesystem)
    (story_folder_name title chapter_number original_file_name content : string)
    (chapters : list value) (other : value) :
  getChaptersForStory first fs story_folder_name = Resolved chapters ->
  In other chapters ->
  (exists n, get_prop other "chapter_number" = Resolved (VNumber n)
             /\ number_eqb n (parseInt chapter_number) = true)
  \/ get_prop other "original_file_name" = Resolved (VString original_file_name) ->
  exists status view message,
    create_chapter first fs story_folder_name title chapter_number original_file_name
      content = (fs, Render status view message).
Proof.
  intros Hall Hin Htaken.
  unfold create_chapter.
  destruct (check_chapter _ _ _ _ _ _ _ _ _) as [[page|num]|] eqn:Hcheck.
  - destruct (check_chapter_page _ _ _ _ _ _ _ _ _ _ Hcheck) as (? & ? & ? & ->). eauto.
  - exfalso. revert Hcheck. unfold check_chapter.
    destruct (getStoryByFolderName fs _) as [story|];
      cbn [mbind result_bind bind]; [|discriminate].
    destruct (negb (truthy story)); [discriminate|].
    destruct (_ || _); [discriminate|].
    destruct (is_NaN (parseInt chapter_number) || at_most_zero (parseInt chapter_number));
      [discriminate|].
    destruct (negb (fileNameRegex_test original_file_name)); [discriminate|].
    rewrite Hall. cbn [mbind result_bind bind].
    set (number_taken := Array_some
           (fun chap => n ← get_prop chap "chapter_number";
                        Resolved (strict_equals n (VNumber (parseInt chapter_number))))
           chapters).
    set (name_taken := Array_some
           (fun chap => n ← get_prop chap "original_file_name";
                        Resolved (strict_equals n (VString original_file_name)))
           chapters).
    destruct number_taken as [[]|] eqn:Hnumber;
      cbn [mbind result_bind bind]; try discriminate.
    destruct name_taken as [[]|] eqn:Hname;
      cbn [mbind result_bind bind]; try discriminate.
    exfalso. destruct Htaken as [(n & Hn & Heq)|Hfile].
    + refine (Array_some_found _ _ other Hin _ Hnumber).
      cbn beta. rewrite Hn. cbn [mbind result_bind bind strict_equals].
      rewrite Heq. reflexivity.
    + refine (Array_some_found _ _ other Hin _ Hname).
      cbn beta. rewrite Hfile. cbn [mbind result_bind bind strict_equals].
      rewrite String.eqb_refl. reflexivity.
  - eauto.
Qed.

Lemma create_files_content (fs fs' : filesystem)
    (X title : string) (num : number) (ofn content : string) :
  create_files __dirname fs X title num ofn content = (fs', Resolved tt) ->
  path_join [__dirname; X; ofn]
  <> path_join [path_join [__dirname; "data"; "chapters"; X];
                replace_first ".html" ".json" ofn] ->
  fs' !! path_join [__dirname; X; ofn] = Some (File (toWellFormed content)).
Proof.
  unfold create_files.
  destruct (mkdir_recursive fs _) as [fs1|]; [|intros H; inversion H].
  destruct (writeFile fs1 _ _) as [fs2|] eqn:W1; [|intros H; inversion H].
  destruct (mkdir_recursive fs2 _) as [fs3|] eqn:M; [|intros H; inversion H].
  destruct (JSON_stringify _) as [text|]; [|intros H; inversion H].
  destruct (writeFile fs3 _ text) as [fs4|] eqn:W2; intros H; inversion H; subst.
  intros Hne. eapply writeFile_other; [exact W2 | exact Hne|].
  eapply mkdir_each_file; [exact M|]. eapply writeFile_lookup, W1.
Qed.

Lemma last_character (a b : string) (c d : ascii) :
  a +:+ String c EmptyString = b +:+ String d EmptyString -> c = d.
Proof.
  revert b. induction a as [|x a IH]; intros [|y b]; cbn; intros H; inversion H; auto.
  - destruct b; discriminate.
  - destruct a; discriminate.
  - eauto.
Qed.

Lemma html_is_not_json (P Q K K' : string) :
  P +:+ String slash (K +:+ ".html") <> Q +:+ String slash (K' +:+ ".json").
Proof.
  intros E.
  assert (H : forall R J e f g h i,
            R +:+ String slash (J +:+ String e (String f (String g (String h (String i EmptyString)))))
            = (R +:+ String slash (J +:+ String e (String f (String g (String h EmptyString)))))
              +:+ String i EmptyString).
  { intros. rewrite append_assoc, append_cons. f_equal. f_equal.
    rewrite append_assoc. reflexivity. }
  change ".html" with (String "." (String "h" (String "t" (String "m" (String "l" EmptyString))))) in E.
  change ".json" with (String "." (String "j" (String "s" (String "o" (String "n" EmptyString))))) in E.
  rewrite !H in E. apply last_character in E. discriminate.
Qed.

Lemma digits_only_noslash (K : string) :
  digits_only K = true -> noslash K = true /\ nobackslash K = true.
Proof.
  induction K as [|c K IH]; [split; reflexivity|].
  cbn [digits_only noslash nobackslash]. intros H.
  apply andb_true_iff in H as [Hc HK]. destruct (IH HK) as [-> ->].
  rewrite !andb_true_r.
  split; apply negb_true_iff; apply Ascii.eqb_neq; intros ->; discriminate Hc.
Qed.

Lemma noslash_app (a b : string) :
  noslash (a +:+ b) = noslash a && noslash b.
Proof.
  induction a as [|c a IH]; [reflexivity|].
  rewrite append_cons. cbn [noslash]. rewrite IH, andb_assoc. reflexivity.
Qed.

Lemma nobackslash_app (a b : string) :
  nobackslash (a +:+ b) = nobackslash a && nobackslash b.
Proof.
  induction a as [|c a IH]; [reflexivity|].
  rewrite append_cons. cbn [nobackslash]. rewrite IH, andb_assoc. reflexivity.
Qed.

Lemma backslashes_to_slashes_plain (s : string) :
  nobackslash s = true -> backslashes_to_slashes s = s.
Proof.
  induction s as [|c s IH]; [reflexivity|].
  cbn [nobackslash backslashes_to_slashes]. intros H.
  apply andb_true_iff in H as [Hc Hs]. apply negb_true_iff in Hc.
  rewrite Hc, (IH Hs). reflexivity.
Qed.

(** A chapter file name: digits, then [.html]. *)
Lemma file_name_kept (K : string) :
  digits_only K = true ->
  kept (K +:+ ".html") /\ K +:+ ".html" <> ".."
  /\ nobackslash (K +:+ ".html") = true.
Proof.
  intros HK. destruct (digits_only_noslash K HK) as [Hs Hb].
  assert (Hlen : (5 <= String.length (K +:+ ".html"))%nat)
    by (rewrite length_append; cbn; lia).
  repeat split.
  - intros E. rewrite E in Hlen. cbn in Hlen. lia.
  - intros E. rewrite E in Hlen. cbn in Hlen. lia.
  - rewrite noslash_app, Hs. reflexivity.
  - intros E. rewrite E in Hlen. cbn in Hlen. lia.
  - rewrite nobackslash_app, Hb. reflexivity.
Qed.

Lemma normalize_kept (s : string) : kept s -> s <> ".." -> normalize s = s.
Proof.
  intros Hs Hsu. pose proof Hs as (Hne & _ & Hns).
  unfold normalize, normalizeString.
  destruct (String.eqb_spec s EmptyString) as [|_]; [congruence|].
  assert (Hstart : starts_with_slash s = false).
  { destruct s as [|c s]; [congruence|]. cbn in Hns |- *.
    apply andb_true_iff in Hns as [Hc _]. apply negb_true_iff in Hc. exact Hc. }
  rewrite Hstart, (ends_with_slash_noslash s Hns), (split_on_single s Hns).
  cbn [fold_left negb]. rewrite (normalize_step_kept true [] s Hs Hsu).
  cbn [rev app join_with].
  destruct (String.eqb_spec s EmptyString) as [|_]; [congruence | reflexivity].
Qed.

(** The [content_path] of a chapter in a story whose folder name is a
    plain segment: the folder name, a slash, the file name. *)
Lemma content_path_plain (X K : string) :
  kept X -> X <> ".." -> nobackslash X = true -> digits_only K = true ->
  backslashes_to_slashes (path_join [X; K +:+ ".html"])
  = X +:+ String slash (K +:+ ".html").
Proof.
  intros HX HXu HXb HK.
  destruct (file_name_kept K HK) as (Hf & Hfu & Hfb).
  pose proof (path_join_child [] X (K +:+ ".html") HX HXu Hf Hfu) as H.
  cbn [app] in H. rewrite H.
  assert (HX1 : path_join [X] = X).
  { unfold path_join. cbn [List.filter].
    destruct (String.eqb_spec X EmptyString) as [E|_]; [destruct HX; congruence|].
    cbn [negb join_with]. apply normalize_kept; assumption. }
  rewrite HX1. apply backslashes_to_slashes_plain.
  rewrite nobackslash_app, HXb. cbn [nobackslash andb].
  exact Hfb.
Qed.

Lemma path_join_joined (D X F : string) :
  X <> EmptyString -> F <> EmptyString ->
  path_join [D; X +:+ String slash F] = path_join [D; X; F].
Proof.
  intros HX HF. unfold path_join. cbn [List.filter].
  destruct (String.eqb_spec X EmptyString) as [|_]; [congruence|].
  destruct (String.eqb_spec F EmptyString) as [|_]; [congruence|].
  destruct (String.eqb_spec (X +:+ String slash F) EmptyString) as [E|_];
    [exfalso; exact (append_slash_nonempty _ _ E)|].
  destruct (negb (String.eqb D EmptyString)); cbn [negb join_with]; reflexivity.
Qed.

(** X5.  After an accepted request to create a chapter in a story whose
    folder name is a plain path segment (no slash, no backslash, not [.]
    or [..]), with fields that are strings, the [content_path] of the
    metadata written leads to the content of the request:
    [readChapterContent] on it gives that content as [fs.writeFile]
    encodes it, with U+FFFD for a lone surrogate, so the content itself
    when it is well-formed. *)
Theorem create_chapter_content (first : nat) (fs fs' : filesystem)
    (story_folder_name title chapter_number original_file_name content
       location : string) :
  kept story_folder_name -> story_folder_name <> ".." ->
  nobackslash story_folder_name = true ->
  create_chapter first fs story_folder_name title chapter_number original_file_name
    content = (fs', Redirect location) ->
  exists content_path,
    get_prop (chapterMetadata story_folder_name title (parseInt chapter_number)
                original_file_name) "content_path"
    = Resolved (VString content_path)
    /\ readChapterContent fs' content_path = Resolved (toWellFormed content)
    /\ (isWellFormed content = true ->
        readChapterContent fs' content_path = Resolved content).
Proof.
  intros HX HXu HXb Hok.
  destruct (create_chapter_redirect _ _ _ _ _ _ _ _ _ _ _ Hok) as (num & Hcheck & Hfiles).
  destruct (check_chapter_passed _ _ _ _ _ _ _ _ _ _ Hcheck) as (-> & _ & Hre).
  destruct (fileNameRegex_test_true _ Hre) as (K & -> & HK).
  destruct (file_name_kept K HK) as (Hf & Hfu & _).
  eexists. split; [reflexivity|].
  rewrite (content_path_plain _ K HX HXu HXb HK).
  enough (Hread : readChapterContent fs'
                    (story_folder_name +:+ String slash (K +:+ ".html"))
                  = Resolved (toWellFormed content)).
  { split; [exact Hread|]. intros Hwf.
    rewrite Hread, (toWellFormed_isWellFormed _ Hwf). reflexivity. }
  unfold readChapterContent, readFile.
  rewrite path_join_joined by (first [apply HX | apply Hf]).
  rewrite (create_files_content _ _ _ _ _ _ _ Hfiles); [reflexivity|].
  rewrite (replace_first_extension K HK).
  pose proof (path_join_child [__dirname] story_folder_name (K +:+ ".html")
                HX HXu Hf Hfu) as Hc.
  cbn [app] in Hc. rewrite Hc.
  rewrite (chapterPath_metadataFilePath __dirname story_folder_name (K +:+ ".json"))
    by (destruct K; cbn; discriminate).
  change (path_join [CHAPTERS_METADATA_DIR; story_folder_name; K +:+ ".json"])
    with (chapterPath story_folder_name K).
  rewrite <- metadataFilePath_chapterPath.
  assert (Hj : kept (K +:+ ".json") /\ K +:+ ".json" <> "..").
  { destruct (digits_only_noslash K HK) as [Hs _].
    assert (Hlen : (5 <= String.length (K +:+ ".json"))%nat)
      by (rewrite length_append; cbn; lia).
    repeat split; try (intros E; rewrite E in Hlen; cbn in Hlen; lia).
    rewrite noslash_app, Hs. reflexivity. }
  pose proof (path_join_child [__dirname; "data"; "chapters"] story_folder_name
                (K +:+ ".json") HX HXu (proj1 Hj) (proj2 Hj)) as Hm.
  cbn [app] in Hm. rewrite Hm.
  apply html_is_not_json.
Qed.

(** *** Folder names *)

Lemma folder_name_words_plain (in_word : bool) (s : string) :
  folder_name_words in_word s = true ->
  noslash s = true /\ nobackslash s = true
  /\ (forall r, s <> String "." r).
Proof.
  revert in_word. induction s as [|c s IH]; intros in_word;
    [repeat split; discriminate|].
  cbn [folder_name_words noslash nobackslash].
  assert (Hc : forall b, folder_name_words b s = true ->
            (is_lower_alnum c = true \/ c = "-"%char) ->
            (negb (Ascii.eqb c slash) && noslash s = true)
            /\ (negb (Ascii.eqb c backslash) && nobackslash s = true)
            /\ (forall r, String c s <> String "." r)).
  { intros b Hb Hchar. destruct (IH b Hb) as (-> & -> & _).
    rewrite !andb_true_r.
    split; [|split].
    - apply negb_true_iff, Ascii.eqb_neq.
      intros ->; destruct Hchar as [H|H]; discriminate H.
    - apply negb_true_iff, Ascii.eqb_neq.
      intros ->; destruct Hchar as [H|H]; discriminate H.
    - intros r E. inversion E; subst c.
      destruct Hchar as [H|H]; discriminate H. }
  destruct (is_lower_alnum c) eqn:Ealnum.
  - intros H. apply (Hc true H). auto.
  - destruct (Ascii.eqb_spec c "-") as [->|_]; [|discriminate].
    intros H. apply andb_true_iff in H as [_ H]. apply (Hc false H). auto.
Qed.

(** X6.  The folder names the create-story handler accepts are plain
    path segments: not empty, neither [.] nor [..], and without a slash or
    a backslash; joined onto a directory they name an entry of that
    directory. *)
Theorem folderNameRegex_test_plain (folder_name : string) :
  folderNameRegex_test folder_name = true ->
  kept folder_name /\ folder_name <> ".." /\ nobackslash folder_name = true.
Proof.
  unfold folderNameRegex_test. intros H.
  destruct (folder_name_words_plain false folder_name H) as (Hs & Hb & Hdot).
  repeat split; try assumption.
  - intros ->. discriminate H.
  - apply Hdot.
  - apply Hdot.
Qed.

(** *** The pages *)

(** X16.  The chapter page answers 404 exactly when [getChapterDetails]
    gives nothing to show: [undefined], for a metadata file that is not
    there, or another value that counts as false.  A failure to read,
    also of the content file, is never answered with 404. *)
Theorem chapter_detail_not_found (first : nat) (fs : filesystem)
    (folder_name chapter_filename_root : string) :
  page_status (chapter_detail first fs folder_name chapter_filename_root) = 404%nat
  <-> exists metadata,
        getChapterDetails fs folder_name chapter_filename_root = Resolved metadata
        /\ truthy metadata = false.
Proof.
  unfold chapter_detail.
  destruct (getChapterDetails fs folder_name chapter_filename_root) as [metadata|e];
    cbn [mbind result_bind bind].
  - destruct (truthy metadata) eqn:Ht; cbn [negb].
    + split; [|intros (m & Hm & Hf); inversion Hm; congruence].
      repeat match goal with
        | |- context [match ?r ≫= _ with Resolved _ => _ | Rejected _ => _ end] =>
            destruct r; cbn [mbind result_bind bind]
        end; cbn; discriminate.
    + cbn. split; [eauto | reflexivity].
  - cbn. split; [discriminate | intros (m & Hm & _); discriminate].
Qed.

(** X17.  A chapter whose metadata is there but whose content file is
    missing is answered with status 500 and the message that the content
    could not be loaded, not with 404. *)
Theorem chapter_detail_missing_content (first : nat) (fs : filesystem)
    (folder_name chapter_filename_root : string)
    (metadata : value) (content_path : string) :
  getChapterDetails fs folder_name chapter_filename_root = Resolved metadata ->
  get_prop metadata "content_path" = Resolved (VString content_path) ->
  fs !! path_join [__dirname; content_path] = None ->
  let page := chapter_detail first fs folder_name chapter_filename_root in
  page_status page = 500%nat
  /\ lookup_prop (page_locals page) "error"
     = VString "Could not load chapter content. Please try again later."
  /\ lookup_prop (page_locals page) "metadata" = VNull.
Proof.
  intros Hmeta Hcp Hgone. cbn zeta. unfold chapter_detail.
  rewrite Hmeta. cbn [mbind result_bind bind].
  assert (Ht : truthy metadata = true).
  { destruct metadata; cbn in Hcp; try discriminate; reflexivity. }
  rewrite Ht, Hcp. cbn [negb mbind result_bind bind read_content].
  unfold readChapterContent, readFile. rewrite Hgone.
  cbn. auto.
Qed.

(** X18.  On a catalog of story records the page of a story answers 404
    exactly when no record has the folder name; a story of the catalog
    whose chapters cannot be read gets another status. *)
Theorem story_chapters_not_found (first : nat) (fs : filesystem)
    (stories : list Story) (folder_name : string) :
  fs !! STORIES_FILE = Some (File (catalog_text stories)) ->
  page_status (story_chapters first fs folder_name) = 404%nat
  <-> ~ In folder_name (map story_folder_name stories).
Proof.
  intros Hfile. unfold story_chapters, getStoryByFolderName.
  rewrite (getStories_catalog fs stories Hfile). cbn [mbind result_bind bind].
  destruct (existsb (named folder_name) stories) eqn:Hsome.
  - destruct (first_named _ _ Hsome) as (before & s & after & -> & Hs & Hb).
    rewrite (Array_find_stories folder_name before after s Hb Hs).
    cbn [mbind result_bind bind truthy story_value negb].
    split.
    + destruct (getChaptersForStory first fs folder_name);
        cbn; discriminate.
    + intros Hno. exfalso. apply Hno. rewrite map_app. apply in_or_app.
      right. left. exact Hs.
  - apply existsb_named in Hsome.
    rewrite (Array_find_no_story folder_name stories Hsome).
    cbn. tauto.
Qed.

(** *** Signing in *)

(** X19.  After a [POST /login] the session passes [isAuthenticated]
    exactly when the request carried the configured user name and
    password, or the session was signed in before; a refused login gives
    no access. *)
Theorem login_isAuthenticated (user username password adminUsername adminPassword : value) :
  isAuthenticated
    (Some (fst (login user username password adminUsername adminPassword))) = None
  <-> (strict_equals username adminUsername = true
       /\ strict_equals password adminPassword = true)
      \/ isAuthenticated (Some user) = None.
Proof.
  unfold login.
  destruct (strict_equals username adminUsername);
    destruct (strict_equals password adminPassword); cbn [andb fst];
    try (split; [auto | intros [[? ?]|?]; [discriminate | assumption]]).
  cbn. split; auto.
Qed.

(** *** The order of the listing *)

Lemma resolutions_Permutation {A} (rs rs' : list (result A)) :
  rs ≡ₚ rs' -> resolutions rs ≡ₚ resolutions rs'.
Proof.
  induction 1 as [|[a|e] rs rs' _ IH|[a|e] [b|e'] rs|rs1 rs2 rs3 _ IH1 _ IH2]; cbn.
  - reflexivity.
  - constructor. exact IH.
  - exact IH.
  - apply perm_swap.
  - reflexivity.
  - reflexivity.
  - reflexivity.
  - etransitivity; eassumption.
Qed.

Lemma number_le_antisym (a b : number) :
  number_le a b -> number_le b a -> a = b.
Proof.
  destruct a, b; cbn; try tauto. intros. f_equal. lia.
Qed.

Lemma same_number_same_chapter (chapters : list value) (a b : value) (n : number) :
  NoDup (chapter_numbers chapters) -> In a chapters -> In b chapters ->
  chapter_number_of a = Some n -> chapter_number_of b = Some n -> a = b.
Proof.
  unfold chapter_numbers.
  induction chapters as [|c r IH]; [intros _ []|].
  cbn [omap list_omap]. intros Hnd Ha Hb Hna Hnb.
  assert (Hin : forall x, In x r -> chapter_number_of x = Some n -> In n (omap chapter_number_of r)).
  { intros x Hx Hnx. apply list_elem_of_In, list_elem_of_omap.
    exists x. split; [apply list_elem_of_In, Hx | exact Hnx]. }
  destruct Ha as [->|Ha], Hb as [->|Hb]; [reflexivity | | |].
  - exfalso. rewrite Hna in Hnd. apply NoDup_cons in Hnd as [Hnd _].
    apply Hnd, list_elem_of_In, (Hin b Hb Hnb).
  - exfalso. rewrite Hnb in Hnd. apply NoDup_cons in Hnd as [Hnd _].
    apply Hnd, list_elem_of_In, (Hin a Ha Hna).
  - apply IH; auto.
    destruct (chapter_number_of c); [apply NoDup_cons in Hnd as [_ Hnd]|]; exact Hnd.
Qed.

(** Chapters with distinct numbers have one sorted order. *)
Lemma sorted_chapters_unique (l1 l2 : list value) :
  NoDup (chapter_numbers l1) ->
  StronglySorted chapter_le l1 -> StronglySorted chapter_le l2 ->
  l1 ≡ₚ l2 -> l1 = l2.
Proof.
  intros Hnd H1. revert l2 Hnd.
  induction H1 as [|a r Hr IH Ha]; intros l2 Hnd H2 Hperm.
  - apply Permutation_nil in Hperm. auto.
  - destruct H2 as [|b r2 Hr2 Hb].
    { apply Permutation_sym, Permutation_nil in Hperm. discriminate. }
    assert (Hab : a = b).
    { assert (Hbin : In b (a :: r)).
      { apply list_elem_of_In. rewrite Hperm. left. }
      assert (Hain : In a (b :: r2)).
      { apply list_elem_of_In. rewrite <- Hperm. left. }
      destruct Hbin as [E|Hbin]; [exact E|].
      destruct Hain as [E|Hain]; [auto|].
      rewrite Forall_forall in Ha, Hb.
      pose proof (Ha b ltac:(apply list_elem_of_In; exact Hbin)) as Hle1.
      pose proof (Hb a ltac:(apply list_elem_of_In; exact Hain)) as Hle2.
      unfold chapter_le in Hle1, Hle2.
      destruct (chapter_number_of a) as [x|] eqn:Ex; [|destruct Hle1].
      destruct (chapter_number_of b) as [y|] eqn:Ey; [|destruct Hle1].
      pose proof (number_le_antisym x y Hle1 Hle2) as <-.
      apply (same_number_same_chapter (a :: r) a b x Hnd); auto.
      - left. reflexivity.
      - right. exact Hbin. }
    subst b. f_equal. apply IH; [|exact Hr2|].
    + unfold chapter_numbers in *. cbn [omap list_omap] in Hnd.
      destruct (chapter_number_of a); [apply NoDup_cons in Hnd as [_ Hnd]|]; exact Hnd.
    + eapply Permutation_cons_inv, Hperm.
Qed.

(** X3.  The answer of [getChaptersForStory] does not depend on the
    order in which the directory lists its files: when the metadata files
    parse to chapter records with distinct chapter numbers, every listing
    of the same [.json] names, in whatever order and among whatever other
    names, gets the same array. *)
Theorem getChaptersForStory_listing_order
    (first first' : nat) (fs : filesystem) (folderName : string)
    (files files' : list string) :
  let dir := path_join [CHAPTERS_METADATA_DIR; folderName] in
  let load := fun jsonFile => readFile fs (path_join [dir; jsonFile]) ≫= JSON_parse in
  let jsonFiles := List.filter (fun file => endsWith file ".json") files in
  fs !! dir = Some (Directory files) ->
  (forall file, In file jsonFiles ->
     exists chapter, load file = Resolved chapter /\ is_chapter chapter) ->
  NoDup (chapter_numbers (resolutions (map load jsonFiles))) ->
  List.filter (fun file => endsWith file ".json") files' ≡ₚ jsonFiles ->
  getChaptersForStory first' (<[dir := Directory files']> fs) folderName
  = getChaptersForStory first fs folderName.
Proof.
  intros dir load jsonFiles Hdir Hparse Hdistinct Hperm.
  set (jsonFiles' := List.filter (fun file => endsWith file ".json") files') in *.
  assert (Hsame : forall file, In file jsonFiles ->
            (readFile (<[dir := Directory files']> fs) (path_join [dir; file])
               ≫= JSON_parse) = load file).
  { intros file Hin. destruct (Hparse file Hin) as (chapter & Hload & _).
    unfold load, readFile in *.
    destruct (decide (dir = path_join [dir; file])) as [E|Hne].
    - rewrite <- E, Hdir in Hload. discriminate.
    - rewrite lookup_insert_ne by exact Hne. reflexivity. }
  unfold getChaptersForStory, read_chapters, readdir. fold dir.
  rewrite lookup_insert_eq, Hdir. cbn [mbind result_bind bind].
  fold jsonFiles jsonFiles'.
  assert (Hloads : map (fun jsonFile =>
                          readFile (<[dir := Directory files']> fs)
                            (path_join [dir; jsonFile]) ≫= JSON_parse) jsonFiles'
                   = map load jsonFiles').
  { apply map_ext_in. intros file Hin. apply Hsame.
    apply list_elem_of_In. rewrite <- Hperm. apply list_elem_of_In, Hin. }
  change (map (fun jsonFile : string =>
                 fileContent ← readFile (<[dir := Directory files']> fs)
                                 (path_join [dir; jsonFile]);
                 JSON_parse fileContent) jsonFiles')
    with (map (fun jsonFile =>
                 readFile (<[dir := Directory files']> fs)
                   (path_join [dir; jsonFile]) ≫= JSON_parse) jsonFiles').
  rewrite Hloads.
  change (map (fun jsonFile : string =>
                 fileContent ← readFile fs (path_join [dir; jsonFile]);
                 JSON_parse fileContent) jsonFiles)
    with (map load jsonFiles).
  rewrite (Permutation_length Hperm).
  destruct (length jsonFiles =? 0)%nat; [reflexivity|].
  assert (Hall : forall l, (forall file, In file l -> In file jsonFiles) ->
            Forall (fun r => exists a, r = Resolved a) (map load l)
            /\ Forall is_chapter (resolutions (map load l))).
  { induction l as [|f l IH]; cbn; [split; constructor|]. intros Hl.
    destruct (Hparse f (Hl f (or_introl eq_refl))) as (c & Hc & Hchap).
    destruct IH as [IH1 IH2]; [intros g Hg; apply Hl; right; exact Hg|].
    rewrite Hc. cbn. split; constructor; eauto. }
  destruct (Hall jsonFiles ltac:(auto)) as [Hres Hchap].
  destruct (Hall jsonFiles') as [Hres' Hchap'].
  { intros file Hin. apply list_elem_of_In. rewrite <- Hperm.
    apply list_elem_of_In, Hin. }
  rewrite (Promise_all_resolved first _ Hres), (Promise_all_resolved first' _ Hres').
  cbn [mbind result_bind bind].
  destruct (Array_sort_sorted ToNumber_other _ Hchap) as (l & Hl & Hpl & Hsl).
  destruct (Array_sort_sorted ToNumber_other _ Hchap') as (l' & Hl' & Hpl' & Hsl').
  rewrite Hl, Hl'. f_equal.
  apply sorted_chapters_unique; [|exact Hsl'|exact Hsl|].
  - unfold chapter_numbers in *. rewrite Hpl'.
    rewrite (resolutions_Permutation _ _ (Permutation_map load Hperm)).
    exact Hdistinct.
  - rewrite Hpl', Hpl.
    apply resolutions_Permutation, Permutation_map, Hperm.
Qed.

(** *** The chapter list after a chapter is created *)

Lemma plain_literal (s : string) :
  (negb (String.eqb s EmptyString) && negb (String.eqb s ".")
   && negb (String.eqb s "..") && noslash s) = true ->
  plain s.
Proof.
  intros H. apply andb_true_iff in H as [H H4]. apply andb_true_iff in H as [H H3].
  apply andb_true_iff in H as [H1 H2].
  apply negb_true_iff, String.eqb_neq in H1.
  apply negb_true_iff, String.eqb_neq in H2.
  apply negb_true_iff, String.eqb_neq in H3.
  repeat split; assumption.
Qed.

Lemma file_names_plain (K : string) :
  digits_only K = true -> plain (K +:+ ".html") /\ plain (K +:+ ".json").
Proof.
  intros HK. destruct (digits_only_noslash K HK) as [Hs _].
  destruct (file_name_kept K HK) as (H1 & H2 & _).
  split; [split; assumption|].
  assert (Hlen : (5 <= String.length (K +:+ ".json"))%nat)
    by (rewrite length_append; cbn; lia).
  split; [split; [|split]|].
  - intros E. rewrite E in Hlen. cbn in Hlen. lia.
  - intros E. rewrite E in Hlen. cbn in Hlen. lia.
  - rewrite noslash_app, Hs. reflexivity.
  - intros E. rewrite E in Hlen. cbn in Hlen. lia.
Qed.

Lemma endsWith_json (K : string) : endsWith (K +:+ ".json") ".json" = true.
Proof.
  apply endsWith_spec. exists K. reflexivity.
Qed.

(** Where the handler writes, by segments. *)
Lemma contentDir_rooted (X : string) :
  starts_with_slash __dirname = true -> plain X ->
  path_join [__dirname; X] = rooted (segments_of __dirname ++ [X]).
Proof.
  intros HD HX. apply path_join_rooted_one; assumption.
Qed.

Lemma contentFile_rooted (X F : string) :
  starts_with_slash __dirname = true -> plain X -> plain F ->
  path_join [__dirname; X; F] = rooted (segments_of __dirname ++ [X; F]).
Proof.
  intros HD HX HF. apply path_join_rooted; [exact HD | discriminate|].
  constructor; [exact HX|]. constructor; [exact HF | constructor].
Qed.

Lemma metadataDir_rooted (X : string) :
  starts_with_slash __dirname = true -> plain X ->
  path_join [__dirname; "data"; "chapters"; X]
  = rooted (segments_of __dirname ++ ["data"; "chapters"; X]).
Proof.
  intros HD HX. apply path_join_rooted; [exact HD | discriminate|].
  constructor; [apply plain_literal; reflexivity|].
  constructor; [apply plain_literal; reflexivity|].
  constructor; [exact HX | constructor].
Qed.

Lemma metadataFile_rooted (X K : string) :
  starts_with_slash __dirname = true -> plain X -> digits_only K = true ->
  chapterPath X K
  = rooted (segments_of __dirname ++ ["data"; "chapters"; X; K +:+ ".json"]).
Proof.
  intros HD HX HK. rewrite <- metadataFilePath_chapterPath.
  apply path_join_rooted; [exact HD | discriminate|].
  constructor; [apply plain_literal; reflexivity|].
  constructor; [apply plain_literal; reflexivity|].
  constructor; [exact HX|].
  constructor; [apply (file_names_plain K HK) | constructor].
Qed.

Lemma rooted_apart (l1 l2 : list string) :
  Forall plain l1 -> Forall plain l2 -> length l1 <> length l2 ->
  rooted l1 <> rooted l2.
Proof.
  intros H1 H2 Hlen E. apply rooted_inj in E; [|assumption..]. congruence.
Qed.

(** The four writes of the handler, seen from the chapter directory:
    one more name, the one of the new metadata file. *)
Lemma create_files_listing (fs fs' : filesystem)
    (X title : string) (num : number) (K content : string) (names : list string) :
  starts_with_slash __dirname = true -> plain X -> digits_only K = true ->
  create_files __dirname fs X title num (K +:+ ".html") content = (fs', Resolved tt) ->
  fs !! chapterPath X K = None ->
  fs !! path_join [__dirname; "data"; "chapters"; X] = Some (Directory names) ->
  ~ In (K +:+ ".json") names ->
  fs' !! path_join [__dirname; "data"; "chapters"; X]
  = Some (Directory (names ++ [K +:+ ".json"])).
Proof.
  intros HD HX HK Hfiles Hm Hdir Hnew.
  destruct (file_names_plain K HK) as [Hhtml Hjson].
  pose proof (segments_of_plain __dirname) as Hds.
  set (ds := segments_of __dirname) in *.
  assert (Hdata : plain "data") by (apply plain_literal; reflexivity).
  assert (Hchapters : plain "chapters") by (apply plain_literal; reflexivity).
  assert (Pcdir : Forall plain (ds ++ [X])) by (apply Forall_plain_snoc; assumption).
  assert (Pc : Forall plain (ds ++ [X; K +:+ ".html"])).
  { apply Forall_app. split; [exact Hds|].
    repeat (constructor; [assumption|]). constructor. }
  assert (Pdir0 : Forall plain (ds ++ ["data"; "chapters"])).
  { apply Forall_app. split; [exact Hds|].
    repeat (constructor; [assumption|]). constructor. }
  assert (Pdir : Forall plain (ds ++ ["data"; "chapters"; X])).
  { apply Forall_app. split; [exact Hds|].
    repeat (constructor; [assumption|]). constructor. }
  assert (Pm : Forall plain (ds ++ ["data"; "chapters"; X; K +:+ ".json"])).
  { apply Forall_app. split; [exact Hds|].
    repeat (constructor; [assumption|]). constructor. }
  revert Hfiles. unfold create_files.
  rewrite (replace_first_extension K HK).
  rewrite (chapterPath_metadataFilePath __dirname X (K +:+ ".json"))
    by (destruct K; cbn; discriminate).
  change (path_join [CHAPTERS_METADATA_DIR; X; K +:+ ".json"])
    with (chapterPath X K).
  rewrite (metadataFile_rooted X K HD HX HK) in *.
  rewrite (metadataDir_rooted X HD HX) in *.
  rewrite (contentDir_rooted X HD HX), (contentFile_rooted X _ HD HX Hhtml).
  fold ds.
  set (cdir := rooted (ds ++ [X])).
  set (c := rooted (ds ++ [X; K +:+ ".html"])).
  set (dir := rooted (ds ++ ["data"; "chapters"; X])) in *.
  set (m := rooted (ds ++ ["data"; "chapters"; X; K +:+ ".json"])) in *.
  change (fs !! dir = Some (Directory names)) in Hdir.
  change (fs !! m = None) in Hm.
  assert (Hparent_c : parent_of c = cdir).
  { unfold c, cdir.
    change (ds ++ [X; K +:+ ".html"])%list with (ds ++ [X] ++ [K +:+ ".html"])%list.
    rewrite app_assoc. apply parent_of_rooted; assumption. }
  assert (Hparent_m : parent_of m = dir /\ basename m = K +:+ ".json").
  { unfold m, dir.
    change (ds ++ ["data"; "chapters"; X; K +:+ ".json"])%list
      with (ds ++ ["data"; "chapters"; X] ++ [K +:+ ".json"])%list.
    rewrite app_assoc. split; [apply parent_of_rooted | apply basename_rooted]; assumption. }
  destruct Hparent_m as [Hparent_m Hbase_m].
  assert (Hlen : forall l : list string, length (ds ++ l) = (length ds + length l)%nat)
    by (intros l; apply length_app).
  destruct (mkdir_recursive fs cdir) as [fs1|] eqn:M1; [|intros H; inversion H].
  destruct (writeFile fs1 c _) as [fs2|] eqn:W1; [|intros H; inversion H].
  destruct (mkdir_recursive fs2 dir) as [fs3|] eqn:M2; [|intros H; inversion H].
  destruct (JSON_stringify _) as [text|]; [|intros H; inversion H].
  destruct (writeFile fs3 m text) as [fs4|] eqn:W2; intros H; inversion H; subst fs4.
  (* the directory and the place of the new file, step by step *)
  assert (D1 : fs1 !! dir = fs !! dir /\ fs1 !! m = fs !! m).
  { split; eapply mkdir_recursive_untouched; try exact M1; try assumption;
      rewrite !Hlen; cbn; lia. }
  assert (D2 : fs2 !! dir = fs1 !! dir /\ fs2 !! m = fs1 !! m).
  { split; eapply writeFile_untouched; try exact W1; rewrite ?Hparent_c;
      apply rooted_apart; try assumption; rewrite !Hlen; cbn; lia. }
  assert (D3m : fs3 !! m = fs2 !! m).
  { eapply mkdir_recursive_untouched; try exact M2; try assumption.
    rewrite !Hlen. cbn. lia. }
  assert (D3 : fs3 !! dir = Some (Directory names)).
  { assert (Edir : dir = rooted ((ds ++ ["data"; "chapters"]) ++ [X]))
      by (unfold dir; rewrite <- app_assoc; reflexivity).
    rewrite Edir in M2.
    destruct (mkdir_recursive_target fs2 fs3 _ X Pdir0 HX M2)
      as (names' & Hafter & Hbefore).
    rewrite <- Edir in Hafter, Hbefore.
    destruct D1 as [D1 _], D2 as [D2 _].
    rewrite D2, D1, Hdir in Hbefore.
    destruct Hbefore as [Hbefore|[Hbefore _]]; [|discriminate].
    inversion Hbefore; subst names'. exact Hafter. }
  rewrite <- Hparent_m, <- Hbase_m.
  apply (writeFile_listed fs3 fs' m text names W2).
  - destruct D1 as [_ D1], D2 as [_ D2]. rewrite D3m, D2, D1. exact Hm.
  - rewrite Hparent_m. exact D3.
  - rewrite Hbase_m. exact Hnew.
Qed.

Lemma append_cancel_r (a b s : string) : a +:+ s = b +:+ s -> a = b.
Proof.
  revert b. induction a as [|x a IH]; intros [|y b] E.
  - reflexivity.
  - apply (f_equal String.length) in E. rewrite append_nil_l, length_append in E.
    cbn in E. lia.
  - apply (f_equal String.length) in E. rewrite append_nil_l, length_append in E.
    cbn in E. lia.
  - rewrite !append_cons in E. inversion E. f_equal. apply IH. assumption.
Qed.

Lemma Array_some_false (pred : value -> result bool) (items : list value) :
  Array_some pred items = Resolved false ->
  Forall (fun x => pred x = Resolved false) items.
Proof.
  induction items as [|x r IH]; [constructor|].
  cbn [Array_some].
  destruct (pred x) as [[]|] eqn:Hx; cbn [mbind result_bind bind]; try discriminate.
  intros H. constructor; [exact Hx | exact (IH H)].
Qed.

(** What the checks of the create handler have found when they pass. *)
Lemma check_chapter_free (first : nat) (fs : filesystem)
    (X title cn ofn content : string) (num : number) :
  check_chapter __dirname ToNumber_other first fs X title cn ofn content
    = Resolved (inr num) ->
  fs !! path_join [__dirname; X; ofn] = None
  /\ exists chapters,
       getChaptersForStory first fs X = Resolved chapters
       /\ Forall (fun chap =>
                    (n ← get_prop chap "chapter_number";
                     Resolved (strict_equals n (VNumber num))) = Resolved false)
            chapters.
Proof.
  unfold check_chapter.
  destruct (getStoryByFolderName fs X) as [story|];
    cbn [mbind result_bind bind]; [|discriminate].
  destruct (negb (truthy story)); [discriminate|].
  destruct (_ || _); [discriminate|].
  destruct (is_NaN (parseInt cn) || at_most_zero (parseInt cn)); [discriminate|].
  destruct (negb (fileNameRegex_test ofn)); [discriminate|].
  destruct (getChaptersForStory first fs X) as [chapters|];
    cbn [mbind result_bind bind]; [|discriminate].
  set (number_taken := Array_some
         (fun chap => n ← get_prop chap "chapter_number";
                      Resolved (strict_equals n (VNumber (parseInt cn))))
         chapters).
  set (name_taken := Array_some
         (fun chap => n ← get_prop chap "original_file_name";
                      Resolved (strict_equals n (VString ofn)))
         chapters).
  destruct number_taken as [[]|] eqn:Hnumber;
    cbn [mbind result_bind bind]; try discriminate.
  destruct name_taken as [[]|] eqn:Hname;
    cbn [mbind result_bind bind]; try discriminate.
  unfold access.
  destruct (fs !! path_join [__dirname; X; ofn]) eqn:Hc; [discriminate|].
  cbn. intros H; inversion H; subst num.
  split; [reflexivity|]. exists chapters. split; [reflexivity|].
  apply Array_some_false, Hnumber.
Qed.

Lemma create_files_keeps_files (fs fs' : filesystem)
    (X title : string) (num : number) (ofn content q text : string) :
  create_files __dirname fs X title num ofn content = (fs', Resolved tt) ->
  fs !! q = Some (File text) ->
  q <> path_join [__dirname; X; ofn] ->
  q <> path_join [path_join [__dirname; "data"; "chapters"; X];
                  replace_first ".html" ".json" ofn] ->
  fs' !! q = Some (File text).
Proof.
  unfold create_files.
  destruct (mkdir_recursive fs _) as [fs1|] eqn:M1; [|intros H; inversion H].
  destruct (writeFile fs1 _ _) as [fs2|] eqn:W1; [|intros H; inversion H].
  destruct (mkdir_recursive fs2 _) as [fs3|] eqn:M2; [|intros H; inversion H].
  destruct (JSON_stringify _) as [t|]; [|intros H; inversion H].
  destruct (writeFile fs3 _ t) as [fs4|] eqn:W2; intros H; inversion H; subst.
  intros Hq Hc Hm.
  eapply writeFile_other; [exact W2 | exact Hm|].
  eapply mkdir_each_file; [exact M2|].
  eapply writeFile_other; [exact W1 | exact Hc|].
  eapply mkdir_each_file; [exact M1 | exact Hq].
Qed.

(** The chapters of a directory whose metadata files all load. *)
Lemma getChaptersForStory_loaded (first : nat) (fs : filesystem) (X : string)
    (files : list string) :
  let dir := path_join [CHAPTERS_METADATA_DIR; X] in
  let load := fun jsonFile => readFile fs (path_join [dir; jsonFile]) ≫= JSON_parse in
  let jsonFiles := List.filter (fun file => endsWith file ".json") files in
  fs !! dir = Some (Directory files) ->
  (forall file, In file jsonFiles ->
     exists chapter, load file = Resolved chapter /\ is_chapter chapter) ->
  exists chapters,
    getChaptersForStory first fs X = Resolved chapters
    /\ StronglySorted chapter_le chapters
    /\ chapters ≡ₚ resolutions (map load jsonFiles).
Proof.
  intros dir load jsonFiles Hdir Hparse.
  unfold getChaptersForStory, read_chapters, readdir. fold dir.
  rewrite Hdir. cbn [mbind result_bind bind]. fold jsonFiles.
  destruct (length jsonFiles =? 0)%nat eqn:Hlen.
  { apply Nat.eqb_eq in Hlen. destruct jsonFiles; [|discriminate].
    exists []. repeat split; constructor. }
  change (map _ jsonFiles) with (map load jsonFiles).
  assert (Hall : Forall (fun r => exists a, r = Resolved a) (map load jsonFiles)
                 /\ Forall is_chapter (resolutions (map load jsonFiles))).
  { clear Hlen. induction jsonFiles as [|f l IH]; cbn; [split; constructor|].
    destruct (Hparse f (or_introl eq_refl)) as (c & Hc & Hchap).
    destruct IH as [IH1 IH2]; [intros g Hg; apply Hparse; right; exact Hg|].
    rewrite Hc. cbn. split; constructor; eauto. }
  destruct Hall as [Hres Hchap].
  rewrite (Promise_all_resolved first _ Hres). cbn [mbind result_bind bind].
  destruct (Array_sort_sorted ToNumber_other _ Hchap) as (l & Hl & Hperm & Hs).
  rewrite Hl. exists l. auto.
Qed.

Lemma resolutions_app {A} (r1 r2 : list (result A)) :
  resolutions (r1 ++ r2) = (resolutions r1 ++ resolutions r2)%list.
Proof.
  induction r1 as [|[a|e] r1 IH]; cbn; [reflexivity | rewrite IH; reflexivity | exact IH].
Qed.

(** X20.  A chapter the create handler has accepted, on a request whose
    fields are strings and whose chapter number is finite, shows in the
    chapter list, and the chapters that were there stay: with the
    application installed under an absolute path, a story folder that is a
    plain segment, metadata files that all load and no metadata file yet
    under the new name, [getChaptersForStory] answers after the request
    the chapters it answered before together with the new record, in the
    order of their numbers; and if the numbers were distinct before, they
    still are. *)
Theorem create_chapter_listed (first first' : nat) (fs fs' : filesystem)
    (story_folder_name title chapter_number K content location : string)
    (files : list string) (z : Z) :
  let dir := path_join [CHAPTERS_METADATA_DIR; story_folder_name] in
  let load := fun jsonFile => readFile fs (path_join [dir; jsonFile]) ≫= JSON_parse in
  let record := chapterMetadata story_folder_name title (Finite z) (K +:+ ".html") in
  starts_with_slash __dirname = true ->
  kept story_folder_name -> story_folder_name <> ".." ->
  fs !! dir = Some (Directory files) ->
  (forall file, In file files -> endsWith file ".json" = true ->
     exists chapter, load file = Resolved chapter /\ is_chapter chapter) ->
  fs !! chapterPath story_folder_name K = None ->
  create_chapter first fs story_folder_name title chapter_number (K +:+ ".html") content
    = (fs', Redirect location) ->
  parseInt chapter_number = Finite z ->
  exists chapters chapters',
    getChaptersForStory first fs story_folder_name = Resolved chapters
    /\ getChaptersForStory first' fs' story_folder_name = Resolved chapters'
    /\ chapters' ≡ₚ record :: chapters
    /\ StronglySorted chapter_le chapters'
    /\ (NoDup (chapter_numbers chapters) -> NoDup (chapter_numbers chapters')).
Proof.
  intros dir load record HD HXk HXu Hdir Hparse Hfree Hok Hnum.
  assert (HX : plain story_folder_name) by (split; assumption).
  assert (HXne : story_folder_name <> EmptyString) by apply HXk.
  set (jsonFiles := List.filter (fun file => endsWith file ".json") files).
  assert (Hparse' : forall file, In file jsonFiles ->
            exists chapter, load file = Resolved chapter /\ is_chapter chapter).
  { intros file Hin. apply filter_In in Hin as [Hin Hjson]. auto. }
  (* what the handler did *)
  destruct (create_chapter_redirect _ _ _ _ _ _ _ _ _ _ _ Hok) as (num & Hcheck & Hfiles).
  destruct (check_chapter_passed _ _ _ _ _ _ _ _ _ _ Hcheck) as (-> & Hpos & Hre).
  destruct (check_chapter_free _ _ _ _ _ _ _ _ Hcheck) as (Hc & existing & Hexisting & Hunused).
  rewrite Hnum in *. cbn in Hpos. apply Z.leb_gt in Hpos.
  destruct (fileNameRegex_test_true _ Hre) as (K' & EK & HK).
  apply append_cancel_r in EK. subst K'.
  (* the chapters before *)
  destruct (getChaptersForStory_loaded first fs story_folder_name files Hdir Hparse')
    as (chapters & Hbefore & _ & Hperm).
  fold dir load jsonFiles in Hperm.
  rewrite Hbefore in Hexisting. inversion Hexisting; subst existing.
  (* the paths *)
  assert (Edir : dir = path_join [__dirname; "data"; "chapters"; story_folder_name])
    by (apply chapters_directory, HXne).
  assert (Em : path_join [dir; K +:+ ".json"] = chapterPath story_folder_name K).
  { rewrite Edir. apply chapterPath_metadataFilePath. destruct K; cbn; discriminate. }
  assert (Em' : path_join [path_join [__dirname; "data"; "chapters"; story_folder_name];
                           replace_first ".html" ".json" (K +:+ ".html")]
                = chapterPath story_folder_name K).
  { rewrite (replace_first_extension K HK), <- Edir. exact Em. }
  (* the new name is not listed yet *)
  assert (Hnew : ~ In (K +:+ ".json") files).
  { intros Hin. destruct (Hparse _ Hin (endsWith_json K)) as (chapter & Hload & _).
    unfold load, readFile in Hload. rewrite Em, Hfree in Hload. discriminate. }
  (* the directory and the files after *)
  assert (Hdir' : fs' !! dir = Some (Directory (files ++ [K +:+ ".json"]))).
  { rewrite Edir in Hdir |- *.
    apply (create_files_listing fs fs' _ title (Finite z) K content files HD HX HK Hfiles
             Hfree Hdir Hnew). }
  assert (Hold : forall file, In file jsonFiles ->
            (readFile fs' (path_join [dir; file]) ≫= JSON_parse) = load file).
  { intros file Hin. destruct (Hparse' file Hin) as (chapter & Hload & _).
    unfold load, readFile in Hload |- *.
    destruct (fs !! path_join [dir; file]) as [[text| | |]|] eqn:Hfile; try discriminate.
    rewrite (create_files_keeps_files _ _ _ _ _ _ _ _ _ Hfiles Hfile); [reflexivity| |].
    - intros E. rewrite E, Hc in Hfile. discriminate.
    - rewrite Em'. intros E. rewrite E, Hfree in Hfile. discriminate. }
  assert (Hrecord : (readFile fs' (path_join [dir; K +:+ ".json"]) ≫= JSON_parse)
                    = Resolved record).
  { destruct (create_files_written _ _ _ _ _ _ _ _ Hfiles) as (text & Htext & Hfile).
    rewrite Em' in Hfile. rewrite Em. unfold readFile. rewrite Hfile.
    cbn [mbind result_bind bind].
    apply (JSON_parse_stringify record text); [|exact Htext].
    unfold record. cbn [chapterMetadata writable fold_right snd map fst].
    split; [|repeat split; exact (parseInt_writable chapter_number z Hnum Hpos)].
    repeat constructor; rewrite ?list_elem_of_In; cbn; intuition discriminate. }
  assert (Hchapter : is_chapter record).
  { exists (Finite z). split; [reflexivity | discriminate]. }
  (* the chapters after *)
  destruct (getChaptersForStory_loaded first' fs' story_folder_name
              (files ++ [K +:+ ".json"]) Hdir') as (chapters' & Hafter & Hsorted & Hperm').
  { intros file Hin. rewrite List.filter_app in Hin. cbn [List.filter] in Hin.
    rewrite endsWith_json in Hin. apply in_app_or in Hin as [Hin|[<-|[]]].
    - fold jsonFiles in Hin. destruct (Hparse' file Hin) as (chapter & Hload & Hchap).
      exists chapter. split; [|exact Hchap]. fold dir. rewrite (Hold file Hin). exact Hload.
    - exists record. split; [exact Hrecord | exact Hchapter]. }
  fold dir in Hperm'.
  rewrite List.filter_app in Hperm'. cbn [List.filter] in Hperm'.
  rewrite endsWith_json in Hperm'. fold jsonFiles in Hperm'.
  rewrite map_app, resolutions_app in Hperm'. cbn [map] in Hperm'.
  rewrite Hrecord in Hperm'. cbn [resolutions] in Hperm'.
  rewrite (map_ext_in _ load jsonFiles) in Hperm' by (intros file Hin; apply Hold, Hin).
  assert (Hlist : chapters' ≡ₚ record :: chapters).
  { rewrite Hperm', Hperm. symmetry. apply Permutation_cons_append. }
  exists chapters, chapters'. split; [exact Hbefore|]. split; [exact Hafter|].
  split; [exact Hlist|]. split; [exact Hsorted|].
  intros Hdistinct. unfold chapter_numbers in *. rewrite Hlist.
  cbn [omap list_omap]. change (chapter_number_of record) with (Some (Finite z)).
  apply NoDup_cons. split; [|exact Hdistinct].
  intros Hin. apply list_elem_of_omap in Hin as (chap & Hchap & Hn).
  rewrite Forall_forall in Hunused. specialize (Hunused chap Hchap).
  unfold chapter_number_of in Hn.
  destruct chap as [| | | | | |props]; try discriminate.
  cbn in Hunused.
  destruct (lookup_prop props "chapter_number") as [| | |n| | |]; try discriminate.
  inversion Hn; subst n. cbn in Hunused. rewrite Z.eqb_refl in Hunused. discriminate.
Qed.

(** *** The chapter list after a chapter is deleted *)

Lemma remove_name_untouched (fs : filesystem) (p r : string) :
  r <> parent_of p -> remove_name fs p !! r = fs !! r.
Proof.
  intros Hne. unfold remove_name.
  destruct (fs !! parent_of p) as [[]|]; try reflexivity.
  apply lookup_insert_ne. congruence.
Qed.

Lemma unlink_if_there_untouched (fs fs' : filesystem) (p r : string) :
  unlink_if_there fs p = Resolved fs' -> r <> p -> r <> parent_of p ->
  fs' !! r = fs !! r.
Proof.
  unfold unlink_if_there, unlink. intros H Hp Hpp.
  destruct (fs !! p) as [[]|]; cbn in H; inversion H; subst; try reflexivity;
    (rewrite remove_name_untouched by exact Hpp; apply lookup_delete_ne; congruence).
Qed.

Lemma unlink_if_there_other (fs fs' : filesystem) (p q content : string) :
  unlink_if_there fs p = Resolved fs' -> q <> p ->
  fs !! q = Some (File content) -> fs' !! q = Some (File content).
Proof.
  unfold unlink_if_there. intros H Hne Hq.
  destruct (unlink fs p) as [fs1|e] eqn:U.
  - inversion H; subst. eapply unlink_other; eassumption.
  - destruct (is_ENOENT e); inversion H; subst. exact Hq.
Qed.

(** A file that is removed leaves the listing of its directory. *)
Lemma unlink_if_there_unlisted (fs fs' : filesystem) (p content : string)
    (names : list string) :
  unlink_if_there fs p = Resolved fs' ->
  fs !! p = Some (File content) -> fs !! parent_of p = Some (Directory names) ->
  fs' !! parent_of p
  = Some (Directory (List.filter (fun name => negb (String.eqb name (basename p))) names)).
Proof.
  unfold unlink_if_there, unlink. intros H Hp Hdir. rewrite Hp in H.
  inversion H; subst fs'.
  assert (Hne : p <> parent_of p) by (intros E; rewrite <- E, Hp in Hdir; discriminate).
  unfold remove_name. rewrite lookup_delete_ne by exact Hne. rewrite Hdir.
  apply lookup_insert_eq.
Qed.

Lemma filter_filter_comm {A} (f g : A -> bool) (l : list A) :
  List.filter f (List.filter g l) = List.filter g (List.filter f l).
Proof.
  induction l as [|x l IH]; [reflexivity|]. cbn [List.filter].
  destruct (f x) eqn:Ef, (g x) eqn:Eg; cbn [List.filter]; rewrite ?Ef, ?Eg, IH;
    reflexivity.
Qed.

Lemma NoDup_List_filter {A} (f : A -> bool) (l : list A) :
  NoDup l -> NoDup (List.filter f l).
Proof.
  induction 1 as [|x l Hx Hl IH]; cbn [List.filter]; [constructor|].
  destruct (f x); [|exact IH]. constructor; [|exact IH].
  rewrite list_elem_of_In, filter_In. intros [H _]. apply Hx, list_elem_of_In, H.
Qed.

Lemma filter_out_absent (x : string) (l : list string) :
  ~ In x l -> List.filter (fun name => negb (String.eqb name x)) l = l.
Proof.
  induction l as [|y l IH]; [reflexivity|]. cbn [List.filter In]. intros H.
  destruct (String.eqb_spec y x) as [->|_]; [tauto|]. cbn [negb]. rewrite IH; tauto.
Qed.

Lemma filter_out_one (x : string) (l : list string) :
  NoDup l -> In x l ->
  l ≡ₚ x :: List.filter (fun name => negb (String.eqb name x)) l.
Proof.
  induction 1 as [|y l Hy Hl IH]; [intros []|].
  cbn [List.filter]. intros [->|Hin].
  - rewrite String.eqb_refl. cbn [negb].
    rewrite filter_out_absent; [reflexivity|].
    rewrite <- list_elem_of_In. exact Hy.
  - destruct (String.eqb_spec y x) as [->|_].
    + exfalso. apply Hy, list_elem_of_In, Hin.
    + cbn [negb]. rewrite (IH Hin) at 1. apply perm_swap.
Qed.

(** The files of a chapter directory, by segments. *)
Lemma listed_file_rooted (X f : string) :
  starts_with_slash __dirname = true -> plain X -> plain f ->
  path_join [path_join [CHAPTERS_METADATA_DIR; X]; f]
  = rooted (segments_of __dirname ++ ["data"; "chapters"; X; f]).
Proof.
  intros HD HX Hf.
  assert (HXne : X <> EmptyString) by apply HX.
  assert (Hfne : f <> EmptyString) by apply Hf.
  rewrite (chapters_directory X HXne).
  rewrite (path_join_nested [__dirname; "data"; "chapters"; X] [f]).
  - apply path_join_rooted; [exact HD | discriminate|].
    constructor; [apply plain_literal; reflexivity|].
    constructor; [apply plain_literal; reflexivity|].
    constructor; [exact HX|]. constructor; [exact Hf | constructor].
  - unfold nonempty. cbn. destruct (negb (String.eqb __dirname EmptyString)); discriminate.
  - unfold nonempty. cbn. destruct (String.eqb_spec f EmptyString);
      [congruence | discriminate].
Qed.

(** Where a chapter lies: its metadata file [m] in the chapter directory
    [dir] of the story, its content file [h] in the story's own
    directory, apart from the directory and from the other metadata
    files. *)
Lemma chapter_paths (X K : string) :
  let dir := path_join [CHAPTERS_METADATA_DIR; X] in
  let m := path_join [dir; K +:+ ".json"] in
  let h := path_join [__dirname; X; K +:+ ".html"] in
  starts_with_slash __dirname = true -> plain X -> digits_only K = true ->
  chapterPath X K = m
  /\ parent_of m = dir /\ basename m = K +:+ ".json"
  /\ dir <> m /\ dir <> h /\ dir <> parent_of h
  /\ (forall f, plain f -> path_join [dir; f] <> h)
  /\ (forall f, plain f -> f <> K +:+ ".json" -> path_join [dir; f] <> m).
Proof.
  intros dir m h HD HX HK.
  assert (HXne : X <> EmptyString) by apply HX.
  destruct (file_names_plain K HK) as [Hhtml Hjson].
  pose proof (segments_of_plain __dirname) as Hds.
  set (ds := segments_of __dirname) in *.
  assert (Edir : dir = rooted (ds ++ ["data"; "chapters"; X])).
  { unfold dir. rewrite (chapters_directory _ HXne).
    apply metadataDir_rooted; assumption. }
  assert (Efile : forall f, plain f ->
            path_join [dir; f] = rooted (ds ++ ["data"; "chapters"; X; f]))
    by (intros f Hf; apply listed_file_rooted; assumption).
  assert (Eh : h = rooted (ds ++ [X; K +:+ ".html"]))
    by (apply contentFile_rooted; assumption).
  assert (Pfile : forall f, plain f -> Forall plain (ds ++ ["data"; "chapters"; X; f])).
  { intros f Hf. apply Forall_app. split; [exact Hds|].
    constructor; [apply plain_literal; reflexivity|].
    constructor; [apply plain_literal; reflexivity|].
    constructor; [exact HX|]. constructor; [exact Hf | constructor]. }
  assert (Pdir : Forall plain (ds ++ ["data"; "chapters"; X])).
  { apply Forall_app. split; [exact Hds|].
    constructor; [apply plain_literal; reflexivity|].
    constructor; [apply plain_literal; reflexivity|].
    constructor; [exact HX | constructor]. }
  assert (Ph : Forall plain (ds ++ [X; K +:+ ".html"])).
  { apply Forall_app. split; [exact Hds|].
    constructor; [exact HX|]. constructor; [exact Hhtml | constructor]. }
  assert (Pcdir : Forall plain (ds ++ [X])) by (apply Forall_plain_snoc; assumption).
  assert (Hparent_h : parent_of h = rooted (ds ++ [X])).
  { rewrite Eh.
    change (ds ++ [X; K +:+ ".html"])%list with (ds ++ [X] ++ [K +:+ ".html"])%list.
    rewrite app_assoc. apply parent_of_rooted; assumption. }
  assert (Em : m = rooted ((ds ++ ["data"; "chapters"; X]) ++ [K +:+ ".json"])).
  { unfold m. rewrite (Efile _ Hjson), <- app_assoc. reflexivity. }
  assert (Hlen : forall l : list string, length (ds ++ l) = (length ds + length l)%nat)
    by (intros l; apply length_app).
  split; [unfold m; rewrite (Efile _ Hjson); apply metadataFile_rooted; assumption|].
  split; [rewrite Em, Edir; apply parent_of_rooted; assumption|].
  split; [rewrite Em; apply basename_rooted; assumption|].
  split; [unfold m; rewrite (Efile _ Hjson), Edir; apply rooted_apart; auto;
          rewrite !Hlen; cbn; lia|].
  split; [rewrite Eh, Edir; apply rooted_apart; auto; rewrite !Hlen; cbn; lia|].
  split; [rewrite Hparent_h, Edir; apply rooted_apart; auto; rewrite !Hlen; cbn; lia|].
  split.
  - intros f Hf. rewrite (Efile f Hf), Eh. apply rooted_apart; auto.
    rewrite !Hlen. cbn. lia.
  - intros f Hf Hne. unfold m. rewrite (Efile _ Hf), (Efile _ Hjson). intros E.
    apply rooted_inj in E; [|apply Pfile; assumption..].
    apply app_inv_head in E. inversion E. congruence.
Qed.

(** The record of a chapter as the create handler writes it leads, by
    its [content_path], to the content file of the chapter. *)
Lemma record_content_path (X title : string) (n : number) (K : string) :
  kept X -> X <> ".." -> nobackslash X = true -> digits_only K = true ->
  (content_path ← get_prop (chapterMetadata X title n (K +:+ ".html")) "content_path";
   join_dirname __dirname content_path)
  = Resolved (path_join [__dirname; X; K +:+ ".html"]).
Proof.
  intros HXk HXu HXb HK.
  change (get_prop (chapterMetadata X title n (K +:+ ".html")) "content_path")
    with (Resolved (A := value)
            (VString (backslashes_to_slashes (path_join [X; K +:+ ".html"])))).
  cbn [mbind result_bind bind join_dirname].
  rewrite (content_path_plain _ K HXk HXu HXb HK).
  rewrite path_join_joined; [reflexivity | apply HXk|].
  destruct K; cbn; discriminate.
Qed.

Lemma getChapterDetails_loaded (fs : filesystem) (X K : string) (record : value) :
  (readFile fs (chapterPath X K) ≫= JSON_parse) = Resolved record ->
  getChapterDetails fs X K = Resolved record
  /\ exists text, fs !! chapterPath X K = Some (File text).
Proof.
  unfold getChapterDetails, readFile.
  destruct (fs !! chapterPath X K) as [[text| | |]|]; try discriminate.
  cbn [mbind result_bind bind]. intros ->. eauto.
Qed.

(** X21.  A chapter the delete handler has removed is gone from the
    chapter list, and it alone: in a chapter directory of plain, distinct
    names whose metadata files all load, for a chapter whose record is as
    the create handler writes it, [getChaptersForStory] answered before
    the request the chapters it answers after it together with the
    record of the chapter. *)
Theorem delete_chapter_unlisted (first first' : nat) (fs fs' : filesystem)
    (story_folder_name K location : string) (files : list string)
    (title : string) (n : number) :
  let dir := path_join [CHAPTERS_METADATA_DIR; story_folder_name] in
  let load := fun jsonFile => readFile fs (path_join [dir; jsonFile]) ≫= JSON_parse in
  let record := chapterMetadata story_folder_name title n (K +:+ ".html") in
  starts_with_slash __dirname = true ->
  kept story_folder_name -> story_folder_name <> ".." ->
  nobackslash story_folder_name = true ->
  digits_only K = true ->
  fs !! dir = Some (Directory files) ->
  NoDup files -> Forall plain files ->
  (forall file, In file files -> endsWith file ".json" = true ->
     exists chapter, load file = Resolved chapter /\ is_chapter chapter) ->
  In (K +:+ ".json") files ->
  load (K +:+ ".json") = Resolved record ->
  delete_chapter first fs story_folder_name K = (fs', Answer (Redirect location)) ->
  exists chapters chapters',
    getChaptersForStory first fs story_folder_name = Resolved chapters
    /\ getChaptersForStory first' fs' story_folder_name = Resolved chapters'
    /\ chapters ≡ₚ record :: chapters'
    /\ StronglySorted chapter_le chapters'.
Proof.
  intros dir load record HD HXk HXu HXb HK Hdir Hdistinct Hplain Hparse Hlisted
    Hrecord Hok.
  assert (HX : plain story_folder_name) by (split; assumption).
  destruct (chapter_paths story_folder_name K HD HX HK)
    as (Em & Hparent_m & Hbase_m & Hdir_m & Hdir_h & Hdir_ph & Hfile_h & Hfile_m).
  fold dir in Em, Hparent_m, Hbase_m, Hdir_m, Hdir_h, Hdir_ph, Hfile_h, Hfile_m.
  set (m := path_join [dir; K +:+ ".json"]) in *.
  set (h := path_join [__dirname; story_folder_name; K +:+ ".html"]) in *.
  set (jsonFiles := List.filter (fun file => endsWith file ".json") files).
  assert (Hparse' : forall file, In file jsonFiles ->
            exists chapter, load file = Resolved chapter /\ is_chapter chapter).
  { intros file Hin. apply filter_In in Hin as [Hin Hjs]. auto. }
  assert (Hjson : plain (K +:+ ".json")) by apply (file_names_plain K HK).
  change (load (K +:+ ".json")) with (readFile fs m ≫= JSON_parse) in Hrecord.
  pose proof Hrecord as Hloaded. rewrite <- Em in Hloaded.
  destruct (getChapterDetails_loaded fs _ _ _ Hloaded) as [Hdetails (text & Hm)].
  rewrite Em in Hm.
  (* what the handler did *)
  revert Hok. unfold delete_chapter.
  destruct (remove_chapter __dirname fs _ _) as [fs1 [[]|e]] eqn:Hrem.
  2:{ destruct (getStoryByFolderName fs1 _ ≫= _); intros H; inversion H. }
  intros H; inversion H; subst fs1. clear H.
  revert Hrem. unfold remove_chapter.
  rewrite metadataFilePath_chapterPath, Em, Hdetails.
  change (truthy record) with true. cbn iota.
  change (get_prop record "content_path")
    with (Resolved (A := value)
            (VString (backslashes_to_slashes
                        (path_join [story_folder_name; K +:+ ".html"])))).
  cbn [mbind result_bind bind].
  rewrite (content_path_plain _ K HXk HXu HXb HK).
  assert (Hcp : truthy (VString (story_folder_name +:+ String slash (K +:+ ".html"))) = true).
  { cbn. apply negb_true_iff, String.eqb_neq, append_slash_nonempty. }
  rewrite Hcp. cbn [join_dirname mbind result_bind bind].
  rewrite path_join_joined by (first [apply HXk | destruct K; cbn; discriminate]).
  fold h.
  destruct (unlink_if_there fs h) as [fs1|] eqn:U1; [|intros H; inversion H].
  destruct (unlink_if_there fs1 m) as [fs2|] eqn:U2; intros H; inversion H; subst fs2.
  clear H.
  (* the directory after *)
  assert (Hdir1 : fs1 !! dir = Some (Directory files)).
  { rewrite (unlink_if_there_untouched fs fs1 h dir U1); [exact Hdir | exact Hdir_h | exact Hdir_ph]. }
  assert (Hm1 : fs1 !! m = Some (File text)).
  { eapply unlink_if_there_other; [exact U1 | apply Hfile_h, Hjson | exact Hm]. }
  assert (Hdir' : fs' !! dir
                  = Some (Directory (List.filter
                                       (fun name => negb (String.eqb name (K +:+ ".json")))
                                       files))).
  { rewrite <- Hparent_m, <- Hbase_m.
    apply (unlink_if_there_unlisted fs1 fs' m text files U2 Hm1).
    rewrite Hparent_m. exact Hdir1. }
  (* the other files after *)
  assert (Hold : forall file, In file jsonFiles -> file <> K +:+ ".json" ->
            (readFile fs' (path_join [dir; file]) ≫= JSON_parse) = load file).
  { intros file Hin Hne. destruct (Hparse' file Hin) as (chapter & Hload & _).
    assert (Hf : plain file).
    { rewrite Forall_forall in Hplain. apply Hplain, list_elem_of_In.
      apply filter_In in Hin as [Hin _]. exact Hin. }
    unfold load, readFile in Hload |- *.
    destruct (fs !! path_join [dir; file]) as [[t| | |]|] eqn:Hfile; try discriminate.
    rewrite (unlink_if_there_other fs1 fs' m _ t U2); [reflexivity| |].
    - apply Hfile_m; assumption.
    - eapply unlink_if_there_other; [exact U1 | apply Hfile_h, Hf | exact Hfile]. }
  (* the lists *)
  destruct (getChaptersForStory_loaded first fs story_folder_name
              files Hdir Hparse') as (chapters & Hbefore & _ & Hperm).
  fold dir load jsonFiles in Hperm.
  set (rest := List.filter (fun name => negb (String.eqb name (K +:+ ".json"))) jsonFiles).
  destruct (getChaptersForStory_loaded first' fs' story_folder_name
              _ Hdir') as (chapters' & Hafter & Hsorted & Hperm').
  { intros file Hin. rewrite filter_filter_comm in Hin. fold jsonFiles in Hin.
    apply filter_In in Hin as [Hin Hne].
    apply negb_true_iff, String.eqb_neq in Hne.
    destruct (Hparse' file Hin) as (chapter & Hload & Hchap).
    exists chapter. split; [|exact Hchap]. fold dir. rewrite (Hold file Hin Hne).
    exact Hload. }
  fold dir in Hperm'. rewrite filter_filter_comm in Hperm'. fold jsonFiles rest in Hperm'.
  rewrite (map_ext_in _ load rest) in Hperm'.
  2:{ intros file Hin. apply filter_In in Hin as [Hin Hne].
      apply negb_true_iff, String.eqb_neq in Hne. apply Hold; assumption. }
  exists chapters, chapters'. split; [exact Hbefore|]. split; [exact Hafter|].
  split; [|exact Hsorted].
  rewrite Hperm, Hperm'.
  assert (Hjs : jsonFiles ≡ₚ (K +:+ ".json") :: rest).
  { apply filter_out_one.
    - apply NoDup_List_filter. exact Hdistinct.
    - apply filter_In. split; [exact Hlisted | apply endsWith_json]. }
  rewrite (resolutions_Permutation _ _ (Permutation_map load Hjs)).
  cbn [map]. change (load (K +:+ ".json")) with (readFile fs m ≫= JSON_parse).
  rewrite Hrecord. reflexivity.
Qed.

(** *** The chapter list after a chapter is edited *)

Lemma writeFile_over (fs fs' : filesystem) (p old data r : string) :
  fs !! p = Some (File old) -> writeFile fs p data = Resolved fs' -> r <> p ->
  fs' !! r = fs !! r.
Proof.
  unfold writeFile. intros Hp H Hne. rewrite Hp in H. inversion H.
  apply lookup_insert_ne. congruence.
Qed.

(** X22.  A chapter the edit handler has changed, on a request whose
    fields are strings, shows in the chapter list with its new title and
    number, in the place its number gives it, and the other chapters
    stay: in a chapter directory of plain, distinct names whose metadata
    files all load, for a chapter whose record is as the create handler
    writes it and a new number that is finite,
    [getChaptersForStory] answers before the request the old record
    together with the other chapters, and after it the new record together
    with the same other chapters, in the order of their numbers. *)
Theorem edit_chapter_listed (first first' : nat) (fs fs' : filesystem)
    (story_folder_name K title chapter_number content location : string)
    (files : list string) (old_title : string) (old_number : number) (z : Z) :
  let dir := path_join [CHAPTERS_METADATA_DIR; story_folder_name] in
  let load := fun jsonFile => readFile fs (path_join [dir; jsonFile]) ≫= JSON_parse in
  let old := chapterMetadata story_folder_name old_title old_number (K +:+ ".html") in
  let new := chapterMetadata story_folder_name title (Finite z) (K +:+ ".html") in
  starts_with_slash __dirname = true ->
  kept story_folder_name -> story_folder_name <> ".." ->
  nobackslash story_folder_name = true ->
  digits_only K = true ->
  fs !! dir = Some (Directory files) ->
  NoDup files -> Forall plain files ->
  (forall file, In file files -> endsWith file ".json" = true ->
     exists chapter, load file = Resolved chapter /\ is_chapter chapter) ->
  In (K +:+ ".json") files ->
  load (K +:+ ".json") = Resolved old ->
  edit_chapter first fs story_folder_name K title chapter_number content
    = (fs', Redirect location) ->
  parseInt chapter_number = Finite z ->
  exists chapters chapters' others,
    getChaptersForStory first fs story_folder_name = Resolved chapters
    /\ getChaptersForStory first' fs' story_folder_name = Resolved chapters'
    /\ chapters ≡ₚ old :: others
    /\ chapters' ≡ₚ new :: others
    /\ StronglySorted chapter_le chapters'.
Proof.
  intros dir load old new HD HXk HXu HXb HK Hdir Hdistinct Hplain Hparse Hlisted
    Hrecord Hok Hnum.
  assert (HX : plain story_folder_name) by (split; assumption).
  destruct (chapter_paths story_folder_name K HD HX HK)
    as (Em & Hparent_m & Hbase_m & Hdir_m & Hdir_h & Hdir_ph & Hfile_h & Hfile_m).
  fold dir in Em, Hparent_m, Hbase_m, Hdir_m, Hdir_h, Hdir_ph, Hfile_h, Hfile_m.
  set (m := path_join [dir; K +:+ ".json"]) in *.
  set (h := path_join [__dirname; story_folder_name; K +:+ ".html"]) in *.
  set (jsonFiles := List.filter (fun file => endsWith file ".json") files).
  assert (Hparse' : forall file, In file jsonFiles ->
            exists chapter, load file = Resolved chapter /\ is_chapter chapter).
  { intros file Hin. apply filter_In in Hin as [Hin Hjs]. auto. }
  assert (Hjson : plain (K +:+ ".json")) by apply (file_names_plain K HK).
  change (load (K +:+ ".json")) with (readFile fs m ≫= JSON_parse) in Hrecord.
  pose proof Hrecord as Hloaded. rewrite <- Em in Hloaded.
  destruct (getChapterDetails_loaded fs _ _ _ Hloaded) as [Hdetails (text0 & Hm)].
  rewrite Em in Hm.
  (* what the handler did *)
  destruct (edit_chapter_redirect _ _ _ _ _ _ _ _ _ Hok)
    as (num & existing & Hcheck & Hfiles).
  destruct (check_edit_passed _ _ _ _ _ _ _ _ _ Hcheck) as (-> & Hpos & Hexisting).
  rewrite Hdetails in Hexisting. inversion Hexisting; subst existing.
  rewrite Hnum in *. cbn in Hpos. apply Z.leb_gt in Hpos.
  revert Hfiles. unfold update_files, old.
  rewrite (record_content_path story_folder_name old_title old_number K HXk HXu HXb HK).
  fold h. rewrite metadataFilePath_chapterPath, Em.
  change (VObject (set_prop (set_prop (own_props (chapterMetadata _ _ _ _))
                                "title" (VString title))
                     "chapter_number" (VNumber (Finite z))))
    with new.
  destruct (writeFile fs h _) as [fs1|] eqn:W1; [|intros H; inversion H].
  unfold write_json. cbn [JSON_stringify is_undefined new chapterMetadata].
  fold new.
  destruct (writeFile fs1 m _) as [fs2|] eqn:W2; intros H; inversion H; subst fs2.
  clear H.
  (* the directory and the files after *)
  assert (Hm1 : fs1 !! m = Some (File text0)).
  { eapply writeFile_other; [exact W1 | apply Hfile_h, Hjson | exact Hm]. }
  assert (Hdir' : fs' !! dir = Some (Directory files)).
  { rewrite (writeFile_over fs1 fs' m text0 _ dir Hm1 W2 Hdir_m).
    rewrite (writeFile_untouched fs fs1 h _ dir W1 Hdir_h Hdir_ph). exact Hdir. }
  assert (Hold : forall file, In file jsonFiles -> file <> K +:+ ".json" ->
            (readFile fs' (path_join [dir; file]) ≫= JSON_parse) = load file).
  { intros file Hin Hne. destruct (Hparse' file Hin) as (chapter & Hload & _).
    assert (Hf : plain file).
    { rewrite Forall_forall in Hplain. apply Hplain, list_elem_of_In.
      apply filter_In in Hin as [Hin _]. exact Hin. }
    unfold load, readFile in Hload |- *.
    destruct (fs !! path_join [dir; file]) as [[t| | |]|] eqn:Hfile; try discriminate.
    rewrite (writeFile_other fs1 fs' m _ _ t W2); [reflexivity| |].
    - apply Hfile_m; assumption.
    - eapply writeFile_other; [exact W1 | apply Hfile_h, Hf | exact Hfile]. }
  assert (Hnew : (readFile fs' m ≫= JSON_parse) = Resolved new).
  { unfold readFile. rewrite (writeFile_lookup _ _ _ _ W2).
    cbn [mbind result_bind bind].
    apply (JSON_parse_stringify new); [|reflexivity].
    unfold new. cbn [chapterMetadata writable fold_right snd map fst].
    split; [|repeat split; exact (parseInt_writable chapter_number z Hnum Hpos)].
    repeat constructor; rewrite ?list_elem_of_In; cbn; intuition discriminate. }
  assert (Hchapter : is_chapter new).
  { exists (Finite z). split; [reflexivity | discriminate]. }
  (* the lists *)
  destruct (getChaptersForStory_loaded first fs story_folder_name
              files Hdir Hparse') as (chapters & Hbefore & _ & Hperm).
  fold dir load jsonFiles in Hperm.
  set (rest := List.filter (fun name => negb (String.eqb name (K +:+ ".json"))) jsonFiles).
  assert (Hjs : jsonFiles ≡ₚ (K +:+ ".json") :: rest).
  { apply filter_out_one.
    - apply NoDup_List_filter. exact Hdistinct.
    - apply filter_In. split; [exact Hlisted | apply endsWith_json]. }
  set (load' := fun jsonFile => readFile fs' (path_join [dir; jsonFile]) ≫= JSON_parse).
  assert (Hrest : map load' rest = map load rest).
  { apply map_ext_in. intros file Hin. apply filter_In in Hin as [Hin Hne].
    apply negb_true_iff, String.eqb_neq in Hne. apply Hold; assumption. }
  destruct (getChaptersForStory_loaded first' fs' story_folder_name
              files Hdir') as (chapters' & Hafter & Hsorted & Hperm').
  { intros file Hin. fold dir. fold jsonFiles in Hin.
    destruct (string_dec file (K +:+ ".json")) as [->|Hne].
    - exists new. split; [exact Hnew | exact Hchapter].
    - destruct (Hparse' file Hin) as (chapter & Hload & Hchap).
      exists chapter. split; [|exact Hchap]. rewrite (Hold file Hin Hne). exact Hload. }
  fold dir jsonFiles load' in Hperm'.
  exists chapters, chapters', (resolutions (map load rest)).
  split; [exact Hbefore|]. split; [exact Hafter|].
  split; [|split; [|exact Hsorted]].
  - rewrite Hperm, (resolutions_Permutation _ _ (Permutation_map load Hjs)).
    cbn [map]. change (load (K +:+ ".json")) with (readFile fs m ≫= JSON_parse).
    rewrite Hrecord. reflexivity.
  - rewrite Hperm', (resolutions_Permutation _ _ (Permutation_map load' Hjs)).
    cbn [map]. change (load' (K +:+ ".json")) with (readFile fs' m ≫= JSON_parse).
    rewrite Hnew, Hrest. reflexivity.
Qed.

(** *** What deleting a story leaves alone *)

Lemma prefix_split (p q : string) :
  String.prefix p q = true -> exists r, q = p +:+ r.
Proof.
  revert q. induction p as [|c p IH]; intros q; [exists q; reflexivity|].
  destruct q as [|d q]; cbn [String.prefix]; [discriminate|].
  destruct (ascii_dec c d) as [->|_]; [|discriminate].
  intros H. destruct (IH q H) as (r & ->). exists r. rewrite append_cons. reflexivity.
Qed.

(** What lies below a path has its segments, and more. *)
Lemma doomed_rooted (la lb : list string) :
  la <> [] -> Forall plain la -> Forall plain lb ->
  doomed (rooted la) (rooted lb) = true -> exists more, lb = (la ++ more)%list.
Proof.
  intros Hne Ha Hb Hd. unfold doomed, below in Hd.
  apply orb_true_iff in Hd as [E|Hp].
  - apply String.eqb_eq, rooted_inj in E; [|assumption..].
    exists []. rewrite app_nil_r. exact E.
  - apply prefix_split in Hp as (r & E). rewrite append_assoc in E.
    change ("/" +:+ r) with (String slash r) in E.
    destruct lb as [|y lb'].
    { exfalso. apply (f_equal String.length) in E.
      rewrite length_append in E. unfold rooted in E.
      destruct la as [|x la']; [congruence|].
      apply Forall_cons in Ha as [[(Hx & _) _] _].
      destruct x as [|c x]; [congruence|].
      destruct la'; cbn in E; lia. }
    apply (f_equal (split_on slash)) in E.
    rewrite split_on_app, !split_on_rooted in E by (try discriminate; assumption).
    inversion E. eauto.
Qed.

Lemma remove_story_untouched (fs fs' : filesystem) (X : string)
    (outcome : result unit) (q : list string) :
  starts_with_slash __dirname = true -> plain X -> Forall plain q ->
  remove_story __dirname fs X = (fs', outcome) ->
  q <> (segments_of __dirname ++ ["data"; "stories.json"])%list ->
  q <> (segments_of __dirname ++ ["data"])%list ->
  q <> (segments_of __dirname ++ ["data"; "chapters"])%list ->
  (forall more, q <> (segments_of __dirname ++ ["data"; "chapters"; X] ++ more)%list) ->
  fs' !! rooted q = fs !! rooted q.
Proof.
  intros HD HX Hq Hrem Hcat Hdat Hchap Hout.
  pose proof (segments_of_plain __dirname) as Hds.
  set (ds := segments_of __dirname) in *.
  assert (Hdata : plain "data") by (apply plain_literal; reflexivity).
  assert (Hchapters : plain "chapters") by (apply plain_literal; reflexivity).
  assert (Hstories : plain "stories.json") by (apply plain_literal; reflexivity).
  assert (Pdir : Forall plain (ds ++ ["data"; "chapters"; X])).
  { apply Forall_app. split; [exact Hds|]. repeat (constructor; [assumption|]). constructor. }
  assert (Pcat : Forall plain (ds ++ ["data"; "stories.json"])).
  { apply Forall_app. split; [exact Hds|]. repeat (constructor; [assumption|]). constructor. }
  assert (Pdata : Forall plain (ds ++ ["data"])) by (apply Forall_plain_snoc; assumption).
  assert (Pch : Forall plain (ds ++ ["data"; "chapters"])).
  { apply Forall_app. split; [exact Hds|]. repeat (constructor; [assumption|]). constructor. }
  assert (Hlen : forall l : list string, length (ds ++ l) = (length ds + length l)%nat)
    by (intros l; apply length_app).
  assert (Ecat : path_join [__dirname; "data"; "stories.json"]
                 = rooted (ds ++ ["data"; "stories.json"])).
  { apply path_join_rooted; [exact HD | discriminate|].
    repeat (constructor; [assumption|]). constructor. }
  assert (Hparent_cat : parent_of (rooted (ds ++ ["data"; "stories.json"]))
                        = rooted (ds ++ ["data"])).
  { change (ds ++ ["data"; "stories.json"])%list with (ds ++ ["data"] ++ ["stories.json"])%list.
    rewrite app_assoc. apply parent_of_rooted; assumption. }
  assert (Hparent_dir : parent_of (rooted (ds ++ ["data"; "chapters"; X]))
                        = rooted (ds ++ ["data"; "chapters"])).
  { change (ds ++ ["data"; "chapters"; X])%list with (ds ++ ["data"; "chapters"] ++ [X])%list.
    rewrite app_assoc. apply parent_of_rooted; assumption. }
  assert (Hcatalog : forall fs0 fs1 v,
            write_json fs0 (path_join [__dirname; "data"; "stories.json"]) v = Resolved fs1 ->
            fs1 !! rooted q = fs0 !! rooted q).
  { intros fs0 fs1 v. unfold write_json. destruct (JSON_stringify v); [|discriminate].
    rewrite Ecat. intros W. eapply writeFile_untouched; [exact W| |].
    - intros E. apply rooted_inj in E; auto.
    - rewrite Hparent_cat. intros E. apply rooted_inj in E; auto. }
  assert (Hrm : forall fs1 fs2,
            rm_recursive fs1 (path_join [__dirname; "data"; "chapters"; X]) = Resolved fs2 ->
            fs2 !! rooted q = fs1 !! rooted q).
  { intros fs1 fs2. rewrite (metadataDir_rooted X HD HX). fold ds.
    unfold rm_recursive.
    destruct (fs1 !! rooted (ds ++ ["data"; "chapters"; X])); [|intros H; inversion H; reflexivity].
    destruct (existsb _ _); [discriminate|]. intros H; inversion H.
    rewrite remove_name_untouched.
    - destruct (fs1 !! rooted q) eqn:E.
      + apply map_lookup_filter_Some. split; [exact E|]. cbv beta. cbn [fst].
        destruct (doomed _ (rooted q)) eqn:Hd; [|reflexivity].
        exfalso. apply doomed_rooted in Hd as (more & Hmore); auto.
        * apply (Hout more). rewrite Hmore, <- app_assoc. reflexivity.
        * intros E0. apply app_eq_nil in E0 as [_ E0]. discriminate.
      + apply map_lookup_filter_None. left. exact E.
    - rewrite Hparent_dir. intros E0. apply rooted_inj in E0; auto. }
  revert Hrem. unfold remove_story.
  destruct (getStories fs) as [[| | | | |existingStories|]|];
    try (intros H; inversion H; reflexivity).
  destruct (Array_filter _ existingStories) as [remaining|];
    [|intros H; inversion H; reflexivity].
  destruct (length remaining <? length existingStories)%nat.
  - destruct (write_json fs _ _) as [fs1|] eqn:W; [|intros H; inversion H; reflexivity].
    unfold access.
    destruct (fs1 !! path_join [__dirname; "data"; "chapters"; X]);
      cbn [mbind result_bind bind].
    + destruct (rm_recursive fs1 _) as [fs2|e] eqn:R.
      * intros H; inversion H; subst. rewrite (Hrm _ _ R). apply (Hcatalog _ _ _ W).
      * destruct (is_ENOENT e); intros H; inversion H; subst; apply (Hcatalog _ _ _ W).
    + cbn. intros H; inversion H; subst. apply (Hcatalog _ _ _ W).
  - unfold access.
    destruct (fs !! path_join [__dirname; "data"; "chapters"; X]);
      cbn [mbind result_bind bind].
    + destruct (rm_recursive fs _) as [fs2|e] eqn:R.
      * intros H; inversion H; subst. apply (Hrm _ _ R).
      * destruct (is_ENOENT e); intros H; inversion H; subst; reflexivity.
    + cbn. intros H; inversion H; subst. reflexivity.
Qed.

Lemma delete_story_untouched (fs fs' : filesystem) (X : string)
    (answer : answer) (q : list string) :
  starts_with_slash __dirname = true -> plain X -> Forall plain q ->
  delete_story fs X = (fs', answer) ->
  q <> (segments_of __dirname ++ ["data"; "stories.json"])%list ->
  q <> (segments_of __dirname ++ ["data"])%list ->
  q <> (segments_of __dirname ++ ["data"; "chapters"])%list ->
  (forall more, q <> (segments_of __dirname ++ ["data"; "chapters"; X] ++ more)%list) ->
  fs' !! rooted q = fs !! rooted q.
Proof.
  intros HD HX Hq Hok Hcat Hdat Hchap Hout. revert Hok. unfold delete_story.
  destruct (remove_story __dirname fs X) as [fs1 [u|e]] eqn:Hrem.
  - intros H; inversion H; subst fs1.
    exact (remove_story_untouched fs fs' X _ q HD HX Hq Hrem Hcat Hdat Hchap Hout).
  - destruct (getStories fs1); intros H; inversion H; subst fs1;
      exact (remove_story_untouched fs fs' X _ q HD HX Hq Hrem Hcat Hdat Hchap Hout).
Qed.

(** X23.  Deleting a story leaves the chapters of every other story as
    they are: whatever the answer of the delete handler, for another
    story (both folder names plain segments, the names its chapter
    directory lists plain too) [getChaptersForStory] answers after the
    request what it answered before. *)
Theorem delete_story_keeps_other_chapters (first : nat) (fs fs' : filesystem)
    (folder_name other : string) (answer : answer) :
  let dir := path_join [CHAPTERS_METADATA_DIR; other] in
  starts_with_slash __dirname = true ->
  kept folder_name -> folder_name <> ".." ->
  kept other -> other <> ".." -> other <> folder_name ->
  (forall files, fs !! dir = Some (Directory files) -> Forall plain files) ->
  delete_story fs folder_name = (fs', answer) ->
  getChaptersForStory first fs' other = getChaptersForStory first fs other.
Proof.
  intros dir HD HXk HXu HYk HYu Hne Hplain Hok.
  assert (HX : plain folder_name) by (split; assumption).
  assert (HY : plain other) by (split; assumption).
  pose proof (segments_of_plain __dirname) as Hds.
  assert (Hlen : forall l : list string,
            length (segments_of __dirname ++ l)
            = (length (segments_of __dirname) + length l)%nat)
    by (intros l; apply length_app).
  assert (Edir : dir = rooted (segments_of __dirname ++ ["data"; "chapters"; other])).
  { unfold dir. rewrite chapters_directory by apply HYk.
    apply metadataDir_rooted; assumption. }
  assert (Hsame_dir : fs' !! dir = fs !! dir).
  { rewrite Edir. refine (delete_story_untouched fs fs' folder_name answer _ HD HX _ Hok _ _ _ _).
    - apply Forall_app. split; [exact Hds|].
      constructor; [apply plain_literal; reflexivity|].
      constructor; [apply plain_literal; reflexivity|].
      constructor; [exact HY | constructor].
    - intros E. apply app_inv_head in E. discriminate.
    - intros E. apply app_inv_head in E. discriminate.
    - intros E. apply app_inv_head in E. discriminate.
    - intros more E. apply app_inv_head in E. inversion E. congruence. }
  assert (Hsame_file : forall f, plain f ->
            fs' !! path_join [dir; f] = fs !! path_join [dir; f]).
  { intros f Hf. unfold dir. rewrite (listed_file_rooted other f HD HY Hf).
    refine (delete_story_untouched fs fs' folder_name answer _ HD HX _ Hok _ _ _ _).
    - apply Forall_app. split; [exact Hds|].
      constructor; [apply plain_literal; reflexivity|].
      constructor; [apply plain_literal; reflexivity|].
      constructor; [exact HY|]. constructor; [exact Hf | constructor].
    - intros E. apply app_inv_head in E. discriminate.
    - intros E. apply app_inv_head in E. discriminate.
    - intros E. apply app_inv_head in E. discriminate.
    - intros more E. apply app_inv_head in E. inversion E. congruence. }
  unfold getChaptersForStory, read_chapters, readdir. fold dir. rewrite Hsame_dir.
  destruct (fs !! dir) as [[content|files| |]|] eqn:Hdir; try reflexivity.
  cbn [mbind result_bind bind].
  specialize (Hplain files eq_refl).
  set (jsonFiles := List.filter (fun file => endsWith file ".json") files).
  destruct (length jsonFiles =? 0)%nat; [reflexivity|].
  assert (Hloads : map (fun jsonFile =>
                          fileContent ← readFile fs' (path_join [dir; jsonFile]);
                          JSON_parse fileContent) jsonFiles
                   = map (fun jsonFile =>
                            fileContent ← readFile fs (path_join [dir; jsonFile]);
                            JSON_parse fileContent) jsonFiles).
  { apply map_ext_in. intros f Hin. unfold readFile.
    rewrite Hsame_file; [reflexivity|].
    rewrite Forall_forall in Hplain. apply Hplain, list_elem_of_In.
    apply filter_In in Hin as [Hin _]. exact Hin. }
  rewrite Hloads. reflexivity.
Qed.

Lemma file_name_apart (K : string) :
  K +:+ ".html" <> "stories.json" /\ K +:+ ".html" <> "chapters".
Proof.
  assert (H : forall J e f g h i,
            J +:+ String e (String f (String g (String h (String i EmptyString))))
            = (J +:+ String e (String f (String g (String h EmptyString))))
              +:+ String i EmptyString).
  { intros. rewrite append_assoc. reflexivity. }
  change ".html" with (String "." (String "h" (String "t" (String "m" (String "l" EmptyString))))).
  rewrite H. split; intros E.
  - change "stories.json" with ("stories.jso" +:+ String "n" EmptyString) in E.
    apply last_character in E. discriminate.
  - change "chapters" with ("chapter" +:+ String "s" EmptyString) in E.
    apply last_character in E. discriminate.
Qed.

(** X24.  Deleting a story removes its record and its chapter metadata,
    not the content of its chapters: whatever the answer of the delete
    handler, [readChapterContent] gives for the content path of a chapter
    of the story what it gave before. *)
Theorem delete_story_keeps_content (fs fs' : filesystem)
    (folder_name K : string) (answer : answer) :
  starts_with_slash __dirname = true ->
  kept folder_name -> folder_name <> ".." ->
  digits_only K = true ->
  delete_story fs folder_name = (fs', answer) ->
  readChapterContent fs' (folder_name +:+ String slash (K +:+ ".html"))
  = readChapterContent fs (folder_name +:+ String slash (K +:+ ".html")).
Proof.
  intros HD HXk HXu HK Hok.
  assert (HX : plain folder_name) by (split; assumption).
  destruct (file_names_plain K HK) as [Hhtml _].
  pose proof (segments_of_plain __dirname) as Hds.
  unfold readChapterContent, readFile.
  rewrite path_join_joined by (first [apply HXk | apply Hhtml]).
  rewrite (contentFile_rooted folder_name _ HD HX Hhtml).
  destruct (file_name_apart K) as [Hnot_catalog Hnot_chapters].
  assert (Hsame : fs' !! rooted (segments_of __dirname ++ [folder_name; K +:+ ".html"])
                  = fs !! rooted (segments_of __dirname ++ [folder_name; K +:+ ".html"])).
  { refine (delete_story_untouched fs fs' folder_name answer _ HD HX _ Hok _ _ _ _).
    - apply Forall_app. split; [exact Hds|].
      constructor; [exact HX|]. constructor; [exact Hhtml | constructor].
    - intros E. apply app_inv_head in E. injection E as _ E. congruence.
    - intros E. apply app_inv_head in E. discriminate.
    - intros E. apply app_inv_head in E. injection E as _ E. congruence.
    - intros more E. apply app_inv_head in E. discriminate. }
  rewrite Hsame. reflexivity.
Qed.

End RouteProperties.

(** ** Two places where the code does not do what it means to *)

(** C6.  The [catch] of [getChaptersForStory] takes every ENOENT for an
    absent directory.  In [half_gone] the directory is there, [0002.json]
    does not parse, and [0001.json] is listed but missing: when the read
    of the missing file is the first to fail, the call answers the empty
    array instead of rejecting. *)
Theorem getChaptersForStory_missing_sibling_hides_parse_failure :
  readdir half_gone (path_join [CHAPTERS_METADATA_DIR "/srv/app"; "tale"])
    = Resolved ["0001.json"; "0002.json"]
  /\ (exists message,
        (readFile half_gone "/srv/app/data/chapters/tale/0002.json" ≫= JSON_parse)
        = Rejected (SyntaxError message))
  /\ readFile half_gone "/srv/app/data/chapters/tale/0001.json"
       = Rejected (SystemError ENOENT)
  /\ getChaptersForStory "/srv/app" no_coercion 0 half_gone "tale" = Resolved [].
Proof.
  split; [reflexivity|]. split; [eexists; reflexivity|].
  split; reflexivity.
Qed.

(** C7.  A chapter number of 310 digits passes the checks of the
    create-chapter handler: [parseInt] makes it [Infinity], which is
    neither [NaN] nor at most zero.  The record written holds [Infinity];
    [JSON.stringify] writes [null] for it, and [getChapterDetails] reads
    back a record whose [chapter_number] is [null]. *)
Theorem create_chapter_infinite_number_not_read_back :
  let written := chapterMetadata "tale" "One" PosInfinity "0001.html" in
  let outcome :=
    create_chapter "/srv/app" no_coercion 0 installed
      "tale" "One" huge_chapter_number "0001.html" "<p>x</p>" in
  parseInt huge_chapter_number = PosInfinity
  /\ snd outcome = Redirect "/admin/stories/tale/chapters"
  /\ fst outcome !! chapterPath "/srv/app" "tale" "0001"
       = Some (File (text_of written))
  /\ (exists read,
        getChapterDetails "/srv/app" (fst outcome) "tale" "0001" = Resolved read
        /\ get_prop read "chapter_number" = Resolved VNull
        /\ get_prop written "chapter_number" = Resolved (VNumber PosInfinity)
        /\ read <> written).
Proof.
  cbn zeta.
  split; [vm_compute; reflexivity|].
  split; [vm_compute; reflexivity|].
  split; [vm_compute; reflexivity|].
  eexists. split; [vm_compute; reflexivity|].
  split; [reflexivity|]. split; [reflexivity|]. discriminate.
Qed.

(** ** Instances *)

Lemma getChaptersForStory_absent_directory_witness :
  readdir installed (path_join [CHAPTERS_METADATA_DIR "/srv/app"; "saga"])
    = Rejected (SystemError ENOENT)
  /\ getChaptersForStory "/srv/app" no_coercion 0 installed "saga" = Resolved [].
Proof.
  split; [reflexivity|].
  apply getChaptersForStory_absent_directory. reflexivity.
Defined.

Lemma adjacent_chapters_by_position_witness :
  (Forall (fun chap => is_Some (string_field "original_file_name" chap))
     [chapter_1; chapter_2; chapter_3]
   /\ NoDup (map (string_field "original_file_name") [chapter_1; chapter_2; chapter_3]))
  /\ adjacent_chapters [chapter_1; chapter_2; chapter_3] chapter_2
       = Resolved (chapter_1, chapter_3)
  /\ adjacent_chapters [chapter_1; chapter_2; chapter_3] chapter_1
       = Resolved (VNull, chapter_2)
  /\ adjacent_chapters [chapter_1; chapter_2; chapter_3] chapter_3
       = Resolved (chapter_2, VNull).
Proof.
  assert (Hnamed : Forall (fun chap => is_Some (string_field "original_file_name" chap))
                     [chapter_1; chapter_2; chapter_3]).
  { repeat constructor; eexists; reflexivity. }
  assert (Hdistinct : NoDup (map (string_field "original_file_name")
                               [chapter_1; chapter_2; chapter_3])).
  { cbn. repeat constructor; rewrite ?list_elem_of_In; cbn; intuition discriminate. }
  split; [split; assumption|].
  split; [|split].
  - exact (adjacent_chapters_by_position [chapter_1] chapter_2 [chapter_3] chapter_2
             Hnamed Hdistinct eq_refl).
  - exact (adjacent_chapters_by_position [] chapter_1 [chapter_2; chapter_3] chapter_1
             Hnamed Hdistinct eq_refl).
  - exact (adjacent_chapters_by_position [chapter_1; chapter_2] chapter_3 [] chapter_3
             Hnamed Hdistinct eq_refl).
Defined.

Lemma getChaptersForStory_only_json_witness :
  readdir published (path_join [CHAPTERS_METADATA_DIR "/srv/app"; "tale"])
    = Resolved ["0003.json"; "notes.txt"; "0001.json"; "0002.json"]
  /\ getChaptersForStory "/srv/app" no_coercion 0 published_elsewhere "tale"
     = getChaptersForStory "/srv/app" no_coercion 0 published "tale".
Proof.
  split; [reflexivity|].
  apply (proj2 (getChaptersForStory_only_json "/srv/app" no_coercion 0 published "tale"
                  ["0003.json"; "notes.txt"; "0001.json"; "0002.json"] eq_refl)
           published_elsewhere
           ["cover.png"; "0003.json"; "0001.json"; "draft.md"; "0002.json"]).
  - reflexivity.
  - reflexivity.
  - intros file Hin Hjson.
    repeat (destruct Hin as [<-|Hin];
            [first [discriminate Hjson | vm_compute; reflexivity]|]).
    destruct Hin.
Defined.

Lemma getStoryByFolderName_first_match_witness :
  (getStories "/srv/app" doubled
     = Resolved (VArray (map story_value [saga; tale; tale_again]))
   /\ Forall (fun s => s <> VNull /\ s <> VUndefined)
        (map story_value [saga; tale; tale_again])
   /\ string_field "folder_name" (story_value tale) = Some "tale"
   /\ string_field "folder_name" (story_value tale_again) = Some "tale")
  /\ getStoryByFolderName "/srv/app" doubled "tale" = Resolved (story_value tale)
  /\ getStoryByFolderName "/srv/app" doubled "nowhere" = Resolved VUndefined.
Proof.
  assert (Hload : getStories "/srv/app" doubled
                  = Resolved (VArray (map story_value [saga; tale; tale_again])))
    by (vm_compute; reflexivity).
  assert (Hrec : Forall (fun s => s <> VNull /\ s <> VUndefined)
                   (map story_value [saga; tale; tale_again]))
    by (repeat constructor; discriminate).
  split; [repeat split; first [exact Hload | exact Hrec | reflexivity]|].
  split.
  - refine (proj1 (getStoryByFolderName_first_match "/srv/app" doubled "tale" _ Hload Hrec)
              [story_value saga] _ [story_value tale_again] eq_refl eq_refl _).
    repeat constructor; discriminate.
  - apply (proj2 (getStoryByFolderName_first_match "/srv/app" doubled "nowhere" _
                    Hload Hrec)).
    repeat constructor; discriminate.
Defined.

Lemma getChaptersForStory_sorted_witness :
  readdir published (path_join [CHAPTERS_METADATA_DIR "/srv/app"; "tale"])
    = Resolved ["0003.json"; "notes.txt"; "0001.json"; "0002.json"]
  /\ getChaptersForStory "/srv/app" no_coercion 0 published "tale"
     = Resolved [chapter_1; chapter_2; chapter_3]
  /\ exists chapters,
       getChaptersForStory "/srv/app" no_coercion 0 published "tale" = Resolved chapters
       /\ StronglySorted chapter_le chapters
       /\ chapters ≡ₚ [chapter_3; chapter_1; chapter_2].
Proof.
  split; [reflexivity|]. split; [vm_compute; reflexivity|].
  apply (getChaptersForStory_sorted "/srv/app" no_coercion 0 published "tale"
           ["0003.json"; "notes.txt"; "0001.json"; "0002.json"] eq_refl).
  intros file Hin.
  destruct Hin as [<-|[<-|[<-|[]]]].
  - exists chapter_3. split; [vm_compute; reflexivity|].
    eexists. split; [reflexivity | discriminate].
  - exists chapter_1. split; [vm_compute; reflexivity|].
    eexists. split; [reflexivity | discriminate].
  - exists chapter_2. split; [vm_compute; reflexivity|].
    eexists. split; [reflexivity | discriminate].
Defined.

Lemma record_text_json (w k1 k2 k3 k4 : string) (u1 u2 u3 u4 : list (ascii + N))
    (s1 s2 s3 s4 : string) :
  blank w = true -> NoDup [k1; k2; k3; k4] ->
  json_chars u1 s1 -> json_chars u2 s2 -> json_chars u3 s3 -> json_chars u4 s4 ->
  json_text
    (VObject [(k1, VString (encode_units u1)); (k2, VString (encode_units u2));
              (k3, VString (encode_units u3)); (k4, VString (encode_units u4))])
    (record_text w k1 s1 k2 s2 k3 s3 k4 s4).
Proof.
  intros Hw Hnd H1 H2 H3 H4. unfold record_text.
  apply (text_object _ w); [exact Hnd | exact Hw|].
  apply (members_more_quoted k1 _ _ w w w w); try exact Hw; [apply text_string, H1|].
  apply (members_more_quoted k2 _ _ w w w w); try exact Hw; [apply text_string, H2|].
  apply (members_more_quoted k3 _ _ w w w w); try exact Hw; [apply text_string, H3|].
  apply (members_last_quoted k4 _ _ w w w); try exact Hw.
  apply text_string, H4.
Qed.

Lemma by_hand_text_json : json_text (VArray by_hand_records) by_hand_text.
Proof.
  assert (Hfields : NoDup ["id"; "title"; "folder_name"; "description"]).
  { repeat constructor; rewrite ?list_elem_of_In; cbn; intuition discriminate. }
  assert (Hturned : NoDup ["description"; "folder_name"; "title"; "id"]).
  { repeat constructor; rewrite ?list_elem_of_In; cbn; intuition discriminate. }
  assert (Htitle : json_chars
                     [inl "A"%char; inr 32%N; inl "t"%char; inr 97%N;
                      inl "l"%char; inl "e"%char]
                     ("A" +:+ String backslash "u0020t" +:+ String backslash "u0061le")).
  { apply chars_raw; [reflexivity..|].
    apply chars_hex; [reflexivity|].
    apply chars_raw; [reflexivity..|].
    apply chars_hex; [reflexivity|].
    apply chars_raw; [reflexivity..|].
    apply chars_raw; [reflexivity..|].
    apply chars_end. }
  exact (text_array _ " " _ eq_refl
           (elements_more _ _ EmptyString crlf _ _
              (record_text_json EmptyString _ _ _ _ _ _ _ _ _ _ _ _ eq_refl Hfields
                 (json_chars_escape "tale-2") (json_chars_escape "Another tale")
                 (json_chars_escape "tale") (json_chars_escape "Twice"))
              eq_refl eq_refl
              (elements_more _ _ tab EmptyString _ _
                 (record_text_json " " _ _ _ _ _ _ _ _ _ _ _ _ eq_refl Hfields
                    (json_chars_escape "saga") (json_chars_escape "A saga")
                    (json_chars_escape "saga") (json_chars_escape "Long ago"))
                 eq_refl eq_refl
                 (elements_last _ _ crlf
                    (record_text_json crlf _ _ _ _ _ _ _ _ _ _ _ _ eq_refl Hturned
                       (json_chars_escape "Once") (json_chars_escape "tale")
                       Htitle (json_chars_escape "tale"))
                    eq_refl)))).
Qed.

Lemma getStories_file_order_witness :
  (blank crlf = true /\ blank " " = true
   /\ forallb is_story_record by_hand_records = true
   /\ json_text (VArray by_hand_records) by_hand_text
   /\ by_hand !! STORIES_FILE "/srv/app" = Some (File (crlf +:+ by_hand_text +:+ " "))
   /\ blank (newline EmptyString) = true
   /\ forallb is_story_record (map story_value [tale_again; saga; tale]) = true
   /\ json_text (VArray (map story_value [tale_again; saga; tale]))
        (catalog_text [tale_again; saga; tale])
   /\ padded !! STORIES_FILE "/srv/app"
      = Some (File (newline EmptyString +:+ catalog_text [tale_again; saga; tale]
                    +:+ newline EmptyString)))
  /\ getStories "/srv/app" by_hand
     = Resolved (VArray
        [VObject [("id", VString "tale-2"); ("title", VString "Another tale");
                  ("folder_name", VString "tale"); ("description", VString "Twice")];
         VObject [("id", VString "saga"); ("title", VString "A saga");
                  ("folder_name", VString "saga"); ("description", VString "Long ago")];
         VObject [("description", VString "Once"); ("folder_name", VString "tale");
                  ("title", VString "A tale"); ("id", VString "tale")]])
  /\ getStories "/srv/app" padded
     = Resolved (VArray (map story_value [tale_again; saga; tale])).
Proof.
  split;
    [repeat split;
       first [reflexivity | exact by_hand_text_json | apply catalog_text_json]|].
  split.
  - exact (getStories_file_order "/srv/app" by_hand by_hand_records
             crlf by_hand_text " " eq_refl eq_refl eq_refl by_hand_text_json eq_refl).
  - exact (getStories_file_order "/srv/app" padded
             (map story_value [tale_again; saga; tale])
             (newline EmptyString) (catalog_text [tale_again; saga; tale])
             (newline EmptyString) eq_refl eq_refl eq_refl
             (catalog_text_json [tale_again; saga; tale]) eq_refl).
Defined.



Lemma getChaptersForStory_parse_failure_rejects_witness :
  readdir cut_short (path_join [CHAPTERS_METADATA_DIR "/srv/app"; "tale"])
    = Resolved ["0002.json"]
  /\ exists e,
       getChaptersForStory "/srv/app" no_coercion 0 cut_short "tale" = Rejected e
       /\ exists file,
            In file ["0002.json"] /\ endsWith file ".json" = true
            /\ (readFile cut_short
                  (path_join [path_join [CHAPTERS_METADATA_DIR "/srv/app"; "tale"]; file])
                ≫= JSON_parse) = Rejected e.
Proof.
  split; [reflexivity|].
  apply (getChaptersForStory_parse_failure_rejects "/srv/app" no_coercion 0 cut_short
           "tale" ["0002.json"] "0002.json" "Unexpected token in JSON" eq_refl).
  - left. reflexivity.
  - reflexivity.
  - reflexivity.
  - intros file [<-|[]] _. vm_compute. discriminate.
Defined.

Lemma create_chapter_read_back_witness :
  let outcome :=
    create_chapter "/srv/app" no_coercion 0 installed
      "tale" "One" "1" "0001.html" "<p>x</p>" in
  snd outcome = Redirect "/admin/stories/tale/chapters"
  /\ parseInt "1" = Finite 1
  /\ exists K,
       "0001.html" = K +:+ ".html"
       /\ getChapterDetails "/srv/app" (fst outcome) "tale" K
          = Resolved (chapterMetadata "tale" "One" (Finite 1) "0001.html").
Proof.
  cbn zeta.
  split; [vm_compute; reflexivity|]. split; [reflexivity|].
  apply (create_chapter_read_back "/srv/app" no_coercion 0 installed _
           "tale" "One" "1" "0001.html" "<p>x</p>" "/admin/stories/tale/chapters" 1).
  - rewrite (surjective_pairing (create_chapter _ _ _ _ _ _ _ _ _)) at 1.
    f_equal; vm_compute; reflexivity.
  - reflexivity.
Defined.

Lemma create_story_appends_witness :
  let outcome := create_story "/srv/app" library "An epic" "epic" "Long" in
  (getStories "/srv/app" library = Resolved (VArray (map story_value [tale; saga]))
   /\ snd outcome = Redirect "/admin")
  /\ getStories "/srv/app" (fst outcome)
     = Resolved (VArray (map story_value
                           ([tale; saga] ++ [new_story "An epic" "epic" "Long"])))
  /\ getStoryByFolderName "/srv/app" (fst outcome) "epic"
     = Resolved (story_value (new_story "An epic" "epic" "Long")).
Proof.
  cbn zeta.
  assert (Hload : getStories "/srv/app" library
                  = Resolved (VArray (map story_value [tale; saga])))
    by (vm_compute; reflexivity).
  split; [split; [exact Hload | vm_compute; reflexivity]|].
  apply (create_story_appends "/srv/app" library _ [tale; saga] "An epic" "epic" "Long"
           "/admin").
  - exact Hload.
  - rewrite (surjective_pairing (create_story _ _ _ _ _)) at 1.
    f_equal; vm_compute; reflexivity.
Defined.

Lemma create_story_keeps_folder_names_distinct_witness :
  let taken := create_story "/srv/app" library "Another tale" "tale" "Twice" in
  let fresh := create_story "/srv/app" library "An epic" "epic" "Long" in
  (getStories "/srv/app" library = Resolved (VArray (map story_value [tale; saga]))
   /\ NoDup (map story_folder_name [tale; saga])
   /\ snd fresh = Redirect "/admin")
  /\ (exists stories',
        getStories "/srv/app" (fst taken) = Resolved (VArray (map story_value stories'))
        /\ NoDup (map story_folder_name stories'))
  /\ (exists stories',
        getStories "/srv/app" (fst fresh) = Resolved (VArray (map story_value stories'))
        /\ NoDup (map story_folder_name stories')).
Proof.
  cbn zeta.
  assert (Hload : getStories "/srv/app" library
                  = Resolved (VArray (map story_value [tale; saga])))
    by (vm_compute; reflexivity).
  assert (Hdistinct : NoDup (map story_folder_name [tale; saga])).
  { cbn. repeat constructor; rewrite ?list_elem_of_In; cbn; intuition discriminate. }
  split.
  { split; [exact Hload|]. split; [exact Hdistinct|]. vm_compute; reflexivity. }
  split.
  - apply (create_story_keeps_folder_names_distinct "/srv/app" library _ [tale; saga]
             "Another tale" "tale" "Twice"
             (snd (create_story "/srv/app" library "Another tale" "tale" "Twice"))).
    + exact Hload.
    + exact Hdistinct.
    + apply surjective_pairing.
  - apply (create_story_keeps_folder_names_distinct "/srv/app" library _ [tale; saga]
             "An epic" "epic" "Long"
             (snd (create_story "/srv/app" library "An epic" "epic" "Long"))).
    + exact Hload.
    + exact Hdistinct.
    + apply surjective_pairing.
Defined.

Lemma edit_story_updates_witness :
  let outcome := edit_story "/srv/app" doubled "tale" "A new tale" "Thrice" in
  (getStories "/srv/app" doubled
     = Resolved (VArray (map story_value [saga; tale; tale_again]))
   /\ snd outcome = Redirect "/admin"
   /\ getStories "/srv/app" (fst outcome)
      = Resolved (VArray (map story_value
                            [saga;
                             {| story_id := "tale"; story_title := "A new tale";
                                story_folder_name := "tale";
                                story_description := "Thrice" |};
                             tale_again])))
  /\ exists before s after,
       [saga; tale; tale_again] = (before ++ s :: after)%list
       /\ story_folder_name s = "tale"
       /\ ~ In "tale" (map story_folder_name before)
       /\ getStories "/srv/app" (fst outcome)
          = Resolved (VArray (map story_value
                                (before ++ {| story_id := story_id s;
                                              story_title := "A new tale";
                                              story_folder_name := "tale";
                                              story_description := "Thrice" |}
                                        :: after))).
Proof.
  cbn zeta.
  assert (Hload : getStories "/srv/app" doubled
                  = Resolved (VArray (map story_value [saga; tale; tale_again])))
    by (vm_compute; reflexivity).
  split; [split; [exact Hload | split; vm_compute; reflexivity]|].
  apply (edit_story_updates "/srv/app" doubled _ [saga; tale; tale_again] "tale"
           "A new tale" "Thrice" "/admin").
  - exact Hload.
  - rewrite (surjective_pairing (edit_story _ _ _ _ _)) at 1.
    f_equal; vm_compute; reflexivity.
Defined.

Lemma delete_story_removes_witness :
  let outcome := delete_story "/srv/app" no_message published "tale" in
  (kept "tale" /\ "tale" <> ".."
   /\ published !! STORIES_FILE "/srv/app" = Some (File (catalog_text [tale]))
   /\ snd outcome = Answer (Redirect "/admin"))
  /\ fst outcome !! STORIES_FILE "/srv/app"
     = Some (File (catalog_text
                     (List.filter (fun s => negb (named "tale" s)) [tale])))
  /\ getStoryByFolderName "/srv/app" (fst outcome) "tale" = Resolved VUndefined
  /\ getChaptersForStory "/srv/app" no_coercion 0 (fst outcome) "tale" = Resolved [].
Proof.
  cbn zeta.
  assert (Hkept : kept "tale") by (split; [discriminate|split; [discriminate|reflexivity]]).
  split.
  { split; [exact Hkept|]. split; [discriminate|].
    split; [reflexivity | vm_compute; reflexivity]. }
  apply (delete_story_removes "/srv/app" no_coercion no_message 0 published _ [tale]
           "tale" "/admin" Hkept).
  - discriminate.
  - reflexivity.
  - rewrite (surjective_pairing (delete_story _ _ _ _)) at 1.
    f_equal; vm_compute; reflexivity.
Defined.

Lemma delete_chapter_removes_witness :
  let outcome := delete_chapter "/srv/app" no_coercion no_message 0 readable "tale" "0002" in
  snd outcome = Answer (Redirect "/admin/stories/tale/chapters")
  /\ getChapterDetails "/srv/app" readable "tale" "0002" = Resolved chapter_2
  /\ readChapterContent "/srv/app" readable "tale/0002.html" = Resolved "<p>two</p>"
  /\ getChapterDetails "/srv/app" (fst outcome) "tale" "0002" = Resolved VUndefined
  /\ readChapterContent "/srv/app" (fst outcome) "tale/0002.html"
     = Rejected (SystemError ENOENT).
Proof.
  cbn zeta.
  assert (Hbefore : getChapterDetails "/srv/app" readable "tale" "0002" = Resolved chapter_2)
    by (vm_compute; reflexivity).
  split; [vm_compute; reflexivity|]. split; [exact Hbefore|].
  split; [vm_compute; reflexivity|].
  destruct (delete_chapter_removes "/srv/app" no_coercion no_message 0 readable
              (fst (delete_chapter "/srv/app" no_coercion no_message 0 readable "tale" "0002"))
              "tale" "0002" "/admin/stories/tale/chapters") as [Hmeta Hcontent].
  - rewrite (surjective_pairing (delete_chapter _ _ _ _ _ _ _)) at 1.
    f_equal; vm_compute; reflexivity.
  - split; [exact Hmeta|].
    apply (Hcontent chapter_2 "tale/0002.html" Hbefore); [reflexivity | discriminate].
Defined.


Lemma getChaptersForStory_listing_order_witness :
  let dir := path_join [CHAPTERS_METADATA_DIR "/srv/app"; "tale"] in
  published !! dir = Some (Directory ["0003.json"; "notes.txt"; "0001.json"; "0002.json"])
  /\ getChaptersForStory "/srv/app" no_coercion 0
       (<[dir := Directory ["0001.json"; "0002.json"; "cover.png"; "0003.json"]]> published)
       "tale"
     = getChaptersForStory "/srv/app" no_coercion 0 published "tale".
Proof.
  cbn zeta. split; [reflexivity|].
  apply (getChaptersForStory_listing_order "/srv/app" no_coercion 0 0 published "tale"
           ["0003.json"; "notes.txt"; "0001.json"; "0002.json"]
           ["0001.json"; "0002.json"; "cover.png"; "0003.json"]).
  - reflexivity.
  - intros file Hin.
    destruct Hin as [<-|[<-|[<-|[]]]].
    + exists chapter_3. split; [vm_compute; reflexivity|].
      eexists. split; [reflexivity | discriminate].
    + exists chapter_1. split; [vm_compute; reflexivity|].
      eexists. split; [reflexivity | discriminate].
    + exists chapter_2. split; [vm_compute; reflexivity|].
      eexists. split; [reflexivity | discriminate].
  - vm_compute. repeat constructor; rewrite ?list_elem_of_In; cbn; intuition discriminate.
  - vm_compute. apply (Permutation_cons_app [_] [_]). apply perm_swap.
Defined.

Lemma create_chapter_refuses_taken_witness :
  (getChaptersForStory "/srv/app" no_coercion 0 published "tale"
     = Resolved [chapter_1; chapter_2; chapter_3]
   /\ In chapter_2 [chapter_1; chapter_2; chapter_3]
   /\ get_prop chapter_2 "chapter_number" = Resolved (VNumber (Finite 2))
   /\ number_eqb (Finite 2) (parseInt "2") = true)
  /\ exists status view message,
       create_chapter "/srv/app" no_coercion 0 published "tale" "Two again" "2"
         "0009.html" "<p>x</p>"
       = (published, Render status view message).
Proof.
  assert (Hall : getChaptersForStory "/srv/app" no_coercion 0 published "tale"
                 = Resolved [chapter_1; chapter_2; chapter_3])
    by (vm_compute; reflexivity).
  split.
  { split; [exact Hall|]. split; [right; left; reflexivity|].
    split; reflexivity. }
  apply (create_chapter_refuses_taken "/srv/app" no_coercion 0 published "tale"
           "Two again" "2" "0009.html" "<p>x</p>"
           [chapter_1; chapter_2; chapter_3] chapter_2 Hall).
  - right. left. reflexivity.
  - left. exists (Finite 2). split; reflexivity.
Defined.

Lemma create_chapter_content_witness :
  let outcome :=
    create_chapter "/srv/app" no_coercion 0 installed
      "tale" "One" "1" "0001.html" "<p>x</p>" in
  let broken :=
    create_chapter "/srv/app" no_coercion 0 installed
      "tale" "One" "1" "0001.html" broken_content in
  (kept "tale" /\ "tale" <> ".." /\ nobackslash "tale" = true
   /\ toWellFormed "<p>x</p>" = "<p>x</p>"
   /\ toWellFormed broken_content = "<p>" +:+ utf8 65533 +:+ "</p>"
   /\ snd outcome = Redirect "/admin/stories/tale/chapters"
   /\ snd broken = Redirect "/admin/stories/tale/chapters")
  /\ (exists content_path,
        get_prop (chapterMetadata "tale" "One" (parseInt "1") "0001.html") "content_path"
        = Resolved (VString content_path)
        /\ readChapterContent "/srv/app" (fst outcome) content_path
           = Resolved (toWellFormed "<p>x</p>")
        /\ (isWellFormed "<p>x</p>" = true ->
            readChapterContent "/srv/app" (fst outcome) content_path
            = Resolved "<p>x</p>"))
  /\ (exists content_path,
        get_prop (chapterMetadata "tale" "One" (parseInt "1") "0001.html") "content_path"
        = Resolved (VString content_path)
        /\ readChapterContent "/srv/app" (fst broken) content_path
           = Resolved (toWellFormed broken_content)
        /\ (isWellFormed broken_content = true ->
            readChapterContent "/srv/app" (fst broken) content_path
            = Resolved broken_content)).
Proof.
  cbn zeta.
  assert (Hkept : kept "tale") by (split; [discriminate|split; [discriminate|reflexivity]]).
  split.
  { split; [exact Hkept|]. split; [discriminate|]. split; [reflexivity|].
    split; [reflexivity|]. split; [reflexivity|].
    split; vm_compute; reflexivity. }
  split.
  - apply (create_chapter_content "/srv/app" no_coercion 0 installed _
             "tale" "One" "1" "0001.html" "<p>x</p>" "/admin/stories/tale/chapters" Hkept).
    + discriminate.
    + reflexivity.
    + rewrite (surjective_pairing (create_chapter _ _ _ _ _ _ _ _ _)) at 1.
      f_equal; vm_compute; reflexivity.
  - apply (create_chapter_content "/srv/app" no_coercion 0 installed _
             "tale" "One" "1" "0001.html" broken_content "/admin/stories/tale/chapters"
             Hkept).
    + discriminate.
    + reflexivity.
    + rewrite (surjective_pairing (create_chapter _ _ _ _ _ _ _ _ _)) at 1.
      f_equal; vm_compute; reflexivity.
Defined.

Lemma folderNameRegex_test_plain_witness :
  folderNameRegex_test "my-story" = true
  /\ kept "my-story" /\ "my-story" <> ".." /\ nobackslash "my-story" = true.
Proof.
  split; [reflexivity|].
  apply (folderNameRegex_test_plain "my-story"). reflexivity.
Defined.

Lemma edit_chapter_read_back_witness :
  let outcome :=
    edit_chapter "/srv/app" no_coercion 0 readable "tale" "0002" "Second" "20"
      "<p>2</p>" in
  (getChapterDetails "/srv/app" readable "tale" "0002" = Resolved chapter_2
   /\ snd outcome = Redirect "/admin/stories/tale/chapters"
   /\ parseInt "20" = Finite 20)
  /\ exists updated,
       getChapterDetails "/srv/app" (fst outcome) "tale" "0002" = Resolved updated
       /\ get_prop updated "title" = Resolved (VString "Second")
       /\ get_prop updated "chapter_number" = Resolved (VNumber (Finite 20))
       /\ forall k, k <> "title" -> k <> "chapter_number" ->
            get_prop updated k = get_prop chapter_2 k.
Proof.
  cbn zeta.
  assert (Hbefore : getChapterDetails "/srv/app" readable "tale" "0002" = Resolved chapter_2)
    by (vm_compute; reflexivity).
  split; [split; [exact Hbefore|split; [vm_compute; reflexivity | reflexivity]]|].
  apply (edit_chapter_read_back "/srv/app" no_coercion 0 readable _ "tale" "0002"
           "Second" "20" "<p>2</p>" "/admin/stories/tale/chapters" _ 20 Hbefore).
  - cbn. split; [|tauto].
    repeat constructor; rewrite ?list_elem_of_In; cbn; intuition discriminate.
  - rewrite (surjective_pairing (edit_chapter _ _ _ _ _ _ _ _ _)) at 1.
    f_equal; vm_compute; reflexivity.
  - reflexivity.
Defined.

Lemma edit_chapter_content_witness :
  let outcome :=
    edit_chapter "/srv/app" no_coercion 0 readable "tale" "0002" "Second" "20"
      "<p>2</p>" in
  (getChapterDetails "/srv/app" readable "tale" "0002" = Resolved chapter_2
   /\ get_prop chapter_2 "content_path" = Resolved (VString "tale/0002.html")
   /\ path_join ["/srv/app"; "tale/0002.html"] <> chapterPath "/srv/app" "tale" "0002"
   /\ toWellFormed "<p>2</p>" = "<p>2</p>"
   /\ snd outcome = Redirect "/admin/stories/tale/chapters")
  /\ readChapterContent "/srv/app" (fst outcome) "tale/0002.html"
     = Resolved (toWellFormed "<p>2</p>")
  /\ (isWellFormed "<p>2</p>" = true ->
      readChapterContent "/srv/app" (fst outcome) "tale/0002.html" = Resolved "<p>2</p>").
Proof.
  cbn zeta.
  assert (Hbefore : getChapterDetails "/srv/app" readable "tale" "0002" = Resolved chapter_2)
    by (vm_compute; reflexivity).
  assert (Hapart : path_join ["/srv/app"; "tale/0002.html"]
                   <> chapterPath "/srv/app" "tale" "0002")
    by (vm_compute; discriminate).
  split; [split; [exact Hbefore|split; [reflexivity|split;
            [exact Hapart | split; [reflexivity | vm_compute; reflexivity]]]]|].
  apply (edit_chapter_content "/srv/app" no_coercion 0 readable _ "tale" "0002"
           "Second" "20" "<p>2</p>" "/admin/stories/tale/chapters" chapter_2
           "tale/0002.html" Hbefore eq_refl Hapart).
  rewrite (surjective_pairing (edit_chapter _ _ _ _ _ _ _ _ _)) at 1.
  f_equal; vm_compute; reflexivity.
Defined.

Lemma edit_chapter_refuses_taken_witness :
  (getChaptersForStory "/srv/app" no_coercion 0 readable "tale"
     = Resolved [chapter_1; chapter_2; chapter_3]
   /\ In chapter_3 [chapter_1; chapter_2; chapter_3]
   /\ get_prop chapter_3 "chapter_number" = Resolved (VNumber (Finite 3))
   /\ number_eqb (Finite 3) (parseInt "3") = true
   /\ get_prop chapter_3 "original_file_name" = Resolved (VString "0003.html")
   /\ strict_equals (VString "0003.html") (VString ("0002" +:+ ".html")) = false)
  /\ exists status view message,
       edit_chapter "/srv/app" no_coercion 0 readable "tale" "0002" "Second" "3"
         "<p>2</p>"
       = (readable, Render status view message).
Proof.
  assert (Hall : getChaptersForStory "/srv/app" no_coercion 0 readable "tale"
                 = Resolved [chapter_1; chapter_2; chapter_3])
    by (vm_compute; reflexivity).
  split.
  { split; [exact Hall|]. split; [right; right; left; reflexivity|].
    repeat split; reflexivity. }
  apply (edit_chapter_refuses_taken "/srv/app" no_coercion 0 readable "tale" "0002"
           "Second" "3" "<p>2</p>" [chapter_1; chapter_2; chapter_3] chapter_3
           (Finite 3) (VString "0003.html") Hall).
  - right. right. left. reflexivity.
  - reflexivity.
  - reflexivity.
  - reflexivity.
  - reflexivity.
Defined.

Lemma chapter_detail_missing_content_witness :
  let page := chapter_detail "/srv/app" no_coercion 0 published "tale" "0001" in
  (getChapterDetails "/srv/app" published "tale" "0001" = Resolved chapter_1
   /\ get_prop chapter_1 "content_path" = Resolved (VString "tale/0001.html")
   /\ published !! path_join ["/srv/app"; "tale/0001.html"] = None)
  /\ page_status page = 500%nat
  /\ lookup_prop (page_locals page) "error"
     = VString "Could not load chapter content. Please try again later."
  /\ lookup_prop (page_locals page) "metadata" = VNull.
Proof.
  cbn zeta.
  assert (Hbefore : getChapterDetails "/srv/app" published "tale" "0001" = Resolved chapter_1)
    by (vm_compute; reflexivity).
  split; [split; [exact Hbefore|split; reflexivity]|].
  apply (chapter_detail_missing_content "/srv/app" no_coercion 0 published "tale" "0001"
           chapter_1 "tale/0001.html" Hbefore eq_refl eq_refl).
Defined.

Lemma story_chapters_not_found_witness :
  installed !! STORIES_FILE "/srv/app" = Some (File (catalog_text [tale]))
  /\ (page_status (story_chapters "/srv/app" no_coercion 0 installed "saga") = 404%nat
      <-> ~ In "saga" (map story_folder_name [tale])).
Proof.
  split; [reflexivity|].
  apply (story_chapters_not_found "/srv/app" no_coercion 0 installed [tale] "saga").
  reflexivity.
Defined.

Lemma create_chapter_listed_witness :
  let outcome :=
    create_chapter "/srv/app" no_coercion 0 published
      "tale" "Four" "4" ("0004" +:+ ".html") "<p>four</p>" in
  let dir := path_join [CHAPTERS_METADATA_DIR "/srv/app"; "tale"] in
  (starts_with_slash "/srv/app" = true
   /\ published !! dir = Some (Directory ["0003.json"; "notes.txt"; "0001.json"; "0002.json"])
   /\ published !! chapterPath "/srv/app" "tale" "0004" = None
   /\ snd outcome = Redirect "/admin/stories/tale/chapters"
   /\ parseInt "4" = Finite 4)
  /\ exists chapters chapters',
       getChaptersForStory "/srv/app" no_coercion 0 published "tale" = Resolved chapters
       /\ getChaptersForStory "/srv/app" no_coercion 0 (fst outcome) "tale"
          = Resolved chapters'
       /\ chapters' ≡ₚ chapterMetadata "tale" "Four" (Finite 4) ("0004" +:+ ".html")
                        :: chapters
       /\ StronglySorted chapter_le chapters'
       /\ (NoDup (chapter_numbers chapters) -> NoDup (chapter_numbers chapters')).
Proof.
  cbn zeta.
  split.
  { split; [reflexivity|]. split; [reflexivity|]. split; [reflexivity|].
    split; [vm_compute; reflexivity | reflexivity]. }
  apply (create_chapter_listed "/srv/app" no_coercion 0 0 published _
           "tale" "Four" "4" "0004" "<p>four</p>" "/admin/stories/tale/chapters"
           ["0003.json"; "notes.txt"; "0001.json"; "0002.json"] 4).
  - reflexivity.
  - split; [discriminate|split; [discriminate|reflexivity]].
  - discriminate.
  - reflexivity.
  - intros file Hin Hjson.
    destruct Hin as [<-|[<-|[<-|[<-|[]]]]]; try discriminate Hjson.
    + exists chapter_3. split; [vm_compute; reflexivity|].
      eexists. split; [reflexivity | discriminate].
    + exists chapter_1. split; [vm_compute; reflexivity|].
      eexists. split; [reflexivity | discriminate].
    + exists chapter_2. split; [vm_compute; reflexivity|].
      eexists. split; [reflexivity | discriminate].
  - reflexivity.
  - rewrite (surjective_pairing (create_chapter _ _ _ _ _ _ _ _ _)) at 1.
    f_equal; vm_compute; reflexivity.
  - reflexivity.
Defined.

Lemma delete_chapter_unlisted_witness :
  let outcome := delete_chapter "/srv/app" no_coercion no_message 0 readable "tale" "0002" in
  let dir := path_join [CHAPTERS_METADATA_DIR "/srv/app"; "tale"] in
  (starts_with_slash "/srv/app" = true
   /\ readable !! dir = Some (Directory ["0003.json"; "notes.txt"; "0001.json"; "0002.json"])
   /\ (readFile readable (path_join [dir; "0002" +:+ ".json"]) ≫= JSON_parse)
      = Resolved (chapterMetadata "tale" "Two" (Finite 2) ("0002" +:+ ".html"))
   /\ snd outcome = Answer (Redirect "/admin/stories/tale/chapters"))
  /\ exists chapters chapters',
       getChaptersForStory "/srv/app" no_coercion 0 readable "tale" = Resolved chapters
       /\ getChaptersForStory "/srv/app" no_coercion 0 (fst outcome) "tale"
          = Resolved chapters'
       /\ chapters ≡ₚ chapterMetadata "tale" "Two" (Finite 2) ("0002" +:+ ".html")
                       :: chapters'
       /\ StronglySorted chapter_le chapters'.
Proof.
  cbn zeta.
  split.
  { split; [reflexivity|]. split; [reflexivity|].
    split; vm_compute; reflexivity. }
  apply (delete_chapter_unlisted "/srv/app" no_coercion no_message 0 0 readable _
           "tale" "0002" "/admin/stories/tale/chapters"
           ["0003.json"; "notes.txt"; "0001.json"; "0002.json"] "Two" (Finite 2)).
  - reflexivity.
  - split; [discriminate|split; [discriminate|reflexivity]].
  - discriminate.
  - reflexivity.
  - reflexivity.
  - reflexivity.
  - repeat constructor; rewrite ?list_elem_of_In; cbn; intuition discriminate.
  - repeat (constructor;
            [split; [split; [discriminate|split; [discriminate|reflexivity]]
                    | discriminate]|]).
    constructor.
  - intros file Hin Hjson.
    destruct Hin as [<-|[<-|[<-|[<-|[]]]]]; try discriminate Hjson.
    + exists chapter_3. split; [vm_compute; reflexivity|].
      eexists. split; [reflexivity | discriminate].
    + exists chapter_1. split; [vm_compute; reflexivity|].
      eexists. split; [reflexivity | discriminate].
    + exists chapter_2. split; [vm_compute; reflexivity|].
      eexists. split; [reflexivity | discriminate].
  - right. right. right. left. reflexivity.
  - vm_compute. reflexivity.
  - rewrite (surjective_pairing (delete_chapter _ _ _ _ _ _ _)) at 1.
    f_equal; vm_compute; reflexivity.
Defined.

Lemma edit_chapter_listed_witness :
  let outcome :=
    edit_chapter "/srv/app" no_coercion 0 readable "tale" "0002" "Second" "20"
      "<p>2</p>" in
  let dir := path_join [CHAPTERS_METADATA_DIR "/srv/app"; "tale"] in
  (starts_with_slash "/srv/app" = true
   /\ readable !! dir = Some (Directory ["0003.json"; "notes.txt"; "0001.json"; "0002.json"])
   /\ (readFile readable (path_join [dir; "0002" +:+ ".json"]) ≫= JSON_parse)
      = Resolved (chapterMetadata "tale" "Two" (Finite 2) ("0002" +:+ ".html"))
   /\ snd outcome = Redirect "/admin/stories/tale/chapters"
   /\ parseInt "20" = Finite 20)
  /\ exists chapters chapters' others,
       getChaptersForStory "/srv/app" no_coercion 0 readable "tale" = Resolved chapters
       /\ getChaptersForStory "/srv/app" no_coercion 0 (fst outcome) "tale"
          = Resolved chapters'
       /\ chapters ≡ₚ chapterMetadata "tale" "Two" (Finite 2) ("0002" +:+ ".html")
                       :: others
       /\ chapters' ≡ₚ chapterMetadata "tale" "Second" (Finite 20) ("0002" +:+ ".html")
                        :: others
       /\ StronglySorted chapter_le chapters'.
Proof.
  cbn zeta.
  split.
  { split; [reflexivity|]. split; [reflexivity|].
    split; [vm_compute; reflexivity|]. split; [vm_compute; reflexivity | reflexivity]. }
  apply (edit_chapter_listed "/srv/app" no_coercion 0 0 readable _
           "tale" "0002" "Second" "20" "<p>2</p>" "/admin/stories/tale/chapters"
           ["0003.json"; "notes.txt"; "0001.json"; "0002.json"] "Two" (Finite 2) 20).
  - reflexivity.
  - split; [discriminate|split; [discriminate|reflexivity]].
  - discriminate.
  - reflexivity.
  - reflexivity.
  - reflexivity.
  - repeat constructor; rewrite ?list_elem_of_In; cbn; intuition discriminate.
  - repeat (constructor;
            [split; [split; [discriminate|split; [discriminate|reflexivity]]
                    | discriminate]|]).
    constructor.
  - intros file Hin Hjson.
    destruct Hin as [<-|[<-|[<-|[<-|[]]]]]; try discriminate Hjson.
    + exists chapter_3. split; [vm_compute; reflexivity|].
      eexists. split; [reflexivity | discriminate].
    + exists chapter_1. split; [vm_compute; reflexivity|].
      eexists. split; [reflexivity | discriminate].
    + exists chapter_2. split; [vm_compute; reflexivity|].
      eexists. split; [reflexivity | discriminate].
  - right. right. right. left. reflexivity.
  - vm_compute. reflexivity.
  - rewrite (surjective_pairing (edit_chapter _ _ _ _ _ _ _ _ _)) at 1.
    f_equal; vm_compute; reflexivity.
  - reflexivity.
Defined.

Lemma delete_story_keeps_other_chapters_witness :
  let outcome := delete_story "/srv/app" no_message library "saga" in
  let dir := path_join [CHAPTERS_METADATA_DIR "/srv/app"; "tale"] in
  (starts_with_slash "/srv/app" = true
   /\ kept "saga" /\ "saga" <> ".." /\ kept "tale" /\ "tale" <> ".." /\ "tale" <> "saga"
   /\ library !! dir = Some (Directory ["0003.json"; "notes.txt"; "0001.json"; "0002.json"])
   /\ snd outcome = Answer (Redirect "/admin")
   /\ getChaptersForStory "/srv/app" no_coercion 0 library "saga"
      = Resolved [chapterMetadata "saga" "First" (Finite 1) "0001.html"]
   /\ getChaptersForStory "/srv/app" no_coercion 0 (fst outcome) "saga" = Resolved []
   /\ getChaptersForStory "/srv/app" no_coercion 0 library "tale"
      = Resolved [chapter_1; chapter_2; chapter_3])
  /\ getChaptersForStory "/srv/app" no_coercion 0 (fst outcome) "tale"
     = getChaptersForStory "/srv/app" no_coercion 0 library "tale".
Proof.
  cbn zeta.
  assert (Hsaga : kept "saga") by (split; [discriminate|split; [discriminate|reflexivity]]).
  assert (Htale : kept "tale") by (split; [discriminate|split; [discriminate|reflexivity]]).
  split.
  { split; [reflexivity|]. split; [exact Hsaga|]. split; [discriminate|].
    split; [exact Htale|]. split; [discriminate|]. split; [discriminate|].
    split; [reflexivity|]. repeat split; vm_compute; reflexivity. }
  apply (delete_story_keeps_other_chapters "/srv/app" no_coercion no_message 0 library
           (fst (delete_story "/srv/app" no_message library "saga")) "saga" "tale"
           (snd (delete_story "/srv/app" no_message library "saga"))).
  - reflexivity.
  - exact Hsaga.
  - discriminate.
  - exact Htale.
  - discriminate.
  - discriminate.
  - intros files Hfiles. vm_compute in Hfiles. injection Hfiles as <-.
    repeat (constructor;
            [split; [split; [discriminate|split; [discriminate|reflexivity]]
                    | discriminate]|]).
    constructor.
  - symmetry. apply surjective_pairing.
Defined.

Lemma delete_story_keeps_content_witness :
  let outcome := delete_story "/srv/app" no_message readable "tale" in
  (starts_with_slash "/srv/app" = true
   /\ kept "tale" /\ "tale" <> ".."
   /\ digits_only "0002" = true
   /\ snd outcome = Answer (Redirect "/admin")
   /\ getChaptersForStory "/srv/app" no_coercion 0 (fst outcome) "tale" = Resolved []
   /\ readChapterContent "/srv/app" readable ("tale" +:+ String slash ("0002" +:+ ".html"))
      = Resolved "<p>two</p>")
  /\ readChapterContent "/srv/app" (fst outcome)
       ("tale" +:+ String slash ("0002" +:+ ".html"))
     = readChapterContent "/srv/app" readable
         ("tale" +:+ String slash ("0002" +:+ ".html")).
Proof.
  cbn zeta.
  assert (Htale : kept "tale") by (split; [discriminate|split; [discriminate|reflexivity]]).
  split.
  { split; [reflexivity|]. split; [exact Htale|]. split; [discriminate|].
    split; [reflexivity|]. repeat split; vm_compute; reflexivity. }
  apply (delete_story_keeps_content "/srv/app" no_message readable
           (fst (delete_story "/srv/app" no_message readable "tale")) "tale" "0002"
           (snd (delete_story "/srv/app" no_message readable "tale"))).
  - reflexivity.
  - exact Htale.
  - discriminate.
  - reflexivity.
  - symmetry. apply surjective_pairing.
Defined.
